(** * Afterglow Core data providers: a shallow embedding

    This development embeds the two data provider plugins of Afterglow Core,

    - [afterglow_core/resources/data_provider_plugins/local_disk_provider.py]
      (classes [LocalDiskDataProvider], [RestrictedRWLocalDiskDataProvider]),
    - [afterglow_core/resources/data_provider_plugins/ftp_providerdraft.py]
      (class [FTPDataProvider]),

    and states the properties of the provider contract over the embedding.

    Python strings are [string]s, byte payloads are [list byte], Python
    integers are [Z]; dictionaries become [gmap string _]; exceptions are
    carried by an explicit sum type.  The interpreter's library functions
    the plugins call ([str.strip], [str.split], [posixpath.join],
    [posixpath.normpath], [int], [datetime], [glob.glob], ...) are written
    out after their CPython definitions; the image decoders, the FTP
    server and the backing store are explicit arguments. *)

From Stdlib Require Import ZArith String Ascii List Bool Lia DecimalString.
From Stdlib.Strings Require Import Byte.
From stdpp Require Import base option list gmap strings fin_maps.

Local Open Scope string_scope.
Local Open Scope Z_scope.
Local Open Scope list_scope.

(** ** Exceptions and results *)

(** The exception classes the two plugins raise or let through.  The
    [AfterglowError] subclasses come first; the others are Python
    built-ins. *)
Inductive exc : Type :=
  | AssetNotFoundError
  | AssetAlreadyExistsError
  | CannotUpdateCollectionAssetError
  | AssetOutsideRootError
  | UnrecognizedDataFormatError
  | FilesystemError
  | ValidationError
  | KeyError
  | ValueError
  | TypeError
  | IndexError
  | AttributeError
  | OSError
  | FileExistsError
  | UnboundLocalError
  | FTP_error_perm
  | FTP_error_other.

#[global] Instance exc_eq_dec : EqDecision exc.
Proof. solve_decision. Defined.

(** [isinstance(e, errors.AfterglowError)] *)
Definition is_AfterglowError (e : exc) : bool :=
  match e with
  | AssetNotFoundError | AssetAlreadyExistsError
  | CannotUpdateCollectionAssetError | AssetOutsideRootError
  | UnrecognizedDataFormatError | FilesystemError | ValidationError => true
  | _ => false
  end.

Inductive result (A : Type) : Type :=
  | Ok (a : A)
  | Raise (e : exc).
Arguments Ok {A} a.
Arguments Raise {A} e.

Definition rbind {A B} (r : result A) (k : A -> result B) : result B :=
  match r with
  | Ok a => k a
  | Raise e => Raise e
  end.

Notation "'do' x <- c ; k" := (rbind c (fun x => k))
  (at level 10, x name, c at level 100, k at level 200).

Definition is_Ok {A} (r : result A) : bool :=
  match r with Ok _ => true | Raise _ => false end.

(** ** Python strings *)

Module Py.

Definition slash : ascii := "/"%char.
Definition backslash : ascii := "\"%char.
Definition dot : ascii := "."%char.

Definition chars (s : string) : list ascii := list_ascii_of_string s.
Definition str (l : list ascii) : string := string_of_list_ascii l.

(** [s.startswith(p)] *)
Definition startswith (s p : string) : bool := String.prefix p s.

(** [s.endswith(c)] for a one-character [c] *)
Definition endswith_char (s : string) (c : ascii) : bool :=
  match last (chars s) with
  | Some d => bool_decide (d = c)
  | None => false
  end.

(** [s.lstrip(c)], [s.rstrip(c)] and [s.strip(c)] for a one-character [c] *)
Fixpoint lstrip_chars (c : ascii) (l : list ascii) : list ascii :=
  match l with
  | a :: l' => if bool_decide (a = c) then lstrip_chars c l' else l
  | [] => []
  end.

Definition lstrip (c : ascii) (s : string) : string :=
  str (lstrip_chars c (chars s)).

Definition rstrip (c : ascii) (s : string) : string :=
  str (rev (lstrip_chars c (rev (chars s)))).

Definition strip (c : ascii) (s : string) : string := rstrip c (lstrip c s).

(** [s.replace(a, b)] for one-character [a] and [b] *)
Fixpoint replace_char (a b : ascii) (s : string) : string :=
  match s with
  | String x s' => String (if bool_decide (x = a) then b else x) (replace_char a b s')
  | EmptyString => EmptyString
  end.

(** [s.split(sep)] for a non-empty [sep]: the pieces between successive
    non-overlapping occurrences of [sep], scanning left to right.  [skip]
    counts the characters of a separator still to be passed over and [acc]
    holds the current piece, reversed. *)
Fixpoint split_go (sep : string) (skip : nat) (acc : list ascii) (s : string)
  : list string :=
  match s with
  | EmptyString => [str (rev acc)]
  | String c s' =>
      match skip with
      | S k => split_go sep k acc s'
      | O =>
          if String.prefix sep s
          then str (rev acc) :: split_go sep (String.length sep - 1) [] s'
          else split_go sep O (c :: acc) s'
      end
  end.

Definition split (s sep : string) : list string := split_go sep O [] s.

(** [sep.join(l)] *)
Fixpoint join (sep : string) (l : list string) : string :=
  match l with
  | [] => ""
  | [x] => x
  | x :: l' => x +:+ sep +:+ join sep l'
  end.

(** [s[a:b]] and [s[a:]] for non-negative [a], [b] *)
Definition slice (s : string) (a b : Z) : string :=
  String.substring (Z.to_nat a) (Z.to_nat (b - a)) s.

Definition slice_from (s : string) (a : Z) : string :=
  String.substring (Z.to_nat a) (String.length s - Z.to_nat a) s.

(** [s[i]] for a non-negative [i]; out of range raises [IndexError] *)
Definition getitem (s : string) (i : nat) : result ascii :=
  match String.get i s with
  | Some c => Ok c
  | None => Raise IndexError
  end.

Definition len (s : string) : Z := Z.of_nat (String.length s).

Definition is_digit (c : ascii) : bool :=
  let n := nat_of_ascii c in (48 <=? n)%nat && (n <=? 57)%nat.

(** The value of [c] as a digit of a base up to 36, as [int] reads it *)
Definition digit_value (c : ascii) : option Z :=
  let n := Z.of_nat (nat_of_ascii c) in
  if (48 <=? n) && (n <=? 57) then Some (n - 48)
  else if (97 <=? n) && (n <=? 122) then Some (n - 97 + 10)
  else if (65 <=? n) && (n <=? 90) then Some (n - 65 + 10)
  else None.

(** The white space that [int] strips from both ends of a [str], one
    character standing for one code point below 256: the ASCII white
    space of C (tab to carriage return, and the space) and, above 127,
    the two code points that Unicode takes for white space, NEL (133) and
    the no-break space (160).  The separators 28 to 31 are white space
    for [str.isspace] but [int] does not strip them. *)
Definition is_space (c : ascii) : bool :=
  let n := nat_of_ascii c in
  ((9 <=? n)%nat && (n <=? 13)%nat) || (n =? 32)%nat
  || (n =? 133)%nat || (n =? 160)%nat.

Fixpoint lstrip_space (l : list ascii) : list ascii :=
  match l with
  | c :: l' => if is_space c then lstrip_space l' else l
  | [] => []
  end.

Definition strip_space (l : list ascii) : list ascii :=
  rev (lstrip_space (rev (lstrip_space l))).

(** The digits of an integer literal: at least one digit, each below
    [base], single underscores allowed between digits.  [prev] tells
    whether the previous character was a digit. *)
Fixpoint int_digits (base : Z) (prev : bool) (acc : Z) (l : list ascii)
  : result Z :=
  match l with
  | [] => if prev then Ok acc else Raise ValueError
  | c :: l' =>
      if bool_decide (c = "_"%char)
      then if prev then int_digits base false acc l' else Raise ValueError
      else match digit_value c with
           | Some d => if d <? base then int_digits base true (acc * base + d) l'
                       else Raise ValueError
           | None => Raise ValueError
           end
  end.

Definition split_sign (l : list ascii) : bool * list ascii :=
  match l with
  | c :: l' =>
      if bool_decide (c = "-"%char) then (true, l')
      else if bool_decide (c = "+"%char) then (false, l')
      else (false, l)
  | [] => (false, [])
  end.

Definition apply_sign (neg : bool) (r : result Z) : result Z :=
  do v <- r ; Ok (if neg then - v else v).

(** [int(s)]: base 10 *)
Definition int (s : string) : result Z :=
  let '(neg, l) := split_sign (strip_space (chars s)) in
  apply_sign neg (int_digits 10 false 0 l).

(** After a base prefix such as [0x] one underscore may precede the digits *)
Definition after_prefix (l : list ascii) : list ascii :=
  match l with
  | c :: l' => if bool_decide (c = "_"%char) then l' else l
  | [] => []
  end.

(** The base prefix of a literal: [Some (b, rest)] when the literal
    starts with [0x], [0o] or [0b] (either case) *)
Definition base_prefix (l : list ascii) : option (Z * list ascii) :=
  match l with
  | "0"%char :: x :: rest =>
      if bool_decide (x = "x"%char) || bool_decide (x = "X"%char) then Some (16, rest)
      else if bool_decide (x = "o"%char) || bool_decide (x = "O"%char) then Some (8, rest)
      else if bool_decide (x = "b"%char) || bool_decide (x = "B"%char) then Some (2, rest)
      else None
  | _ => None
  end.

(** [int(s, base)]: [base] must be 0 or lie in 2..36; base 0 reads the
    literal as Python source (prefix decides the base, and a decimal
    literal with a leading zero must be zero) *)
Definition int_base (s : string) (base : Z) : result Z :=
  if negb (base =? 0) && ((base <? 2) || (36 <? base)) then Raise ValueError
  else
    let '(neg, l) := split_sign (strip_space (chars s)) in
    apply_sign neg
      match base_prefix l with
      | Some (b, rest) =>
          if base =? 0 then int_digits b false 0 (after_prefix rest)
          else if base =? b then int_digits b false 0 (after_prefix rest)
          else int_digits base false 0 l
      | None =>
          if base =? 0 then
            do v <- int_digits 10 false 0 l ;
            match l with
            | "0"%char :: _ => if v =? 0 then Ok v else Raise ValueError
            | _ => Ok v
            end
          else int_digits base false 0 l
      end.

End Py.

(** ** [datetime.datetime] *)

Record datetime : Type := mk_datetime {
  year : Z; month : Z; day : Z;
  hour : Z; minute : Z; second : Z; microsecond : Z
}.

#[global] Instance datetime_eq_dec : EqDecision datetime.
Proof. solve_decision. Defined.

Definition is_leap (y : Z) : bool :=
  (y mod 4 =? 0) && (negb (y mod 100 =? 0) || (y mod 400 =? 0)).

Definition days_in_month (y m : Z) : Z :=
  if m =? 2 then (if is_leap y then 29 else 28)
  else if (m =? 4) || (m =? 6) || (m =? 9) || (m =? 11) then 30
  else 31.

(** [datetime(year, month, day, hour)]: the constructor checks the ranges
    of its fields and raises [ValueError] outside them *)
Definition datetime_new (y m d h : Z) : result datetime :=
  if (1 <=? y) && (y <=? 9999) && (1 <=? m) && (m <=? 12)
     && (1 <=? d) && (d <=? days_in_month y m)
     && (0 <=? h) && (h <=? 23)
  then Ok (mk_datetime y m d h 0 0 0)
  else Raise ValueError.

(** ** Python values *)

(** The values that headers, EXIF fields, query parameters and metadata
    entries hold: [None], an [int], a [str], or a [datetime].  (Floating
    point header values are outside the model.) *)
Inductive pyval : Type :=
  | PNone
  | PInt (z : Z)
  | PStr (s : string)
  | PTime (d : datetime).

#[global] Instance pyval_eq_dec : EqDecision pyval.
Proof. solve_decision. Defined.

(** [bool(v)] *)
Definition truthy (v : pyval) : bool :=
  match v with
  | PNone => false
  | PInt z => negb (z =? 0)
  | PStr s => negb (bool_decide (s = ""))
  | PTime _ => true
  end.

Definition str_of_Z (z : Z) : string := NilEmpty.string_of_int (Z.to_int z).

Definition pad (width : nat) (z : Z) : string :=
  let s := str_of_Z z in
  Py.str (repeat "0"%char (width - String.length s)) +:+ s.

(** [d.isoformat()] *)
Definition isoformat (d : datetime) : string :=
  pad 4 (year d) +:+ "-" +:+ pad 2 (month d) +:+ "-" +:+ pad 2 (day d) +:+ "T"
  +:+ pad 2 (hour d) +:+ ":" +:+ pad 2 (minute d) +:+ ":" +:+ pad 2 (second d)
  +:+ (if microsecond d =? 0 then "" else "." +:+ pad 6 (microsecond d)).

(** [str(v)] *)
Definition py_str (v : pyval) : string :=
  match v with
  | PNone => "None"
  | PInt z => str_of_Z z
  | PStr s => s
  | PTime d =>
      Py.str (map (fun c => if bool_decide (c = "T"%char) then " "%char else c)
                  (Py.chars (isoformat d)))
  end.

(** [int(v)] *)
Definition py_int (v : pyval) : result Z :=
  match v with
  | PInt z => Ok z
  | PStr s => Py.int s
  | _ => Raise TypeError
  end.

(** [a + b] where [b] is a [str] *)
Definition py_add_str (a : pyval) (b : string) : result string :=
  match a with
  | PStr s => Ok (s +:+ b)
  | _ => Raise TypeError
  end.

(** [d[k]] on a dictionary *)
Definition dict_get {V} (d : gmap string V) (k : string) : result V :=
  match d !! k with
  | Some v => Ok v
  | None => Raise KeyError
  end.

(** [try: r except cls: h] on a result *)
Definition except_ {A} (cls : exc) (r : result A) (h : result A) : result A :=
  match r with
  | Raise e => if bool_decide (e = cls) then h else Raise e
  | Ok a => Ok a
  end.

(** ** State with exceptions

    A computation over a state [S] that either returns or raises; the
    state reached when it raises is kept, as in Python, where the writes
    done before an exception stay done. *)

Definition St (S A : Type) : Type := S -> result A * S.

Definition sret {S A} (a : A) : St S A := fun s => (Ok a, s).
Definition sraise {S A} (e : exc) : St S A := fun s => (Raise e, s).
Definition sbind {S A B} (c : St S A) (k : A -> St S B) : St S B :=
  fun s => match c s with
           | (Ok a, s') => k a s'
           | (Raise e, s') => (Raise e, s')
           end.
Definition sget {S} : St S S := fun s => (Ok s, s).
Definition slift {S A} (r : result A) : St S A := fun s => (r, s).

Notation "'run' x <- c ; k" := (sbind c (fun x => k))
  (at level 10, x name, c at level 100, k at level 200).
Notation "'run_' c ; k" := (sbind c (fun _ => k))
  (at level 10, c at level 100, k at level 200).

(** [try: c except Exception as e: raise cls] *)
Definition reraise_as {S A} (cls : exc) (c : St S A) : St S A :=
  fun s => match c s with
           | (Ok a, s') => (Ok a, s')
           | (Raise _, s') => (Raise cls, s')
           end.

(** ** [posixpath] *)

Module posixpath.

(** [os.path.join(a, b)] *)
Definition join (a b : string) : string :=
  if Py.startswith b "/" then b
  else if bool_decide (a = "") || Py.endswith_char a Py.slash then a +:+ b
  else a +:+ "/" +:+ b.

(** One turn of the loop of [normpath]; [stack] is [new_comps], last
    component first. *)
Definition normpath_step (initial_slashes : Z) (stack : list string)
    (comp : string) : list string :=
  if bool_decide (comp = "") || bool_decide (comp = ".") then stack
  else if negb (bool_decide (comp = ".."))
          || ((initial_slashes =? 0) && bool_decide (stack = []))
          || match stack with
             | top :: _ => bool_decide (top = "..")
             | [] => false
             end
       then comp :: stack
       else match stack with
            | _ :: stack' => stack'
            | [] => []
            end.

(** [os.path.normpath(path)] *)
Definition normpath (path : string) : string :=
  if bool_decide (path = "") then "."
  else
    let initial_slashes :=
      if Py.startswith path "/" then
        if Py.startswith path "//" && negb (Py.startswith path "///") then 2 else 1
      else 0 in
    let comps := fold_left (normpath_step initial_slashes) (Py.split path "/") [] in
    let joined := Py.join "/" (rev comps) in
    let out := Py.str (repeat Py.slash (Z.to_nat initial_slashes)) +:+ joined in
    if bool_decide (out = "") then "." else out.

(** [os.path.abspath(path)] in the working directory [cwd] *)
Definition abspath (cwd path : string) : string :=
  normpath (if Py.startswith path "/" then path else join cwd path).

(** The text after the last separator of [p] and the text up to and
    with it, read off the reversed characters of [p] *)
Fixpoint until_slash (l : list ascii) : list ascii :=
  match l with
  | c :: l' => if bool_decide (c = Py.slash) then [] else c :: until_slash l'
  | [] => []
  end.

Fixpoint from_slash (l : list ascii) : list ascii :=
  match l with
  | c :: l' => if bool_decide (c = Py.slash) then l else from_slash l'
  | [] => []
  end.

Definition all_slashes (s : string) : bool :=
  forallb (fun c => bool_decide (c = Py.slash)) (Py.chars s).

(** [os.path.split(p)] *)
Definition split (p : string) : string * string :=
  let r := rev (Py.chars p) in
  let head := Py.str (rev (from_slash r)) in
  let tail := Py.str (rev (until_slash r)) in
  (if negb (bool_decide (head = "")) && negb (all_slashes head)
   then Py.rstrip Py.slash head else head, tail).

Definition basename (p : string) : string := snd (split p).
Definition dirname (p : string) : string := fst (split p).

Fixpoint until_dot (l : list ascii) : list ascii :=
  match l with
  | c :: l' => if bool_decide (c = Py.dot) then [c] else c :: until_dot l'
  | [] => []
  end.

(** [os.path.splitext(p)[1]]: the extension starts at the last dot of the
    base name, unless only dots precede it there *)
Definition splitext_ext (p : string) : string :=
  let base := Py.chars (basename p) in
  let r := rev base in
  if bool_decide (Py.dot ∈ base) then
    let ext := rev (until_dot r) in
    let stem := firstn (length base - length ext) base in
    if forallb (fun c => bool_decide (c = Py.dot)) stem then "" else Py.str ext
  else "".

End posixpath.

(** ** The backing store

    The local file system under the provider: a finite map from canonical
    absolute file names to nodes.  A regular file carries its bytes, every
    node its modification time ([st_mtime], in seconds).  The model has no
    symbolic links, permissions or media faults: a system call fails
    exactly when the shape of the store forces it to.

    A name is looked up as it is written.  This is the file system for
    canonical names, those without a [.] or [..] component and without a
    doubled or trailing separator, which are the names that
    [_path_to_filename] hands to the system calls.  The file system itself
    resolves the other names ([d/..] is the parent of the directory [d]);
    the store finds nothing at them.  Where a name is made from text of
    the caller without passing through [normpath], the new name of
    [rename_asset] and the pattern of [find_assets], a statement below
    that depends on what the store finds at the name is made for text that
    keeps the name canonical. *)

Inductive node : Type :=
  | File (data : list byte) (mtime : Z)
  | Dir (mtime : Z).

Abbreviation store := (gmap string node).

Module OS.

Definition lookup (s : store) (p : string) : option node := s !! p.

(** [os.path.exists], [os.path.isdir], [os.path.isfile] *)
Definition exists_ (s : store) (p : string) : bool :=
  match lookup s p with Some _ => true | None => false end.

Definition isdir (s : store) (p : string) : bool :=
  match lookup s p with Some (Dir _) => true | _ => false end.

Definition isfile (s : store) (p : string) : bool :=
  match lookup s p with Some (File _ _) => true | _ => false end.

(** [os.stat(p).st_mtime] and [.st_size] of a node *)
Definition st_mtime (n : node) : Z :=
  match n with File _ t => t | Dir t => t end.

Definition st_size (n : node) : Z :=
  match n with File data _ => Z.of_nat (length data) | Dir _ => 0 end.

(** [os.mkdir(name)] at time [now] *)
Definition mkdir (now : Z) (name : string) (s : store) : result store :=
  match lookup s name with
  | Some _ => Raise FileExistsError
  | None =>
      match lookup s (posixpath.dirname name) with
      | Some (Dir _) => Ok (<[name := Dir now]> s)
      | _ => Raise OSError
      end
  end.

(** The proper ancestors of a canonical absolute name, outermost first:
    its non-empty prefixes that end just before a separator, ["/a"] and
    ["/a/b"] for ["/a/b/c"].  [seen] holds the characters already passed,
    last first. *)
Fixpoint slash_prefixes (seen : list ascii) (rest : list ascii) : list string :=
  match rest with
  | [] => []
  | c :: rest' =>
      (if bool_decide (c = Py.slash) then [Py.str (rev seen)] else [])
      ++ slash_prefixes (c :: seen) rest'
  end.

Definition ancestors (name : string) : list string :=
  filter (fun a => a ≠ "") (slash_prefixes [] (Py.chars name)).

Fixpoint make_parents (now : Z) (l : list string) (s : store) : result store :=
  match l with
  | [] => Ok s
  | a :: l' =>
      match lookup s a with
      | Some (Dir _) => make_parents now l' s
      | Some (File _ _) => Raise OSError
      | None => make_parents now l' (<[a := Dir now]> s)
      end
  end.

(** [os.makedirs(name)]: the missing ancestors are created, outermost
    first, then [name] itself *)
Definition makedirs (now : Z) (name : string) (s : store) : result store :=
  do s1 <- make_parents now (ancestors name) s ;
  mkdir now name s1.

(** [with open(name, 'wb') as f: f.write(data)] *)
Definition write_file (now : Z) (name : string) (data : list byte) (s : store)
  : result store :=
  match lookup s name with
  | Some (Dir _) => Raise OSError
  | _ =>
      match lookup s (posixpath.dirname name) with
      | Some (Dir _) => Ok (<[name := File data now]> s)
      | _ => Raise OSError
      end
  end.

(** [with open(name, 'rb') as f: f.read()] *)
Definition read_file (s : store) (name : string) : result (list byte) :=
  match lookup s name with
  | Some (File data _) => Ok data
  | _ => Raise OSError
  end.

(** [name] lies strictly below the directory [d] *)
Definition below (d name : string) : bool := String.prefix (d +:+ "/") name.

(** [shutil.rmtree(name)] *)
Definition rmtree (name : string) (s : store) : result store :=
  match lookup s name with
  | Some (Dir _) =>
      Ok (filter (fun kv => kv.1 ≠ name ∧ below name kv.1 = false) s)
  | _ => Raise OSError
  end.

(** [os.unlink(name)] and [os.remove(name)] *)
Definition unlink (name : string) (s : store) : result store :=
  match lookup s name with
  | Some (File _ _) => Ok (delete name s)
  | _ => Raise OSError
  end.

(** [d] with exactly one separator after it, as the kernel joins a
    directory and an entry *)
Definition dir_prefix (d : string) : string :=
  if Py.endswith_char d Py.slash then d else d +:+ "/".

Fixpoint drop (n : nat) (s : string) : string :=
  match n, s with
  | S n', String _ s' => drop n' s'
  | _, _ => s
  end.

Definition no_slash (n : string) : bool :=
  forallb (fun c => negb (bool_decide (c = Py.slash))) (Py.chars n).

(** The entry name of [k] when [k] is an entry of the directory [d] *)
Definition entry_of (d k : string) : option string :=
  let pre := dir_prefix d in
  if String.prefix pre k then
    let n := drop (String.length pre) k in
    if negb (bool_decide (n = "")) && no_slash n then Some n else None
  else None.

(** [os.listdir(d)], in the store's own order; empty when [d] is not a
    directory, as [glob] reads it *)
Definition listdir (s : store) (d : string) : list string :=
  if isdir s d then omap (fun kv => entry_of d kv.1) (map_to_list s) else [].

(** [os.path.getsize(p)] *)
Definition getsize (s : store) (p : string) : result Z :=
  match lookup s p with
  | Some n => Ok (st_size n)
  | None => Raise OSError
  end.

(** The store once the node at [src], with everything below it, has moved
    to [dst]: a name [src/rest] becomes [dst/rest], what was at or below
    [dst] is gone, and every other name stays *)
Definition move (src dst : string) (s : store) : store :=
  kmap (M2 := gmap string) (fun k => dst +:+ drop (String.length src) k)
       (filter (fun kv => kv.1 = src ∨ below src kv.1 = true) s)
  ∪ filter (fun kv => (kv.1 ≠ src ∧ below src kv.1 = false)
                      ∧ (kv.1 ≠ dst ∧ below dst kv.1 = false)) s.

(** [os.rename(src, dst)]: [src] must exist and the parent of [dst] be a
    directory; a directory cannot move below itself; an existing [dst] is
    replaced when it is a regular file and so is [src], or an empty
    directory and [src] a directory, and the call fails otherwise *)
Definition rename (src dst : string) (s : store) : result store :=
  match lookup s src with
  | None => Raise OSError
  | Some nd =>
      if bool_decide (src = dst) then Ok s
      else if below src dst then Raise OSError
      else
        match lookup s (posixpath.dirname dst) with
        | Some (Dir _) =>
            match lookup s dst, nd with
            | None, _ => Ok (move src dst s)
            | Some (File _ _), File _ _ => Ok (move src dst s)
            | Some (Dir _), Dir _ =>
                if bool_decide (listdir s dst = []) then Ok (move src dst s)
                else Raise OSError
            | Some _, _ => Raise OSError
            end
        | _ => Raise OSError
        end
  end.

(** [os.walk(top)], top-down: nothing when [top] cannot be scanned;
    otherwise the triple of [top], and the walks of its subdirectories in
    turn.  Every level of the recursion lengthens the name, so a [fuel]
    above the longest name of the store is never used up. *)
Fixpoint walk (fuel : nat) (s : store) (top : string)
  : list (string * list string * list string) :=
  match fuel with
  | O => []
  | S fuel' =>
      if isdir s top then
        let names := listdir s top in
        let dirs := filter (fun n => isdir s (posixpath.join top n) = true) names in
        let nondirs := filter (fun n => isdir s (posixpath.join top n) = false) names in
        (top, dirs, nondirs)
          :: (dirs ≫= fun d => walk fuel' s (posixpath.join top d))
      else []
  end.

Definition name_lengths (s : store) : list nat :=
  (fun kv => String.length kv.1) <$> map_to_list s.

Definition os_walk (s : store) (top : string)
  : list (string * list string * list string) :=
  walk (S (max_list (name_lengths s))) s top.

End OS.

(** ** [fnmatch] and [glob] *)

Module Glob.

Definition is_magic (c : ascii) : bool :=
  bool_decide (c = "*"%char) || bool_decide (c = "?"%char) || bool_decide (c = "["%char).

(** [glob.has_magic(s)] *)
Definition has_magic (s : string) : bool := existsb is_magic (Py.chars s).

(** [glob._ishidden(s)] *)
Definition ishidden (s : string) : bool := Py.startswith s ".".

(** A bracket expression: the text between the brackets is closed by the
    first [']'] that is not its first character (after an optional ['!']) *)
Fixpoint bracket_end (l : list ascii) : option (list ascii * list ascii) :=
  match l with
  | [] => None
  | c :: l' =>
      if bool_decide (c = "]"%char) then Some ([], l')
      else match bracket_end l' with
           | Some (stuff, rest) => Some (c :: stuff, rest)
           | None => None
           end
  end.

Definition bracket_parse (l : list ascii) : option (bool * list ascii * list ascii) :=
  let '(neg, l1) :=
    match l with
    | c :: l' => if bool_decide (c = "!"%char) then (true, l') else (false, l)
    | [] => (false, [])
    end in
  match l1 with
  | c :: l2 =>
      if bool_decide (c = "]"%char) then
        match bracket_end l2 with
        | Some (stuff, rest) => Some (neg, c :: stuff, rest)
        | None => None
        end
      else
        match bracket_end l1 with
        | Some (stuff, rest) => Some (neg, stuff, rest)
        | None => None
        end
  | [] => None
  end.

(** Membership of [x] in the set a bracket expression lists: single
    characters and ranges [a-b] *)
Fixpoint in_class (stuff : list ascii) (x : ascii) : bool :=
  match stuff with
  | a :: rest =>
      match rest with
      | dash :: b :: rest' =>
          if bool_decide (dash = "-"%char) then
            ((nat_of_ascii a <=? nat_of_ascii x)%nat
             && (nat_of_ascii x <=? nat_of_ascii b)%nat)
            || in_class rest' x
          else bool_decide (x = a) || in_class rest x
      | _ => bool_decide (x = a) || in_class rest x
      end
  | [] => false
  end.

(** [fnmatch.fnmatchcase(name, pat)], with [fuel] at least the length of
    [pat] *)
Fixpoint fnmatch_go (fuel : nat) (pat name : list ascii) : bool :=
  match fuel with
  | O => false
  | S fuel' =>
      match pat with
      | [] => bool_decide (name = [])
      | c :: pat' =>
          if bool_decide (c = "*"%char) then
            (fix star (name : list ascii) : bool :=
               fnmatch_go fuel' pat' name
               || match name with
                  | _ :: name' => star name'
                  | [] => false
                  end) name
          else if bool_decide (c = "?"%char) then
            match name with
            | _ :: name' => fnmatch_go fuel' pat' name'
            | [] => false
            end
          else if bool_decide (c = "["%char) then
            match bracket_parse pat' with
            | Some (neg, stuff, rest) =>
                match name with
                | x :: name' =>
                    xorb neg (in_class stuff x) && fnmatch_go fuel' rest name'
                | [] => false
                end
            | None =>
                match name with
                | x :: name' => bool_decide (x = c) && fnmatch_go fuel' pat' name'
                | [] => false
                end
            end
          else
            match name with
            | x :: name' => bool_decide (x = c) && fnmatch_go fuel' pat' name'
            | [] => false
            end
      end
  end.

Definition fnmatch (name pat : string) : bool :=
  fnmatch_go (S (String.length pat)) (Py.chars pat) (Py.chars name).

(** [glob._glob1(dirname, pattern)] *)
Definition glob1 (s : store) (dirname pattern : string) (dironly : bool)
  : list string :=
  let names := OS.listdir s dirname in
  let names :=
    if dironly then filter (fun n => OS.isdir s (posixpath.join dirname n) = true) names
    else names in
  let names :=
    if ishidden pattern then names
    else filter (fun n => ishidden n = false) names in
  filter (fun n => fnmatch n pattern = true) names.

(** [glob._glob0(dirname, basename)] *)
Definition glob0 (s : store) (dirname basename : string) : list string :=
  if negb (bool_decide (basename = "")) then
    if OS.exists_ s (posixpath.join dirname basename) then [basename] else []
  else
    if OS.isdir s dirname then [basename] else [].

(** [glob._iglob(pathname, dironly)] for a pattern with a directory part:
    the recursion descends into the directory part while it holds
    wildcards; [fuel] bounds it by the length of the pattern *)
Fixpoint iglob (fuel : nat) (s : store) (pathname : string) (dironly : bool)
  : list string :=
  match fuel with
  | O => []
  | S fuel' =>
      let '(dirname, basename) := posixpath.split pathname in
      if negb (has_magic pathname) then
        if negb (bool_decide (basename = "")) then
          if OS.exists_ s pathname then [pathname] else []
        else
          if OS.isdir s dirname then [pathname] else []
      else if bool_decide (dirname = "") then
        glob1 s dirname basename dironly
      else
        let dirs :=
          if negb (bool_decide (dirname = pathname)) && has_magic dirname
          then iglob fuel' s dirname true
          else [dirname] in
        let glob_in_dir :=
          if has_magic basename
          then fun d => glob1 s d basename dironly
          else fun d => glob0 s d basename in
        flat_map (fun d => map (posixpath.join d) (glob_in_dir d)) dirs
  end.

(** [glob.glob(pathname)] *)
Definition glob (s : store) (pathname : string) : list string :=
  iglob (S (String.length pathname)) s pathname false.

End Glob.

(** ** The asset model and the decoders *)

(** [DataProviderAsset] *)
Record DataProviderAsset : Type := mk_asset {
  name : string;
  collection : bool;
  path : string;
  metadata : gmap string pyval
}.

Abbreviation header := (gmap string pyval).

(** What [PIL.Image.open] gives for a file it reads: the format tag, the
    band names, the size, and the EXIF dictionary the plugin builds from
    [im.getexif()] ([None] when building it raises, as for a tag missing
    from [ExifTags.TAGS]) *)
Record pil_image : Type := mk_pil {
  pil_format : string;
  pil_bands : list string;
  pil_size : Z * Z;
  pil_exif : option (gmap string pyval)
}.

(** What [rawpy.imread] gives: [str(im.raw_type)], [im.num_colors],
    the letters of [im.color_desc], [im.sizes.width], [im.sizes.height] *)
Record raw_image : Type := mk_raw {
  raw_type : string;
  num_colors : Z;
  color_desc : list string;
  raw_width : Z;
  raw_height : Z
}.

(** The libraries the plugin imports and the interpreter functions it
    cannot compute from the store alone.  Each decoder maps the bytes of a
    file to what it reads there, [None] when it raises.  The three flags
    tell whether the optional modules were imported ([PILImage is not
    None], [rawpy is not None], [exifread is not None]). *)
Record Libs : Type := mk_libs {
  have_PIL : bool;
  have_rawpy : bool;
  have_exifread : bool;
  pyfits_open : list byte -> option (list header);
  PIL_open : list byte -> option pil_image;
  rawpy_imread : list byte -> option raw_image;
  exifread_process_file : list byte -> option (gmap string pyval);
  strptime : string -> string -> option datetime;
  fromtimestamp : Z -> datetime;
  gzip_read : list byte -> option (list byte);
  bz2_read : list byte -> option (list byte)
}.

(** The ambient state of one call: the working directory, the
    authenticated user ([auth.current_user.id] and [.username]), the
    clock, and [os.path.expanduser] *)
Record Env : Type := mk_env {
  cwd : string;
  user_id : pyval;
  username : string;
  now : Z;
  expanduser : string -> string
}.

(** ** The local disk provider ([local_disk_provider.py]) *)

Module LocalDisk.

(** The configuration of a [LocalDiskDataProvider] instance *)
Record provider : Type := mk_provider {
  root : string;
  peruser : bool
}.

Section WithLibs.

Context (L : Libs).

(** [datetime.strptime(v, fmt)]: [TypeError] when [v] is not a [str],
    [ValueError] when it does not match *)
Definition py_strptime (v : pyval) (fmt : string) : result datetime :=
  match v with
  | PStr s =>
      match strptime L s fmt with
      | Some d => Ok d
      | None => Raise ValueError
      end
  | _ => Raise TypeError
  end.

(** The local variables of [_get_asset] that the probes assign *)
Record locals : Type := mk_locals {
  imtype : option string;
  layers : pyval;
  imwidth : pyval;
  imheight : pyval;
  explength : pyval;
  exptime : pyval;
  telescope : pyval;
  flt : option string;
  exif : option (gmap string pyval)
}.

Definition locals0 : locals :=
  mk_locals None PNone PNone PNone PNone PNone PNone None None.

Definition set_imtype v (l : locals) : locals :=
  mk_locals v (layers l) (imwidth l) (imheight l) (explength l) (exptime l)
    (telescope l) (flt l) (exif l).
Definition set_layers v (l : locals) : locals :=
  mk_locals (imtype l) v (imwidth l) (imheight l) (explength l) (exptime l)
    (telescope l) (flt l) (exif l).
Definition set_imwidth v (l : locals) : locals :=
  mk_locals (imtype l) (layers l) v (imheight l) (explength l) (exptime l)
    (telescope l) (flt l) (exif l).
Definition set_imheight v (l : locals) : locals :=
  mk_locals (imtype l) (layers l) (imwidth l) v (explength l) (exptime l)
    (telescope l) (flt l) (exif l).
Definition set_explength v (l : locals) : locals :=
  mk_locals (imtype l) (layers l) (imwidth l) (imheight l) v (exptime l)
    (telescope l) (flt l) (exif l).
Definition set_exptime v (l : locals) : locals :=
  mk_locals (imtype l) (layers l) (imwidth l) (imheight l) (explength l) v
    (telescope l) (flt l) (exif l).
Definition set_telescope v (l : locals) : locals :=
  mk_locals (imtype l) (layers l) (imwidth l) (imheight l) (explength l)
    (exptime l) v (flt l) (exif l).
Definition set_flt v (l : locals) : locals :=
  mk_locals (imtype l) (layers l) (imwidth l) (imheight l) (explength l)
    (exptime l) (telescope l) v (exif l).
Definition set_exif v (l : locals) : locals :=
  mk_locals (imtype l) (layers l) (imwidth l) (imheight l) (explength l)
    (exptime l) (telescope l) (flt l) v.

(** An assignment [x = e] whose right-hand side may raise *)
Definition assign {A} (set : A -> locals -> locals) (e : result A)
  : St locals unit :=
  fun l => match e with
           | Ok v => (Ok tt, set v l)
           | Raise x => (Raise x, l)
           end.

(** [try: x = e except cls: pass] *)
Definition assign_or_pass {A} (cls : exc) (set : A -> locals -> locals)
    (e : result A) : St locals unit :=
  fun l => match e with
           | Ok v => (Ok tt, set v l)
           | Raise x => if bool_decide (x = cls) then (Ok tt, l) else (Raise x, l)
           end.

(** [try: c except Exception: pass] *)
Definition try_pass (c : St locals unit) : St locals unit :=
  fun l => (Ok tt, snd (c l)).

(** [','.join(hdu.header['FILTER'] for hdu in f if 'FILTER' in hdu.header)]:
    [str.join] raises [TypeError] on an item that is not a [str] *)
Fixpoint filter_names (f : list header) : result (list string) :=
  match f with
  | [] => Ok []
  | hdu :: f' =>
      match hdu !! "FILTER" with
      | Some (PStr x) => do rest <- filter_names f' ; Ok (x :: rest)
      | Some _ => Raise TypeError
      | None => filter_names f'
      end
  end.

Definition fmt_iso_frac : string := "%Y-%m-%dT%H:%M:%S.%f".
Definition fmt_iso : string := "%Y-%m-%dT%H:%M:%S".
Definition fmt_exif_frac : string := "%Y:%m:%d %H:%M:%S.%f".
Definition fmt_exif : string := "%Y:%m:%d %H:%M:%S".

(** [f[0].header['DATE-OBS'] + 'T' + f[0].header['TIME-OBS']] *)
Definition date_and_time (h : header) : result pyval :=
  do d <- dict_get h "DATE-OBS" ;
  do dT <- py_add_str d "T" ;
  do t <- dict_get h "TIME-OBS" ;
  match t with
  | PStr ts => Ok (PStr (dT +:+ ts))
  | _ => Raise TypeError
  end.

(** The nested [try] blocks that read the observation time of a FITS
    header: four formats in turn, each tried when the one before raised
    [ValueError]; [pass] after the last *)
Definition fits_exptime (h : header) : result (option datetime) :=
  let parse (v : result pyval) (fmt : string) : result (option datetime) :=
    do x <- v ; do d <- py_strptime x fmt ; Ok (Some d) in
  except_ ValueError (parse (dict_get h "DATE-OBS") fmt_iso_frac)
    (except_ ValueError (parse (dict_get h "DATE-OBS") fmt_iso)
      (except_ ValueError (parse (date_and_time h) fmt_iso_frac)
        (except_ ValueError (parse (date_and_time h) fmt_iso)
          (Ok None)))).

(** The body of the first [try] block: the FITS probe.  [f] is what
    [pyfits.open] returned. *)
Definition fits_body (f : list header) : St locals unit :=
  run_ assign set_layers (Ok (PInt (Z.of_nat (length f)))) ;
  run h0 <- slift (match f !! 0%nat with Some h => Ok h | None => Raise IndexError end) ;
  run_ assign set_imwidth (dict_get h0 "NAXIS1") ;
  run_ assign set_imheight (dict_get h0 "NAXIS2") ;
  run_ assign_or_pass KeyError set_explength (dict_get h0 "EXPOSURE") ;
  run_ assign_or_pass KeyError set_telescope (dict_get h0 "TELESCOP") ;
  run_ assign set_flt (do names <- filter_names f ; Ok (Some (Py.join "," names))) ;
  run_ assign_or_pass KeyError
         (fun t l => match t with Some d => set_exptime (PTime d) l | None => l end)
         (fits_exptime h0) ;
  assign set_imtype (Ok (Some "FITS")).

Definition fits_probe (data : option (list byte)) : St locals unit :=
  try_pass
    (run f <- slift (match data ≫= pyfits_open L with
                     | Some f => Ok f
                     | None => Raise OSError
                     end) ;
     fits_body f).

(** The probe through PIL *)
Definition pil_probe (data : list byte) : St locals unit :=
  try_pass
    (run im <- slift (match PIL_open L data with
                      | Some im => Ok im
                      | None => Raise OSError
                      end) ;
     run_ assign set_imtype (Ok (Some (pil_format im))) ;
     run_ assign set_layers (Ok (PInt (Z.of_nat (length (pil_bands im))))) ;
     run_ assign set_flt (Ok (Some (Py.join "," (pil_bands im)))) ;
     run_ assign set_imwidth (Ok (PInt (fst (pil_size im)))) ;
     run_ assign set_imheight (Ok (PInt (snd (pil_size im)))) ;
     assign set_exif (match pil_exif im with
                      | Some e => Ok (Some e)
                      | None => Raise KeyError
                      end)).

(** The probe through rawpy *)
Definition raw_probe (data : list byte) : St locals unit :=
  try_pass
    (run im <- slift (match rawpy_imread L data with
                      | Some im => Ok im
                      | None => Raise OSError
                      end) ;
     run_ assign set_imtype (Ok (Some (raw_type im))) ;
     run_ assign set_layers (Ok (PInt (num_colors im))) ;
     run_ assign set_flt (Ok (Some (Py.join "," (color_desc im)))) ;
     run_ assign set_imwidth (Ok (PInt (raw_width im))) ;
     assign set_imheight (Ok (PInt (raw_height im)))).

(** [exif = {...exifread.process_file(f)...}] under [try]/[except: pass] *)
Definition exifread_pass (data : list byte) : St locals unit :=
  try_pass
    (assign set_exif (match exifread_process_file L data with
                      | Some e => Ok (Some e)
                      | None => Raise OSError
                      end)).

(** [if exptime: try: exptime = strptime(str(exptime), ...) ...]: the
    two EXIF time formats in turn; the raw value stays when neither fits *)
Definition exif_parse_time : St locals unit :=
  run l <- sget ;
  if truthy (exptime l) then
    assign_or_pass ValueError set_exptime
      (except_ ValueError
         (do d <- py_strptime (PStr (py_str (exptime l))) fmt_exif_frac ; Ok (PTime d))
         (do d <- py_strptime (PStr (py_str (exptime l))) fmt_exif ; Ok (PTime d)))
  else sret tt.

(** [exptime = exif['DateTime']] and its two fall-backs *)
Definition exif_pick_time (e : gmap string pyval) : St locals unit :=
  assign_or_pass KeyError set_exptime
    (except_ KeyError (dict_get e "DateTime")
       (except_ KeyError (dict_get e "DateTimeOriginal")
          (dict_get e "DateTimeDigitized"))).

(** The fields read off the EXIF dictionary, [if exif is not None] *)
Definition exif_fields (e : gmap string pyval) : St locals unit :=
  run_ try_pass (assign set_explength (dict_get e "ExposureTime")) ;
  run_ exif_pick_time e ;
  exif_parse_time.

(** The block [if imtype is None and (PILImage is not None or rawpy is
    not None): with open(filename, 'rb') as f: ...] *)
Definition image_block (data : option (list byte)) : St locals unit :=
  run l <- sget ;
  if bool_decide (imtype l = None) && (have_PIL L || have_rawpy L) then
    run data <- slift (match data with Some d => Ok d | None => Raise OSError end) ;
    run_ (if have_PIL L then pil_probe data else sret tt) ;
    run l <- sget ;
    run_ (if bool_decide (imtype l = None) && have_rawpy L
          then raw_probe data else sret tt) ;
    run l <- sget ;
    run_ (if negb (bool_decide (imtype l = None)) && have_exifread L
          then exifread_pass data else sret tt) ;
    run l <- sget ;
    match exif l with
    | Some e => exif_fields e
    | None => sret tt
    end
  else sret tt.

(** Both stages on the bytes of a file ([None] when the name cannot be
    opened) *)
Definition classify (data : option (list byte)) : St locals unit :=
  run_ fits_probe data ;
  image_block data.

(** [x.isoformat()] on the value chosen for the time *)
Definition py_isoformat (v : pyval) : result string :=
  match v with
  | PTime d => Ok (isoformat d)
  | _ => Raise AttributeError
  end.

Definition mtime_iso (n : node) : pyval :=
  PStr (isoformat (fromtimestamp L (OS.st_mtime n))).

(** The metadata dictionary of a leaf, with the three optional keys *)
Definition leaf_metadata (l : locals) (ty : string) (size : Z) (time : string)
  : gmap string pyval :=
  let m : gmap string pyval :=
    list_to_map [("type", PStr ty); ("size", PInt size); ("time", PStr time);
                 ("layers", layers l); ("width", imwidth l);
                 ("height", imheight l)] in
  let m := if bool_decide (explength l = PNone) then m
           else <["exposure" := explength l]> m in
  let m := if bool_decide (telescope l = PNone) then m
           else <["telescope" := telescope l]> m in
  match flt l with
  | Some f => <["filter" := PStr f]> m
  | None => m
  end.

(** [LocalDiskDataProvider._get_asset(path, filename)] *)
Definition _get_asset (s : store) (path filename : string)
  : result DataProviderAsset :=
  let path := Py.strip Py.slash (Py.replace_char Py.backslash Py.slash path) in
  let name := posixpath.basename filename in
  match OS.lookup s filename with
  | Some (Dir t) =>
      Ok (mk_asset name true path {[ "time" := mtime_iso (Dir t) ]})
  | nd =>
      let data := match nd with Some (File d _) => Some d | _ => None end in
      match classify data locals0 with
      | (Raise e, _) => Raise e
      | (Ok _, l) =>
          match imtype l with
          | None => Raise UnrecognizedDataFormatError
          | Some ty =>
              do st <- match nd with Some n => Ok n | None => Raise OSError end ;
              do time <- py_isoformat
                           (if bool_decide (exptime l = PNone)
                            then PTime (fromtimestamp L (OS.st_mtime st))
                            else exptime l) ;
              Ok (mk_asset name false path
                    (leaf_metadata l ty (OS.st_size st) time))
          end
      end
  end.

(** A system call on the store, inside a computation *)
Definition syscall (f : store -> result store) : St store unit :=
  fun s => match f s with
           | Ok s' => (Ok tt, s')
           | Raise e => (Raise e, s)
           end.

(** [try: os.makedirs(p) except OSError as e: if e.errno != EEXIST: raise] *)
Definition makedirs_unless_exists (now : Z) (p : string) : St store unit :=
  fun s => match OS.makedirs now p s with
           | Ok s' => (Ok tt, s')
           | Raise e => if bool_decide (e = FileExistsError) then (Ok tt, s)
                        else (Raise e, s)
           end.

Context (env : Env) (self : provider).

(** [LocalDiskDataProvider.abs_root]: the root directory, with the id of
    the current user appended in per-user mode; the user's directory is
    created when it is missing *)
Definition abs_root : St store string :=
  let p := posixpath.abspath (cwd env) (expanduser env (root self)) in
  if peruser self then
    if truthy (user_id env) then
      let p := posixpath.join p (py_str (user_id env)) in
      run s <- sget ;
      run_ (if negb (OS.exists_ s p)
            then reraise_as FilesystemError (makedirs_unless_exists (now env) p)
            else sret tt) ;
      sret p
    else sret p
  else sret p.

(** The part of [_path_to_filename] after [root = self.abs_root] *)
Definition _path_to_filename_in (root path : string) : result string :=
  let filename :=
    posixpath.abspath (cwd env) (posixpath.join root (Py.strip Py.slash path)) in
  if negb (Py.startswith filename root) then Raise AssetOutsideRootError
  else Ok filename.

(** [LocalDiskDataProvider._path_to_filename(path)] *)
Definition _path_to_filename (path : string) : St store string :=
  run root <- abs_root ;
  slift (_path_to_filename_in root path).

(** [LocalDiskDataProvider.get_asset(path)] *)
Definition get_asset (path : string) : St store DataProviderAsset :=
  run filename <- _path_to_filename path ;
  run s <- sget ;
  if negb (OS.exists_ s filename) then sraise AssetNotFoundError
  else slift (_get_asset s path filename).

(** [fn.split(root + os.path.sep)[1]] *)
Definition relative_to (root fn : string) : result string :=
  match Py.split fn (root +:+ "/") !! 1%nat with
  | Some x => Ok x
  | None => Raise IndexError
  end.

(** The asset [get_child_assets] builds for one name of the listing *)
Definition child_asset (s : store) (root fn : string) : result DataProviderAsset :=
  do rel <- relative_to root fn ;
  do st <- match OS.lookup s fn with Some n => Ok n | None => Raise OSError end ;
  Ok (mk_asset (posixpath.basename fn) (OS.isdir s fn)
        (Py.replace_char Py.backslash Py.slash rel)
        {[ "time" := mtime_iso st ]}).

(** A list comprehension whose element expression may raise *)
Fixpoint comprehension {A B} (f : A -> result B) (l : list A) : result (list B) :=
  match l with
  | [] => Ok []
  | x :: l' => do y <- f x ; do ys <- comprehension f l' ; Ok (y :: ys)
  end.

(** [LocalDiskDataProvider.get_child_assets(path)] *)
Definition get_child_assets (path : string) : St store (list DataProviderAsset) :=
  run filename <- _path_to_filename path ;
  run s <- sget ;
  if negb (OS.isdir s filename) then sraise AssetNotFoundError
  else
    run root <- abs_root ;
    run s <- sget ;
    slift (comprehension (child_asset s root)
             (Glob.glob s (posixpath.join filename "*"))).

(** The search filters of [find_assets] once set up: each is [None] when
    the parameter was not given *)
Record filters : Type := mk_filters {
  f_type : option (list string);
  f_collection : option bool;
  f_width : option Z;
  f_height : option Z
}.

(** [if x: try: x = int(x) except ValueError: raise ValidationError
     else: x = None] *)
Definition int_param (v : pyval) : result (option Z) :=
  if truthy v then
    match py_int v with
    | Ok z => Ok (Some z)
    | Raise e => if bool_decide (e = ValueError) then Raise ValidationError
                 else Raise e
    end
  else Ok None.

Definition setup_filters (type : option string) (collection width height : pyval)
  : result filters :=
  let ty := match type with
            | Some t => if bool_decide (t = "") then None else Some (Py.split t ",")
            | None => None
            end in
  do c <- int_param collection ;
  do w <- int_param width ;
  do h <- int_param height ;
  Ok (mk_filters ty (option_map (fun z => negb (z =? 0)) c) w h).

(** The checks under [# Check other search filters]: [true] when the
    asset passes all of them; a missing key fails the check *)
Definition check_filters (flt : filters) (asset : DataProviderAsset) : bool :=
  match f_type flt with
  | Some types =>
      match metadata asset !! "type" with
      | Some (PStr t) => bool_decide (t ∈ types)
      | _ => false
      end
  | None => true
  end
  && match f_width flt with
     | Some w =>
         match metadata asset !! "width" with
         | Some v => bool_decide (v = PInt w)
         | None => false
         end
     | None => true
     end
  && match f_height flt with
     | Some h =>
         match metadata asset !! "height" with
         | Some v => bool_decide (v = PInt h)
         | None => false
         end
     | None => true
     end.

(** The [for filename in glob(...)] loop of [find_assets] *)
Fixpoint find_loop (s : store) (root : string) (flt : filters)
    (candidates : list string) : result (list DataProviderAsset) :=
  match candidates with
  | [] => Ok []
  | filename :: rest =>
      if match f_collection flt with
         | Some c => negb (eqb (OS.isdir s filename) c)
         | None => false
         end
      then find_loop s root flt rest
      else
        match (do rel <- relative_to root filename ; _get_asset s rel filename) with
        | Raise e =>
            if is_AfterglowError e then find_loop s root flt rest else Raise e
        | Ok asset =>
            if check_filters flt asset
            then do assets <- find_loop s root flt rest ; Ok (asset :: assets)
            else find_loop s root flt rest
        end
  end.

(** [LocalDiskDataProvider.find_assets(path, name, type, collection,
    width, height)] *)
Definition find_assets (path name type : option string)
    (collection width height : pyval) : St store (list DataProviderAsset) :=
  run flt <- slift (setup_filters type collection width height) ;
  run root <- abs_root ;
  run abs_path <-
    match path with
    | None => sret root
    | Some path =>
        run abs_path <- _path_to_filename path ;
        if negb (Py.startswith abs_path root) then sraise AssetOutsideRootError
        else sret abs_path
    end ;
  run s <- sget ;
  if negb (OS.isdir s abs_path) then sraise AssetNotFoundError
  else
    let name := match name with
                | Some n => if bool_decide (n = "") then "*" else n
                | None => "*"
                end in
    slift (find_loop s root flt (Glob.glob s (posixpath.join abs_path name))).

(** The body of the [try] block of [get_asset_data] *)
Definition read_asset_data (s : store) (filename : string) : result (list byte) :=
  let decode (f : list byte -> option (list byte)) : result (list byte) :=
    do raw <- OS.read_file s filename ;
    match f raw with Some d => Ok d | None => Raise OSError end in
  if bool_decide (posixpath.splitext_ext filename = ".gz") then decode (gzip_read L)
  else if bool_decide (posixpath.splitext_ext filename = ".bz2") then decode (bz2_read L)
  else OS.read_file s filename.

(** [LocalDiskDataProvider.get_asset_data(path)] *)
Definition get_asset_data (path : string) : St store (list byte) :=
  run filename <- _path_to_filename path ;
  run s <- sget ;
  if negb (OS.isfile s filename) then sraise AssetNotFoundError
  else reraise_as FilesystemError (slift (read_asset_data s filename)).

(** [LocalDiskDataProvider.create_asset(path, data)] *)
Definition create_asset (path : string) (data : option (list byte))
  : St store DataProviderAsset :=
  run filename <- _path_to_filename path ;
  run s <- sget ;
  if OS.exists_ s filename then sraise AssetAlreadyExistsError
  else
    run_ reraise_as FilesystemError
           (let d := posixpath.dirname filename in
            run_ (if negb (OS.exists_ s d)
                  then makedirs_unless_exists (now env) d else sret tt) ;
            match data with
            | None => syscall (OS.makedirs (now env) filename)
            | Some data => syscall (OS.write_file (now env) filename data)
            end) ;
    run s <- sget ;
    slift (_get_asset s path filename).

(** The second half of [update_asset]: the [try] block that writes, and
    the [return] *)
Definition update_write (path filename : string) (data : option (list byte))
  : St store DataProviderAsset :=
  run_ reraise_as FilesystemError
         match data with
         | None =>
             run s <- sget ;
             run_ (if OS.exists_ s filename
                   then syscall (OS.unlink filename) else sret tt) ;
             syscall (OS.makedirs (now env) filename)
         | Some data => syscall (OS.write_file (now env) filename data)
         end ;
  run s <- sget ;
  slift (_get_asset s path filename).

(** [LocalDiskDataProvider.update_asset(path, data, force)] *)
Definition update_asset (path : string) (data : option (list byte)) (force : bool)
  : St store DataProviderAsset :=
  run filename <- _path_to_filename path ;
  run s <- sget ;
  if negb (OS.exists_ s filename) then sraise AssetNotFoundError
  else
    run_ (if OS.isdir s filename then
            if negb force then sraise CannotUpdateCollectionAssetError
            else reraise_as FilesystemError (syscall (OS.rmtree filename))
          else sret tt) ;
    update_write path filename data.

(** [LocalDiskDataProvider.delete_asset(path)] *)
Definition delete_asset (path : string) : St store unit :=
  run filename <- _path_to_filename path ;
  run s <- sget ;
  if negb (OS.exists_ s filename) then sraise AssetNotFoundError
  else if OS.isdir s filename
       then reraise_as FilesystemError (syscall (OS.rmtree filename))
       else reraise_as FilesystemError (syscall (OS.unlink filename)).

(** [LocalDiskDataProvider.rename_asset(path, name)] *)
Definition rename_asset (path name : string) : St store DataProviderAsset :=
  run filename <- _path_to_filename path ;
  run s <- sget ;
  if negb (OS.exists_ s filename) then sraise AssetNotFoundError
  else
    let new_filename :=
      posixpath.join (posixpath.dirname filename) (posixpath.basename name) in
    if OS.exists_ s new_filename then sraise AssetAlreadyExistsError
    else
      run_ reraise_as FilesystemError (syscall (OS.rename filename new_filename)) ;
      run root <- abs_root ;
      run rel <- slift (relative_to root new_filename) ;
      run s <- sget ;
      slift (_get_asset s (Py.replace_char Py.backslash Py.slash rel) new_filename).

(** The inner loop of [usage]: [total_size += getsize(join(dirpath, f))] *)
Fixpoint usage_files (s : store) (dirpath : string) (filenames : list string)
    (total_size : Z) : result Z :=
  match filenames with
  | [] => Ok total_size
  | f :: rest =>
      do sz <- OS.getsize s (posixpath.join dirpath f) ;
      usage_files s dirpath rest (total_size + sz)
  end.

(** The outer loop: [for dirpath, dirnames, filenames in os.walk(...)] *)
Fixpoint usage_loop (s : store) (triples : list (string * list string * list string))
    (total_size : Z) : result Z :=
  match triples with
  | [] => Ok total_size
  | (dirpath, _, filenames) :: rest =>
      do total_size <- usage_files s dirpath filenames total_size ;
      usage_loop s rest total_size
  end.

(** [LocalDiskDataProvider.usage] *)
Definition usage : St store Z :=
  run root <- abs_root ;
  run s <- sget ;
  slift (usage_loop s (OS.os_walk s root) 0).

End WithLibs.

End LocalDisk.

(** ** The remote archive provider ([ftp_providerdraft.py]) *)

Module FTP.

(** The loop that opens both [get_asset] and [_get_date]:
    [name] restarts at every ['/'] and otherwise grows by the character *)
Fixpoint basename_loop (name : string) (path : string) : string :=
  match path with
  | EmptyString => name
  | String i rest =>
      if bool_decide (i = Py.slash) then basename_loop "" rest
      else basename_loop (name +:+ String i "") rest
  end.

(** [while not name[i] in '0123456789' and i<len(name): i+=1].
    [name[i]] is evaluated first, so running off the end of [name] raises
    [IndexError]; [rest] is [name[i:]]. *)
Fixpoint skip_nondigits (rest : string) (i : nat) : result nat :=
  match rest with
  | EmptyString => Raise IndexError
  | String c rest' =>
      if Py.is_digit c then Ok i else skip_nondigits rest' (S i)
  end.

(** The body of the [try] block of [_get_date].  [if name[i]:] is always
    taken once [name[i]] has been read (a one-character string is truthy),
    and the inner [while] copies [name[i:]] into [datestr]. *)
Definition _get_date_try (name : string) : result datetime :=
  do i <- skip_nondigits name O ;
  do _c <- Py.getitem name i ;
  let datestr := Py.slice_from name (Z.of_nat i) in
  if Py.len name =? 6 then
    do y <- Py.int (Py.slice datestr 0 4) ;
    do m <- Py.int (Py.slice datestr 4 6) ;
    datetime_new y m 1 0
  else if Py.len name =? 12 then
    do y <- Py.int (Py.slice datestr 0 2) ;
    do m <- Py.int (Py.slice datestr 2 4) ;
    do d <- Py.int (Py.slice datestr 4 6) ;
    datetime_new (2000 + y) m d 0
  else
    do y <- Py.int (Py.slice datestr 0 2) ;
    do m <- Py.int (Py.slice datestr 2 4) ;
    do d <- Py.int (Py.slice datestr 4 6) ;
    do b <- Py.int (Py.slice datestr 9 11) ;
    do h <- Py.int_base (Py.slice datestr 7 9) b ;
    datetime_new (2000 + y) m d h.

(** [FTPDataProvider._get_date]: the bare [except:] turns every exception
    of the body into [date = None] *)
Definition _get_date (path : string) : option datetime :=
  match _get_date_try (basename_loop "" path) with
  | Ok date => Some date
  | Raise _ => None
  end.

(** The remote server as the plugin sees it through [ftplib]: the reply
    to each command, given the session's current directory, either a value
    or the exception [ftplib] raises for it ([error_perm] for a 5xx reply).
    [login] gives the directory a fresh session starts in. *)
Record Server : Type := mk_server {
  login : result string;
  cwd_cmd : string -> string -> result string;
  nlst_cmd : string -> option string -> result (list string);
  size_cmd : string -> string -> result pyval;
  retr_cmd : string -> string -> result (list byte)
}.

Section WithServer.

Context (srv : Server).
(** [gzip.decompress], the header list that [HDUList.fromstring] and
    [sunpy.io.fits.get_header] give for a payload, and [datetime.strptime] *)
Context (gzip_decompress : list byte -> option (list byte)).
Context (get_header : list byte -> option (list (gmap string pyval))).
Context (strptime : string -> string -> option datetime).

(** A session: the state is the current directory on the server *)
Definition session (A : Type) : Type := St string A.

Definition cwd (dir : string) : session unit :=
  fun cur => match cwd_cmd srv cur dir with
             | Ok cur' => (Ok tt, cur')
             | Raise e => (Raise e, cur)
             end.

Definition nlst (arg : option string) : session (list string) :=
  fun cur => (nlst_cmd srv cur arg, cur).

Definition size (arg : string) : session pyval :=
  fun cur => (size_cmd srv cur arg, cur).

Definition retrbinary (arg : string) : session (list byte) :=
  fun cur => (retr_cmd srv cur arg, cur).

(** [ftp = FTP(host); ftp.login(user, password)] and then [c] *)
Definition with_session {A} (c : session A) : result A :=
  do cur <- login srv ; fst (c cur).

(** The walk of [get_asset_data]: [cwd] at every ['/'], the text since the
    last one being the directory name; what is left names the file *)
Fixpoint walk (directory : string) (path : string) : session string :=
  match path with
  | EmptyString => sret directory
  | String i rest =>
      if bool_decide (i = Py.slash)
      then run_ cwd directory ; walk "" rest
      else walk (directory +:+ String i "") rest
  end.

(** [FTPDataProvider.get_asset_data(path)] *)
Definition get_asset_data (path : string) : result (list byte) :=
  do buf <- with_session
              (run directory <- walk "" path ;
               reraise_as AssetNotFoundError (retrbinary directory)) ;
  match gzip_decompress buf with
  | Some d => Ok d
  | None => Raise OSError
  end.

(** Lines 56-65 of [get_asset]: the decision between collection and
    leaf.  [ftp.cwd(path)] succeeding makes a collection; on [error_perm]
    the first entry of [ftp.nlst(path)] is read, and a non-empty one makes
    a leaf. *)
Definition is_collection (path : string) : session bool :=
  fun cur =>
    match cwd path cur with
    | (Ok _, cur') => (Ok true, cur')
    | (Raise e, cur') =>
        if bool_decide (e = FTP_error_perm) then
          match nlst (Some path) cur' with
          | (Ok (first :: _), cur'') =>
              if negb (bool_decide (first = "")) then (Ok false, cur'')
              else (Raise AssetNotFoundError, cur'')
          | (Ok [], cur'') => (Raise IndexError, cur'')
          | (Raise e', cur'') => (Raise e', cur'')
          end
        else (Raise e, cur')
    end.

Definition py_strptime (v : pyval) (fmt : string) : result datetime :=
  match v with
  | PStr s =>
      match strptime s fmt with
      | Some d => Ok d
      | None => Raise ValueError
      end
  | _ => Raise TypeError
  end.

Definition date_and_time (h : gmap string pyval) : result pyval :=
  do d <- dict_get h "DATE-OBS" ;
  do dT <- py_add_str d "T" ;
  do t <- dict_get h "TIME-OBS" ;
  match t with
  | PStr ts => Ok (PStr (dT +:+ ts))
  | _ => Raise TypeError
  end.

Definition opt_time (d : option datetime) : pyval :=
  match d with Some d => PTime d | None => PNone end.

(** The observation time of a leaf: four formats in turn, then the date
    recovered from the name *)
Definition leaf_exptime (h : gmap string pyval) (path : string) : result pyval :=
  let parse (v : result pyval) (fmt : string) : result pyval :=
    do x <- v ; do d <- py_strptime x fmt ; Ok (PTime d) in
  except_ ValueError (parse (dict_get h "DATE-OBS") "%Y-%m-%dT%H:%M:%S.%f")
    (except_ ValueError (parse (dict_get h "DATE-OBS") "%Y-%m-%dT%H:%M:%S")
      (except_ ValueError (parse (date_and_time h) "%Y-%m-%dT%H:%M:%S.%f")
        (except_ ValueError (parse (date_and_time h) "%Y-%m-%dT%H:%M:%S")
          (Ok (opt_time (_get_date path)))))).

Definition insert_unless_None (k : string) (v : pyval) (m : gmap string pyval)
  : gmap string pyval :=
  if bool_decide (v = PNone) then m else <[k := v]> m.

(** The block [if not collection:] of [get_asset]: the metadata of a leaf.
    [telescope] stays unbound when the header has no [SITENAME], and the
    later test of it raises [UnboundLocalError]. *)
Definition leaf_metadata (path : string) (metadata : gmap string pyval)
  : session (gmap string pyval) :=
  run sz <- size path ;
  run data <- slift (get_asset_data path) ;
  run head <- slift (match get_header data with
                     | Some h => Ok h
                     | None => Raise OSError
                     end) ;
  run h0 <- slift (match head !! 0%nat with
                   | Some h => Ok h
                   | None => Raise IndexError
                   end) ;
  run imwidth <- slift (dict_get h0 "NAXIS1") ;
  run imheight <- slift (dict_get h0 "NAXIS2") ;
  let telescope := h0 !! "SITENAME" in
  run exptime <- slift (leaf_exptime h0 path) ;
  let metadata := <["type" := PStr "FITS"]> metadata in
  let metadata := insert_unless_None "size" sz metadata in
  let metadata := insert_unless_None "time" exptime metadata in
  let metadata :=
    if bool_decide (imwidth = PNone) then metadata
    else <["height" := imheight]> (<["width" := imwidth]> metadata) in
  match telescope with
  | Some t => sret (insert_unless_None "telescope" t metadata)
  | None => sraise UnboundLocalError
  end.

(** [FTPDataProvider.get_asset(path)] *)
Definition get_asset (path : string) : result DataProviderAsset :=
  let name := basename_loop "" path in
  with_session
    (run collection <- is_collection path ;
     let metadata : gmap string pyval := {[ "time" := opt_time (_get_date path) ]} in
     run metadata <- (if negb collection then leaf_metadata path metadata
                      else sret metadata) ;
     sret (mk_asset name collection path metadata)).

(** One turn of the loop of [get_child_assets] *)
Definition child_asset (path f : string) : session DataProviderAsset :=
  let fpath := "/" +:+ path +:+ "/" +:+ f in
  run collection <-
    (fun cur =>
       match cwd fpath cur with
       | (Ok _, cur1) =>
           match cwd path cur1 with
           | (Ok _, cur2) => (Ok true, cur2)
           | (Raise e, cur2) =>
               if bool_decide (e = FTP_error_perm) then (Ok true, cur2)
               else (Raise e, cur2)
           end
       | (Raise e, cur1) =>
           if bool_decide (e = FTP_error_perm) then (Ok false, cur1)
           else (Raise e, cur1)
       end) ;
  let metadata : gmap string pyval := {[ "time" := opt_time (_get_date fpath) ]} in
  run metadata <- (if negb collection
                   then run sz <- size f ; sret (<["size" := sz]> metadata)
                   else sret metadata) ;
  sret (mk_asset f collection fpath metadata).

Fixpoint for_each {A B} (f : A -> session B) (l : list A) : session (list B) :=
  match l with
  | [] => sret []
  | x :: l' => run y <- f x ; run ys <- for_each f l' ; sret (y :: ys)
  end.

(** [FTPDataProvider.get_child_assets(path)] *)
Definition get_child_assets (path : string) : result (list DataProviderAsset) :=
  with_session
    (run_ reraise_as AssetNotFoundError (cwd path) ;
     run flist <- nlst None ;
     for_each (child_asset path) flist).

End WithServer.

End FTP.

(** ** The restricted-write provider *)

Module RestrictedRW.

(** The value of an attribute of a provider object *)
Inductive attr : Type :=
  | ABool (b : bool)
  | AStr (s : string)
  | ATuple (l : list string).

(** A [RestrictedRWLocalDiskDataProvider] object: its attribute
    dictionary, class attributes included ([writers = ()] unless the
    configuration sets it) *)
Record provider : Type := mk_provider {
  attrs : gmap string attr
}.

(** [object.__getattribute__(self, item)] *)
Definition object_getattribute (self : provider) (item : string) : result attr :=
  match attrs self !! item with
  | Some v => Ok v
  | None => Raise AttributeError
  end.

(** [setattr(self, item, v)] *)
Definition setattr (self : provider) (item : string) (v : attr) : provider :=
  mk_provider (<[item := v]> (attrs self)).

Fixpoint contains (s sub : string) : bool :=
  String.prefix sub s
  || match s with
     | String _ s' => contains s' sub
     | EmptyString => false
     end.

(** [x not in c] *)
Definition not_in (x : string) (c : attr) : result bool :=
  match c with
  | ATuple l => Ok (negb (bool_decide (x ∈ l)))
  | AStr s => Ok (negb (contains s x))
  | ABool _ => Raise TypeError
  end.

(** [RestrictedRWLocalDiskDataProvider.__getattribute__(self, item)] *)
Definition getattribute (env : Env) (self : provider) (item : string)
  : result attr :=
  if bool_decide (item = "readonly") then
    do w <- object_getattribute self "writers" ;
    do b <- not_in (username env) w ;
    Ok (ABool b)
  else object_getattribute self item.

End RestrictedRW.

(** * Sample configurations and vocabulary *)

(** ** Sample configurations

    A provider rooted at [/data/root], decoders that go by the first byte
    of a file, and a small store; the statements below are run on them. *)

Module Sample.

Definition fits_header (w h : Z) : gmap string pyval :=
  list_to_map [("NAXIS1", PInt w); ("NAXIS2", PInt h); ("TELESCOP", PStr "PROMPT")].

(** Files starting with [F] or [G] are FITS images, with [J] or [K] JPEG
    images, with [R] RAW frames; a file starting with [E] holds EXIF tags
    that [exifread] can read and nothing the image decoders accept.  The
    [K] images carry an EXIF time of a camera whose clock was never set,
    which no time format fits. *)
Definition libs : Libs :=
  mk_libs true true true
    (fun data => match data with
                 | "F"%byte :: _ => Some [fits_header 1024 768]
                 | "G"%byte :: _ => Some [fits_header 512 512]
                 | _ => None
                 end)
    (fun data => match data with
                 | "J"%byte :: _ => Some (mk_pil "JPEG" ["R"; "G"; "B"] (640, 480) None)
                 | "K"%byte :: _ =>
                     Some (mk_pil "JPEG" ["R"; "G"; "B"] (640, 480)
                             (Some {[ "DateTime" := PStr "0000:00:00 00:00:00" ]}))
                 | _ => None
                 end)
    (fun data => match data with
                 | "R"%byte :: _ => Some (mk_raw "RawType.Flat" 3 ["R"; "G"; "B"] 4000 3000)
                 | _ => None
                 end)
    (fun data => match data with
                 | "E"%byte :: _ => Some {[ "ExposureTime" := PInt 30 ]}
                 | _ => None
                 end)
    (fun _ _ => None)
    (fun t => mk_datetime 1970 1 1 0 0 t 0)
    (fun _ => None)
    (fun _ => None).

Definition env : Env := mk_env "/srv" PNone "alice" 42 (fun p => p).

Definition provider : LocalDisk.provider := LocalDisk.mk_provider "/data/root" false.

Definition disk : store :=
  list_to_map
    [("/", Dir 0); ("/data", Dir 1); ("/data/root", Dir 2);
     ("/data/root/a.fits", File ["F"%byte] 3);
     ("/data/root/b.fits", File ["G"%byte] 4);
     ("/data/root/c.jpg", File ["J"%byte] 5);
     ("/data/root/notes.txt", File ["h"%byte; "i"%byte] 6);
     ("/data/root/tags.bin", File ["E"%byte] 7);
     ("/data/root/.cache", File ["F"%byte] 12);
     ("/data/root/sub", Dir 8);
     ("/data/root/sub/d.fits", File ["F"%byte] 9);
     ("/data/root2", Dir 10);
     ("/data/root2/secret", File ["F"%byte] 11)].

(** A directory that holds a FITS image and a photograph whose EXIF time
    cannot be parsed *)
Definition camera_roll : store :=
  list_to_map
    [("/", Dir 0); ("/data", Dir 1); ("/data/root", Dir 2);
     ("/data/root/a.fits", File ["F"%byte] 3);
     ("/data/root/clock.jpg", File ["K"%byte] 4)].

(** A remote server on which [CWD pub/missing] is refused with a 550
    reply and the listing of that name is empty *)
Definition server : FTP.Server :=
  FTP.mk_server (Ok "/")
    (fun cur dir => if bool_decide (dir = "pub") then Ok "/pub" else Raise FTP_error_perm)
    (fun cur arg => if bool_decide (arg = Some "pub/file.fits.gz") then Ok ["pub/file.fits.gz"]
                    else Ok [])
    (fun cur arg => Ok (PInt 2880))
    (fun cur arg => Raise FTP_error_perm).

(** The same root in per-user mode, and a call made by the user whose id
    is 7 *)
Definition workspace : LocalDisk.provider := LocalDisk.mk_provider "/data/root" true.

Definition user_env : Env := mk_env "/srv" (PInt 7) "alice" 42 (fun p => p).

(** The same decoders, with a [gzip] that strips a leading [z] *)
Definition unpacking : Libs :=
  mk_libs (have_PIL libs) (have_rawpy libs) (have_exifread libs)
    (pyfits_open libs) (PIL_open libs) (rawpy_imread libs)
    (exifread_process_file libs) (strptime libs) (fromtimestamp libs)
    (fun data => match data with
                 | "z"%byte :: rest => Some rest
                 | _ => None
                 end)
    (bz2_read libs).

(** A store with a compressed image, a regular file where a directory
    could be expected, and a directory whose name repeats the root's *)
Definition packed : store :=
  list_to_map
    [("/", Dir 0); ("/data", Dir 1); ("/data/root", Dir 2);
     ("/data/root/img.fits.gz", File ["z"%byte; "F"%byte] 3);
     ("/data/root/plain", File ["F"%byte] 4);
     ("/data/root/old", Dir 5);
     ("/data/root/old/data", Dir 6);
     ("/data/root/old/data/root", Dir 7);
     ("/data/root/old/data/root/a.fits", File ["F"%byte] 8)].

(** The primary header of an image of the remote archive *)
Definition gong_header : gmap string pyval :=
  list_to_map [("NAXIS1", PInt 860); ("NAXIS2", PInt 860);
               ("DATE-OBS", PStr "2023-01-15T10:12:00");
               ("SITENAME", PStr "Learmonth")].

(** A [strptime] that reads this date in the format with whole seconds *)
Definition gong_strptime (s fmt : string) : option datetime :=
  if bool_decide (s = "2023-01-15T10:12:00")
     && bool_decide (fmt = "%Y-%m-%dT%H:%M:%S")
  then Some (mk_datetime 2023 1 15 10 12 0 0) else None.

(** A remote archive with the directory [oQR], which holds one image and
    the month directory [202301] with an image of its own *)
Definition archive : FTP.Server :=
  FTP.mk_server (Ok "/")
    (fun cur dir =>
       if bool_decide (dir = "oQR") || bool_decide (dir = "/oQR") then Ok "/oQR"
       else if bool_decide (dir = "/oQR/202301")
               || (bool_decide (cur = "/oQR") && bool_decide (dir = "202301"))
       then Ok "/oQR/202301"
       else Raise FTP_error_perm)
    (fun cur arg =>
       match arg with
       | None => if bool_decide (cur = "/oQR")
                 then Ok ["202301"; "lebqa230115t1012.fits.gz"] else Ok []
       | Some a => if bool_decide (a = "oQR/lebqa230115t1012.fits.gz")
                   then Ok [a] else Ok []
       end)
    (fun cur arg => Ok (PInt 2880))
    (fun cur arg =>
       if bool_decide (cur = "/oQR") && bool_decide (arg = "lebqa230115t1012.fits.gz")
       then Ok ["g"%byte]
       else if bool_decide (cur = "/oQR/202301")
               && bool_decide (arg = "lebqa230101t0000.fits.gz")
       then Ok ["h"%byte]
       else Raise FTP_error_perm).

(** Decoders of a studio: PIL reads the files that start with [P], with
    their EXIF data, and nothing else reads them *)
Definition studio : Libs :=
  mk_libs true true true
    (fun _ => None)
    (fun data => match data with
                 | "P"%byte :: _ =>
                     Some (mk_pil "PNG" ["L"] (8, 8)
                             (Some {[ "ExposureTime" := PInt 10 ]}))
                 | _ => None
                 end)
    (fun _ => None)
    (fun _ => None)
    (fun _ _ => None)
    (fun t => mk_datetime 1970 1 1 0 0 t 0)
    (fun _ => None)
    (fun _ => None).

(** A directory with one such file *)
Definition album : store :=
  list_to_map
    [("/", Dir 0); ("/data", Dir 1); ("/data/root", Dir 2);
     ("/data/root/p.png", File ["P"%byte] 3)].

End Sample.

(** ** The vocabulary of the statements *)

(** *** Names and the sandbox *)

(** The components of a file name *)
Definition components (p : string) : list string :=
  filter (fun c => c ≠ "") (Py.split p "/").

(** [f] names [root] or something inside it: the components of [root]
    are the leading components of [f] *)
Definition descendant (root f : string) : bool :=
  bool_decide (components root `prefix_of` components f).

(** A directory name as [abspath] gives it, the root [/] apart: not
    empty and not ending in a separator *)
Definition plain_dir (d : string) : Prop :=
  d ≠ "" /\ Py.endswith_char d Py.slash = false.

(** An entry name: not empty and without separator *)
Definition entry_name (n : string) : Prop :=
  n ≠ "" /\ OS.no_slash n = true.

(** A path of the form the specification gives to asset paths: forward
    slashes only, none at either end *)
Definition normalized (p : string) : Prop :=
  Py.strip Py.slash (Py.replace_char Py.backslash Py.slash p) = p.

(** *** Classification *)

(** The type the FITS probe leaves: [Some "FITS"] when its [try] block
    ran to the end, [None] when anything in it raised *)
Definition fits_type (L : Libs) (data : list byte) : option string :=
  LocalDisk.imtype (snd (LocalDisk.fits_probe L (Some data) LocalDisk.locals0)).

(** The time the probes left is unset or a [datetime], not a raw header
    or EXIF value *)
Definition time_is_datetime (l : LocalDisk.locals) : Prop :=
  LocalDisk.exptime l = PNone \/ exists d, LocalDisk.exptime l = PTime d.

(** The type that classification ends with: the FITS probe first, then
    PIL when the module is there, then rawpy when the module is there.
    [exifread] has no part in it. *)
Definition first_type (L : Libs) (data : list byte) : option string :=
  match fits_type L data with
  | Some ty => Some ty
  | None =>
      match (if have_PIL L then PIL_open L data else None) with
      | Some im => Some (pil_format im)
      | None =>
          match (if have_rawpy L then rawpy_imread L data else None) with
          | Some im => Some (raw_type im)
          | None => None
          end
      end
  end.

(** The payload is classified: the probes leave a type, and the time
    they leave is unset or a [datetime] *)
Definition classified (L : Libs) (data : list byte) : Prop :=
  exists l ty,
    LocalDisk.classify L (Some data) LocalDisk.locals0 = (Ok tt, l)
    /\ LocalDisk.imtype l = Some ty
    /\ time_is_datetime l.

(** The dispatch policy as the specification words it: four probes, the
    last of them an EXIF-only fallback; a probe succeeds when its decoder
    reads the file *)
Definition spec_recognizes (L : Libs) (data : list byte) : bool :=
  bool_decide (fits_type L data = Some "FITS")
  || (have_PIL L && bool_decide (is_Some (PIL_open L data)))
  || (have_rawpy L && bool_decide (is_Some (rawpy_imread L data)))
  || (have_exifread L && bool_decide (is_Some (exifread_process_file L data))).

(** ... and [UnrecognizedDataFormatError] exactly when all four fail *)
Definition exif_fallback_dispatch : Prop :=
  forall (L : Libs) (s : store) (path filename : string) (data : list byte) (t : Z),
    s !! filename = Some (File data t) ->
    (LocalDisk._get_asset L s path filename = Raise UnrecognizedDataFormatError
     <-> spec_recognizes L data = false).

(** The fields of the record that the probe which recognizes the file
    sets: the type, the layers, the filter and the two dimensions *)
Definition picture (l : LocalDisk.locals)
  : option string * pyval * option string * pyval * pyval :=
  (LocalDisk.imtype l, LocalDisk.layers l, LocalDisk.flt l,
   LocalDisk.imwidth l, LocalDisk.imheight l).

(** The outcome "recognized by a probe that read this type, these layers,
    these dimensions and this filter": a leaf asset whose record holds
    them *)
Definition probed (r : result DataProviderAsset) (ty : string)
    (lay w h : pyval) (f : string) : Prop :=
  exists a, r = Ok a /\ collection a = false
            /\ metadata a !! "type" = Some (PStr ty)
            /\ metadata a !! "layers" = Some lay
            /\ metadata a !! "width" = Some w
            /\ metadata a !! "height" = Some h
            /\ metadata a !! "filter" = Some (PStr f).

(** [L] with a PIL that opens nothing, and [L] with another EXIF reader *)
Definition without_PIL (L : Libs) : Libs :=
  mk_libs (have_PIL L) (have_rawpy L) (have_exifread L) (pyfits_open L)
    (fun _ => None) (rawpy_imread L) (exifread_process_file L) (strptime L)
    (fromtimestamp L) (gzip_read L) (bz2_read L).

Definition with_exifread (L : Libs)
    (f : list byte -> option (gmap string pyval)) : Libs :=
  mk_libs (have_PIL L) (have_rawpy L) (have_exifread L) (pyfits_open L)
    (PIL_open L) (rawpy_imread L) f (strptime L)
    (fromtimestamp L) (gzip_read L) (bz2_read L).

(** "A probe that throws is treated as not recognizing the file and the
    next probe is tried", as the specification words it: a file on which
    the PIL probe raises (here while it builds the EXIF dictionary) is
    classified as if PIL had not opened it *)
Definition throwing_probe_skipped : Prop :=
  forall (L : Libs) (s : store) (path filename : string) (data : list byte) (t : Z)
         (im : pil_image),
    s !! filename = Some (File data t) ->
    fits_type L data = None -> have_PIL L = true ->
    PIL_open L data = Some im -> pil_exif im = None ->
    LocalDisk._get_asset L s path filename
    = LocalDisk._get_asset (without_PIL L) s path filename.

(** "The first probe that succeeds determines the resulting metadata
    record", as the specification words it: once PIL has read the file,
    the record does not depend on what a later reader, the EXIF reader,
    finds in it *)
Definition first_probe_decides_record : Prop :=
  forall (L : Libs) (s : store) (path filename : string) (data : list byte) (t : Z)
         (im : pil_image) (f : list byte -> option (gmap string pyval)),
    s !! filename = Some (File data t) ->
    fits_type L data = None -> have_PIL L = true ->
    PIL_open L data = Some im ->
    LocalDisk._get_asset (with_exifread L f) s path filename
    = LocalDisk._get_asset L s path filename.

(** *** The store *)

(** [s'] holds every name that [s] holds *)
Definition extends (s s' : store) : Prop :=
  forall k, is_Some (s !! k) -> is_Some (s' !! k).

(** The parent directory [d] of a new file is there in [s1]: either it
    was a directory of [s] already, or it was missing and [makedirs] made
    it, with its missing ancestors *)
Definition prepared (env : Env) (s : store) (d : string) (s1 : store) : Prop :=
  (OS.isdir s d = true /\ s1 = s)
  \/ (OS.exists_ s d = false /\ OS.makedirs (now env) d s = Ok s1).

(** The store once [filename] and everything below it is removed, as
    [shutil.rmtree] leaves it *)
Definition removed (filename : string) (s : store) : store :=
  filter (fun kv => kv.1 ≠ filename /\ OS.below filename kv.1 = false) s.

(** The store is a tree around [filename]: its ancestors and its parent
    are directories, it is not its own parent (as [/] is), and nothing
    lies below it when it is a regular file *)
Definition tree_at (s : store) (filename : string) : Prop :=
  Forall (fun a => OS.isdir s a = true) (OS.ancestors filename)
  /\ OS.isdir s (posixpath.dirname filename) = true
  /\ posixpath.dirname filename ≠ filename
  /\ (OS.isfile s filename = true ->
      forall k, OS.below filename k = true -> s !! k = None).

(** *** Listing and searching *)

(** The asset listed for the entry [n] of [d] *)
Definition listed (L : Libs) (s : store) (d : string) (fn : string)
    (a : DataProviderAsset) : Prop :=
  exists n nd,
    fn = d +:+ "/" +:+ n /\ s !! fn = Some nd
    /\ name a = n
    /\ collection a = match nd with Dir _ => true | File _ _ => false end
    /\ metadata a = {[ "time" := LocalDisk.mtime_iso L nd ]}.

(** The completeness of the listing as the claim words it: every entry
    of the directory is listed *)
Definition listing_complete : Prop :=
  forall (L : Libs) (env : Env) (self : LocalDisk.provider) (s : store)
         (root p d n : string) (nd : node) (assets : list DataProviderAsset),
    LocalDisk.abs_root env self s = (Ok root, s) ->
    LocalDisk._path_to_filename_in env root p = Ok d ->
    LocalDisk.get_child_assets L env self p s = (Ok assets, s) ->
    s !! (d +:+ "/" +:+ n) = Some nd -> entry_name n ->
    exists a, a ∈ assets /\ name a = n.

(** The pattern [find_assets] searches with: [*] unless a name is given *)
Definition name_pattern (name : option string) : string :=
  match name with
  | Some n => if bool_decide (n = "") then "*" else n
  | None => "*"
  end.

(** The asset the loop of [find_assets] keeps for a candidate, if any *)
Definition selected (L : Libs) (s : store) (root : string)
    (flt : LocalDisk.filters) (fn : string) : option DataProviderAsset :=
  if match LocalDisk.f_collection flt with
     | Some c => negb (eqb (OS.isdir s fn) c)
     | None => false
     end
  then None
  else
    match LocalDisk.relative_to root fn with
    | Ok rel =>
        match LocalDisk._get_asset L s rel fn with
        | Ok a => if LocalDisk.check_filters flt a then Some a else None
        | Raise _ => None
        end
    | Raise _ => None
    end.

(** Every failure of classification on [fn] is an unrecognized format *)
Definition fails_unrecognized (L : Libs) (s : store) (fn : string) : Prop :=
  forall rel e,
    LocalDisk._get_asset L s rel fn = Raise e -> e = UnrecognizedDataFormatError.

(** *** Creating an asset, as the claims word it *)

(** The round trip for every payload *)
Definition create_then_get : Prop :=
  forall (L : Libs) (env : Env) (self : LocalDisk.provider) (s : store)
         (root p d n : string) (data : list byte),
    LocalDisk.abs_root env self s = (Ok root, s) ->
    LocalDisk._path_to_filename_in env root p = Ok (d +:+ "/" +:+ n) ->
    plain_dir d -> entry_name n -> normalized p ->
    s !! (d +:+ "/" +:+ n) = None ->
    OS.isdir s d = true ->
    let s' := snd (LocalDisk.create_asset L env self p (Some data) s) in
    exists a, fst (LocalDisk.get_asset L env self p s') = Ok a
              /\ path a = p /\ collection a = false
              /\ metadata a !! "size" = Some (PInt (Z.of_nat (length data))).


(** *** Decimal digits *)

(** The value of a decimal digit character *)
Definition digit_val (c : ascii) : Z := Z.of_nat (nat_of_ascii c) - 48.

(** The number that a run of decimal digits writes *)
Definition decimal (l : list ascii) : Z :=
  fold_left (fun a c => a * 10 + digit_val c) l 0.

Definition digits (l : list ascii) : Prop := forallb Py.is_digit l = true.

(** Characters that are neither digits nor separators *)
Definition letters (l : list ascii) : Prop :=
  forallb (fun c => negb (Py.is_digit c) && negb (bool_decide (c = Py.slash))) l = true.

(** Characters other than the separator *)
Definition plain (l : list ascii) : Prop :=
  forallb (fun c => negb (bool_decide (c = Py.slash))) l = true.

(** [date] of [_get_date] after [try: date = e except: date = None] *)
Definition date_or_None (r : result datetime) : option datetime :=
  match r with
  | Ok d => Some d
  | Raise _ => None
  end.

(** *** The remote archive *)

(** What [get_asset_data] makes of the reply to [RETR]: the payload
    decompressed, [AssetNotFoundError] for any failure of the transfer *)
Definition fetched (gzip_decompress : list byte -> option (list byte))
    (r : result (list byte)) : result (list byte) :=
  match r with
  | Ok buf =>
      match gzip_decompress buf with
      | Some d => Ok d
      | None => Raise OSError
      end
  | Raise _ => Raise AssetNotFoundError
  end.

(** The directory a session is in after changing, from [cur], into each
    directory of [ds] in turn; the exception of the first change that the
    server refuses *)
Fixpoint changed_into (srv : FTP.Server) (cur : string) (ds : list string)
  : result string :=
  match ds with
  | [] => Ok cur
  | d :: ds' => do cur' <- FTP.cwd_cmd srv cur d ; changed_into srv cur' ds'
  end.

(** *** The arguments of a search *)

(** A search argument that is a non-empty string and no integer literal:
    [int] raises [ValueError] on it *)
Definition not_an_integer (v : pyval) : Prop :=
  exists x, v = PStr x /\ x ≠ "" /\ is_Ok (Py.int x) = false.

(** *** Canonical names *)

(** A proper component of a file name: not empty, neither [.] nor [..],
    and without separator *)
Definition proper (c : string) : Prop :=
  c ≠ "" /\ c ≠ "." /\ c ≠ ".." /\ OS.no_slash c = true.

(** The absolute name with [k] leading separators and the components [cs] *)
Definition absolute (k : nat) (cs : list string) : string :=
  Py.str (repeat Py.slash k) +:+ Py.join "/" cs.

(** The components of a relative path that [normpath] keeps when none of
    them is [..]: the empty ones and [.] go *)
Definition kept (path : string) : list string :=
  filter (fun c => c ≠ "" /\ c ≠ ".") (Py.split (Py.strip Py.slash path) "/").

(** *** Metadata *)

(** The entry that [if x is not None: metadata[k] = x] leaves for a
    header card: none when the card is missing or holds [None] *)
Definition unless_None (o : option pyval) : option pyval :=
  match o with
  | Some v => if bool_decide (v = PNone) then None else Some v
  | None => None
  end.

(** *** Disk usage *)

(** The store is a tree below [d]: every node below [d] is an entry of a
    directory of the store *)
Definition tree_below (s : store) (d : string) : Prop :=
  forall k nd, s !! k = Some nd -> OS.below d k = true ->
    exists d' n, k = d' +:+ "/" +:+ n /\ entry_name n /\ plain_dir d'
                 /\ OS.isdir s d' = true.

(** The size of the node at [k], zero when there is none *)
Definition size_at (s : store) (k : string) : Z :=
  match s !! k with
  | Some nd => OS.st_size nd
  | None => 0
  end.

(** The bytes held below [d]: the sizes of the nodes at the names of the
    store that lie below [d], added up *)
Definition total_size_below (s : store) (d : string) : Z :=
  foldr Z.add 0
    (size_at s <$> filter (fun k => OS.below d k = true) (map_to_list s).*1).

(** The file names that the loops of [usage] pass to [getsize], in turn *)
Definition visited (triples : list (string * list string * list string))
  : list string :=
  triples ≫= (fun t => posixpath.join t.1.1 <$> t.2).

(** The same as a test: every name of the store below [d] is its
    directory name, a separator and its base name, and the directory
    name is that of a directory of the store *)
Definition tree_belowb (s : store) (d : string) : bool :=
  forallb (fun k =>
             negb (OS.below d k)
             || (let d' := posixpath.dirname k in
                 let n := posixpath.basename k in
                 bool_decide (k = d' +:+ "/" +:+ n)
                 && negb (bool_decide (n = "")) && OS.no_slash n
                 && negb (bool_decide (d' = ""))
                 && negb (Py.endswith_char d' Py.slash)
                 && OS.isdir s d'))
    (map_to_list s).*1.

(** * Supporting facts *)

(** ** What the sandbox check gives *)

(** Whatever [_path_to_filename] returns begins, as a string, with the
    root. *)
Lemma path_to_filename_prefix env root path filename :
  LocalDisk._path_to_filename_in env root path = Ok filename ->
  Py.startswith filename root = true.
Proof.
  unfold LocalDisk._path_to_filename_in.
  destruct (Py.startswith _ root) eqn:E; simpl; [| discriminate].
  intros [= <-]. exact E.
Qed.

(** ** The probes *)

Section Classification.

Context (L : Libs).

Import LocalDisk.

Lemma assign_imtype_other {A} (set : A -> locals -> locals) (e : result A) l :
  (forall v l, imtype (set v l) = imtype l) ->
  imtype (snd (assign set e l)) = imtype l.
Proof. intros Hset. unfold assign. destruct e; simpl; auto. Qed.

Lemma fits_body_result f l :
  imtype l = None -> exptime l = PNone ->
  let r := fits_body L f l in
  (imtype (snd r) = None \/ (fst r = Ok tt /\ imtype (snd r) = Some "FITS"))
  /\ time_is_datetime (snd r).
Proof.
  intros Hi Ht. unfold fits_body, sbind, slift, assign, assign_or_pass, time_is_datetime.
  simpl.
  destruct (f !! 0%nat) as [h0 |]; simpl; [| by auto].
  destruct (dict_get h0 "NAXIS1"); simpl; [| by auto].
  destruct (dict_get h0 "NAXIS2"); simpl; [| by auto].
  destruct (dict_get h0 "EXPOSURE") as [? | e1]; simpl;
    [| destruct (bool_decide (e1 = KeyError)); simpl; [| by auto]];
  (destruct (dict_get h0 "TELESCOP") as [? | e2]; simpl;
    [| destruct (bool_decide (e2 = KeyError)); simpl; [| by auto]]);
  (destruct (filter_names f); simpl; [| by auto]);
  (destruct (fits_exptime L h0) as [[d |] | e3]; simpl;
    [| | destruct (bool_decide (e3 = KeyError)); simpl]);
  try (by eauto); (split; [right; by split | right; by eexists]).
Qed.

Lemma fits_probe_result data :
  let l := snd (fits_probe L (Some data) locals0) in
  (imtype l = None \/ imtype l = Some "FITS") /\ time_is_datetime l.
Proof.
  unfold fits_probe, try_pass, sbind, slift. simpl.
  destruct (pyfits_open L data) as [f |]; simpl.
  - destruct (fits_body_result f locals0 eq_refl eq_refl) as [[H | [_ H]] Ht]; auto.
  - unfold time_is_datetime. auto.
Qed.

Lemma pil_probe_imtype data l :
  imtype (snd (pil_probe L data l))
  = match PIL_open L data with
    | Some im => Some (pil_format im)
    | None => imtype l
    end.
Proof.
  unfold pil_probe, try_pass, sbind, slift, assign. simpl.
  destruct (PIL_open L data) as [im |]; simpl; [| reflexivity].
  destruct (pil_exif im); reflexivity.
Qed.

Lemma raw_probe_imtype data l :
  imtype (snd (raw_probe L data l))
  = match rawpy_imread L data with
    | Some im => Some (raw_type im)
    | None => imtype l
    end.
Proof.
  unfold raw_probe, try_pass, sbind, slift, assign. simpl.
  destruct (rawpy_imread L data) as [im |]; reflexivity.
Qed.

Lemma exifread_pass_imtype data l :
  imtype (snd (exifread_pass L data l)) = imtype l.
Proof.
  unfold exifread_pass, try_pass, assign.
  destruct (exifread_process_file L data); reflexivity.
Qed.

Lemma dict_get_raises {V} (d : gmap string V) k e :
  dict_get d k = Raise e -> e = KeyError.
Proof. unfold dict_get. destruct (d !! k); congruence. Qed.

Lemma py_strptime_str_raises s fmt e :
  py_strptime L (PStr s) fmt = Raise e -> e = ValueError.
Proof. unfold py_strptime. destruct (strptime L s fmt); congruence. Qed.

Lemma sbind_ok {S A B} (c : St S A) (k : A -> St S B) s a s' :
  c s = (Ok a, s') -> sbind c k s = k a s'.
Proof. intros H. unfold sbind. by rewrite H. Qed.

Lemma exif_parse_time_result l :
  fst (exif_parse_time L l) = Ok tt
  /\ imtype (snd (exif_parse_time L l)) = imtype l.
Proof.
  unfold exif_parse_time, sbind, sget.
  destruct (truthy (exptime l)); [| by split].
  unfold assign_or_pass, except_, rbind.
  destruct (py_strptime L (PStr (py_str (exptime l))) fmt_exif_frac)
    as [| x1] eqn:E1; [by split |].
  apply py_strptime_str_raises in E1 as ->.
  rewrite bool_decide_eq_true_2 by reflexivity.
  destruct (py_strptime L (PStr (py_str (exptime l))) fmt_exif)
    as [| x2] eqn:E2; [by split |].
  apply py_strptime_str_raises in E2 as ->.
  rewrite bool_decide_eq_true_2 by reflexivity. by split.
Qed.

Lemma exif_pick_time_result e l :
  fst (exif_pick_time e l) = Ok tt
  /\ imtype (snd (exif_pick_time e l)) = imtype l.
Proof.
  unfold exif_pick_time, assign_or_pass, except_.
  destruct (dict_get e "DateTime") as [| x1] eqn:E1; [by split |].
  apply dict_get_raises in E1 as ->. rewrite bool_decide_eq_true_2 by reflexivity.
  destruct (dict_get e "DateTimeOriginal") as [| x2] eqn:E2; [by split |].
  apply dict_get_raises in E2 as ->. rewrite bool_decide_eq_true_2 by reflexivity.
  destruct (dict_get e "DateTimeDigitized") as [| x3] eqn:E3; [by split |].
  apply dict_get_raises in E3 as ->. rewrite bool_decide_eq_true_2 by reflexivity.
  by split.
Qed.

(** Reading the EXIF fields never raises and leaves the type alone. *)
Lemma exif_fields_result e l :
  fst (exif_fields L e l) = Ok tt /\ imtype (snd (exif_fields L e l)) = imtype l.
Proof.
  unfold exif_fields.
  set (l1 := snd (try_pass (assign set_explength (dict_get e "ExposureTime")) l)).
  assert (H1 : imtype l1 = imtype l).
  { subst l1. unfold try_pass. simpl. apply assign_imtype_other. reflexivity. }
  rewrite (sbind_ok _ _ l tt l1) by reflexivity.
  destruct (exif_pick_time_result e l1) as [F2 H2].
  destruct (exif_pick_time e l1) as [r2 l2] eqn:E2. simpl in F2, H2. subst r2.
  rewrite (sbind_ok _ _ l1 tt l2) by exact E2.
  destruct (exif_parse_time_result l2) as [F3 H3].
  split; [exact F3 | congruence].
Qed.

Lemma step_pil data l :
  exists l1,
    (if have_PIL L then pil_probe L data else sret tt) l = (Ok tt, l1)
    /\ imtype l1 = match (if have_PIL L then PIL_open L data else None) with
                   | Some im => Some (pil_format im)
                   | None => imtype l
                   end.
Proof.
  destruct (have_PIL L).
  - exists (snd (pil_probe L data l)). split; [reflexivity | apply pil_probe_imtype].
  - exists l. by split.
Qed.

Lemma step_raw data l :
  exists l2,
    (if bool_decide (imtype l = None) && have_rawpy L
     then raw_probe L data else sret tt) l = (Ok tt, l2)
    /\ imtype l2 = match imtype l with
                   | Some ty => Some ty
                   | None =>
                       match (if have_rawpy L then rawpy_imread L data else None) with
                       | Some im => Some (raw_type im)
                       | None => None
                       end
                   end.
Proof.
  destruct (imtype l) as [ty |] eqn:E.
  - rewrite bool_decide_eq_false_2 by discriminate. exists l. by split.
  - rewrite bool_decide_eq_true_2 by reflexivity. cbn [andb].
    destruct (have_rawpy L).
    + exists (snd (raw_probe L data l)). split; [reflexivity |].
      rewrite raw_probe_imtype, E. reflexivity.
    + exists l. by split.
Qed.

Lemma step_exifread data l :
  exists l3,
    (if negb (bool_decide (imtype l = None)) && have_exifread L
     then exifread_pass L data else sret tt) l = (Ok tt, l3)
    /\ imtype l3 = imtype l.
Proof.
  destruct (negb (bool_decide (imtype l = None)) && have_exifread L).
  - exists (snd (exifread_pass L data l)). split; [reflexivity | apply exifread_pass_imtype].
  - exists l. by split.
Qed.

Lemma step_fields l :
  exists l4,
    (match exif l with
     | Some e => exif_fields L e
     | None => sret tt
     end) l = (Ok tt, l4)
    /\ imtype l4 = imtype l.
Proof.
  destruct (exif l) as [e |].
  - destruct (exif_fields_result e l) as [F H].
    destruct (exif_fields L e l) as [r l4]. simpl in F, H. subst r. by exists l4.
  - exists l. by split.
Qed.

Lemma image_block_result data l :
  fst (image_block L (Some data) l) = Ok tt
  /\ imtype (snd (image_block L (Some data) l))
     = match imtype l with
       | Some ty => Some ty
       | None =>
           match (if have_PIL L then PIL_open L data else None) with
           | Some im => Some (pil_format im)
           | None =>
               match (if have_rawpy L then rawpy_imread L data else None) with
               | Some im => Some (raw_type im)
               | None => None
               end
           end
       end.
Proof.
  unfold image_block.
  rewrite (sbind_ok sget _ l l l) by reflexivity.
  destruct (imtype l) as [ty |] eqn:Hl.
  { rewrite bool_decide_eq_false_2 by discriminate. cbn [andb]. by split. }
  rewrite bool_decide_eq_true_2 by reflexivity. cbn [andb].
  destruct (have_PIL L || have_rawpy L) eqn:Hany.
  2: { apply orb_false_iff in Hany as [-> ->]. by split. }
  rewrite (sbind_ok (slift (Ok data)) _ l data l) by reflexivity.
  destruct (step_pil data l) as (l1 & E1 & H1).
  rewrite (sbind_ok _ _ l tt l1 E1).
  rewrite (sbind_ok sget _ l1 l1 l1) by reflexivity.
  destruct (step_raw data l1) as (l2 & E2 & H2).
  rewrite (sbind_ok _ _ l1 tt l2 E2).
  rewrite (sbind_ok sget _ l2 l2 l2) by reflexivity.
  destruct (step_exifread data l2) as (l3 & E3 & H3).
  rewrite (sbind_ok _ _ l2 tt l3 E3).
  rewrite (sbind_ok sget _ l3 l3 l3) by reflexivity.
  destruct (step_fields l3) as (l4 & E4 & H4).
  rewrite E4. split; [reflexivity |]. cbn [snd].
  rewrite H4, H3, H2, H1, Hl.
  destruct (if have_PIL L then PIL_open L data else None); reflexivity.
Qed.

(** Classification of the bytes of a file never raises, and the type it
    ends with is [first_type]. *)
Lemma classify_result data :
  fst (classify L (Some data) locals0) = Ok tt
  /\ imtype (snd (classify L (Some data) locals0)) = first_type L data.
Proof.
  unfold classify, sbind.
  assert (F : fst (fits_probe L (Some data) locals0) = Ok tt) by reflexivity.
  unfold first_type, fits_type.
  destruct (fits_probe L (Some data) locals0) as [r l] eqn:E. simpl in F. subst r.
  simpl. apply image_block_result.
Qed.

Lemma leaf_metadata_type l ty size time :
  leaf_metadata l ty size time !! "type" = Some (PStr ty).
Proof.
  unfold leaf_metadata.
  destruct (flt l); [rewrite lookup_insert_ne by discriminate |];
  (case_bool_decide; [| rewrite lookup_insert_ne by discriminate]);
  (case_bool_decide; [| rewrite lookup_insert_ne by discriminate]);
  reflexivity.
Qed.

Lemma leaf_metadata_size l ty size time :
  leaf_metadata l ty size time !! "size" = Some (PInt size).
Proof.
  unfold leaf_metadata.
  destruct (flt l); [rewrite lookup_insert_ne by discriminate |];
  (case_bool_decide; [| rewrite lookup_insert_ne by discriminate]);
  (case_bool_decide; [| rewrite lookup_insert_ne by discriminate]);
  reflexivity.
Qed.

(** What [_get_asset] gives for a regular file, by the type
    classification ends with *)
Lemma get_asset_file s path filename data t :
  s !! filename = Some (File data t) ->
  match first_type L data with
  | None => _get_asset L s path filename = Raise UnrecognizedDataFormatError
  | Some ty =>
      _get_asset L s path filename = Raise AttributeError
      \/ exists time l,
           _get_asset L s path filename
           = Ok (mk_asset (posixpath.basename filename) false
                   (Py.strip Py.slash (Py.replace_char Py.backslash Py.slash path))
                   (leaf_metadata l ty (Z.of_nat (length data)) time))
  end.
Proof.
  intros Hs. unfold _get_asset, OS.lookup. rewrite Hs.
  destruct (classify_result data) as [F T].
  destruct (classify L (Some data) locals0) as [r l] eqn:E. simpl in F, T. subst r.
  rewrite T. destruct (first_type L data) as [ty |]; [| reflexivity].
  simpl.
  destruct (py_isoformat _) as [time | e] eqn:Et; simpl.
  - right. eauto.
  - left. f_equal. unfold py_isoformat in Et.
    destruct (if bool_decide _ then _ else _); congruence.
Qed.

End Classification.

(** ** Facts about strings and file names *)

Section StringFacts.

Lemma string_cons_app c a b : String c a +:+ b = String c (a +:+ b).
Proof. reflexivity. Qed.

Lemma chars_app a b : Py.chars (a +:+ b) = Py.chars a ++ Py.chars b.
Proof.
  unfold Py.chars. induction a as [| c a IH]; [reflexivity |].
  rewrite string_cons_app. simpl. by rewrite IH.
Qed.

Lemma str_chars s : Py.str (Py.chars s) = s.
Proof. apply string_of_list_ascii_of_string. Qed.

Lemma chars_str l : Py.chars (Py.str l) = l.
Proof. apply list_ascii_of_string_of_list_ascii. Qed.

Lemma chars_inj a b : Py.chars a = Py.chars b -> a = b.
Proof. intros H. rewrite <- (str_chars a), <- (str_chars b). by rewrite H. Qed.

Lemma str_app l1 l2 : Py.str (l1 ++ l2) = Py.str l1 +:+ Py.str l2.
Proof. apply chars_inj. by rewrite chars_app, !chars_str. Qed.

Lemma string_length_app a b :
  String.length (a +:+ b) = (String.length a + String.length b)%nat.
Proof.
  induction a as [| c a IH]; [reflexivity |].
  rewrite string_cons_app. simpl. by rewrite IH.
Qed.

Lemma string_app_assoc a b c : (a +:+ b) +:+ c = a +:+ (b +:+ c).
Proof.
  induction a as [| x a IH]; [reflexivity |].
  rewrite !string_cons_app. by rewrite IH.
Qed.

Lemma prefix_app p r : String.prefix p (p +:+ r) = true.
Proof.
  induction p as [| c p IH]; [by destruct r |].
  rewrite string_cons_app. simpl.
  destruct (ascii_dec c c); [exact IH | congruence].
Qed.

Lemma prefix_inv p s : String.prefix p s = true -> exists r, s = p +:+ r.
Proof.
  revert s. induction p as [| c p IH]; intros s H.
  - by exists s.
  - destruct s as [| d s]; simpl in H; [discriminate |].
    destruct (ascii_dec c d) as [-> |]; [| discriminate].
    destruct (IH s H) as [r ->]. by exists r.
Qed.

Lemma prefix_length p s :
  String.prefix p s = true -> (String.length p <= String.length s)%nat.
Proof.
  intros H. destruct (prefix_inv p s H) as [r ->].
  rewrite string_length_app. lia.
Qed.

(** A name below [d] is longer than [d]. *)
Lemma below_length d k :
  OS.below d k = true -> (String.length d < String.length k)%nat.
Proof.
  unfold OS.below. intros H. apply prefix_length in H.
  rewrite string_length_app in H. simpl in H. lia.
Qed.

Lemma below_shorter d k :
  (String.length k <= String.length d)%nat -> OS.below d k = false.
Proof.
  intros H. destruct (OS.below d k) eqn:E; [| reflexivity].
  apply below_length in E. lia.
Qed.

Lemma below_app d rest : OS.below d (d +:+ "/" +:+ rest) = true.
Proof. unfold OS.below. rewrite <- string_app_assoc. apply prefix_app. Qed.

(** Every ancestor of a name is a directory the name lies below. *)
Lemma slash_prefixes_below seen rest a :
  a ∈ OS.slash_prefixes seen rest ->
  exists tail, Py.str (rev seen ++ rest) = a +:+ "/" +:+ tail.
Proof.
  revert seen. induction rest as [| c rest IH]; intros seen; simpl.
  - intros H. by apply elem_of_nil in H.
  - intros H. apply elem_of_app in H as [H | H].
    + case_bool_decide as Hc; [| by apply elem_of_nil in H].
      apply list_elem_of_singleton in H. subst a c.
      exists (Py.str rest). rewrite str_app. f_equal.
    + destruct (IH (c :: seen) H) as [tail Ht]. exists tail.
      rewrite <- Ht. simpl. by rewrite <- app_assoc.
Qed.

Lemma ancestors_below name a : a ∈ OS.ancestors name -> OS.below a name = true.
Proof.
  unfold OS.ancestors. intros H. apply list_elem_of_filter in H as [_ H].
  apply slash_prefixes_below in H as [tail Ht]. simpl in Ht.
  rewrite str_chars in Ht. rewrite Ht. apply below_app.
Qed.

Lemma lstrip_chars_suffix c l : exists pre, l = pre ++ Py.lstrip_chars c l.
Proof.
  induction l as [| a l [pre IH]]; simpl; [by exists [] |].
  case_bool_decide.
  - exists (a :: pre). simpl. by rewrite <- IH.
  - by exists [].
Qed.

Lemma rstrip_prefix c s : exists r, s = Py.rstrip c s +:+ r.
Proof.
  unfold Py.rstrip.
  destruct (lstrip_chars_suffix c (rev (Py.chars s))) as [pre Hpre].
  exists (Py.str (rev pre)). rewrite <- str_app, <- rev_app_distr, <- Hpre.
  by rewrite rev_involutive, str_chars.
Qed.

Lemma from_slash_suffix l : exists pre, l = pre ++ posixpath.from_slash l.
Proof.
  induction l as [| a l [pre IH]]; simpl; [by exists [] |].
  case_bool_decide.
  - by exists [].
  - exists (a :: pre). simpl. by rewrite <- IH.
Qed.

(** The directory part of a name is a prefix of the name. *)
Lemma dirname_prefix p : exists r, p = posixpath.dirname p +:+ r.
Proof.
  unfold posixpath.dirname, posixpath.split. simpl.
  destruct (from_slash_suffix (rev (Py.chars p))) as [pre Hpre].
  set (head := Py.str (rev (posixpath.from_slash (rev (Py.chars p))))).
  assert (Hhead : p = head +:+ Py.str (rev pre)).
  { subst head. rewrite <- str_app, <- rev_app_distr, <- Hpre.
    by rewrite rev_involutive, str_chars. }
  destruct (negb (bool_decide (head = "")) && negb (posixpath.all_slashes head)).
  - destruct (rstrip_prefix Py.slash head) as [r Hr].
    exists (r +:+ Py.str (rev pre)).
    rewrite <- string_app_assoc, <- Hr. exact Hhead.
  - by exists (Py.str (rev pre)).
Qed.

Lemma dirname_length p :
  (String.length (posixpath.dirname p) <= String.length p)%nat.
Proof.
  destruct (dirname_prefix p) as [r Hr]. rewrite Hr at 2.
  rewrite string_length_app. lia.
Qed.

(** The name of an entry of [d]: the base name and the directory part of
    [d/n] are [n] and [d]. *)
Lemma until_slash_no_slash n rest :
  OS.no_slash (Py.str n) = true ->
  posixpath.until_slash (n ++ Py.slash :: rest) = n.
Proof.
  unfold OS.no_slash. rewrite chars_str.
  induction n as [| c n IH]; simpl.
  - intros _. reflexivity.
  - intros H. apply andb_prop in H as [Hc Hn].
    apply negb_true_iff in Hc. rewrite Hc. by rewrite IH.
Qed.

Lemma from_slash_no_slash n rest :
  OS.no_slash (Py.str n) = true ->
  posixpath.from_slash (n ++ Py.slash :: rest) = Py.slash :: rest.
Proof.
  unfold OS.no_slash. rewrite chars_str.
  induction n as [| c n IH]; simpl.
  - intros _. reflexivity.
  - intros H. apply andb_prop in H as [Hc Hn].
    apply negb_true_iff in Hc. rewrite Hc. by rewrite IH.
Qed.

Lemma no_slash_rev n :
  OS.no_slash n = true -> OS.no_slash (Py.str (rev (Py.chars n))) = true.
Proof.
  unfold OS.no_slash. rewrite chars_str, !forallb_forall.
  intros H c Hc. apply H. by apply in_rev.
Qed.

Lemma basename_entry d n :
  OS.no_slash n = true -> posixpath.basename (d +:+ "/" +:+ n) = n.
Proof.
  intros Hn. unfold posixpath.basename, posixpath.split. simpl.
  rewrite !chars_app, !rev_app_distr. simpl.
  rewrite <- app_assoc. simpl.
  rewrite until_slash_no_slash by (by apply no_slash_rev).
  by rewrite rev_involutive, str_chars.
Qed.

End StringFacts.

(** ** Listing a directory *)

Section Listing.

Lemma plain_dir_last d :
  plain_dir d -> exists l x, Py.chars d = l ++ [x] /\ x ≠ Py.slash.
Proof.
  intros [Hne Hend]. unfold Py.endswith_char in Hend.
  destruct (last (Py.chars d)) as [x |] eqn:El.
  - apply last_Some in El as [l Hl]. exists l, x. split; [exact Hl |].
    intros ->. by rewrite bool_decide_eq_true_2 in Hend.
  - apply last_None in El. exfalso. apply Hne. apply chars_inj. by rewrite El.
Qed.

Lemma dir_prefix_plain d : plain_dir d -> OS.dir_prefix d = d +:+ "/".
Proof. intros [_ H]. unfold OS.dir_prefix. by rewrite H. Qed.

Lemma entry_name_not_absolute n : entry_name n -> Py.startswith n "/" = false.
Proof.
  intros [Hne Hn]. destruct n as [| c n]; [done |].
  unfold OS.no_slash in Hn. simpl in Hn. apply andb_prop in Hn as [Hc _].
  apply negb_true_iff in Hc. apply bool_decide_eq_false in Hc.
  unfold Py.startswith. cbn [String.prefix].
  destruct (ascii_dec "/" c) as [<- |]; [done | reflexivity].
Qed.

Lemma join_entry d n :
  plain_dir d -> Py.startswith n "/" = false ->
  posixpath.join d n = d +:+ "/" +:+ n.
Proof.
  intros [Hne Hend] Hn. unfold posixpath.join. rewrite Hn, Hend.
  by rewrite bool_decide_eq_false_2.
Qed.

Lemma split_entry d n :
  plain_dir d -> OS.no_slash n = true ->
  posixpath.split (d +:+ "/" +:+ n) = (d, n).
Proof.
  intros Hd Hn. unfold posixpath.split.
  rewrite !chars_app, !rev_app_distr. simpl. rewrite <- app_assoc. simpl.
  rewrite until_slash_no_slash, from_slash_no_slash by (by apply no_slash_rev).
  rewrite rev_involutive, str_chars.
  replace (Py.str (rev (Py.slash :: rev (Py.chars d)))) with (d +:+ "/").
  2: { simpl. rewrite rev_involutive, str_app, str_chars. reflexivity. }
  destruct (plain_dir_last d Hd) as (l & x & Hl & Hx).
  assert (Hns : posixpath.all_slashes (d +:+ "/") = false).
  { unfold posixpath.all_slashes. rewrite chars_app, Hl, <- app_assoc.
    rewrite forallb_app. simpl. rewrite (bool_decide_eq_false_2 _ Hx).
    apply andb_false_r. }
  assert (Hnz : bool_decide (d +:+ "/" = "") = false).
  { apply bool_decide_eq_false_2. intros H. apply (f_equal String.length) in H.
    rewrite string_length_app in H. simpl in H. lia. }
  rewrite Hnz, Hns. simpl. f_equal.
  unfold Py.rstrip. rewrite chars_app, rev_app_distr. simpl.
  rewrite Hl, rev_app_distr. simpl. rewrite (bool_decide_eq_false_2 _ Hx).
  cbn [rev]. rewrite rev_involutive, <- Hl. apply str_chars.
Qed.

Lemma drop_app p r : OS.drop (String.length p) (p +:+ r) = r.
Proof. induction p as [| c p IH]; [by destruct r | exact IH]. Qed.

(** The entries of a directory are the names [n] for which [d/n] is in
    the store. *)
Lemma entry_of_spec d k n :
  plain_dir d ->
  OS.entry_of d k = Some n <-> k = d +:+ "/" +:+ n /\ entry_name n.
Proof.
  intros Hd. unfold OS.entry_of, entry_name. rewrite (dir_prefix_plain d Hd).
  split.
  - destruct (String.prefix (d +:+ "/") k) eqn:Hp; [| discriminate].
    apply prefix_inv in Hp as [r ->]. rewrite drop_app.
    destruct (negb (bool_decide (r = "")) && OS.no_slash r) eqn:Hr; [| discriminate].
    intros [= <-]. apply andb_prop in Hr as [H1 H2].
    apply negb_true_iff, bool_decide_eq_false in H1.
    split; [apply string_app_assoc | by split].
  - intros [-> [Hne Hns]]. rewrite <- string_app_assoc, prefix_app, drop_app.
    rewrite (bool_decide_eq_false_2 _ Hne), Hns. reflexivity.
Qed.

Lemma listdir_spec s d n :
  plain_dir d -> OS.isdir s d = true ->
  n ∈ OS.listdir s d <-> entry_name n /\ is_Some (s !! (d +:+ "/" +:+ n)).
Proof.
  intros Hd Hdir. unfold OS.listdir. rewrite Hdir.
  rewrite list_elem_of_omap. split.
  - intros ([k nd] & Hin & He). apply elem_of_map_to_list in Hin.
    apply (entry_of_spec d k n Hd) in He as [-> Hn]. by split.
  - intros [Hn [nd Hs]]. exists (d +:+ "/" +:+ n, nd). split.
    + by apply elem_of_map_to_list.
    + by apply entry_of_spec.
Qed.

Lemma fnmatch_star n : Glob.fnmatch n "*" = true.
Proof.
  unfold Glob.fnmatch. simpl.
  induction (Py.chars n) as [| c l IH]; [reflexivity |]. exact IH.
Qed.

Lemma has_magic_star d : Glob.has_magic (d +:+ "/" +:+ "*") = true.
Proof.
  unfold Glob.has_magic. rewrite !chars_app, !existsb_app. simpl.
  by rewrite !orb_true_r.
Qed.

Lemma filter_all {A} (P : A -> Prop) `{!forall x, Decision (P x)} (l : list A) :
  (forall x, x ∈ l -> P x) -> filter P l = l.
Proof.
  induction l as [| x l IH]; intros Hall; [reflexivity |].
  rewrite filter_cons_True by (apply Hall; left).
  f_equal. apply IH. intros y Hy. apply Hall. by right.
Qed.

(** What [glob] gives for the pattern [d/*]: the entries of [d] whose
    names do not begin with a dot. *)
Lemma glob_star s d :
  plain_dir d -> Glob.has_magic d = false -> OS.isdir s d = true ->
  Glob.glob s (posixpath.join d "*")
  = map (fun n => d +:+ "/" +:+ n)
        (filter (fun n => Glob.ishidden n = false) (OS.listdir s d)).
Proof.
  intros Hd Hmagic Hdir.
  rewrite (join_entry d "*" Hd eq_refl).
  unfold Glob.glob. cbn [Glob.iglob].
  rewrite (split_entry d "*" Hd eq_refl).
  rewrite has_magic_star. cbn [negb].
  destruct Hd as [Hne Hend].
  rewrite (bool_decide_eq_false_2 (d = "")) by exact Hne.
  rewrite Hmagic, andb_false_r.
  change (Glob.has_magic "*") with true. cbn iota.
  cbn [flat_map]. rewrite app_nil_r.
  unfold Glob.glob1. change (Glob.ishidden "*") with false. cbn iota.
  rewrite (filter_all (fun n => Glob.fnmatch n "*" = true))
    by (intros; apply fnmatch_star).
  apply map_ext_in. intros n Hn. apply list_elem_of_In in Hn.
  apply list_elem_of_filter in Hn as [_ Hn].
  apply (listdir_spec s d n (conj Hne Hend) Hdir) in Hn as [Hname _].
  apply join_entry; [by split | by apply entry_name_not_absolute].
Qed.

(** [fn.split(root + "/")[1]] is there for every name below the root. *)
Lemma split_go_skip sep u t acc :
  Py.split_go sep (String.length u) acc (u +:+ t) = Py.split_go sep O acc t.
Proof.
  induction u as [| c u IH]; [by destruct t |].
  rewrite string_cons_app. simpl. exact IH.
Qed.

Lemma split_go_nonempty sep k acc s : Py.split_go sep k acc s ≠ [].
Proof.
  revert k acc. induction s as [| c s IH]; intros k acc; [done |].
  cbn [Py.split_go]. destruct k; [| apply IH].
  destruct (String.prefix sep (String c s)); [done | apply IH].
Qed.

Lemma relative_to_below root fn :
  OS.below root fn = true -> exists rel, LocalDisk.relative_to root fn = Ok rel.
Proof.
  unfold OS.below. intros H. apply prefix_inv in H as [t ->].
  unfold LocalDisk.relative_to, Py.split.
  assert (Hsep : exists c u, root +:+ "/" = String c u).
  { destruct root as [| c root]; [by exists "/"%char, "" |].
    by exists c, (root +:+ "/"). }
  destruct Hsep as (c & u & Hsep). rewrite Hsep.
  rewrite string_cons_app. cbn [Py.split_go].
  rewrite <- string_cons_app, prefix_app. cbn [String.length].
  rewrite Nat.sub_succ, Nat.sub_0_r, split_go_skip.
  destruct (Py.split_go (String c u) 0 [] t) as [| x l] eqn:E.
  - by apply split_go_nonempty in E.
  - by exists x.
Qed.

End Listing.

(** ** The assets of a listing *)

Section Children.

Context (L : Libs) (env : Env) (self : LocalDisk.provider).

Import LocalDisk.

Lemma path_to_filename_ready s root path :
  abs_root env self s = (Ok root, s) ->
  _path_to_filename env self path s = (_path_to_filename_in env root path, s).
Proof.
  intros Hroot. unfold _path_to_filename.
  by rewrite (sbind_ok _ _ s root s Hroot).
Qed.

Lemma prefix_app_r p a b :
  String.prefix p a = true -> String.prefix p (a +:+ b) = true.
Proof.
  intros H. apply prefix_inv in H as [r ->].
  rewrite string_app_assoc. apply prefix_app.
Qed.

Lemma below_entry root d n :
  d = root \/ OS.below root d = true -> OS.below root (d +:+ "/" +:+ n) = true.
Proof.
  intros [-> | H]; [apply below_app |].
  unfold OS.below in *. by apply prefix_app_r.
Qed.

Lemma comprehension_Forall2 {A B} (f : A -> result B) (P : A -> B -> Prop) l :
  (forall x, x ∈ l -> exists y, f x = Ok y /\ P x y) ->
  exists ys, comprehension f l = Ok ys /\ Forall2 P l ys.
Proof.
  induction l as [| x l IH]; intros H.
  - exists []. by split.
  - destruct (H x ltac:(left)) as (y & Hy & HP).
    destruct IH as (ys & Hys & HF); [intros z Hz; apply H; by right |].
    exists (y :: ys). simpl. rewrite Hy, Hys. simpl. split; [reflexivity |].
    by constructor.
Qed.

Lemma comprehension_ext {A B} (f g : A -> result B) l :
  (forall x, f x = g x) -> comprehension f l = comprehension g l.
Proof.
  intros H. induction l as [| x l IH]; [reflexivity |].
  simpl. by rewrite H, IH.
Qed.

Lemma child_asset_listed s root d n :
  plain_dir d -> OS.isdir s d = true ->
  d = root \/ OS.below root d = true ->
  n ∈ OS.listdir s d ->
  exists a, child_asset L s root (d +:+ "/" +:+ n) = Ok a
            /\ listed L s d (d +:+ "/" +:+ n) a.
Proof.
  intros Hd Hdir Hin Hn.
  apply (listdir_spec s d n Hd Hdir) in Hn as [[Hne Hns] [nd Hs]].
  destruct (relative_to_below root (d +:+ "/" +:+ n) (below_entry root d n Hin))
    as [rel Hrel].
  unfold child_asset. rewrite Hrel. unfold OS.lookup. rewrite Hs. simpl.
  eexists. split; [reflexivity |].
  exists n, nd. simpl. split; [reflexivity |]. split; [exact Hs |].
  split; [by apply basename_entry |].
  split; [| reflexivity].
  unfold OS.isdir, OS.lookup. rewrite Hs. by destruct nd.
Qed.

(** The listing does not depend on the decoders: two sets of libraries
    that agree on [fromtimestamp] give the same children. *)
Lemma get_child_assets_decoders (L' : Libs) path s :
  fromtimestamp L' = fromtimestamp L ->
  get_child_assets L' env self path s = get_child_assets L env self path s.
Proof.
  intros Hts. unfold get_child_assets, sbind.
  destruct (_path_to_filename env self path s) as [[d | e] s1]; [| reflexivity].
  simpl. destruct (negb (OS.isdir s1 d)); [reflexivity |].
  destruct (abs_root env self s1) as [[root | e] s2]; [| reflexivity].
  simpl. unfold slift. f_equal. apply comprehension_ext. intros fn.
  unfold child_asset, mtime_iso. by rewrite Hts.
Qed.

End Children.

(** The listing of a collection [d] inside the root, whose name holds no
    wildcard character: one asset for each entry whose name does not begin
    with a dot, each with the single metadata key [time]; the decoders
    have no part in it. *)
Lemma listing_of_directory
    (L : Libs) (env : Env) (self : LocalDisk.provider) (s : store)
    (root path d : string)
    (Hroot : LocalDisk.abs_root env self s = (Ok root, s))
    (Hres : LocalDisk._path_to_filename_in env root path = Ok d)
    (Hdir : OS.isdir s d = true)
    (Hplain : plain_dir d)
    (Hmagic : Glob.has_magic d = false)
    (Hin : d = root \/ OS.below root d = true) :
  exists assets,
    LocalDisk.get_child_assets L env self path s = (Ok assets, s)
    /\ (forall a, a ∈ assets -> dom (metadata a) = {[ "time" ]})
    /\ (forall n nd,
          entry_name n -> Glob.ishidden n = false ->
          s !! (d +:+ "/" +:+ n) = Some nd ->
          exists a, a ∈ assets /\ name a = n
                    /\ collection a = match nd with Dir _ => true | File _ _ => false end
                    /\ metadata a = {[ "time" := LocalDisk.mtime_iso L nd ]})
    /\ (forall L', fromtimestamp L' = fromtimestamp L ->
          LocalDisk.get_child_assets L' env self path s = (Ok assets, s)).
Proof.
  set (names := filter (fun n => Glob.ishidden n = false) (OS.listdir s d)).
  destruct (comprehension_Forall2 (LocalDisk.child_asset L s root) (listed L s d)
              (map (fun n => d +:+ "/" +:+ n) names))
    as (assets & Hc & HF).
  { intros fn Hfn. apply list_elem_of_fmap in Hfn as (n & -> & Hn).
    apply list_elem_of_filter in Hn as [_ Hn].
    by apply child_asset_listed. }
  assert (Hget : LocalDisk.get_child_assets L env self path s = (Ok assets, s)).
  { unfold LocalDisk.get_child_assets.
    rewrite (sbind_ok _ _ s d s) by (by rewrite (path_to_filename_ready env self s root), Hres).
    rewrite (sbind_ok sget _ s s s) by reflexivity.
    rewrite Hdir. cbn [negb].
    rewrite (sbind_ok _ _ s root s Hroot).
    rewrite (sbind_ok sget _ s s s) by reflexivity.
    rewrite (glob_star s d Hplain Hmagic Hdir). fold names.
    unfold slift. by rewrite Hc. }
  exists assets. split; [exact Hget |]. split; [| split].
  - intros a Ha.
    apply list_elem_of_lookup in Ha as [i Hi].
    destruct (Forall2_lookup_r _ _ _ i a HF Hi) as (fn & _ & (n & nd & _ & _ & _ & _ & Hm)).
    rewrite Hm. apply dom_singleton_L.
  - intros n nd Hname Hhid Hs.
    assert (Hn : n ∈ names).
    { apply list_elem_of_filter. split; [exact Hhid |].
      apply listdir_spec; [exact Hplain | exact Hdir |]. by split. }
    assert (Hfn : d +:+ "/" +:+ n ∈ map (fun n => d +:+ "/" +:+ n) names).
    { apply list_elem_of_fmap. by exists n. }
    apply list_elem_of_lookup in Hfn as [i Hi].
    destruct (Forall2_lookup_l _ _ _ i _ HF Hi) as (a & Ha & (n' & nd' & Hfn' & Hs' & Hna & Hco & Hm)).
    exists a. split; [by apply list_elem_of_lookup; exists i |].
    rewrite Hs in Hs'. injection Hs' as <-.
    assert (n' = n) as ->.
    { apply chars_inj.
      apply (f_equal Py.chars) in Hfn'. rewrite !chars_app in Hfn'.
      do 2 apply app_inv_head in Hfn'. by symmetry. }
    by repeat split.
  - intros L' Hts. by rewrite (get_child_assets_decoders L env self L').
Qed.

(** ** Facts about the store *)

Section StoreFacts.

Lemma extends_refl s : extends s s.
Proof. by intros k. Qed.

Lemma extends_trans s1 s2 s3 : extends s1 s2 -> extends s2 s3 -> extends s1 s3.
Proof. intros H1 H2 k Hk. by apply H2, H1. Qed.

Lemma extends_insert s k v : extends s (<[k := v]> s).
Proof.
  intros j Hj. destruct (decide (k = j)) as [-> | Hne].
  - rewrite lookup_insert_eq. by eexists.
  - by rewrite lookup_insert_ne.
Qed.

Lemma make_parents_extends now l s s' :
  OS.make_parents now l s = Ok s' -> extends s s'.
Proof.
  revert s. induction l as [| a l IH]; intros s; simpl.
  - intros [= <-]. apply extends_refl.
  - unfold OS.lookup. destruct (s !! a) as [[|] |]; [discriminate | apply IH |].
    intros H. eapply extends_trans; [apply extends_insert | by apply IH].
Qed.

Lemma make_parents_other now l s s' k :
  OS.make_parents now l s = Ok s' -> k ∉ l -> s' !! k = s !! k.
Proof.
  revert s. induction l as [| a l IH]; intros s; simpl.
  - by intros [= <-].
  - intros H Hk. apply not_elem_of_cons in Hk as [Hka Hk].
    unfold OS.lookup in H. destruct (s !! a) as [[|] |]; [discriminate | by apply IH |].
    rewrite (IH _ H Hk). by rewrite lookup_insert_ne.
Qed.

(** When every ancestor is a directory already, nothing is created. *)
Lemma make_parents_present now l s :
  Forall (fun a => OS.isdir s a = true) l -> OS.make_parents now l s = Ok s.
Proof.
  induction 1 as [| a l Ha _ IH]; [reflexivity |].
  simpl. unfold OS.isdir in Ha. destruct (OS.lookup s a) as [[|] |]; done.
Qed.

Lemma make_parents_raises now l s e :
  OS.make_parents now l s = Raise e -> e = OSError.
Proof.
  revert s. induction l as [| a l IH]; intros s; simpl; [discriminate |].
  destruct (OS.lookup s a) as [[|] |]; [congruence | apply IH | apply IH].
Qed.

Lemma mkdir_inv now name s s' :
  OS.mkdir now name s = Ok s' ->
  s !! name = None /\ s' = <[name := Dir now]> s.
Proof.
  unfold OS.mkdir, OS.lookup. destruct (s !! name); [discriminate |].
  destruct (s !! posixpath.dirname name) as [[|] |]; [discriminate | | discriminate].
  by intros [= <-].
Qed.

Lemma makedirs_inv now name s s' :
  OS.makedirs now name s = Ok s' ->
  exists s0, OS.make_parents now (OS.ancestors name) s = Ok s0
             /\ s0 !! name = None /\ s' = <[name := Dir now]> s0.
Proof.
  unfold OS.makedirs, rbind.
  destruct (OS.make_parents now (OS.ancestors name) s) as [s0 |]; [| discriminate].
  intros H. apply mkdir_inv in H. by exists s0.
Qed.

Lemma makedirs_isdir now name s s' :
  OS.makedirs now name s = Ok s' -> OS.isdir s' name = true.
Proof.
  intros H. apply makedirs_inv in H as (s0 & _ & _ & ->).
  unfold OS.isdir, OS.lookup. by rewrite lookup_insert_eq.
Qed.

Lemma makedirs_extends now name s s' :
  OS.makedirs now name s = Ok s' -> extends s s'.
Proof.
  intros H. apply makedirs_inv in H as (s0 & H0 & _ & ->).
  eapply extends_trans; [by eapply make_parents_extends | apply extends_insert].
Qed.

(** [makedirs d] leaves alone every name that is at least as long as [d]
    and is not [d]. *)
Lemma makedirs_other now d s s' k :
  OS.makedirs now d s = Ok s' ->
  k ≠ d -> (String.length d <= String.length k)%nat ->
  s' !! k = s !! k.
Proof.
  intros H Hne Hlen. apply makedirs_inv in H as (s0 & H0 & _ & ->).
  rewrite lookup_insert_ne by done.
  apply (make_parents_other _ _ _ _ _ H0).
  intros Hk. apply ancestors_below, below_length in Hk. lia.
Qed.

Lemma reraise_as_ok {S A} cls (c : St S A) s a s' :
  c s = (Ok a, s') -> reraise_as cls c s = (Ok a, s').
Proof. intros H. unfold reraise_as. by rewrite H. Qed.

Lemma syscall_ok f s s' :
  f s = Ok s' -> LocalDisk.syscall f s = (Ok tt, s').
Proof. intros H. unfold LocalDisk.syscall. by rewrite H. Qed.

Lemma exists_extends s s' k :
  extends s s' -> OS.exists_ s k = true -> OS.exists_ s' k = true.
Proof.
  unfold OS.exists_, OS.lookup. intros He H.
  destruct (s !! k) eqn:E; [| discriminate].
  destruct (He k ltac:(by eexists)) as [v ->]. reflexivity.
Qed.

(** Once the effective root is there, it stays there in every store that
    extends the present one. *)
Lemma abs_root_extends env self s root s' :
  LocalDisk.abs_root env self s = (Ok root, s) ->
  extends s s' ->
  LocalDisk.abs_root env self s' = (Ok root, s').
Proof.
  unfold LocalDisk.abs_root. intros H He.
  destruct (LocalDisk.peruser self); [| by injection H as <-].
  destruct (truthy (user_id env)); [| by injection H as <-].
  set (p := posixpath.join _ _) in *.
  rewrite (sbind_ok sget _ s s s eq_refl) in H.
  rewrite (sbind_ok sget _ s' s' s' eq_refl).
  destruct (OS.exists_ s p) eqn:Ex.
  - rewrite (exists_extends s s' p He Ex). cbn [negb] in *.
    rewrite (sbind_ok (sret tt) _ s tt s eq_refl) in H.
    rewrite (sbind_ok (sret tt) _ s' tt s' eq_refl).
    unfold sret in *. by injection H as <-.
  - exfalso. cbn [negb] in H.
    unfold sbind, reraise_as, LocalDisk.makedirs_unless_exists in H.
    destruct (OS.makedirs (now env) p s) as [s1 | e] eqn:Em.
    + unfold sret in H. injection H as _ Hs. subst s1.
      apply makedirs_isdir in Em. unfold OS.exists_ in Ex. unfold OS.isdir in Em.
      destruct (OS.lookup s p); discriminate.
    + destruct (bool_decide (e = FileExistsError)) eqn:Eb; [| discriminate].
      apply bool_decide_eq_true in Eb. subst e.
      unfold OS.makedirs, rbind in Em.
      destruct (OS.make_parents (now env) (OS.ancestors p) s) as [s0 | e0] eqn:E0.
      2: { apply make_parents_raises in E0. congruence. }
      unfold OS.mkdir in Em.
      destruct (OS.lookup s0 p) eqn:E1.
      * unfold OS.exists_ in Ex.
        assert (Hp : p ∉ OS.ancestors p).
        { intros Hp. apply ancestors_below, below_length in Hp. lia. }
        unfold OS.lookup in *. rewrite (make_parents_other _ _ _ _ _ E0 Hp) in E1.
        by rewrite E1 in Ex.
      * destruct (OS.lookup s0 (posixpath.dirname p)) as [[|] |]; discriminate.
Qed.

End StoreFacts.

(** ** Writing a file *)

Section Writing.

Context (L : Libs) (env : Env) (self : LocalDisk.provider).

Import LocalDisk.

Lemma entry_ne_dir d n : d +:+ "/" +:+ n ≠ d.
Proof.
  intros H. apply (f_equal String.length) in H.
  rewrite !string_length_app in H. simpl in H. lia.
Qed.

Lemma dirname_entry d n :
  plain_dir d -> entry_name n -> posixpath.dirname (d +:+ "/" +:+ n) = d.
Proof.
  intros Hd [_ Hn]. unfold posixpath.dirname. by rewrite split_entry.
Qed.

Lemma prepared_facts s d n s1 :
  prepared env s d s1 -> s !! (d +:+ "/" +:+ n) = None ->
  extends s s1 /\ OS.isdir s1 d = true /\ s1 !! (d +:+ "/" +:+ n) = None.
Proof.
  intros [[Hdir ->] | [Hex Hmk]] Hnew.
  - split; [apply extends_refl | by split].
  - split; [by eapply makedirs_extends |].
    split; [by eapply makedirs_isdir |].
    rewrite (makedirs_other _ _ _ _ _ Hmk); [exact Hnew | apply entry_ne_dir |].
    rewrite string_length_app. lia.
Qed.

(** [create_asset] with a payload: the file is written, then classified
    in the store that holds it. *)
Lemma create_asset_writes s root path d n data s1 :
  abs_root env self s = (Ok root, s) ->
  _path_to_filename_in env root path = Ok (d +:+ "/" +:+ n) ->
  plain_dir d -> entry_name n ->
  s !! (d +:+ "/" +:+ n) = None ->
  prepared env s d s1 ->
  let s' := <[d +:+ "/" +:+ n := File data (now env)]> s1 in
  create_asset L env self path (Some data) s
  = (_get_asset L s' path (d +:+ "/" +:+ n), s').
Proof.
  intros Hroot Hres Hd Hn Hnew Hprep s'.
  destruct (prepared_facts s d n s1 Hprep Hnew) as (Hext & Hdir1 & Hnew1).
  unfold create_asset.
  rewrite (sbind_ok _ _ s (d +:+ "/" +:+ n) s)
    by (by rewrite (path_to_filename_ready env self s root), Hres).
  rewrite (sbind_ok sget _ s s s eq_refl).
  unfold OS.exists_ at 1. unfold OS.lookup. rewrite Hnew.
  rewrite (dirname_entry d n Hd Hn).
  assert (Hblock :
    reraise_as FilesystemError
      (run_ (if negb (OS.exists_ s d)
             then makedirs_unless_exists (now env) d else sret tt) ;
       syscall (OS.write_file (now env) (d +:+ "/" +:+ n) data)) s
    = (Ok tt, s')).
  { apply reraise_as_ok.
    assert (Hfirst : (if negb (OS.exists_ s d)
                      then makedirs_unless_exists (now env) d else sret tt) s
                     = (Ok tt, s1)).
    { destruct Hprep as [[Hdir ->] | [Hex Hmk]].
      - unfold OS.exists_. unfold OS.isdir in Hdir.
        destruct (OS.lookup s d); [reflexivity | discriminate].
      - rewrite Hex. cbn [negb]. unfold makedirs_unless_exists. by rewrite Hmk. }
    rewrite (sbind_ok _ _ s tt s1 Hfirst).
    apply syscall_ok. unfold OS.write_file, OS.lookup.
    rewrite Hnew1, (dirname_entry d n Hd Hn).
    unfold OS.isdir, OS.lookup in Hdir1.
    destruct (s1 !! d) as [[|] |]; done. }
  rewrite (sbind_ok _ _ s tt s' Hblock).
  by rewrite (sbind_ok sget _ s' s' s' eq_refl).
Qed.

Lemma get_asset_existing s root path filename nd :
  abs_root env self s = (Ok root, s) ->
  _path_to_filename_in env root path = Ok filename ->
  s !! filename = Some nd ->
  get_asset L env self path s = (_get_asset L s path filename, s).
Proof.
  intros Hroot Hres Hs. unfold get_asset.
  rewrite (sbind_ok _ _ s filename s)
    by (by rewrite (path_to_filename_ready env self s root), Hres).
  rewrite (sbind_ok sget _ s s s eq_refl).
  unfold OS.exists_, OS.lookup. by rewrite Hs.
Qed.


Lemma get_asset_unclassified s path filename data t :
  s !! filename = Some (File data t) ->
  first_type L data = None ->
  _get_asset L s path filename = Raise UnrecognizedDataFormatError.
Proof.
  intros Hs Hty. pose proof (get_asset_file L s path filename data t Hs) as G.
  by rewrite Hty in G.
Qed.

Lemma get_asset_classified s p filename data t :
  s !! filename = Some (File data t) ->
  classified L data ->
  exists a, _get_asset L s p filename = Ok a
            /\ path a = Py.strip Py.slash (Py.replace_char Py.backslash Py.slash p)
            /\ collection a = false
            /\ metadata a !! "size" = Some (PInt (Z.of_nat (length data))).
Proof.
  intros Hs (l & ty & Hc & Hty & Htime).
  unfold _get_asset, OS.lookup. rewrite Hs, Hc, Hty.
  destruct Htime as [Hn | [dt Hd]].
  - rewrite Hn. rewrite bool_decide_eq_true_2 by reflexivity. simpl.
    eexists. split; [reflexivity |]. split; [reflexivity |].
    split; [reflexivity | apply leaf_metadata_size].
  - rewrite Hd. rewrite bool_decide_eq_false_2 by discriminate. simpl.
    eexists. split; [reflexivity |]. split; [reflexivity |].
    split; [reflexivity | apply leaf_metadata_size].
Qed.


End Writing.

(** ** Removing and recreating a directory *)

Section Updating.

Context (L : Libs) (env : Env) (self : LocalDisk.provider).

Import LocalDisk.

Lemma removed_gone filename s k :
  k = filename \/ OS.below filename k = true -> removed filename s !! k = None.
Proof.
  intros Hk. unfold removed. apply map_lookup_filter_None_2.
  destruct (s !! k) as [x |] eqn:E; [right | by left].
  intros y _ [H1 H2]. simpl in H1, H2. destruct Hk as [-> | Hk]; congruence.
Qed.

Lemma removed_other filename s k :
  k ≠ filename -> OS.below filename k = false -> removed filename s !! k = s !! k.
Proof.
  intros H1 H2. unfold removed. destruct (s !! k) as [x |] eqn:E.
  - apply map_lookup_filter_Some_2; [exact E | by split].
  - apply map_lookup_filter_None_2. by left.
Qed.

Lemma rmtree_removed filename s :
  OS.isdir s filename = true -> OS.rmtree filename s = Ok (removed filename s).
Proof.
  unfold OS.isdir, OS.rmtree. destruct (OS.lookup s filename) as [[|] |]; done.
Qed.

Lemma ancestor_apart filename a :
  a ∈ OS.ancestors filename -> a ≠ filename /\ OS.below filename a = false.
Proof.
  intros Ha. apply ancestors_below, below_length in Ha. split.
  - intros ->. lia.
  - apply below_shorter. lia.
Qed.

Lemma dirname_not_below filename :
  OS.below filename (posixpath.dirname filename) = false.
Proof. apply below_shorter, dirname_length. Qed.

(** In a store that agrees with a tree around [filename] except at and
    below [filename], where it holds nothing, [makedirs] makes just the
    directory [filename]. *)
Lemma makedirs_recreates s s0 filename :
  tree_at s filename ->
  (forall k, k ≠ filename -> OS.below filename k = false -> s0 !! k = s !! k) ->
  s0 !! filename = None ->
  OS.makedirs (now env) filename s0 = Ok (<[filename := Dir (now env)]> s0).
Proof.
  intros (Hanc & Hpar & Hne & _) Hsame Hgone. unfold OS.makedirs.
  rewrite make_parents_present.
  - simpl. unfold OS.mkdir, OS.lookup. rewrite Hgone.
    rewrite (Hsame _ Hne (dirname_not_below filename)).
    unfold OS.isdir, OS.lookup in Hpar.
    destruct (s !! posixpath.dirname filename) as [[|] |]; done.
  - apply Forall_forall. intros a Ha.
    rewrite Forall_forall in Hanc. specialize (Hanc a Ha).
    destruct (ancestor_apart filename a Ha) as [H1 H2].
    unfold OS.isdir, OS.lookup in *. by rewrite (Hsame a H1 H2).
Qed.

Lemma update_asset_start s root p filename :
  abs_root env self s = (Ok root, s) ->
  _path_to_filename_in env root p = Ok filename ->
  forall data force,
    update_asset L env self p data force s
    = (if negb (OS.exists_ s filename) then sraise AssetNotFoundError
       else
         run_ (if OS.isdir s filename then
                 if negb force then sraise CannotUpdateCollectionAssetError
                 else reraise_as FilesystemError (syscall (OS.rmtree filename))
               else sret tt) ;
         update_write L env p filename data) s.
Proof.
  intros Hroot Hres data force. unfold update_asset.
  rewrite (sbind_ok _ _ s filename s)
    by (by rewrite (path_to_filename_ready env self s root), Hres).
  by rewrite (sbind_ok sget _ s s s eq_refl).
Qed.

Lemma isdir_exists s k : OS.isdir s k = true -> OS.exists_ s k = true.
Proof. unfold OS.isdir, OS.exists_. by destruct (OS.lookup s k) as [[|] |]. Qed.

(** [update_write] without data, on a store where [filename] is gone
    or a regular file: the directory is made afresh. *)
Lemma update_write_directory s s0 p filename :
  tree_at s filename ->
  (forall k, k ≠ filename -> OS.below filename k = false -> s0 !! k = s !! k) ->
  (s0 !! filename = None \/ exists d t, s0 !! filename = Some (File d t)) ->
  let s' := <[filename := Dir (now env)]> (delete filename s0) in
  exists a,
    update_write L env p filename None s0 = (Ok a, s')
    /\ collection a = true /\ dom (metadata a) = {[ "time" ]}.
Proof.
  intros Htree Hsame Hat s'.
  assert (Hsame' : forall k, k ≠ filename -> OS.below filename k = false ->
                             delete filename s0 !! k = s !! k).
  { intros k H1 H2. rewrite lookup_delete_ne by done. by apply Hsame. }
  assert (Hmk : OS.makedirs (now env) filename (delete filename s0) = Ok s').
  { apply (makedirs_recreates s); [exact Htree | exact Hsame' | apply lookup_delete_eq]. }
  assert (Hblock :
    reraise_as FilesystemError
      (run s <- sget ;
       run_ (if OS.exists_ s filename
             then syscall (OS.unlink filename) else sret tt) ;
       syscall (OS.makedirs (now env) filename)) s0 = (Ok tt, s')).
  { apply reraise_as_ok. rewrite (sbind_ok sget _ s0 s0 s0 eq_refl).
    assert (Hfirst : (if OS.exists_ s0 filename
                      then syscall (OS.unlink filename) else sret tt) s0
                     = (Ok tt, delete filename s0)).
    { unfold OS.exists_, OS.lookup. destruct Hat as [Hn | (d & t & Hf)].
      - rewrite Hn. unfold sret. f_equal. symmetry. by apply delete_id.
      - rewrite Hf. apply syscall_ok. unfold OS.unlink, OS.lookup. by rewrite Hf. }
    rewrite (sbind_ok _ _ s0 tt _ Hfirst). by apply syscall_ok. }
  unfold update_write. rewrite (sbind_ok _ _ s0 tt s' Hblock).
  rewrite (sbind_ok sget _ s' s' s' eq_refl).
  unfold slift, _get_asset, OS.lookup. subst s'. rewrite lookup_insert_eq.
  eexists. split; [reflexivity |]. split; [reflexivity |]. apply dom_singleton_L.
Qed.

End Updating.

Section Replacing.

Context (L : Libs) (env : Env) (self : LocalDisk.provider).

(** [update_asset] with data and [force] on a collection: the collection
    goes with all below it and the payload is written in its place *)
Lemma update_asset_replaces_collection s root p filename data :
  LocalDisk.abs_root env self s = (Ok root, s) ->
  LocalDisk._path_to_filename_in env root p = Ok filename ->
  OS.isdir s filename = true ->
  OS.isdir s (posixpath.dirname filename) = true ->
  posixpath.dirname filename ≠ filename ->
  let s' := <[filename := File data (now env)]> (removed filename s) in
  LocalDisk.update_asset L env self p (Some data) true s
  = (LocalDisk._get_asset L s' p filename, s')
  /\ s' !! filename = Some (File data (now env))
  /\ (forall k, OS.below filename k = true -> s' !! k = None)
  /\ (forall k, k ≠ filename -> OS.below filename k = false -> s' !! k = s !! k).
Proof.
  intros Hroot Hres Hdir Hpar Hne s'.
  split; [|split; [apply lookup_insert_eq | split]].
  - rewrite (update_asset_start L env self s root p filename Hroot Hres).
    rewrite (isdir_exists s filename Hdir), Hdir. cbn [negb].
    rewrite (sbind_ok _ _ s tt (removed filename s))
      by (apply reraise_as_ok, syscall_ok; by apply rmtree_removed).
    unfold LocalDisk.update_write.
    assert (Hw : reraise_as FilesystemError
                   (LocalDisk.syscall (OS.write_file (now env) filename data))
                   (removed filename s) = (Ok tt, s')).
    { apply reraise_as_ok, syscall_ok. unfold OS.write_file, OS.lookup.
      rewrite removed_gone by (by left).
      rewrite removed_other by (exact Hne || apply dirname_not_below).
      unfold OS.isdir, OS.lookup in Hpar.
      by destruct (s !! posixpath.dirname filename) as [[|]|]. }
    rewrite (sbind_ok _ _ _ tt s' Hw).
    by rewrite (sbind_ok sget _ s' s' s' eq_refl).
  - intros k Hk.
    assert (k ≠ filename) by (intros ->; apply below_length in Hk; lia).
    subst s'. rewrite lookup_insert_ne by done. apply removed_gone. by right.
  - intros k H1 H2. subst s'. rewrite lookup_insert_ne by done.
    by apply removed_other.
Qed.

End Replacing.

(** ** The loop of the search *)

Section Search.

Context (L : Libs).

Import LocalDisk.

Lemma find_loop_selects s root flt cands :
  Forall (fun fn => OS.below root fn = true) cands ->
  Forall (fails_unrecognized L s) cands ->
  find_loop L s root flt cands = Ok (omap (selected L s root flt) cands).
Proof.
  intros Hb Hf. induction cands as [| fn cands IH]; [reflexivity |].
  apply Forall_cons in Hb as [Hb1 Hb]. apply Forall_cons in Hf as [Hf1 Hf].
  specialize (IH Hb Hf). cbn [find_loop].
  change (omap (selected L s root flt) (fn :: cands))
    with (match selected L s root flt fn with
          | Some y => y :: omap (selected L s root flt) cands
          | None => omap (selected L s root flt) cands
          end).
  unfold selected at 1.
  destruct (match f_collection flt with
            | Some c => negb (eqb (OS.isdir s fn) c)
            | None => false
            end); [exact IH |].
  destruct (relative_to_below root fn Hb1) as [rel Hrel]. rewrite Hrel.
  cbn [rbind].
  destruct (_get_asset L s rel fn) as [a | e] eqn:Ea.
  - destruct (check_filters flt a); [by rewrite IH | exact IH].
  - rewrite (Hf1 rel e Ea). exact IH.
Qed.

Lemma selected_spec s root flt fn a :
  selected L s root flt fn = Some a <->
  match f_collection flt with
  | Some c => OS.isdir s fn = c
  | None => True
  end
  /\ exists rel, relative_to root fn = Ok rel
                 /\ _get_asset L s rel fn = Ok a
                 /\ check_filters flt a = true.
Proof.
  unfold selected. split.
  - destruct (f_collection flt) as [c |].
    + destruct (eqb (OS.isdir s fn) c) eqn:Ec; [| discriminate].
      apply eqb_prop in Ec. cbn [negb].
      destruct (relative_to root fn) as [rel |] eqn:Er; [| discriminate].
      destruct (_get_asset L s rel fn) as [a' |] eqn:Ea; [| discriminate].
      destruct (check_filters flt a') eqn:Ecf; [| discriminate].
      intros [= <-]. split; [exact Ec |]. exists rel. auto.
    + destruct (relative_to root fn) as [rel |] eqn:Er; [| discriminate].
      destruct (_get_asset L s rel fn) as [a' |] eqn:Ea; [| discriminate].
      destruct (check_filters flt a') eqn:Ecf; [| discriminate].
      intros [= <-]. split; [exact I |]. exists rel. auto.
  - intros [Hc (rel & Hrel & Ha & Hcf)]. rewrite Hrel, Ha, Hcf.
    destruct (f_collection flt) as [c |]; [| reflexivity].
    rewrite Hc, eqb_reflx. reflexivity.
Qed.

(** An asset that passes an active filter has the key of that filter. *)
Lemma check_filters_keys flt a :
  check_filters flt a = true ->
  (f_type flt ≠ None -> is_Some (metadata a !! "type"))
  /\ (f_width flt ≠ None -> is_Some (metadata a !! "width"))
  /\ (f_height flt ≠ None -> is_Some (metadata a !! "height")).
Proof.
  unfold check_filters. intros H.
  apply andb_prop in H as [H Hh]. apply andb_prop in H as [Ht Hw].
  split; [| split]; intros Hact.
  - destruct (f_type flt); [| done].
    destruct (metadata a !! "type"); [by eexists | discriminate].
  - destruct (f_width flt); [| done].
    destruct (metadata a !! "width"); [by eexists | discriminate].
  - destruct (f_height flt); [| done].
    destruct (metadata a !! "height"); [by eexists | discriminate].
Qed.

(** The filters of [find_assets(type="FITS", width=1024)] *)
Lemma check_filters_fits_1024 a :
  check_filters (mk_filters (Some ["FITS"]) None (Some 1024) None) a = true
  <-> metadata a !! "type" = Some (PStr "FITS")
      /\ metadata a !! "width" = Some (PInt 1024).
Proof.
  unfold check_filters. cbn [f_type f_width f_height]. rewrite andb_true_r.
  split.
  - intros H. apply andb_prop in H as [Ht Hw].
    destruct (metadata a !! "type") as [[| | t |] |]; try discriminate.
    apply bool_decide_eq_true in Ht. apply list_elem_of_singleton in Ht as ->.
    destruct (metadata a !! "width") as [v |]; [| discriminate].
    apply bool_decide_eq_true in Hw as ->. by split.
  - intros [-> ->]. apply andb_true_intro. split.
    + apply bool_decide_eq_true. by apply list_elem_of_singleton.
    + by apply bool_decide_eq_true.
Qed.

End Search.

(** Whether [_get_asset] raises does not depend on the asset path it is
    given, which only goes into the record. *)
Lemma get_asset_raise_any_path L s rel rel' fn e :
  LocalDisk._get_asset L s rel fn = Raise e ->
  LocalDisk._get_asset L s rel' fn = Raise e.
Proof.
  unfold LocalDisk._get_asset.
  destruct (OS.lookup s fn) as [[data t | t] |]; [| discriminate |].
  - destruct (LocalDisk.classify L (Some data) LocalDisk.locals0) as [[u | x] l];
      [| done].
    destruct (LocalDisk.imtype l); [| done]. simpl.
    destruct (LocalDisk.py_isoformat _); [discriminate | done].
  - destruct (LocalDisk.classify L None LocalDisk.locals0) as [[u | x] l]; [| done].
    destruct (LocalDisk.imtype l); done.
Qed.

Lemma fails_unrecognized_check L s fn :
  match LocalDisk._get_asset L s "" fn with
  | Ok _ => true
  | Raise e => bool_decide (e = UnrecognizedDataFormatError)
  end = true ->
  fails_unrecognized L s fn.
Proof.
  intros H rel e He. apply (get_asset_raise_any_path L s rel "" fn e) in He.
  rewrite He in H. by apply bool_decide_eq_true in H.
Qed.

(** * Supporting facts: the operations beyond the claims *)

(** ** The date in a remote name, further *)

Section RemoteDate.

Lemma string_app_nil_r a : a +:+ "" = a.
Proof. induction a as [|c a IH]; [reflexivity|]. by rewrite string_cons_app, IH. Qed.

Lemma basename_loop_plain n acc :
  OS.no_slash n = true -> FTP.basename_loop acc n = acc +:+ n.
Proof.
  revert acc. induction n as [|c n IH]; intros acc Hn.
  - cbn. by rewrite string_app_nil_r.
  - unfold OS.no_slash in Hn. cbn in Hn. apply andb_true_iff in Hn as [Hc Hn].
    cbn [FTP.basename_loop]. apply negb_true_iff in Hc. rewrite Hc.
    rewrite IH by exact Hn. rewrite string_app_assoc. reflexivity.
Qed.

Lemma basename_loop_last dir n acc :
  OS.no_slash n = true -> FTP.basename_loop acc (dir +:+ "/" +:+ n) = n.
Proof.
  intros Hn. revert acc. induction dir as [|c dir IH]; intros acc.
  - change ("" +:+ "/" +:+ n) with (String "/" n). cbn [FTP.basename_loop].
    rewrite bool_decide_eq_true_2 by reflexivity.
    by rewrite basename_loop_plain.
  - rewrite string_cons_app. cbn [FTP.basename_loop].
    destruct (bool_decide (c = Py.slash)); apply IH.
Qed.

Lemma skip_nondigits_none n i :
  forallb (fun c => negb (Py.is_digit c)) (Py.chars n) = true ->
  FTP.skip_nondigits n i = Raise IndexError.
Proof.
  revert i. induction n as [|c n IH]; intros i Hn; [reflexivity|].
  cbn in Hn. apply andb_true_iff in Hn as [Hc Hn].
  apply negb_true_iff in Hc. cbn [FTP.skip_nondigits]. rewrite Hc. by apply IH.
Qed.

Lemma basename_loop_chars (P : ascii -> bool) path acc :
  forallb P (Py.chars acc) = true -> forallb P (Py.chars path) = true ->
  forallb P (Py.chars (FTP.basename_loop acc path)) = true.
Proof.
  revert acc. induction path as [|c path IH]; intros acc Ha Hp; [exact Ha|].
  cbn in Hp. apply andb_true_iff in Hp as [Hc Hp].
  cbn [FTP.basename_loop]. destruct (bool_decide (c = Py.slash)).
  - by apply IH.
  - apply IH; [|exact Hp]. rewrite chars_app, forallb_app, Ha. cbn. by rewrite Hc.
Qed.

End RemoteDate.

Section RemoteDigits.

Lemma digit_facts c :
  Py.is_digit c = true ->
  negb (bool_decide (c = "_"%char)) && negb (Py.is_space c)
  && negb (bool_decide (c = "-"%char)) && negb (bool_decide (c = "+"%char))
  && negb (bool_decide (c = Py.slash))
  && bool_decide (Py.digit_value c = Some (digit_val c))
  && (0 <=? digit_val c) && (digit_val c <? 10) = true.
Proof.
  destruct c as [[] [] [] [] [] [] [] []]; vm_compute; congruence.
Qed.

Lemma digit_parts c :
  Py.is_digit c = true ->
  c ≠ "_"%char /\ Py.is_space c = false /\ c ≠ "-"%char /\ c ≠ "+"%char
  /\ c ≠ Py.slash /\ Py.digit_value c = Some (digit_val c)
  /\ 0 <= digit_val c < 10.
Proof.
  intros H. pose proof (digit_facts c H) as F.
  repeat (apply andb_true_iff in F as [F ?]).
  repeat match goal with
         | H : negb (bool_decide _) = true |- _ =>
             apply negb_true_iff, bool_decide_eq_false in H
         | H : negb _ = true |- _ => apply negb_true_iff in H
         | H : bool_decide _ = true |- _ => apply bool_decide_eq_true in H
         end.
  repeat split; try assumption; lia.
Qed.

Lemma int_digits_decimal l prev acc :
  forallb Py.is_digit l = true -> prev = true \/ l ≠ [] ->
  Py.int_digits 10 prev acc l
  = Ok (fold_left (fun a c => a * 10 + digit_val c) l acc).
Proof.
  revert prev acc. induction l as [|c l IH]; intros prev acc Hl Hne.
  - destruct Hne as [-> | Hne]; [reflexivity | congruence].
  - cbn in Hl. apply andb_true_iff in Hl as [Hc Hl].
    destruct (digit_parts c Hc) as (Hu & _ & _ & _ & _ & Hv & Hr).
    cbn [Py.int_digits fold_left].
    rewrite bool_decide_eq_false_2 by exact Hu. rewrite Hv.
    replace (digit_val c <? 10) with true by (symmetry; apply Z.ltb_lt; lia).
    apply IH; [exact Hl | by left].
Qed.

Lemma lstrip_space_digit c l :
  Py.is_digit c = true -> Py.lstrip_space (c :: l) = c :: l.
Proof.
  intros Hc. destruct (digit_parts c Hc) as (_ & Hs & _). cbn. by rewrite Hs.
Qed.

Lemma strip_space_digits l :
  forallb Py.is_digit l = true -> Py.strip_space l = l.
Proof.
  intros Hl. unfold Py.strip_space.
  assert (Hls : forall k, forallb Py.is_digit k = true -> Py.lstrip_space k = k).
  { intros [|c k] Hk; [reflexivity|]. cbn in Hk. apply andb_true_iff in Hk as [Hc _].
    by apply lstrip_space_digit. }
  rewrite (Hls l Hl). rewrite Hls; [apply rev_involutive|].
  rewrite forallb_forall in *. intros x Hx. apply Hl. by apply in_rev.
Qed.

(** [int] of a non-empty run of decimal digits *)
Lemma int_decimal l :
  forallb Py.is_digit l = true -> l ≠ [] -> Py.int (Py.str l) = Ok (decimal l).
Proof.
  intros Hl Hne. unfold Py.int. rewrite chars_str, strip_space_digits by exact Hl.
  destruct l as [|c l]; [congruence|].
  pose proof Hl as Hl'. cbn in Hl'. apply andb_true_iff in Hl' as [Hc _].
  destruct (digit_parts c Hc) as (_ & _ & Hm & Hp & _).
  cbn [Py.split_sign]. rewrite !bool_decide_eq_false_2 by assumption.
  rewrite int_digits_decimal; [reflexivity | exact Hl | by right].
Qed.

Lemma skip_nondigits_letters ls ds i :
  forallb (fun c => negb (Py.is_digit c)) ls = true ->
  FTP.skip_nondigits (Py.str (ls ++ ds)) i
  = FTP.skip_nondigits (Py.str ds) (i + length ls).
Proof.
  revert i. induction ls as [|c ls IH]; intros i Hl.
  - cbn. by rewrite Nat.add_0_r.
  - cbn in Hl. apply andb_true_iff in Hl as [Hc Hl]. apply negb_true_iff in Hc.
    cbn [app Py.str string_of_list_ascii FTP.skip_nondigits]. rewrite Hc.
    change (string_of_list_ascii (ls ++ ds)) with (Py.str (ls ++ ds)).
    rewrite IH by exact Hl. f_equal. cbn. lia.
Qed.

Lemma get_app ls ds :
  String.get (length ls) (Py.str (ls ++ ds)) = String.get 0 (Py.str ds).
Proof. induction ls as [|c ls IH]; [reflexivity | exact IH]. Qed.

Lemma length_str l : String.length (Py.str l) = length l.
Proof. induction l as [|c l IH]; [reflexivity | cbn; by rewrite <- IH]. Qed.

Lemma substring_all s : String.substring 0 (String.length s) s = s.
Proof. induction s as [|c s IH]; [reflexivity | cbn; by rewrite IH]. Qed.

Lemma substring_app ls ds :
  String.substring (length ls) (length ds) (Py.str (ls ++ ds)) = Py.str ds.
Proof.
  induction ls as [|c ls IH].
  - cbn [app length]. rewrite <- (length_str ds). apply substring_all.
  - exact IH.
Qed.

(** The start of [_get_date]'s [try] block on a name that is a run of
    non-digits followed by text that begins with a digit: [datestr] is
    that text *)
Lemma get_date_try_datestr ls d ds :
  forallb (fun c => negb (Py.is_digit c)) ls = true ->
  Py.is_digit d = true ->
  let name := Py.str (ls ++ d :: ds) in
  let datestr := Py.str (d :: ds) in
  FTP._get_date_try name
  = if Py.len name =? 6 then
      do y <- Py.int (Py.slice datestr 0 4) ;
      do m <- Py.int (Py.slice datestr 4 6) ;
      datetime_new y m 1 0
    else if Py.len name =? 12 then
      do y <- Py.int (Py.slice datestr 0 2) ;
      do m <- Py.int (Py.slice datestr 2 4) ;
      do d <- Py.int (Py.slice datestr 4 6) ;
      datetime_new (2000 + y) m d 0
    else
      do y <- Py.int (Py.slice datestr 0 2) ;
      do m <- Py.int (Py.slice datestr 2 4) ;
      do d <- Py.int (Py.slice datestr 4 6) ;
      do b <- Py.int (Py.slice datestr 9 11) ;
      do h <- Py.int_base (Py.slice datestr 7 9) b ;
      datetime_new (2000 + y) m d h.
Proof.
  intros Hl Hd name datestr. unfold FTP._get_date_try.
  unfold name at 1. rewrite skip_nondigits_letters by exact Hl.
  cbn [Py.str string_of_list_ascii FTP.skip_nondigits]. rewrite Hd.
  cbn [rbind Nat.add]. unfold Py.getitem. unfold name at 1. rewrite get_app.
  cbn [Py.str string_of_list_ascii String.get rbind].
  assert (Hs : Py.slice_from name (Z.of_nat (length ls)) = datestr).
  { unfold Py.slice_from, name. rewrite Nat2Z.id, length_str, length_app.
    replace (length ls + length (d :: ds) - length ls)%nat
      with (length (d :: ds)) by lia.
    apply substring_app. }
  rewrite Hs. reflexivity.
Qed.

End RemoteDigits.

Ltac digits_known :=
  cbn [forallb];
  repeat match goal with
         | H : Py.is_digit ?c = true |- context [Py.is_digit ?c] => rewrite H
         end;
  reflexivity.

Section RemoteDateProperties.

Lemma datetime_new_inv y m d h dt :
  datetime_new y m d h = Ok dt ->
  dt = mk_datetime y m d h 0 0 0
  /\ 1 <= y <= 9999 /\ 1 <= m <= 12 /\ 1 <= d <= days_in_month y m /\ 0 <= h <= 23.
Proof.
  unfold datetime_new. intros H.
  destruct ((1 <=? y) && (y <=? 9999) && (1 <=? m) && (m <=? 12) && (1 <=? d)
            && (d <=? days_in_month y m) && (0 <=? h) && (h <=? 23)) eqn:E;
    [|discriminate].
  injection H as <-.
  repeat (apply andb_true_iff in E as [E ?]).
  repeat match goal with
         | H : (_ <=? _) = true |- _ => apply Z.leb_le in H
         end.
  repeat split; assumption.
Qed.

Lemma rbind_inv {A B} (r : result A) (k : A -> result B) b :
  rbind r k = Ok b -> exists a, r = Ok a /\ k a = Ok b.
Proof. destruct r as [a|e]; [intros H; by exists a | discriminate]. Qed.

Lemma get_date_shape path dt :
  FTP._get_date path = Some dt ->
  minute dt = 0 /\ second dt = 0 /\ microsecond dt = 0
  /\ 1 <= year dt <= 9999 /\ 1 <= month dt <= 12
  /\ 1 <= day dt <= days_in_month (year dt) (month dt)
  /\ 0 <= hour dt <= 23
  /\ (Py.len (FTP.basename_loop "" path) = 6 -> day dt = 1 /\ hour dt = 0)
  /\ (Py.len (FTP.basename_loop "" path) = 12 -> hour dt = 0).
Proof.
  unfold FTP._get_date. set (name := FTP.basename_loop "" path).
  destruct (FTP._get_date_try name) as [date|e] eqn:E; [|discriminate].
  intros H. injection H as ->. unfold FTP._get_date_try in E.
  apply rbind_inv in E as (i & _ & E). apply rbind_inv in E as (c & _ & E).
  destruct (Py.len name =? 6) eqn:E6; [|destruct (Py.len name =? 12) eqn:E12].
  - apply rbind_inv in E as (y & _ & E). apply rbind_inv in E as (m & _ & E).
    apply datetime_new_inv in E as (-> & ? & ? & ? & ?). cbn.
    repeat split; try lia.
  - apply rbind_inv in E as (y & _ & E). apply rbind_inv in E as (m & _ & E).
    apply rbind_inv in E as (d & _ & E).
    apply datetime_new_inv in E as (-> & ? & ? & ? & ?). cbn.
    apply Z.eqb_neq in E6. repeat split; try lia.
  - apply rbind_inv in E as (y & _ & E). apply rbind_inv in E as (m & _ & E).
    apply rbind_inv in E as (d & _ & E). apply rbind_inv in E as (b & _ & E).
    apply rbind_inv in E as (h & _ & E).
    apply datetime_new_inv in E as (-> & ? & ? & ? & ?). cbn.
    apply Z.eqb_neq in E6. apply Z.eqb_neq in E12. repeat split; try lia.
Qed.

Lemma decimal_2 a b :
  decimal [a; b] = digit_val a * 10 + digit_val b.
Proof. reflexivity. Qed.

Lemma decimal_4 a b c d :
  decimal [a; b; c; d]
  = digit_val a * 1000 + digit_val b * 100 + digit_val c * 10 + digit_val d.
Proof. unfold decimal. cbn. lia. Qed.

Lemma digits_plain l : digits l -> plain l.
Proof.
  unfold digits, plain. rewrite !forallb_forall. intros H c Hc.
  destruct (digit_parts c (H c Hc)) as (_ & _ & _ & _ & Hs & _).
  apply negb_true_iff. by apply bool_decide_eq_false.
Qed.

Lemma letters_plain l : letters l -> plain l.
Proof.
  unfold letters, plain. rewrite !forallb_forall. intros H c Hc.
  specialize (H c Hc). by apply andb_true_iff in H as [_ H].
Qed.

Lemma letters_nondigits l :
  letters l -> forallb (fun c => negb (Py.is_digit c)) l = true.
Proof.
  unfold letters. rewrite !forallb_forall. intros H c Hc.
  specialize (H c Hc). by apply andb_true_iff in H as [H _].
Qed.

Lemma plain_app l k : plain l -> plain k -> plain (l ++ k).
Proof. unfold plain. rewrite forallb_app. by intros -> ->. Qed.

Lemma plain_no_slash l : plain l -> OS.no_slash (Py.str l) = true.
Proof. unfold plain, OS.no_slash. by rewrite chars_str. Qed.

Lemma get_date_plain_name dir l :
  plain l -> FTP._get_date (dir +:+ "/" +:+ Py.str l)
             = date_or_None (FTP._get_date_try (Py.str l)).
Proof.
  intros Hl. unfold FTP._get_date.
  rewrite basename_loop_last by (by apply plain_no_slash). reflexivity.
Qed.

(** Month directories: six digits *)
Lemma get_date_six_digits dir a b c d e f :
  digits [a; b; c; d; e; f] ->
  FTP._get_date (dir +:+ "/" +:+ Py.str [a; b; c; d; e; f])
  = date_or_None (datetime_new (decimal [a; b; c; d]) (decimal [e; f]) 1 0).
Proof.
  intros Hd. rewrite get_date_plain_name by (by apply digits_plain).
  pose proof Hd as Hd'. unfold digits in Hd'. cbn [forallb] in Hd'.
  repeat (apply andb_true_iff in Hd' as [? Hd']).
  pose proof (get_date_try_datestr [] a [b; c; d; e; f] eq_refl ltac:(assumption))
    as Hx.
  cbv zeta in Hx. cbn [app] in Hx. rewrite Hx. clear Hx.
  change (Py.len (Py.str [a; b; c; d; e; f]) =? 6) with true. cbv iota.
  change (Py.slice (Py.str [a; b; c; d; e; f]) 0 4) with (Py.str [a; b; c; d]).
  change (Py.slice (Py.str [a; b; c; d; e; f]) 4 6) with (Py.str [e; f]).
  rewrite !int_decimal; [reflexivity | | | |]; try discriminate; digits_known.
Qed.

Lemma length_nat_Z (l : list ascii) (n : nat) :
  length l = n -> Py.len (Py.str l) = Z.of_nat n.
Proof. intros <-. unfold Py.len. by rewrite length_str. Qed.

(** Names of twelve characters: the six digits after the leading
    non-digits are read as [YYMMDD] *)
Lemma get_date_twelve dir ls y1 y2 m1 m2 d1 d2 rest :
  letters ls -> digits [y1; y2; m1; m2; d1; d2] -> plain rest ->
  (length ls + length rest = 6)%nat ->
  FTP._get_date (dir +:+ "/" +:+ Py.str (ls ++ [y1; y2; m1; m2; d1; d2] ++ rest))
  = date_or_None (datetime_new (2000 + decimal [y1; y2]) (decimal [m1; m2])
                    (decimal [d1; d2]) 0).
Proof.
  intros Hl Hd Hr Hlen.
  rewrite get_date_plain_name
    by (apply plain_app; [by apply letters_plain
                         | apply plain_app; [by apply digits_plain | exact Hr]]).
  pose proof Hd as Hd'. unfold digits in Hd'. cbn [forallb] in Hd'.
  repeat (apply andb_true_iff in Hd' as [? Hd']).
  cbn [app].
  rewrite (get_date_try_datestr ls y1 (y2 :: m1 :: m2 :: d1 :: d2 :: rest))
    by (by apply letters_nondigits || assumption).
  rewrite (length_nat_Z _ 12)
    by (rewrite length_app; cbn [length]; lia).
  change (Z.of_nat 12 =? 6) with false. change (Z.of_nat 12 =? 12) with true.
  cbv iota.
  replace (Py.slice (Py.str (y1 :: y2 :: m1 :: m2 :: d1 :: d2 :: rest)) 0 2)
    with (Py.str [y1; y2]) by reflexivity.
  replace (Py.slice (Py.str (y1 :: y2 :: m1 :: m2 :: d1 :: d2 :: rest)) 2 4)
    with (Py.str [m1; m2]) by reflexivity.
  replace (Py.slice (Py.str (y1 :: y2 :: m1 :: m2 :: d1 :: d2 :: rest)) 4 6)
    with (Py.str [d1; d2]) by (by destruct rest).
  rewrite !int_decimal; [reflexivity | | | | | |]; try discriminate; digits_known.
Qed.

End RemoteDateProperties.

Section RemoteHour.

Lemma digit_cases c :
  Py.is_digit c = true ->
  In c ["0"; "1"; "2"; "3"; "4"; "5"; "6"; "7"; "8"; "9"]%char.
Proof.
  destruct c as [[] [] [] [] [] [] [] []]; vm_compute; intros H;
    try discriminate H; tauto.
Qed.

Lemma base_prefix_digits h1 h2 :
  Py.is_digit h2 = true -> Py.base_prefix [h1; h2] = None.
Proof.
  intros H2. apply digit_cases in H2. cbn [In] in H2.
  destruct h1 as [[] [] [] [] [] [] [] []]; try reflexivity.
  repeat (destruct H2 as [<- | H2]; [reflexivity|]). contradiction.
Qed.

Lemma int_digits_two B h1 h2 :
  Py.is_digit h1 = true -> Py.is_digit h2 = true ->
  Py.int_digits B false 0 [h1; h2]
  = if (digit_val h1 <? B) && (digit_val h2 <? B)
    then Ok (digit_val h1 * B + digit_val h2)
    else Raise ValueError.
Proof.
  intros H1 H2.
  destruct (digit_parts h1 H1) as (Hu1 & _ & _ & _ & _ & Hv1 & _).
  destruct (digit_parts h2 H2) as (Hu2 & _ & _ & _ & _ & Hv2 & _).
  cbn [Py.int_digits]. rewrite !bool_decide_eq_false_2 by assumption.
  rewrite Hv1, Hv2.
  destruct (digit_val h1 <? B); [|reflexivity].
  destruct (digit_val h2 <? B); reflexivity.
Qed.

Lemma split_sign_digits h l :
  Py.is_digit h = true -> Py.split_sign (h :: l) = (false, h :: l).
Proof.
  intros H. destruct (digit_parts h H) as (_ & _ & Hm & Hp & _).
  cbn [Py.split_sign]. by rewrite !bool_decide_eq_false_2 by assumption.
Qed.

(** [int(s, base)] on two decimal digits, for a [base] other than 0 *)
Lemma int_base_two_digits h1 h2 B :
  Py.is_digit h1 = true -> Py.is_digit h2 = true -> 1 <= B ->
  Py.int_base (Py.str [h1; h2]) B
  = if (B =? 1) || (36 <? B) then Raise ValueError
    else if (digit_val h1 <? B) && (digit_val h2 <? B)
         then Ok (digit_val h1 * B + digit_val h2)
         else Raise ValueError.
Proof.
  intros H1 H2 HB. unfold Py.int_base.
  replace (B =? 0) with false by (symmetry; apply Z.eqb_neq; lia).
  cbn [negb andb].
  replace ((B <? 2) || (36 <? B)) with ((B =? 1) || (36 <? B)).
  2:{ destruct (Z.eqb_spec B 1) as [-> | Hne]; [reflexivity|].
      replace (B <? 2) with false by (symmetry; apply Z.ltb_ge; lia). reflexivity. }
  destruct ((B =? 1) || (36 <? B)); [reflexivity|].
  rewrite chars_str, strip_space_digits by (cbn; by rewrite H1, H2).
  rewrite split_sign_digits by exact H1.
  rewrite base_prefix_digits by exact H2.
  rewrite int_digits_two by assumption.
  destruct ((digit_val h1 <? B) && (digit_val h2 <? B)); reflexivity.
Qed.

(** [int(s, 0)] on two decimal digits: a literal with a leading zero
    must be zero *)
Lemma int_base_zero_two_digits h1 h2 :
  Py.is_digit h1 = true -> Py.is_digit h2 = true ->
  Py.int_base (Py.str [h1; h2]) 0
  = if bool_decide (h1 = "0"%char)
    then (if bool_decide (h2 = "0"%char) then Ok 0 else Raise ValueError)
    else Ok (decimal [h1; h2]).
Proof.
  intros H1 H2. apply digit_cases in H1. apply digit_cases in H2.
  cbn [In] in H1, H2.
  repeat (destruct H1 as [<- | H1]; [|]); try contradiction;
    repeat (destruct H2 as [<- | H2]; [|]); try contradiction; try reflexivity.
Qed.

(** Names of other lengths: the text after the leading non-digits is read
    as [YYMMDD], one character, and then two digits [h1 h2] taken as a
    number written in the base that the next two digits [b1 b2] give *)
Lemma get_date_hour dir ls y1 y2 m1 m2 d1 d2 x h1 h2 b1 b2 rest :
  letters ls -> digits [y1; y2; m1; m2; d1; d2] -> plain [x] ->
  digits [h1; h2; b1; b2] -> plain rest ->
  (length ls + length rest ≠ 1)%nat ->
  FTP._get_date
    (dir +:+ "/"
     +:+ Py.str (ls ++ [y1; y2; m1; m2; d1; d2] ++ [x] ++ [h1; h2; b1; b2] ++ rest))
  = date_or_None
      (do h <- Py.int_base (Py.str [h1; h2]) (decimal [b1; b2]) ;
       datetime_new (2000 + decimal [y1; y2]) (decimal [m1; m2]) (decimal [d1; d2]) h).
Proof.
  intros Hl Hd Hx Hh Hr Hlen.
  rewrite get_date_plain_name.
  2:{ apply plain_app; [by apply letters_plain|].
      apply plain_app; [by apply digits_plain|].
      apply plain_app; [exact Hx|].
      apply plain_app; [by apply digits_plain | exact Hr]. }
  pose proof Hd as Hd'. unfold digits in Hd'. cbn [forallb] in Hd'.
  repeat (apply andb_true_iff in Hd' as [? Hd']).
  pose proof Hh as Hh'. unfold digits in Hh'. cbn [forallb] in Hh'.
  repeat (apply andb_true_iff in Hh' as [? Hh']).
  cbn [app].
  rewrite (get_date_try_datestr ls y1
             (y2 :: m1 :: m2 :: d1 :: d2 :: x :: h1 :: h2 :: b1 :: b2 :: rest))
    by (by apply letters_nondigits || assumption).
  set (datestr := Py.str (y1 :: y2 :: m1 :: m2 :: d1 :: d2 :: x :: h1 :: h2
                             :: b1 :: b2 :: rest)).
  rewrite (length_nat_Z _ (length ls + 11 + length rest))
    by (rewrite length_app; cbn [length]; lia).
  replace (Z.of_nat (length ls + 11 + length rest) =? 6) with false
    by (symmetry; apply Z.eqb_neq; lia).
  replace (Z.of_nat (length ls + 11 + length rest) =? 12) with false
    by (symmetry; apply Z.eqb_neq; lia).
  replace (Py.slice datestr 0 2) with (Py.str [y1; y2]) by reflexivity.
  replace (Py.slice datestr 2 4) with (Py.str [m1; m2]) by reflexivity.
  replace (Py.slice datestr 4 6) with (Py.str [d1; d2]) by reflexivity.
  replace (Py.slice datestr 7 9) with (Py.str [h1; h2]) by reflexivity.
  replace (Py.slice datestr 9 11) with (Py.str [b1; b2]) by (by destruct rest).
  rewrite !int_decimal; [reflexivity | | | | | | | |]; try discriminate; digits_known.
Qed.

End RemoteHour.

(** ** The remote operations *)

Section RemoteOperations.

Context (srv : FTP.Server).
Context (gzip_decompress : list byte -> option (list byte)).
Context (get_header : list byte -> option (list (gmap string pyval))).
Context (strptime : string -> string -> option datetime).

Lemma walk_plain n acc cur :
  OS.no_slash n = true -> FTP.walk srv acc n cur = (Ok (acc +:+ n), cur).
Proof.
  revert acc. induction n as [|c n IH]; intros acc Hn.
  - cbn. by rewrite string_app_nil_r.
  - unfold OS.no_slash in Hn. cbn in Hn. apply andb_true_iff in Hn as [Hc Hn].
    apply negb_true_iff in Hc. cbn [FTP.walk]. rewrite Hc.
    rewrite IH by exact Hn. by rewrite string_app_assoc.
Qed.

Lemma walk_dir d rest acc cur :
  OS.no_slash d = true ->
  FTP.walk srv acc (d +:+ "/" +:+ rest) cur
  = (run_ FTP.cwd srv (acc +:+ d) ; FTP.walk srv "" rest) cur.
Proof.
  revert acc. induction d as [|c d IH]; intros acc Hd.
  - change ("" +:+ "/" +:+ rest) with (String "/" rest). cbn [FTP.walk].
    rewrite bool_decide_eq_true_2 by reflexivity. by rewrite string_app_nil_r.
  - unfold OS.no_slash in Hd. cbn in Hd. apply andb_true_iff in Hd as [Hc Hd].
    apply negb_true_iff in Hc. rewrite string_cons_app. cbn [FTP.walk]. rewrite Hc.
    rewrite IH by exact Hd. by rewrite string_app_assoc.
Qed.

End RemoteOperations.

Section RemoteAssets.

Context (srv : FTP.Server).
Context (gzip_decompress : list byte -> option (list byte)).
Context (get_header : list byte -> option (list (gmap string pyval))).
Context (strptime : string -> string -> option datetime).

Lemma sbind_inv {S A B} (c : St S A) (k : A -> St S B) s b s' :
  sbind c k s = (Ok b, s') -> exists a s1, c s = (Ok a, s1) /\ k a s1 = (Ok b, s').
Proof.
  unfold sbind. destruct (c s) as [[a|e] s1]; [|discriminate].
  intros H. by exists a, s1.
Qed.

Lemma slift_inv {S A} (r : result A) (s : S) a s' :
  slift r s = (Ok a, s') -> r = Ok a /\ s' = s.
Proof. unfold slift. intros H. by injection H as -> ->. Qed.

Lemma leaf_exptime_needs_date h path v :
  FTP.leaf_exptime strptime h path = Ok v -> is_Some (h !! "DATE-OBS").
Proof.
  destruct (h !! "DATE-OBS") as [d|] eqn:E; [by eauto|].
  unfold FTP.leaf_exptime, dict_get. rewrite E. cbn. discriminate.
Qed.

Lemma insert_unless_None_other k v m j :
  j ≠ k -> FTP.insert_unless_None k v m !! j = m !! j.
Proof.
  intros Hne. unfold FTP.insert_unless_None.
  destruct (bool_decide (v = PNone)); [reflexivity|]. by rewrite lookup_insert_ne.
Qed.

Lemma leaf_metadata_inv path md cur m cur' :
  FTP.leaf_metadata srv gzip_decompress get_header strptime path md cur = (Ok m, cur') ->
  m !! "type" = Some (PStr "FITS")
  /\ exists data head h0,
       FTP.get_asset_data srv gzip_decompress path = Ok data
       /\ get_header data = Some head /\ head !! 0%nat = Some h0
       /\ is_Some (h0 !! "NAXIS1") /\ is_Some (h0 !! "NAXIS2")
       /\ is_Some (h0 !! "DATE-OBS") /\ is_Some (h0 !! "SITENAME").
Proof.
  unfold FTP.leaf_metadata. intros H.
  apply sbind_inv in H as (sz & c1 & _ & H).
  apply sbind_inv in H as (data & c2 & Hdata & H). apply slift_inv in Hdata as [Hdata ->].
  apply sbind_inv in H as (head & c3 & Hhead & H). apply slift_inv in Hhead as [Hhead ->].
  apply sbind_inv in H as (h0 & c4 & Hh0 & H). apply slift_inv in Hh0 as [Hh0 ->].
  apply sbind_inv in H as (w & c5 & Hw & H). apply slift_inv in Hw as [Hw ->].
  apply sbind_inv in H as (ht & c6 & Hht & H). apply slift_inv in Hht as [Hht ->].
  apply sbind_inv in H as (ex & c7 & Hex & H). apply slift_inv in Hex as [Hex ->].
  destruct (h0 !! "SITENAME") as [t|] eqn:Et; [|discriminate].
  injection H as <- <-. split.
  - rewrite insert_unless_None_other by discriminate.
    destruct (bool_decide (w = PNone)).
    + rewrite !insert_unless_None_other by discriminate. apply lookup_insert_eq.
    + rewrite !lookup_insert_ne by discriminate.
      rewrite !insert_unless_None_other by discriminate. apply lookup_insert_eq.
  - exists data, head, h0. split; [exact Hdata|].
    split; [by destruct (get_header data); [injection Hhead as -> | discriminate]|].
    split; [by destruct (head !! 0%nat); [injection Hh0 as -> | discriminate]|].
    unfold dict_get in Hw, Hht.
    split; [destruct (h0 !! "NAXIS1"); [by eauto | discriminate]|].
    split; [destruct (h0 !! "NAXIS2"); [by eauto | discriminate]|].
    split; [by eapply leaf_exptime_needs_date | by eauto].
Qed.

Lemma is_collection_cwd path cur0 cur1 :
  FTP.cwd_cmd srv cur0 path = Ok cur1 ->
  FTP.is_collection srv path cur0 = (Ok true, cur1).
Proof. intros H. unfold FTP.is_collection, FTP.cwd. by rewrite H. Qed.

Lemma get_asset_collection path cur0 cur1 :
  FTP.login srv = Ok cur0 -> FTP.cwd_cmd srv cur0 path = Ok cur1 ->
  FTP.get_asset srv gzip_decompress get_header strptime path
  = Ok (mk_asset (FTP.basename_loop "" path) true path
          {[ "time" := FTP.opt_time (FTP._get_date path) ]}).
Proof.
  intros Hl Hc. unfold FTP.get_asset, FTP.with_session. rewrite Hl. cbn [rbind].
  unfold sbind at 1. rewrite (is_collection_cwd _ _ _ Hc). reflexivity.
Qed.

Lemma get_asset_inv p a :
  FTP.get_asset srv gzip_decompress get_header strptime p = Ok a ->
  name a = FTP.basename_loop "" p /\ path a = p
  /\ (collection a = true ->
      metadata a = {[ "time" := FTP.opt_time (FTP._get_date p) ]})
  /\ (collection a = false ->
      metadata a !! "type" = Some (PStr "FITS")
      /\ exists data head h0,
           FTP.get_asset_data srv gzip_decompress p = Ok data
           /\ get_header data = Some head /\ head !! 0%nat = Some h0
           /\ is_Some (h0 !! "NAXIS1") /\ is_Some (h0 !! "NAXIS2")
           /\ is_Some (h0 !! "DATE-OBS") /\ is_Some (h0 !! "SITENAME")).
Proof.
  unfold FTP.get_asset, FTP.with_session. intros H.
  apply rbind_inv in H as (cur0 & _ & H).
  destruct (sbind _ _ cur0) as [[a'|e] cur'] eqn:E; cbn [fst] in H; [|discriminate].
  injection H as ->.
  apply sbind_inv in E as (c & cur1 & _ & E).
  apply sbind_inv in E as (m & cur2 & Hm & E).
  injection E as <- <-. cbn [name path collection metadata].
  split; [reflexivity|]. split; [reflexivity|]. destruct c; cbn [negb] in Hm.
  - split; [|discriminate]. intros _. by injection Hm as <- _.
  - split; [discriminate|]. intros _. by eapply leaf_metadata_inv.
Qed.

Lemma child_asset_shape p f cur a cur' :
  FTP.child_asset srv p f cur = (Ok a, cur') ->
  name a = f /\ path a = "/" +:+ p +:+ "/" +:+ f
  /\ metadata a !! "time" = Some (FTP.opt_time (FTP._get_date (path a)))
  /\ dom (metadata a) = (if collection a then {[ "time" ]} else {[ "time"; "size" ]}).
Proof.
  unfold FTP.child_asset. intros H.
  apply sbind_inv in H as (c & cur1 & _ & H).
  apply sbind_inv in H as (m & cur2 & Hm & H).
  injection H as <- <-. cbn [name path collection metadata].
  split; [reflexivity|]. split; [reflexivity|]. destruct c; cbn [negb] in Hm.
  - injection Hm as <- _. split; [apply lookup_singleton_eq | apply dom_singleton_L].
  - apply sbind_inv in Hm as (sz & cur3 & _ & Hm). injection Hm as <- _.
    split; [by rewrite lookup_insert_ne by discriminate; apply lookup_singleton_eq|].
    rewrite dom_insert_L, dom_singleton_L. set_solver.
Qed.

Lemma for_each_inv {A B} (f : A -> FTP.session B) (P : A -> B -> Prop) l cur ys cur' :
  (forall x c y c', f x c = (Ok y, c') -> P x y) ->
  FTP.for_each f l cur = (Ok ys, cur') -> Forall2 P l ys.
Proof.
  intros Hf. revert cur ys cur'. induction l as [|x l IH]; intros cur ys cur' H.
  - injection H as <- _. constructor.
  - cbn [FTP.for_each] in H.
    apply sbind_inv in H as (y & c1 & Hy & H).
    apply sbind_inv in H as (ys' & c2 & Hys & H).
    injection H as <- _. constructor; [exact (Hf _ _ _ _ Hy) | exact (IH _ _ _ Hys)].
Qed.

Lemma get_child_assets_cwd_fails p cur0 e :
  FTP.login srv = Ok cur0 -> FTP.cwd_cmd srv cur0 p = Raise e ->
  FTP.get_child_assets srv p = Raise AssetNotFoundError.
Proof.
  intros Hl He. unfold FTP.get_child_assets, FTP.with_session. rewrite Hl.
  cbn [rbind]. unfold sbind, reraise_as, FTP.cwd. by rewrite He.
Qed.

Lemma get_child_assets_inv p assets :
  FTP.get_child_assets srv p = Ok assets ->
  (exists cur0 cur1,
     FTP.login srv = Ok cur0 /\ FTP.cwd_cmd srv cur0 p = Ok cur1
     /\ FTP.nlst_cmd srv cur1 None = Ok (map name assets))
  /\ Forall (fun a =>
               path a = "/" +:+ p +:+ "/" +:+ name a
               /\ metadata a !! "time" = Some (FTP.opt_time (FTP._get_date (path a)))
               /\ dom (metadata a)
                  = (if collection a then {[ "time" ]} else {[ "time"; "size" ]}))
       assets.
Proof.
  unfold FTP.get_child_assets, FTP.with_session. intros H.
  apply rbind_inv in H as (cur0 & Hl & H).
  destruct (sbind _ _ cur0) as [[r|e] cur'] eqn:E; cbn [fst] in H; [|discriminate].
  injection H as ->.
  apply sbind_inv in E as ([] & cur1 & Hc & E).
  apply sbind_inv in E as (flist & cur2 & Hn & E).
  unfold FTP.nlst in Hn. injection Hn as Hn <-.
  unfold reraise_as, FTP.cwd in Hc.
  destruct (FTP.cwd_cmd srv cur0 p) as [c|e] eqn:Ec; [|discriminate].
  injection Hc as <-.
  pose proof (for_each_inv (FTP.child_asset srv p)
                (fun f a => name a = f
                            /\ path a = "/" +:+ p +:+ "/" +:+ f
                            /\ metadata a !! "time"
                               = Some (FTP.opt_time (FTP._get_date (path a)))
                            /\ dom (metadata a)
                               = (if collection a then {[ "time" ]}
                                  else {[ "time"; "size" ]}))
                flist c assets cur'
                (fun x c0 y c' Hx => child_asset_shape _ _ _ _ _ Hx) E) as HF.
  split.
  - exists cur0, c. split; [exact Hl|]. split; [exact Ec|]. rewrite Hn. f_equal.
    clear -HF. induction HF as [|f a fl al (Hn & _) _ IH]; [reflexivity|].
    cbn. by rewrite Hn, IH.
  - clear -HF. induction HF as [|f a fl al (Hn & Hp & Ht & Hd) _ IH]; constructor.
    + rewrite Hn. by split.
    + exact IH.
Qed.

End RemoteAssets.

(** ** The root directory of a user *)

Section RootDirectory.

Context (env : Env) (self : LocalDisk.provider).

Lemma makedirs_not_exists now p s :
  s !! p = None -> OS.makedirs now p s ≠ Raise FileExistsError.
Proof.
  intros Hp Em. unfold OS.makedirs, rbind in Em.
  destruct (OS.make_parents now (OS.ancestors p) s) as [s0|e0] eqn:E0.
  2:{ apply make_parents_raises in E0. congruence. }
  unfold OS.mkdir in Em.
  assert (Hn : p ∉ OS.ancestors p).
  { intros Hin. apply ancestors_below, below_length in Hin. lia. }
  unfold OS.lookup in Em. rewrite (make_parents_other _ _ _ _ _ E0 Hn), Hp in Em.
  destruct (s0 !! posixpath.dirname p) as [[|]|]; discriminate.
Qed.

(** What [abs_root] does in per-user mode for a user with an id *)
Lemma abs_root_peruser s :
  LocalDisk.peruser self = true -> truthy (user_id env) = true ->
  let p := posixpath.join
             (posixpath.abspath (cwd env) (expanduser env (LocalDisk.root self)))
             (py_str (user_id env)) in
  LocalDisk.abs_root env self s
  = if OS.exists_ s p then (Ok p, s)
    else match OS.makedirs (now env) p s with
         | Ok s' => (Ok p, s')
         | Raise _ => (Raise FilesystemError, s)
         end.
Proof.
  intros Hper Hid p. unfold LocalDisk.abs_root. rewrite Hper, Hid. fold p.
  rewrite (sbind_ok sget _ s s s eq_refl).
  destruct (OS.exists_ s p) eqn:Ex; cbn [negb]; [reflexivity|].
  unfold sbind, reraise_as, LocalDisk.makedirs_unless_exists.
  destruct (OS.makedirs (now env) p s) as [s'|e] eqn:Em; [reflexivity|].
  destruct (bool_decide (e = FileExistsError)) eqn:Eb; [|reflexivity].
  apply bool_decide_eq_true in Eb. subst e. exfalso.
  apply (makedirs_not_exists (now env) p s); [|exact Em].
  unfold OS.exists_, OS.lookup in Ex. by destruct (s !! p).
Qed.

Lemma abs_root_shared s :
  LocalDisk.peruser self = false \/ truthy (user_id env) = false ->
  LocalDisk.abs_root env self s
  = (Ok (posixpath.abspath (cwd env) (expanduser env (LocalDisk.root self))), s).
Proof.
  intros H. unfold LocalDisk.abs_root.
  destruct (LocalDisk.peruser self); [|reflexivity].
  destruct H as [H | ->]; [discriminate | reflexivity].
Qed.

(** A root that [abs_root] returns without touching the store is
    returned again on every store that holds the same node there *)
Lemma abs_root_agree s root s' :
  LocalDisk.abs_root env self s = (Ok root, s) ->
  s' !! root = s !! root ->
  LocalDisk.abs_root env self s' = (Ok root, s').
Proof.
  intros H Hr.
  destruct (LocalDisk.peruser self) eqn:Hper;
    [destruct (truthy (user_id env)) eqn:Hid|].
  - rewrite abs_root_peruser in * by assumption. cbv zeta in *.
    set (p := posixpath.join _ _) in *.
    destruct (OS.exists_ s p) eqn:Ex.
    + injection H as <-. unfold OS.exists_, OS.lookup in *. rewrite Hr.
      by destruct (s !! p).
    + exfalso. destruct (OS.makedirs (now env) p s) as [s1|e] eqn:Em; [|discriminate].
      injection H as <- ->. apply makedirs_isdir in Em.
      unfold OS.exists_ in Ex. unfold OS.isdir in Em.
      destruct (OS.lookup s p); discriminate.
  - rewrite abs_root_shared in * by (by right). by injection H as <-.
  - rewrite abs_root_shared in * by (by left). by injection H as <-.
Qed.

End RootDirectory.

Lemma abs_root_workspace_facts (env : Env) (self : LocalDisk.provider) (s : store) :
  LocalDisk.peruser self = true -> truthy (user_id env) = true ->
  let p := posixpath.join
             (posixpath.abspath (cwd env) (expanduser env (LocalDisk.root self)))
             (py_str (user_id env)) in
  (exists s',
     LocalDisk.abs_root env self s = (Ok p, s')
     /\ OS.exists_ s' p = true
     /\ (s !! p = None -> OS.isdir s' p = true)
     /\ (OS.exists_ s p = true -> s' = s)
     /\ extends s s'
     /\ LocalDisk.abs_root env self s' = (Ok p, s'))
  \/ (LocalDisk.abs_root env self s = (Raise FilesystemError, s)
      /\ s !! p = None).
Proof.
  intros Hper Hid p.
  pose proof (abs_root_peruser env self s Hper Hid) as H. cbv zeta in H. fold p in H.
  destruct (OS.exists_ s p) eqn:Ex.
  - left. exists s. split; [exact H|]. split; [exact Ex|].
    split; [intros Hn; unfold OS.exists_, OS.lookup in Ex; by rewrite Hn in Ex|].
    split; [done|]. split; [apply extends_refl|].
    pose proof (abs_root_peruser env self s Hper Hid) as H'. cbv zeta in H'.
    fold p in H'. by rewrite Ex in H'.
  - destruct (OS.makedirs (now env) p s) as [s'|e] eqn:Em.
    + left. exists s'. split; [exact H|].
      pose proof (makedirs_isdir _ _ _ _ Em) as Hd.
      assert (Hex : OS.exists_ s' p = true) by (by apply isdir_exists).
      split; [exact Hex|]. split; [done|]. split; [discriminate|].
      split; [by eapply makedirs_extends|].
      pose proof (abs_root_peruser env self s' Hper Hid) as H'. cbv zeta in H'.
      fold p in H'. by rewrite Hex in H'.
    + right. split; [exact H|]. unfold OS.exists_, OS.lookup in Ex.
      by destruct (s !! p).
Qed.

(** ** Reading the data of an asset *)

Section ReadingData.

Context (L : Libs) (env : Env) (self : LocalDisk.provider).

Lemma until_dot_app l rest :
  forallb (fun c => negb (bool_decide (c = Py.dot))) l = true ->
  posixpath.until_dot (l ++ Py.dot :: rest) = l ++ [Py.dot].
Proof.
  induction l as [|c l IH]; intros Hl.
  - cbn. by rewrite bool_decide_eq_true_2.
  - cbn in Hl. apply andb_true_iff in Hl as [Hc Hl]. apply negb_true_iff in Hc.
    cbn [app posixpath.until_dot]. rewrite Hc. by rewrite IH.
Qed.

(** The extension of a name [stem.e] whose stem is not made of dots only *)
Lemma splitext_ext_suffix d stem e :
  OS.no_slash (stem +:+ "." +:+ e) = true ->
  forallb (fun c => negb (bool_decide (c = Py.dot))) (Py.chars e) = true ->
  forallb (fun c => bool_decide (c = Py.dot)) (Py.chars stem) = false ->
  posixpath.splitext_ext (d +:+ "/" +:+ stem +:+ "." +:+ e) = "." +:+ e.
Proof.
  intros Hn He Hs. unfold posixpath.splitext_ext.
  rewrite basename_entry by exact Hn.
  assert (Hc : Py.chars (stem +:+ "." +:+ e) = Py.chars stem ++ Py.dot :: Py.chars e).
  { by rewrite !chars_app. }
  rewrite Hc.
  rewrite bool_decide_eq_true_2
    by (apply elem_of_app; right; apply list_elem_of_here).
  rewrite rev_app_distr. cbn [rev]. rewrite <- app_assoc. cbn [app].
  rewrite until_dot_app.
  2:{ rewrite forallb_forall in *. intros x Hx. apply He. by apply in_rev. }
  rewrite rev_app_distr, rev_involutive. cbn [rev app].
  rewrite length_app. cbn [length].
  replace (length (Py.chars stem) + S (length (Py.chars e)) - S (length (Py.chars e)))%nat
    with (length (Py.chars stem)) by lia.
  rewrite firstn_app, Nat.sub_diag, firstn_all. cbn [firstn]. rewrite app_nil_r, Hs.
  change (Py.str (Py.dot :: Py.chars e)) with (String Py.dot (Py.str (Py.chars e))).
  by rewrite str_chars.
Qed.

Lemma get_asset_data_outcome s root p filename :
  LocalDisk.abs_root env self s = (Ok root, s) ->
  LocalDisk._path_to_filename_in env root p = Ok filename ->
  LocalDisk.get_asset_data L env self p s
  = (if OS.isfile s filename
     then match LocalDisk.read_asset_data L s filename with
          | Ok data => Ok data
          | Raise _ => Raise FilesystemError
          end
     else Raise AssetNotFoundError, s).
Proof.
  intros Hroot Hres. unfold LocalDisk.get_asset_data.
  rewrite (sbind_ok _ _ s filename s)
    by (by rewrite (path_to_filename_ready env self s root), Hres).
  rewrite (sbind_ok sget _ s s s eq_refl).
  destruct (OS.isfile s filename); cbn [negb]; [|reflexivity].
  unfold reraise_as, slift.
  by destruct (LocalDisk.read_asset_data L s filename).
Qed.

Lemma get_asset_data_compressed s root p d stem e data t :
  LocalDisk.abs_root env self s = (Ok root, s) ->
  LocalDisk._path_to_filename_in env root p = Ok (d +:+ "/" +:+ stem +:+ "." +:+ e) ->
  OS.no_slash stem = true ->
  forallb (fun c => bool_decide (c = Py.dot)) (Py.chars stem) = false ->
  e = "gz" \/ e = "bz2" ->
  s !! (d +:+ "/" +:+ stem +:+ "." +:+ e) = Some (File data t) ->
  LocalDisk.get_asset_data L env self p s
  = (match (if bool_decide (e = "gz") then gzip_read L else bz2_read L) data with
     | Some x => Ok x
     | None => Raise FilesystemError
     end, s).
Proof.
  intros Hroot Hres Hn Hs He Hf.
  rewrite (get_asset_data_outcome s root p _ Hroot Hres).
  unfold OS.isfile, OS.lookup. rewrite Hf. unfold LocalDisk.read_asset_data.
  assert (Hext : posixpath.splitext_ext (d +:+ "/" +:+ stem +:+ "." +:+ e) = "." +:+ e).
  { apply splitext_ext_suffix; [|by destruct He as [-> | ->] | exact Hs].
    unfold OS.no_slash in *. rewrite !chars_app, !forallb_app, Hn.
    by destruct He as [-> | ->]. }
  rewrite Hext. unfold OS.read_file, OS.lookup. rewrite Hf. cbn [rbind].
  destruct He as [-> | ->].
  - rewrite !bool_decide_eq_true_2 by reflexivity. by destruct (gzip_read L data).
  - rewrite (bool_decide_eq_false_2 ("." +:+ "bz2" = ".gz")) by discriminate.
    rewrite bool_decide_eq_true_2 by reflexivity.
    rewrite bool_decide_eq_false_2 by discriminate. by destruct (bz2_read L data).
Qed.

End ReadingData.

(** ** Deleting an asset *)

Section Deleting.

Context (L : Libs) (env : Env) (self : LocalDisk.provider).

Lemma delete_asset_outcome s root p filename :
  LocalDisk.abs_root env self s = (Ok root, s) ->
  LocalDisk._path_to_filename_in env root p = Ok filename ->
  LocalDisk.delete_asset env self p s
  = match s !! filename with
    | None => (Raise AssetNotFoundError, s)
    | Some (Dir _) => (Ok tt, removed filename s)
    | Some (File _ _) => (Ok tt, delete filename s)
    end.
Proof.
  intros Hroot Hres. unfold LocalDisk.delete_asset.
  rewrite (sbind_ok _ _ s filename s)
    by (by rewrite (path_to_filename_ready env self s root), Hres).
  rewrite (sbind_ok sget _ s s s eq_refl).
  unfold OS.exists_, OS.isdir, OS.lookup.
  destruct (s !! filename) as [[data t|t]|] eqn:E; cbn [negb]; [| |reflexivity].
  - apply reraise_as_ok, syscall_ok. unfold OS.unlink, OS.lookup. by rewrite E.
  - apply reraise_as_ok, syscall_ok. apply rmtree_removed.
    unfold OS.isdir, OS.lookup. by rewrite E.
Qed.

Lemma root_not_below root filename :
  Py.startswith filename root = true -> OS.below filename root = false.
Proof.
  intros H. apply below_shorter. by apply prefix_length.
Qed.

Lemma get_asset_missing s root p filename :
  LocalDisk.abs_root env self s = (Ok root, s) ->
  LocalDisk._path_to_filename_in env root p = Ok filename ->
  s !! filename = None ->
  LocalDisk.get_asset L env self p s = (Raise AssetNotFoundError, s).
Proof.
  intros Hroot Hres Hn. unfold LocalDisk.get_asset.
  rewrite (sbind_ok _ _ s filename s)
    by (by rewrite (path_to_filename_ready env self s root), Hres).
  rewrite (sbind_ok sget _ s s s eq_refl).
  unfold OS.exists_, OS.lookup. by rewrite Hn.
Qed.

Lemma delete_asset_facts s root p filename nd :
  LocalDisk.abs_root env self s = (Ok root, s) ->
  LocalDisk._path_to_filename_in env root p = Ok filename ->
  s !! filename = Some nd ->
  exists s',
    LocalDisk.delete_asset env self p s = (Ok tt, s')
    /\ s' !! filename = None
    /\ (OS.isdir s filename = true ->
        forall k, OS.below filename k = true -> s' !! k = None)
    /\ (forall k, k ≠ filename -> OS.below filename k = false -> s' !! k = s !! k)
    /\ (filename ≠ root ->
        LocalDisk.get_asset L env self p s' = (Raise AssetNotFoundError, s')
        /\ LocalDisk.delete_asset env self p s' = (Raise AssetNotFoundError, s')).
Proof.
  intros Hroot Hres Hnd.
  pose proof (delete_asset_outcome s root p filename Hroot Hres) as Hd.
  rewrite Hnd in Hd.
  pose proof (path_to_filename_prefix _ _ _ _ Hres) as Hpre.
  assert (Hfin : forall s',
    s' !! filename = None ->
    (forall k, k ≠ filename -> OS.below filename k = false -> s' !! k = s !! k) ->
    filename ≠ root ->
    LocalDisk.get_asset L env self p s' = (Raise AssetNotFoundError, s')
    /\ LocalDisk.delete_asset env self p s' = (Raise AssetNotFoundError, s')).
  { intros s' Hgone Hother Hne.
    assert (Hroot' : LocalDisk.abs_root env self s' = (Ok root, s')).
    { apply (abs_root_agree env self s root s' Hroot).
      apply Hother; [congruence | by apply root_not_below]. }
    split; [by eapply get_asset_missing|].
    by rewrite (delete_asset_outcome s' root p filename Hroot' Hres), Hgone. }
  destruct nd as [data t|t].
  - exists (delete filename s). split; [exact Hd|].
    assert (Hgone : delete filename s !! filename = None) by apply lookup_delete_eq.
    assert (Hother : forall k, k ≠ filename -> OS.below filename k = false ->
                               delete filename s !! k = s !! k).
    { intros k Hk _. by apply lookup_delete_ne. }
    split; [exact Hgone|]. split.
    { unfold OS.isdir, OS.lookup. rewrite Hnd. discriminate. }
    split; [exact Hother|]. by apply Hfin.
  - exists (removed filename s). split; [exact Hd|].
    assert (Hgone : removed filename s !! filename = None)
      by (apply removed_gone; by left).
    assert (Hother : forall k, k ≠ filename -> OS.below filename k = false ->
                               removed filename s !! k = s !! k)
      by (intros k; apply removed_other).
    split; [exact Hgone|]. split.
    { intros _ k Hk. apply removed_gone. by right. }
    split; [exact Hother|]. by apply Hfin.
Qed.

End Deleting.

(** ** Paths that stay inside the root *)

Section Inside.

Lemma prefix_slash c s : String.prefix "/" (String c s) = bool_decide (c = Py.slash).
Proof.
  cbn [String.prefix]. destruct (ascii_dec "/" c) as [<- | Hne].
  - rewrite bool_decide_eq_true_2 by reflexivity. by destruct s.
  - rewrite bool_decide_eq_false_2; [reflexivity | intros ->; by apply Hne].
Qed.

Lemma split_go_slash_app a b acc :
  Py.split_go "/" 0 acc (a +:+ "/" +:+ b)
  = Py.split_go "/" 0 acc a ++ Py.split_go "/" 0 [] b.
Proof.
  revert acc. induction a as [|c a IH]; intros acc.
  - change ("" +:+ "/" +:+ b) with (String "/" b). cbn [Py.split_go].
    rewrite prefix_slash, bool_decide_eq_true_2 by reflexivity. reflexivity.
  - rewrite string_cons_app. cbn [Py.split_go]. rewrite !prefix_slash.
    destruct (bool_decide (c = Py.slash)).
    + cbn [String.length Nat.sub]. by rewrite IH.
    + apply IH.
Qed.

Lemma split_slash_app a b :
  Py.split (a +:+ "/" +:+ b) "/" = Py.split a "/" ++ Py.split b "/".
Proof. apply split_go_slash_app. Qed.

Lemma split_go_plain c acc :
  OS.no_slash c = true ->
  Py.split_go "/" 0 acc c = [Py.str (rev acc) +:+ c].
Proof.
  revert acc. induction c as [|x c IH]; intros acc Hc.
  - cbn. by rewrite string_app_nil_r.
  - unfold OS.no_slash in Hc. cbn in Hc. apply andb_true_iff in Hc as [Hx Hc].
    apply negb_true_iff in Hx. cbn [Py.split_go]. rewrite prefix_slash, Hx.
    rewrite IH by exact Hc. cbn [rev]. rewrite str_app, string_app_assoc.
    reflexivity.
Qed.

Lemma split_plain c : OS.no_slash c = true -> Py.split c "/" = [c].
Proof. intros Hc. unfold Py.split. by rewrite split_go_plain. Qed.

Lemma join_cons x l :
  l ≠ [] -> Py.join "/" (x :: l) = x +:+ "/" +:+ Py.join "/" l.
Proof. destruct l; [congruence | reflexivity]. Qed.

Lemma split_join l :
  Forall (fun c => OS.no_slash c = true) l -> l ≠ [] ->
  Py.split (Py.join "/" l) "/" = l.
Proof.
  induction l as [|x l IH]; intros Hl Hne; [congruence|].
  apply Forall_cons in Hl as [Hx Hl]. destruct l as [|y l].
  - by apply split_plain.
  - rewrite join_cons by discriminate. rewrite split_slash_app.
    rewrite split_plain by exact Hx. by rewrite IH.
Qed.

Lemma join_app l k :
  l ≠ [] -> k ≠ [] ->
  Py.join "/" (l ++ k) = Py.join "/" l +:+ "/" +:+ Py.join "/" k.
Proof.
  intros Hl Hk. induction l as [|x l IH]; [congruence|].
  destruct l as [|y l].
  - cbn [app]. by rewrite join_cons.
  - change ((x :: y :: l) ++ k) with (x :: ((y :: l) ++ k)).
    rewrite !join_cons by (discriminate || (destruct l; discriminate)).
    rewrite IH by discriminate. by rewrite !string_app_assoc.
Qed.

(** The pieces of a split hold no separator *)
Lemma split_go_pieces s acc x :
  forallb (fun c => negb (bool_decide (c = Py.slash))) acc = true ->
  x ∈ Py.split_go "/" 0 acc s -> OS.no_slash x = true.
Proof.
  revert acc. induction s as [|c s IH]; intros acc Ha Hx.
  - cbn in Hx. apply list_elem_of_singleton in Hx as ->.
    unfold OS.no_slash. rewrite chars_str. rewrite forallb_forall in *.
    intros y Hy. apply Ha. by apply in_rev.
  - cbn [Py.split_go] in Hx. rewrite prefix_slash in Hx.
    destruct (bool_decide (c = Py.slash)) eqn:Ec.
    + apply elem_of_cons in Hx as [-> | Hx].
      * unfold OS.no_slash. rewrite chars_str. rewrite forallb_forall in *.
        intros y Hy. apply Ha. by apply in_rev.
      * by apply (IH []).
    + apply (IH (c :: acc)); [|exact Hx]. cbn. by rewrite Ec.
Qed.

Lemma split_pieces s x : x ∈ Py.split s "/" -> OS.no_slash x = true.
Proof. by apply split_go_pieces. Qed.

End Inside.

Section Normalizing.

Lemma proper_keeps l :
  Forall proper l -> filter (fun c => c ≠ "" /\ c ≠ ".") l = l /\ ".." ∉ l.
Proof.
  induction 1 as [|c l (H1 & H2 & H3 & _) _ [IH1 IH2]].
  - split; [reflexivity | apply not_elem_of_nil].
  - split.
    + rewrite filter_cons_True by done. by rewrite IH1.
    + apply not_elem_of_cons. split; [congruence | exact IH2].
Qed.

(** The loop of [normpath] over components none of which is [..] *)
Lemma normpath_fold init l stack :
  ".." ∉ l ->
  fold_left (posixpath.normpath_step init) l stack
  = rev (filter (fun c => c ≠ "" /\ c ≠ ".") l) ++ stack.
Proof.
  revert stack. induction l as [|c l IH]; intros stack Hl; [reflexivity|].
  apply not_elem_of_cons in Hl as [Hc Hl]. cbn [fold_left].
  rewrite IH by exact Hl. unfold posixpath.normpath_step.
  destruct (decide (c = "")) as [-> | Hce].
  { rewrite bool_decide_eq_true_2 by reflexivity. cbn [orb].
    rewrite filter_cons_False by (intros [? _]; congruence). reflexivity. }
  destruct (decide (c = ".")) as [-> | Hcd].
  { rewrite (bool_decide_eq_true_2 ("." = ".")) by reflexivity. rewrite orb_true_r.
    rewrite filter_cons_False by (intros [_ ?]; congruence). reflexivity. }
  rewrite !bool_decide_eq_false_2 by congruence. cbn [orb negb].
  rewrite filter_cons_True by done. cbn [rev]. by rewrite <- app_assoc.
Qed.

Lemma slashes_S k x :
  Py.str (repeat Py.slash (S k)) +:+ x = "" +:+ "/" +:+ (Py.str (repeat Py.slash k) +:+ x).
Proof. reflexivity. Qed.

Lemma split_slashes k x :
  Py.split (Py.str (repeat Py.slash k) +:+ x) "/" = repeat "" k ++ Py.split x "/".
Proof.
  induction k as [|k IH]; [reflexivity|].
  rewrite slashes_S, split_slash_app, IH. reflexivity.
Qed.

Lemma last_chars_app a c :
  c ≠ "" -> last (Py.chars (a +:+ c)) = last (Py.chars c).
Proof.
  intros Hc. rewrite chars_app. destruct (Py.chars c) as [|x l] eqn:E.
  - exfalso. apply Hc. apply chars_inj. by rewrite E.
  - clear E. revert x. induction l as [|y l IH] using rev_ind; intros x.
    + by rewrite last_snoc.
    + rewrite app_comm_cons, app_assoc, !last_snoc. reflexivity.
Qed.

Lemma endswith_plain c :
  c ≠ "" -> OS.no_slash c = true -> Py.endswith_char c Py.slash = false.
Proof.
  intros Hc Hn. unfold Py.endswith_char.
  destruct (last (Py.chars c)) as [x|] eqn:E; [|reflexivity].
  apply bool_decide_eq_false. intros ->.
  apply last_Some in E as [l' E]. unfold OS.no_slash in Hn. rewrite E in Hn.
  rewrite forallb_app in Hn. apply andb_true_iff in Hn as [_ Hn]. cbn in Hn.
  by rewrite bool_decide_eq_true_2 in Hn.
Qed.

Lemma join_last l :
  l ≠ [] -> exists pre c, c ∈ l /\ Py.join "/" l = pre +:+ c.
Proof.
  induction l as [|x l IH]; intros Hne; [congruence|]. destruct l as [|y l].
  - exists "", x. split; [apply list_elem_of_here | reflexivity].
  - destruct IH as (pre & c & Hc & E); [discriminate|].
    exists (x +:+ "/" +:+ pre), c. split; [by apply list_elem_of_further|].
    rewrite join_cons by discriminate. rewrite E. by rewrite !string_app_assoc.
Qed.

Lemma endswith_absolute k cs :
  Forall proper cs -> cs ≠ [] ->
  Py.endswith_char (absolute k cs) Py.slash = false.
Proof.
  intros Hcs Hne. destruct (join_last cs Hne) as (pre & c & Hc & E).
  rewrite Forall_forall in Hcs. destruct (Hcs c Hc) as (Hce & _ & _ & Hn).
  unfold absolute. rewrite E, <- string_app_assoc.
  unfold Py.endswith_char. rewrite last_chars_app by exact Hce.
  by apply endswith_plain.
Qed.

Lemma startswith_cons_false c s :
  c ≠ Py.slash -> Py.startswith (String c s) "/" = false.
Proof.
  intros Hc. unfold Py.startswith. rewrite prefix_slash.
  by apply bool_decide_eq_false.
Qed.

Lemma plain_not_absolute c x :
  c ≠ "" -> OS.no_slash c = true -> Py.startswith (c +:+ x) "/" = false.
Proof.
  intros Hc Hn. destruct c as [|a c]; [congruence|].
  rewrite string_cons_app. apply startswith_cons_false.
  unfold OS.no_slash in Hn. cbn in Hn. apply andb_true_iff in Hn as [Ha _].
  apply negb_true_iff in Ha. by apply bool_decide_eq_false in Ha.
Qed.

Lemma join_not_absolute cs x :
  Forall proper cs -> cs ≠ [] -> Py.startswith (Py.join "/" cs +:+ x) "/" = false.
Proof.
  intros Hcs Hne. destruct cs as [|c cs]; [congruence|].
  apply Forall_cons in Hcs as [(Hce & _ & _ & Hn) _].
  destruct cs as [|c' cs].
  - by apply plain_not_absolute.
  - rewrite join_cons by discriminate. rewrite string_app_assoc.
    by apply plain_not_absolute.
Qed.

(** [normpath] keeps the leading separators of a name that has one or
    two of them *)
Lemma normpath_slashes k x :
  (k = 1 \/ k = 2)%nat -> Py.startswith x "/" = false ->
  posixpath.normpath (Py.str (repeat Py.slash k) +:+ x)
  = let comps := fold_left (posixpath.normpath_step (Z.of_nat k))
                   (Py.split (Py.str (repeat Py.slash k) +:+ x) "/") [] in
    Py.str (repeat Py.slash k) +:+ Py.join "/" (rev comps).
Proof.
  intros Hk Hx. unfold posixpath.normpath.
  assert (Hx' : forall y, String.prefix "/" x = false -> x = y -> String.prefix "/" y = false)
    by (by intros y ? <-).
  destruct Hk as [-> | ->].
  - change (Py.str (repeat Py.slash 1) +:+ x) with (String "/" x).
    rewrite bool_decide_eq_false_2 by discriminate.
    replace (Py.startswith (String "/" x) "/") with true by (by destruct x).
    replace (Py.startswith (String "/" x) "//") with false
      by (symmetry; exact Hx).
    cbn [andb]. cbv zeta. change (Z.to_nat 1) with 1%nat. change (Z.of_nat 1) with 1.
    by rewrite bool_decide_eq_false_2 by discriminate.
  - change (Py.str (repeat Py.slash 2) +:+ x) with (String "/" (String "/" x)).
    rewrite bool_decide_eq_false_2 by discriminate.
    replace (Py.startswith (String "/" (String "/" x)) "/") with true by reflexivity.
    replace (Py.startswith (String "/" (String "/" x)) "//") with true
      by (by destruct x).
    replace (Py.startswith (String "/" (String "/" x)) "///") with false
      by (symmetry; exact Hx).
    cbn [andb negb]. cbv zeta. change (Z.to_nat 2) with 2%nat.
    change (Z.of_nat 2) with 2.
    by rewrite bool_decide_eq_false_2 by discriminate.
Qed.

End Normalizing.

Section Resolving.

Lemma lstrip_chars_head c l :
  match Py.lstrip_chars c l with
  | x :: _ => x ≠ c
  | [] => True
  end.
Proof.
  induction l as [|a l IH]; [exact I|]. cbn [Py.lstrip_chars].
  destruct (bool_decide (a = c)) eqn:E; [exact IH|].
  by apply bool_decide_eq_false in E.
Qed.

Lemma strip_not_absolute p : Py.startswith (Py.strip Py.slash p) "/" = false.
Proof.
  unfold Py.strip. set (q := Py.lstrip Py.slash p).
  destruct (rstrip_prefix Py.slash q) as [r Hr].
  destruct (Py.rstrip Py.slash q) as [|x t] eqn:E; [reflexivity|].
  apply startswith_cons_false. intros ->.
  unfold q, Py.lstrip in Hr.
  pose proof (lstrip_chars_head Py.slash (Py.chars p)) as Hh.
  destruct (Py.lstrip_chars Py.slash (Py.chars p)) as [|y l]; [discriminate|].
  cbn in Hr. injection Hr as -> _. by apply Hh.
Qed.

Lemma prefix_refl s : String.prefix s s = true.
Proof. rewrite <- (string_app_nil_r s) at 2. apply prefix_app. Qed.

Lemma absolute_prefix k cs l :
  String.prefix (absolute k cs) (absolute k (cs ++ l)) = true.
Proof.
  unfold absolute. destruct l as [|x l]; [rewrite app_nil_r; apply prefix_refl|].
  destruct cs as [|c cs].
  - cbn [app Py.join]. rewrite string_app_nil_r. apply prefix_app.
  - rewrite join_app by discriminate. rewrite <- string_app_assoc. apply prefix_app.
Qed.

Lemma filter_repeat_empty k :
  filter (fun c => c ≠ "" /\ c ≠ ".") (repeat "" k) = [].
Proof.
  induction k as [|k IH]; [reflexivity|]. cbn [repeat].
  by rewrite filter_cons_False by (intros [? _]; congruence).
Qed.

Lemma not_elem_of_repeat_empty k : ".." ∉ repeat "" k.
Proof.
  induction k as [|k IH]; [apply not_elem_of_nil|]. cbn [repeat].
  apply not_elem_of_cons. split; [discriminate | exact IH].
Qed.

Lemma endswith_slashes k :
  (k = 1 \/ k = 2)%nat -> Py.endswith_char (Py.str (repeat Py.slash k)) Py.slash = true.
Proof. by intros [-> | ->]. Qed.

(** The name that [join] and [abspath] make of a canonical root and a
    relative path with no [..] component *)
Lemma resolve_inside cwd k cs p' :
  (k = 1 \/ k = 2)%nat -> Forall proper cs ->
  Py.startswith p' "/" = false -> ".." ∉ Py.split p' "/" ->
  posixpath.abspath cwd (posixpath.join (absolute k cs) p')
  = absolute k (cs ++ filter (fun c => c ≠ "" /\ c ≠ ".") (Py.split p' "/")).
Proof.
  intros Hk Hcs Hp Hdd.
  assert (HJ : exists x,
    posixpath.join (absolute k cs) p' = Py.str (repeat Py.slash k) +:+ x
    /\ Py.startswith x "/" = false
    /\ Py.split x "/" = cs ++ Py.split p' "/").
  { unfold posixpath.join. rewrite Hp. destruct cs as [|c cs].
    - exists p'. unfold absolute. cbn [Py.join]. rewrite string_app_nil_r.
      rewrite (endswith_slashes k Hk), orb_true_r. done.
    - exists (Py.join "/" (c :: cs) +:+ "/" +:+ p').
      rewrite endswith_absolute by (assumption || discriminate).
      rewrite bool_decide_eq_false_2.
      2:{ unfold absolute. destruct Hk as [-> | ->]; discriminate. }
      cbn [orb]. split; [unfold absolute; by rewrite string_app_assoc|].
      split; [apply join_not_absolute; [assumption | discriminate]|].
      rewrite split_slash_app, split_join; [reflexivity | | discriminate].
      eapply Forall_impl; [exact Hcs|]. by intros ? (_ & _ & _ & ?). }
  destruct HJ as (x & -> & Hx & Hsplit).
  unfold posixpath.abspath.
  replace (Py.startswith (Py.str (repeat Py.slash k) +:+ x) "/") with true
    by (destruct Hk as [-> | ->]; by destruct x).
  rewrite (normpath_slashes k x Hk Hx). cbv zeta.
  rewrite split_slashes, Hsplit.
  destruct (proper_keeps cs Hcs) as [Hkeep Hnd].
  rewrite normpath_fold.
  2:{ rewrite !not_elem_of_app. split; [apply not_elem_of_repeat_empty|]. by split. }
  rewrite !filter_app, filter_repeat_empty, Hkeep. cbn [app].
  by rewrite app_nil_r, rev_involutive.
Qed.

Lemma path_to_filename_inside env k cs p :
  (k = 1 \/ k = 2)%nat -> Forall proper cs ->
  ".." ∉ Py.split (Py.strip Py.slash p) "/" ->
  LocalDisk._path_to_filename_in env (absolute k cs) p
  = Ok (absolute k (cs ++ kept p)).
Proof.
  intros Hk Hcs Hdd. unfold LocalDisk._path_to_filename_in.
  rewrite (resolve_inside (cwd env) k cs _ Hk Hcs (strip_not_absolute p) Hdd).
  fold (kept p). unfold Py.startswith. by rewrite absolute_prefix.
Qed.

End Resolving.

(** ** Creating a collection *)

Section CreatingCollections.

Context (L : Libs) (env : Env) (self : LocalDisk.provider).

Lemma slash_prefixes_app seen l1 l2 :
  OS.slash_prefixes seen (l1 ++ l2)
  = OS.slash_prefixes seen l1 ++ OS.slash_prefixes (rev l1 ++ seen) l2.
Proof.
  revert seen. induction l1 as [|c l1 IH]; intros seen.
  - cbn. reflexivity.
  - cbn [app OS.slash_prefixes rev]. rewrite IH, <- !app_assoc. reflexivity.
Qed.

Lemma slash_prefixes_plain seen l :
  forallb (fun c => negb (bool_decide (c = Py.slash))) l = true ->
  OS.slash_prefixes seen l = [].
Proof.
  revert seen. induction l as [|c l IH]; intros seen Hl; [reflexivity|].
  cbn in Hl. apply andb_true_iff in Hl as [Hc Hl]. apply negb_true_iff in Hc.
  cbn [OS.slash_prefixes]. rewrite Hc. cbn [app]. by apply IH.
Qed.

Lemma ancestors_entry d n :
  d ≠ "" -> OS.no_slash n = true ->
  OS.ancestors (d +:+ "/" +:+ n) = OS.ancestors d ++ [d].
Proof.
  intros Hd Hn. unfold OS.ancestors.
  rewrite !chars_app, slash_prefixes_app, filter_app. f_equal.
  change (Py.chars "/" ++ Py.chars n) with (Py.slash :: Py.chars n).
  cbn [OS.slash_prefixes]. rewrite bool_decide_eq_true_2 by reflexivity.
  rewrite slash_prefixes_plain by exact Hn.
  rewrite app_nil_r, rev_app_distr, rev_involutive. cbn [rev app].
  rewrite str_chars. by rewrite filter_cons_True, filter_nil.
Qed.

Lemma make_parents_isdir now l s s' :
  OS.make_parents now l s = Ok s' -> Forall (fun a => OS.isdir s' a = true) l.
Proof.
  revert s. induction l as [|a l IH]; intros s H; [constructor|].
  cbn [OS.make_parents] in H. unfold OS.lookup in H.
  assert (Hkeep : forall s0 s1, OS.make_parents now l s0 = Ok s1 ->
                                OS.isdir s0 a = true -> OS.isdir s1 a = true).
  { intros s0 s1 H01 Ha. pose proof (make_parents_extends _ _ _ _ H01) as He.
    unfold OS.isdir, OS.lookup in *.
    destruct (s0 !! a) as [[|t]|] eqn:E0; try discriminate.
    clear IH H He. revert s0 s1 H01 t E0.
    induction l as [|b l IHl]; intros s0 s1 H01 t E0.
    - injection H01 as <-. by rewrite E0.
    - cbn [OS.make_parents] in H01. unfold OS.lookup in H01.
      destruct (s0 !! b) as [[|tb]|] eqn:Eb; try discriminate.
      + by eapply IHl.
      + eapply (IHl _ _ H01 t). rewrite lookup_insert_ne; [exact E0|].
        intros ->. congruence. }
  destruct (s !! a) as [[|t]|] eqn:Ea; try discriminate.
  - constructor; [|by eapply IH]. eapply Hkeep; [exact H|].
    unfold OS.isdir, OS.lookup. by rewrite Ea.
  - constructor; [|by eapply IH]. eapply Hkeep; [exact H|].
    unfold OS.isdir, OS.lookup. by rewrite lookup_insert_eq.
Qed.

Lemma makedirs_ancestors now d s s' :
  OS.makedirs now d s = Ok s' ->
  Forall (fun a => OS.isdir s' a = true) (OS.ancestors d).
Proof.
  intros H. apply makedirs_inv in H as (s0 & H0 & Hn & ->).
  pose proof (make_parents_isdir _ _ _ _ H0) as HF.
  eapply Forall_impl; [exact HF|]. intros a Ha. cbn in Ha.
  unfold OS.isdir, OS.lookup in *.
  destruct (decide (a = d)) as [-> | Hne]; [by rewrite lookup_insert_eq|].
  by rewrite lookup_insert_ne.
Qed.



Lemma make_parents_file now l s a data t :
  a ∈ l -> s !! a = Some (File data t) ->
  OS.make_parents now l s = Raise OSError.
Proof.
  revert s. induction l as [|b l IH]; intros s Hin Ha.
  - by apply elem_of_nil in Hin.
  - cbn [OS.make_parents]. unfold OS.lookup.
    destruct (s !! b) as [[db tb|tb]|] eqn:Eb; [reflexivity| |].
    + apply elem_of_cons in Hin as [-> | Hin]; [congruence | by apply IH].
    + apply elem_of_cons in Hin as [-> | Hin]; [congruence|].
      apply IH; [exact Hin|]. rewrite lookup_insert_ne; [exact Ha|].
      intros ->. congruence.
Qed.

(** Below a regular file nothing can be created *)
Lemma create_below_file s root p d n data :
  LocalDisk.abs_root env self s = (Ok root, s) ->
  LocalDisk._path_to_filename_in env root p = Ok (d +:+ "/" +:+ n) ->
  plain_dir d -> entry_name n ->
  OS.isfile s d = true -> s !! (d +:+ "/" +:+ n) = None ->
  LocalDisk.create_asset L env self p data s = (Raise FilesystemError, s).
Proof.
  intros Hroot Hres Hd Hn Hfile Hnew. unfold LocalDisk.create_asset.
  rewrite (sbind_ok _ _ s (d +:+ "/" +:+ n) s)
    by (by rewrite (path_to_filename_ready env self s root), Hres).
  rewrite (sbind_ok sget _ s s s eq_refl).
  unfold OS.exists_ at 1. unfold OS.lookup. rewrite Hnew.
  rewrite (dirname_entry d n Hd Hn).
  unfold OS.isfile, OS.lookup in Hfile.
  destruct (s !! d) as [[dd td|]|] eqn:Ed; try discriminate.
  unfold sbind at 1.
  assert (Hblock :
    reraise_as FilesystemError
      (run_ (if negb (OS.exists_ s d)
             then LocalDisk.makedirs_unless_exists (now env) d else sret tt) ;
       match data with
       | None => LocalDisk.syscall (OS.makedirs (now env) (d +:+ "/" +:+ n))
       | Some data => LocalDisk.syscall (OS.write_file (now env) (d +:+ "/" +:+ n) data)
       end) s
    = (Raise FilesystemError, s)).
  { unfold reraise_as, sbind, OS.exists_, OS.lookup. rewrite Ed. cbn [negb].
    unfold sret, LocalDisk.syscall. destruct data as [data|].
    - unfold OS.write_file, OS.lookup. rewrite Hnew, (dirname_entry d n Hd Hn), Ed.
      reflexivity.
    - unfold OS.makedirs.
      rewrite (make_parents_file (now env) _ s d dd td); [reflexivity| |exact Ed].
      rewrite ancestors_entry by (apply Hd || apply Hn).
      apply elem_of_app. right. apply list_elem_of_here. }
  by rewrite Hblock.
Qed.

End CreatingCollections.

Section EmptyCollections.

Context (L : Libs) (env : Env) (self : LocalDisk.provider).



End EmptyCollections.

(** ** The metadata of a FITS file *)

Section FitsMetadata.

Context (L : Libs).

Lemma leaf_metadata_base l ty size time k :
  k ≠ "exposure" -> k ≠ "telescope" -> k ≠ "filter" ->
  LocalDisk.leaf_metadata l ty size time !! k
  = (list_to_map [("type", PStr ty); ("size", PInt size); ("time", PStr time);
                  ("layers", LocalDisk.layers l); ("width", LocalDisk.imwidth l);
                  ("height", LocalDisk.imheight l)] : gmap string pyval) !! k.
Proof.
  intros H1 H2 H3. unfold LocalDisk.leaf_metadata.
  destruct (LocalDisk.flt l); [rewrite lookup_insert_ne by congruence |];
  (case_bool_decide; [| rewrite lookup_insert_ne by congruence]);
  (case_bool_decide; [| rewrite lookup_insert_ne by congruence]);
  reflexivity.
Qed.

Lemma leaf_metadata_filter l ty size time :
  LocalDisk.leaf_metadata l ty size time !! "filter" = PStr <$> LocalDisk.flt l.
Proof.
  unfold LocalDisk.leaf_metadata.
  destruct (LocalDisk.flt l); [by rewrite lookup_insert_eq|].
  (case_bool_decide; [| rewrite lookup_insert_ne by discriminate]);
  (case_bool_decide; [| rewrite lookup_insert_ne by discriminate]);
  reflexivity.
Qed.

Lemma leaf_metadata_telescope l ty size time :
  LocalDisk.leaf_metadata l ty size time !! "telescope"
  = unless_None (Some (LocalDisk.telescope l)).
Proof.
  unfold LocalDisk.leaf_metadata, unless_None.
  destruct (LocalDisk.flt l); [rewrite lookup_insert_ne by discriminate |];
  (destruct (bool_decide (LocalDisk.telescope l = PNone));
   [| by rewrite lookup_insert_eq]);
  (case_bool_decide; [| rewrite lookup_insert_ne by discriminate]);
  reflexivity.
Qed.

Lemma leaf_metadata_exposure l ty size time :
  LocalDisk.leaf_metadata l ty size time !! "exposure"
  = unless_None (Some (LocalDisk.explength l)).
Proof.
  unfold LocalDisk.leaf_metadata, unless_None.
  destruct (LocalDisk.flt l); [rewrite lookup_insert_ne by discriminate |];
  (case_bool_decide; [| rewrite lookup_insert_ne by discriminate]);
  (destruct (bool_decide (LocalDisk.explength l = PNone));
   [| by rewrite lookup_insert_eq]);
  reflexivity.
Qed.

(** What the FITS probe leaves when it ends with the type set *)
Lemma fits_body_FITS f :
  LocalDisk.imtype (snd (LocalDisk.fits_body L f LocalDisk.locals0)) = Some "FITS" ->
  exists h0 w h names l,
    f !! 0%nat = Some h0 /\ h0 !! "NAXIS1" = Some w /\ h0 !! "NAXIS2" = Some h
    /\ LocalDisk.filter_names f = Ok names
    /\ LocalDisk.fits_body L f LocalDisk.locals0 = (Ok tt, l)
    /\ LocalDisk.imtype l = Some "FITS"
    /\ LocalDisk.layers l = PInt (Z.of_nat (length f))
    /\ LocalDisk.imwidth l = w /\ LocalDisk.imheight l = h
    /\ LocalDisk.explength l = default PNone (h0 !! "EXPOSURE")
    /\ LocalDisk.telescope l = default PNone (h0 !! "TELESCOP")
    /\ LocalDisk.flt l = Some (Py.join "," names)
    /\ LocalDisk.exptime l = match LocalDisk.fits_exptime L h0 with
                             | Ok (Some d) => PTime d
                             | _ => PNone
                             end.
Proof.
  intros H. unfold LocalDisk.fits_body in *.
  unfold sbind, slift, LocalDisk.assign, LocalDisk.assign_or_pass, dict_get in *.
  destruct (f !! 0%nat) as [h0|] eqn:Ef; [|cbn in H; discriminate].
  exists h0.
  destruct (h0 !! "NAXIS1") as [w|] eqn:Ew; [|cbn in H; discriminate].
  exists w.
  destruct (h0 !! "NAXIS2") as [h|] eqn:Eh; [|cbn in H; discriminate].
  exists h.
  destruct (LocalDisk.filter_names f) as [names|e] eqn:En.
  2:{ destruct (h0 !! "EXPOSURE"), (h0 !! "TELESCOP"); cbn in H; discriminate. }
  exists names.
  destruct (LocalDisk.fits_exptime L h0) as [[d|]|e] eqn:Et.
  - destruct (h0 !! "EXPOSURE"), (h0 !! "TELESCOP"); cbn in *;
      eexists; repeat (split; [reflexivity|]); reflexivity.
  - destruct (h0 !! "EXPOSURE"), (h0 !! "TELESCOP"); cbn in *;
      eexists; repeat (split; [reflexivity|]); reflexivity.
  - destruct (bool_decide (e = KeyError)) eqn:Ee.
    + destruct (h0 !! "EXPOSURE"), (h0 !! "TELESCOP"); cbn in *; rewrite ?Ee in *;
        eexists; repeat (split; [reflexivity|]); reflexivity.
    + destruct (h0 !! "EXPOSURE"), (h0 !! "TELESCOP"); cbn in H; rewrite ?Ee in H;
        cbn in H; discriminate.
Qed.

Lemma fits_asset_metadata s p filename data t :
  s !! filename = Some (File data t) ->
  fits_type L data = Some "FITS" ->
  exists f h0 names a,
    pyfits_open L data = Some f /\ f !! 0%nat = Some h0
    /\ LocalDisk.filter_names f = Ok names
    /\ LocalDisk._get_asset L s p filename = Ok a
    /\ collection a = false /\ name a = posixpath.basename filename
    /\ metadata a !! "type" = Some (PStr "FITS")
    /\ metadata a !! "size" = Some (PInt (Z.of_nat (length data)))
    /\ metadata a !! "layers" = Some (PInt (Z.of_nat (length f)))
    /\ is_Some (h0 !! "NAXIS1") /\ metadata a !! "width" = h0 !! "NAXIS1"
    /\ is_Some (h0 !! "NAXIS2") /\ metadata a !! "height" = h0 !! "NAXIS2"
    /\ metadata a !! "filter" = Some (PStr (Py.join "," names))
    /\ metadata a !! "telescope" = unless_None (h0 !! "TELESCOP")
    /\ metadata a !! "exposure" = unless_None (h0 !! "EXPOSURE")
    /\ metadata a !! "time"
       = Some (PStr (isoformat (match LocalDisk.fits_exptime L h0 with
                                | Ok (Some d) => d
                                | _ => fromtimestamp L t
                                end))).
Proof.
  intros Hs Hfits. unfold fits_type, LocalDisk.fits_probe, LocalDisk.try_pass in Hfits.
  cbn [snd mbind option_bind] in Hfits. unfold sbind at 1, slift in Hfits.
  destruct (pyfits_open L data) as [f|] eqn:Eo; [|cbn in Hfits; discriminate].
  destruct (fits_body_FITS f Hfits)
    as (h0 & w & h & names & l & Ef & Ew & Eh & En & Eb & Hty & Hla & Hw & Hh & Hex
        & Htel & Hflt & Htime).
  assert (Hc : LocalDisk.classify L (Some data) LocalDisk.locals0 = (Ok tt, l)).
  { unfold LocalDisk.classify, LocalDisk.fits_probe, LocalDisk.try_pass.
    unfold sbind at 1. cbn [mbind option_bind]. rewrite Eo.
    unfold sbind at 1, slift. rewrite Eb. cbn [snd].
    unfold LocalDisk.image_block. unfold sbind, sget. rewrite Hty. reflexivity. }
  exists f, h0, names.
  unfold LocalDisk._get_asset, OS.lookup. rewrite Hs, Hc, Hty. cbn [rbind].
  assert (Hiso : LocalDisk.py_isoformat
                   (if bool_decide (LocalDisk.exptime l = PNone)
                    then PTime (fromtimestamp L (OS.st_mtime (File data t)))
                    else LocalDisk.exptime l)
                 = Ok (isoformat (match LocalDisk.fits_exptime L h0 with
                                  | Ok (Some d) => d
                                  | _ => fromtimestamp L t
                                  end))).
  { rewrite Htime. by destruct (LocalDisk.fits_exptime L h0) as [[d|]|e]. }
  rewrite Hiso. cbn [rbind]. eexists.
  split; [first [exact Eo | reflexivity]|]. split; [exact Ef|]. split; [exact En|].
  split; [reflexivity|]. split; [reflexivity|]. split; [reflexivity|].
  cbn [metadata collection name].
  split; [apply leaf_metadata_type|]. split; [apply leaf_metadata_size|].
  split; [by rewrite leaf_metadata_base, Hla by discriminate|].
  split; [by rewrite Ew|].
  split; [by rewrite leaf_metadata_base, Hw, Ew by discriminate|].
  split; [by rewrite Eh|].
  split; [by rewrite leaf_metadata_base, Hh, Eh by discriminate|].
  split; [by rewrite leaf_metadata_filter, Hflt|].
  split; [rewrite leaf_metadata_telescope, Htel; by destruct (h0 !! "TELESCOP")|].
  split; [rewrite leaf_metadata_exposure, Hex; by destruct (h0 !! "EXPOSURE")|].
  by rewrite leaf_metadata_base by discriminate.
Qed.

End FitsMetadata.

(** ** What the probe that recognizes a file leaves in the record *)

Section Pictures.

Context (L : Libs).

Import LocalDisk.

Lemma pil_probe_picture data l im :
  PIL_open L data = Some im ->
  picture (snd (pil_probe L data l))
  = (Some (pil_format im), PInt (Z.of_nat (length (pil_bands im))),
     Some (Py.join "," (pil_bands im)), PInt (fst (pil_size im)),
     PInt (snd (pil_size im))).
Proof.
  intros H. unfold pil_probe, try_pass, sbind, slift, assign, picture. rewrite H.
  cbn. by destruct (pil_exif im).
Qed.

Lemma pil_probe_fails data l :
  PIL_open L data = None -> snd (pil_probe L data l) = l.
Proof. intros H. unfold pil_probe, try_pass, sbind, slift. by rewrite H. Qed.

Lemma raw_probe_picture data l im :
  rawpy_imread L data = Some im ->
  picture (snd (raw_probe L data l))
  = (Some (raw_type im), PInt (num_colors im), Some (Py.join "," (color_desc im)),
     PInt (raw_width im), PInt (raw_height im)).
Proof.
  intros H. unfold raw_probe, try_pass, sbind, slift, assign, picture. by rewrite H.
Qed.

Lemma exifread_pass_picture data l :
  picture (snd (exifread_pass L data l)) = picture l.
Proof.
  unfold exifread_pass, try_pass, assign.
  by destruct (exifread_process_file L data).
Qed.

Lemma assign_or_pass_exptime cls (e : result pyval) l :
  picture (snd (assign_or_pass cls set_exptime e l)) = picture l.
Proof.
  unfold assign_or_pass. destruct e as [v|x]; [reflexivity|].
  by destruct (bool_decide (x = cls)).
Qed.

Lemma exif_fields_picture e l :
  picture (snd (exif_fields L e l)) = picture l.
Proof.
  unfold exif_fields.
  set (l1 := snd (try_pass (assign set_explength (dict_get e "ExposureTime")) l)).
  assert (H1 : picture l1 = picture l).
  { subst l1. unfold try_pass, assign. by destruct (dict_get e "ExposureTime"). }
  rewrite (sbind_ok _ _ l tt l1) by reflexivity.
  destruct (exif_pick_time_result e l1) as [F2 _].
  pose proof (assign_or_pass_exptime KeyError
                (except_ KeyError (dict_get e "DateTime")
                   (except_ KeyError (dict_get e "DateTimeOriginal")
                      (dict_get e "DateTimeDigitized"))) l1) as H2.
  fold (exif_pick_time e) in H2.
  destruct (exif_pick_time e l1) as [r2 l2] eqn:E2. cbn [fst snd] in F2, H2. subst r2.
  rewrite (sbind_ok _ _ l1 tt l2) by exact E2.
  rewrite <- H1, <- H2. unfold exif_parse_time, sbind, sget.
  destruct (truthy (exptime l2)); [|reflexivity].
  apply assign_or_pass_exptime.
Qed.

(** The picture that the block after the FITS probe leaves *)
Lemma image_block_picture data l :
  imtype l = None ->
  picture (snd (image_block L (Some data) l))
  = match (if have_PIL L then PIL_open L data else None) with
    | Some im =>
        (Some (pil_format im), PInt (Z.of_nat (length (pil_bands im))),
         Some (Py.join "," (pil_bands im)), PInt (fst (pil_size im)),
         PInt (snd (pil_size im)))
    | None =>
        match (if have_rawpy L then rawpy_imread L data else None) with
        | Some im =>
            (Some (raw_type im), PInt (num_colors im),
             Some (Py.join "," (color_desc im)), PInt (raw_width im),
             PInt (raw_height im))
        | None => picture l
        end
    end.
Proof.
  intros Hl. unfold image_block.
  rewrite (sbind_ok sget _ l l l) by reflexivity.
  rewrite Hl, bool_decide_eq_true_2 by reflexivity. cbn [andb].
  destruct (have_PIL L || have_rawpy L) eqn:Hany.
  2:{ apply orb_false_iff in Hany as [-> ->]. reflexivity. }
  rewrite (sbind_ok (slift (Ok data)) _ l data l) by reflexivity.
  set (l1 := snd ((if have_PIL L then pil_probe L data else sret tt) l)).
  assert (E1 : (if have_PIL L then pil_probe L data else sret tt) l = (Ok tt, l1)).
  { subst l1. by destruct (have_PIL L). }
  rewrite (sbind_ok _ _ l tt l1 E1).
  rewrite (sbind_ok sget _ l1 l1 l1) by reflexivity.
  set (l2 := snd ((if bool_decide (imtype l1 = None) && have_rawpy L
                   then raw_probe L data else sret tt) l1)).
  assert (E2 : (if bool_decide (imtype l1 = None) && have_rawpy L
                then raw_probe L data else sret tt) l1 = (Ok tt, l2)).
  { subst l2. by destruct (bool_decide (imtype l1 = None) && have_rawpy L). }
  rewrite (sbind_ok _ _ l1 tt l2 E2).
  rewrite (sbind_ok sget _ l2 l2 l2) by reflexivity.
  set (l3 := snd ((if negb (bool_decide (imtype l2 = None)) && have_exifread L
                   then exifread_pass L data else sret tt) l2)).
  assert (E3 : (if negb (bool_decide (imtype l2 = None)) && have_exifread L
                then exifread_pass L data else sret tt) l2 = (Ok tt, l3)).
  { subst l3. by destruct (negb (bool_decide (imtype l2 = None)) && have_exifread L). }
  rewrite (sbind_ok _ _ l2 tt l3 E3).
  rewrite (sbind_ok sget _ l3 l3 l3) by reflexivity.
  assert (H3 : picture l3 = picture l2).
  { subst l3. destruct (negb (bool_decide (imtype l2 = None)) && have_exifread L);
      [apply exifread_pass_picture | reflexivity]. }
  assert (H4 : picture (snd (match exif l3 with
                             | Some e => exif_fields L e
                             | None => sret tt
                             end l3)) = picture l3).
  { destruct (exif l3) as [e|]; [apply exif_fields_picture | reflexivity]. }
  rewrite H4, H3. clear H4 H3 E3 l3.
  destruct (have_PIL L) eqn:HP.
  - destruct (PIL_open L data) as [im|] eqn:Him.
    + assert (P1 : picture l1 = (Some (pil_format im),
                                 PInt (Z.of_nat (length (pil_bands im))),
                                 Some (Py.join "," (pil_bands im)),
                                 PInt (fst (pil_size im)), PInt (snd (pil_size im))))
        by (subst l1; by apply pil_probe_picture).
      assert (T1 : imtype l1 = Some (pil_format im)) by (by injection P1).
      subst l2. rewrite T1, bool_decide_eq_false_2 by discriminate. exact P1.
    + assert (l1 = l) as -> by (subst l1; by apply pil_probe_fails).
      subst l2. rewrite Hl, bool_decide_eq_true_2 by reflexivity. cbn [andb].
      destruct (have_rawpy L); [|reflexivity].
      destruct (rawpy_imread L data) as [im|] eqn:Hraw.
      * by apply raw_probe_picture.
      * unfold raw_probe, try_pass, sbind, slift. by rewrite Hraw.
  - subst l1 l2. cbn [sret snd]. rewrite Hl, bool_decide_eq_true_2 by reflexivity.
    cbn [andb]. destruct (have_rawpy L); [|reflexivity].
    destruct (rawpy_imread L data) as [im|] eqn:Hraw.
    + by apply raw_probe_picture.
    + unfold raw_probe, try_pass, sbind, slift. by rewrite Hraw.
Qed.

(** ... and the picture that classification ends with when the FITS
    probe fails *)
Lemma classify_picture data :
  fits_type L data = None ->
  picture (snd (classify L (Some data) locals0))
  = match (if have_PIL L then PIL_open L data else None) with
    | Some im =>
        (Some (pil_format im), PInt (Z.of_nat (length (pil_bands im))),
         Some (Py.join "," (pil_bands im)), PInt (fst (pil_size im)),
         PInt (snd (pil_size im)))
    | None =>
        match (if have_rawpy L then rawpy_imread L data else None) with
        | Some im =>
            (Some (raw_type im), PInt (num_colors im),
             Some (Py.join "," (color_desc im)), PInt (raw_width im),
             PInt (raw_height im))
        | None => picture (snd (fits_probe L (Some data) locals0))
        end
    end.
Proof.
  intros Hfits. unfold classify, sbind.
  assert (F : fst (fits_probe L (Some data) locals0) = Ok tt) by reflexivity.
  unfold fits_type in Hfits.
  destruct (fits_probe L (Some data) locals0) as [r l] eqn:E.
  cbn [fst snd] in *. subst r. by apply image_block_picture.
Qed.

(** The asset of a regular file whose classification leaves a picture
    and a time that is unset or a [datetime] *)
Lemma get_asset_probed s path filename data t ty lay f w h :
  s !! filename = Some (File data t) ->
  picture (snd (classify L (Some data) locals0)) = (Some ty, lay, Some f, w, h) ->
  time_is_datetime (snd (classify L (Some data) locals0)) ->
  probed (_get_asset L s path filename) ty lay w h f.
Proof.
  intros Hs Hp Ht. destruct (classify_result L data) as [F _].
  destruct (classify L (Some data) locals0) as [r l] eqn:E.
  cbn [fst snd] in *. subst r. unfold picture in Hp.
  injection Hp as Hty Hlay Hf Hw Hh.
  assert (Hiso : exists time,
            py_isoformat (if bool_decide (exptime l = PNone)
                          then PTime (fromtimestamp L (OS.st_mtime (File data t)))
                          else exptime l) = Ok time).
  { destruct Ht as [Hn | [d Hd]].
    - rewrite Hn, bool_decide_eq_true_2 by reflexivity. by eexists.
    - rewrite Hd, bool_decide_eq_false_2 by discriminate. by eexists. }
  destruct Hiso as [time Hiso].
  unfold probed, _get_asset, OS.lookup. rewrite Hs, E, Hty. cbn [rbind].
  rewrite Hiso. cbn [rbind]. eexists. split; [reflexivity|].
  cbn [collection metadata]. split; [reflexivity|].
  split; [apply leaf_metadata_type|].
  split; [by rewrite leaf_metadata_base, Hlay by discriminate|].
  split; [by rewrite leaf_metadata_base, Hw by discriminate|].
  split; [by rewrite leaf_metadata_base, Hh by discriminate|].
  by rewrite leaf_metadata_filter, Hf.
Qed.

End Pictures.

(** ** Searching, further *)

Section Searching.

Context (L : Libs) (env : Env) (self : LocalDisk.provider).

Lemma get_asset_collection_flag s rel fn a :
  LocalDisk._get_asset L s rel fn = Ok a -> collection a = OS.isdir s fn.
Proof.
  unfold LocalDisk._get_asset, OS.isdir. intros H.
  destruct (OS.lookup s fn) as [[data t|t]|] eqn:E.
  - destruct (LocalDisk.classify L (Some data) LocalDisk.locals0) as [[[]|e] l];
      [|discriminate].
    destruct (LocalDisk.imtype l); [|discriminate]. cbn [rbind] in H.
    destruct (LocalDisk.py_isoformat _); [|discriminate]. cbn in H.
    by injection H as <-.
  - by injection H as <-.
  - destruct (LocalDisk.classify L None LocalDisk.locals0) as [[[]|e] l];
      [|discriminate].
    destruct (LocalDisk.imtype l); discriminate.
Qed.

Lemma find_loop_sound s root flt cands assets a :
  LocalDisk.find_loop L s root flt cands = Ok assets -> a ∈ assets ->
  exists fn, fn ∈ cands /\ selected L s root flt fn = Some a.
Proof.
  revert assets. induction cands as [|fn cands IH]; intros assets H Ha.
  - injection H as <-. by apply elem_of_nil in Ha.
  - cbn [LocalDisk.find_loop] in H.
    assert (Hrest : forall assets', LocalDisk.find_loop L s root flt cands = Ok assets' ->
                                    a ∈ assets' ->
                                    exists fn0, fn0 ∈ fn :: cands
                                                /\ selected L s root flt fn0 = Some a).
    { intros assets' H' Ha'. destruct (IH assets' H' Ha') as (fn0 & Hin & Hsel).
      exists fn0. split; [by apply list_elem_of_further | exact Hsel]. }
    destruct (match LocalDisk.f_collection flt with
              | Some c => negb (eqb (OS.isdir s fn) c)
              | None => false
              end) eqn:Ec; [by eapply Hrest|].
    destruct (LocalDisk.relative_to root fn) as [rel|e] eqn:Er; cbn [rbind] in H.
    2:{ destruct (is_AfterglowError e); [by eapply Hrest | discriminate]. }
    destruct (LocalDisk._get_asset L s rel fn) as [asset|e] eqn:Eg.
    2:{ destruct (is_AfterglowError e); [by eapply Hrest | discriminate]. }
    destruct (LocalDisk.check_filters flt asset) eqn:Ef; [|by eapply Hrest].
    apply rbind_inv in H as (assets' & H' & Hk). injection Hk as <-.
    apply elem_of_cons in Ha as [-> | Ha]; [|by eapply Hrest].
    exists fn. split; [apply list_elem_of_here|].
    unfold selected. by rewrite Ec, Er, Eg, Ef.
Qed.

Lemma check_filters_inv flt a :
  LocalDisk.check_filters flt a = true ->
  (forall types, LocalDisk.f_type flt = Some types ->
     exists t, metadata a !! "type" = Some (PStr t) /\ t ∈ types)
  /\ (forall w, LocalDisk.f_width flt = Some w -> metadata a !! "width" = Some (PInt w))
  /\ (forall h, LocalDisk.f_height flt = Some h -> metadata a !! "height" = Some (PInt h)).
Proof.
  unfold LocalDisk.check_filters. intros H.
  apply andb_true_iff in H as [H Hh]. apply andb_true_iff in H as [Ht Hw].
  split; [|split].
  - intros types E. rewrite E in Ht.
    destruct (metadata a !! "type") as [[| |t|]|]; try discriminate.
    exists t. split; [reflexivity | by apply bool_decide_eq_true in Ht].
  - intros w E. rewrite E in Hw.
    destruct (metadata a !! "width") as [v|]; [|discriminate].
    apply bool_decide_eq_true in Hw. by subst.
  - intros h E. rewrite E in Hh.
    destruct (metadata a !! "height") as [v|]; [|discriminate].
    apply bool_decide_eq_true in Hh. by subst.
Qed.

Lemma find_assets_sound p nm ty c w h s assets s' a :
  LocalDisk.find_assets L env self p nm ty c w h s = (Ok assets, s') ->
  a ∈ assets ->
  exists flt,
    LocalDisk.setup_filters ty c w h = Ok flt
    /\ (forall b, LocalDisk.f_collection flt = Some b -> collection a = b)
    /\ (forall types, LocalDisk.f_type flt = Some types ->
          exists t, metadata a !! "type" = Some (PStr t) /\ t ∈ types)
    /\ (forall w', LocalDisk.f_width flt = Some w' ->
          metadata a !! "width" = Some (PInt w'))
    /\ (forall h', LocalDisk.f_height flt = Some h' ->
          metadata a !! "height" = Some (PInt h')).
Proof.
  unfold LocalDisk.find_assets. intros H Ha.
  apply sbind_inv in H as (flt & s1 & Hflt & H). apply slift_inv in Hflt as [Hflt ->].
  apply sbind_inv in H as (root & s2 & _ & H).
  apply sbind_inv in H as (abs_path & s3 & _ & H).
  apply sbind_inv in H as (s4 & s5 & Hg & H). injection Hg as <- <-.
  destruct (OS.isdir s3 abs_path); cbn [negb] in H; [|discriminate].
  apply slift_inv in H as [H ->].
  destruct (find_loop_sound _ _ _ _ _ _ H Ha) as (fn & _ & Hsel).
  apply selected_spec in Hsel as (Hc & rel & _ & Hg & Hf).
  exists flt. split; [exact Hflt|]. split.
  - intros b Eb. rewrite Eb in Hc. rewrite (get_asset_collection_flag _ _ _ _ Hg).
    exact Hc.
  - by apply check_filters_inv.
Qed.

Lemma int_param_falsy v : truthy v = false -> LocalDisk.int_param v = Ok None.
Proof. intros H. unfold LocalDisk.int_param. by rewrite H. Qed.

Lemma int_param_str x :
  x ≠ "" ->
  LocalDisk.int_param (PStr x)
  = match Py.int x with
    | Ok z => Ok (Some z)
    | Raise _ => Raise ValidationError
    end.
Proof.
  intros Hx. unfold LocalDisk.int_param. cbn [truthy py_int].
  rewrite bool_decide_eq_false_2 by exact Hx. cbn [negb].
  destruct (Py.int x) as [z|e] eqn:E; [reflexivity|].
  assert (e = ValueError) as ->.
  { unfold Py.int in E. destruct (Py.split_sign _) as [neg l].
    unfold Py.apply_sign in E.
    assert (Hd : forall base prev acc l e, Py.int_digits base prev acc l = Raise e ->
                                      e = ValueError).
    { clear. intros base prev acc l. revert prev acc.
      induction l as [|c l IH]; intros prev acc e H; cbn in H.
      - destruct prev; [discriminate | congruence].
      - destruct (bool_decide (c = "_"%char)).
        + destruct prev; [by eapply IH | congruence].
        + destruct (Py.digit_value c); [|congruence].
          destruct (_ <? _); [by eapply IH | congruence]. }
    destruct (Py.int_digits 10 false 0 l) eqn:Ed; [discriminate|].
    cbn in E. injection E as <-. by eapply Hd. }
  by rewrite bool_decide_eq_true_2.
Qed.

Lemma find_assets_invalid p nm ty c w h s :
  not_an_integer c
  \/ (is_Ok (LocalDisk.int_param c) = true
      /\ (not_an_integer w
          \/ (is_Ok (LocalDisk.int_param w) = true /\ not_an_integer h))) ->
  LocalDisk.find_assets L env self p nm ty c w h s = (Raise ValidationError, s).
Proof.
  intros H. unfold LocalDisk.find_assets, LocalDisk.setup_filters.
  assert (Hbad : forall v, not_an_integer v ->
                           LocalDisk.int_param v = Raise ValidationError).
  { intros v (x & -> & Hx & Hi). rewrite int_param_str by exact Hx.
    by destruct (Py.int x). }
  destruct H as [Hc | [Hc H]].
  { by rewrite (Hbad c Hc). }
  destruct (LocalDisk.int_param c) as [vc|]; [|discriminate]. cbn [rbind].
  destruct H as [Hw | [Hw Hh]].
  { by rewrite (Hbad w Hw). }
  destruct (LocalDisk.int_param w) as [vw|]; [|discriminate]. cbn [rbind].
  by rewrite (Hbad h Hh).
Qed.

Lemma find_assets_falsy_collection p nm ty c w h s :
  truthy c = false ->
  LocalDisk.find_assets L env self p nm ty c w h s
  = LocalDisk.find_assets L env self p nm ty PNone w h s.
Proof.
  intros Hc. unfold LocalDisk.find_assets, LocalDisk.setup_filters.
  by rewrite (int_param_falsy c Hc).
Qed.

Lemma find_assets_absolute_name s root abs_path p n ty c w h flt :
  LocalDisk.setup_filters ty c w h = Ok flt ->
  LocalDisk.abs_root env self s = (Ok root, s) ->
  match p with
  | None => abs_path = root
  | Some p => LocalDisk._path_to_filename_in env root p = Ok abs_path
  end ->
  OS.isdir s abs_path = true ->
  Py.startswith n "/" = true ->
  LocalDisk.find_assets L env self p (Some n) ty c w h s
  = (LocalDisk.find_loop L s root flt (Glob.glob s n), s).
Proof.
  intros Hflt Hroot Hpath Hdir Hn. unfold LocalDisk.find_assets.
  rewrite Hflt. rewrite (sbind_ok _ _ s flt s eq_refl).
  rewrite (sbind_ok _ _ s root s Hroot).
  assert (Hn' : n ≠ "") by (intros ->; discriminate).
  rewrite (sbind_ok _ _ s abs_path s).
  2:{ destruct p as [p|]; [|by subst].
      rewrite (sbind_ok _ _ s abs_path s)
        by (by rewrite (path_to_filename_ready env self s root), Hpath).
      by rewrite (path_to_filename_prefix _ _ _ _ Hpath). }
  rewrite (sbind_ok sget _ s s s eq_refl). rewrite Hdir. cbn [negb].
  rewrite bool_decide_eq_false_2 by exact Hn'.
  unfold posixpath.join. by rewrite Hn.
Qed.

End Searching.

(** ** Renaming an asset *)

Section Moving.

Lemma kmap_lookup_on {A} (f : string -> string) (m : gmap string A) i x :
  m !! i = Some x ->
  (forall j y, m !! j = Some y -> f j = f i -> j = i) ->
  (kmap f m : gmap string A) !! f i = Some x.
Proof.
  intros Hi Hinj. unfold kmap. apply elem_of_list_to_map_1'.
  - intros y Hy. apply list_elem_of_fmap in Hy as ([j y'] & E & Hj).
    cbn in E. injection E as E ->. apply elem_of_map_to_list in Hj.
    symmetry in E. rewrite (Hinj j y' Hj E) in Hj. congruence.
  - apply list_elem_of_fmap. exists (i, x). split; [reflexivity|].
    by apply elem_of_map_to_list.
Qed.

Lemma kmap_lookup_none {A} (f : string -> string) (m : gmap string A) k :
  (forall j y, m !! j = Some y -> f j ≠ k) ->
  (kmap f m : gmap string A) !! k = None.
Proof.
  intros H. unfold kmap. apply not_elem_of_list_to_map_1.
  intros Hk. apply list_elem_of_fmap in Hk as ([k' y] & E & Hk). cbn in E. subst k'.
  apply list_elem_of_fmap in Hk as ([j y'] & E & Hj). cbn in E.
  injection E as E ->. apply elem_of_map_to_list in Hj. by apply (H j y' Hj).
Qed.

Lemma string_app_inv_head a b c : a +:+ b = a +:+ c -> b = c.
Proof.
  intros H. apply chars_inj. apply (f_equal Py.chars) in H.
  rewrite !chars_app in H. by apply app_inv_head in H.
Qed.

(** A name at or below [d], as [d] and what follows it *)
Lemma at_or_below_inv d k :
  k = d \/ OS.below d k = true ->
  exists r, k = d +:+ r /\ (r = "" \/ Py.startswith r "/" = true).
Proof.
  intros [-> | H].
  - exists "". split; [by rewrite string_app_nil_r | by left].
  - unfold OS.below in H. apply prefix_inv in H as [r ->].
    exists ("/" +:+ r). split; [by rewrite string_app_assoc|]. right.
    change ("/" +:+ r) with (String "/" r). by destruct r.
Qed.

Lemma at_or_below_app d r :
  r = "" \/ Py.startswith r "/" = true ->
  d +:+ r = d \/ OS.below d (d +:+ r) = true.
Proof.
  intros [-> | H]; [left; apply string_app_nil_r|]. right.
  destruct r as [|c r]; [discriminate|]. unfold Py.startswith in H.
  rewrite prefix_slash in H. apply bool_decide_eq_true in H. subst c.
  apply (below_app d r).
Qed.

Context (src dst : string) (s : store).

Lemma move_sub_key j y :
  filter (fun kv : string * node => kv.1 = src \/ OS.below src kv.1 = true) s !! j
    = Some y ->
  exists r, j = src +:+ r /\ (r = "" \/ Py.startswith r "/" = true)
            /\ s !! j = Some y.
Proof.
  intros H. apply map_lookup_filter_Some in H as [Hj Hp]. cbn [fst] in Hp.
  destruct (at_or_below_inv src j Hp) as (r & -> & Hr). by exists r.
Qed.

(** What moved: the node at [src/rest] is at [dst/rest] *)
Lemma move_lookup_moved r :
  r = "" \/ Py.startswith r "/" = true ->
  OS.move src dst s !! (dst +:+ r) = s !! (src +:+ r).
Proof.
  intros Hr. unfold OS.move.
  set (f := fun k => dst +:+ OS.drop (String.length src) k).
  assert (Hf : forall r', f (src +:+ r') = dst +:+ r').
  { intros r'. unfold f. by rewrite drop_app. }
  assert (Hrest : filter (fun kv : string * node =>
                            (kv.1 ≠ src /\ OS.below src kv.1 = false)
                            /\ (kv.1 ≠ dst /\ OS.below dst kv.1 = false)) s
                  !! (dst +:+ r) = None).
  { apply map_lookup_filter_None. right. intros x _ [_ [H1 H2]]. cbn [fst] in *.
    destruct (at_or_below_app dst r Hr) as [E | E]; congruence. }
  rewrite lookup_union_l by exact Hrest.
  destruct (s !! (src +:+ r)) as [x|] eqn:E.
  - rewrite <- Hf. apply kmap_lookup_on.
    + apply map_lookup_filter_Some. split; [exact E|]. cbn [fst].
      by apply at_or_below_app.
    + intros j y Hj Hfj. apply move_sub_key in Hj as (rj & -> & _ & _).
      rewrite !Hf in Hfj. by apply string_app_inv_head in Hfj as ->.
  - apply kmap_lookup_none. intros j y Hj Hfj.
    apply move_sub_key in Hj as (rj & -> & _ & Hj).
    rewrite Hf in Hfj. apply string_app_inv_head in Hfj as ->. congruence.
Qed.

(** What is left elsewhere *)
Lemma move_lookup_other k :
  k ≠ dst -> OS.below dst k = false ->
  OS.move src dst s !! k
  = if bool_decide (k = src \/ OS.below src k = true) then None else s !! k.
Proof.
  intros H1 H2. unfold OS.move.
  rewrite lookup_union_r.
  2:{ apply kmap_lookup_none. intros j y Hj Hfj.
      apply move_sub_key in Hj as (rj & -> & Hr & _).
      rewrite drop_app in Hfj. subst k.
      destruct (at_or_below_app dst rj Hr) as [E | E]; congruence. }
  case_bool_decide as Hk.
  - apply map_lookup_filter_None. right. intros x _ [[H3 H4] _]. cbn [fst] in *.
    destruct Hk; congruence.
  - destruct (s !! k) as [x|] eqn:E.
    + apply map_lookup_filter_Some. split; [exact E|]. cbn [fst].
      split; [|by split]. split; [by intros -> ; apply Hk; left|].
      destruct (OS.below src k) eqn:Eb; [|reflexivity]. exfalso. apply Hk. by right.
    + apply map_lookup_filter_None. by left.
Qed.

End Moving.

Section Renaming.

Context (L : Libs) (env : Env) (self : LocalDisk.provider).

Lemma until_slash_plain l :
  forallb (fun c => negb (bool_decide (c = Py.slash))) l = true ->
  posixpath.until_slash l = l.
Proof.
  induction l as [|c l IH]; intros Hl; [reflexivity|].
  cbn in Hl. apply andb_true_iff in Hl as [Hc Hl]. apply negb_true_iff in Hc.
  cbn [posixpath.until_slash]. rewrite Hc. by rewrite IH.
Qed.

Lemma until_slash_is_plain l :
  forallb (fun c => negb (bool_decide (c = Py.slash))) (posixpath.until_slash l) = true.
Proof.
  induction l as [|c l IH]; [reflexivity|]. cbn [posixpath.until_slash].
  destruct (bool_decide (c = Py.slash)) eqn:E; [reflexivity|]. cbn. by rewrite E, IH.
Qed.

Lemma forallb_rev {A} (P : A -> bool) l : forallb P (rev l) = forallb P l.
Proof.
  induction l as [|x l IH]; [reflexivity|]. cbn [rev]. rewrite forallb_app, IH.
  cbn. rewrite andb_true_r. apply andb_comm.
Qed.

Lemma basename_no_slash p : OS.no_slash (posixpath.basename p) = true.
Proof.
  unfold posixpath.basename, posixpath.split, OS.no_slash. cbn [snd].
  rewrite chars_str, forallb_rev. apply until_slash_is_plain.
Qed.

Lemma basename_plain x : OS.no_slash x = true -> posixpath.basename x = x.
Proof.
  intros Hx. unfold posixpath.basename, posixpath.split. cbn [snd].
  rewrite until_slash_plain by (by rewrite forallb_rev).
  by rewrite rev_involutive, str_chars.
Qed.

(** Only the base name of the new name counts *)
Lemma rename_asset_base_name p nm s :
  LocalDisk.rename_asset L env self p nm s
  = LocalDisk.rename_asset L env self p (posixpath.basename nm) s.
Proof.
  unfold LocalDisk.rename_asset.
  by rewrite (basename_plain (posixpath.basename nm)) by apply basename_no_slash.
Qed.

Lemma no_slash_app a b :
  OS.no_slash (a +:+ b) = OS.no_slash a && OS.no_slash b.
Proof. unfold OS.no_slash. by rewrite chars_app, forallb_app. Qed.

Lemma sibling_apart d n m r :
  OS.no_slash n = true -> OS.no_slash m = true -> n ≠ m ->
  r = "" \/ Py.startswith r "/" = true ->
  (d +:+ "/" +:+ m) +:+ r ≠ d +:+ "/" +:+ n
  /\ OS.below (d +:+ "/" +:+ n) ((d +:+ "/" +:+ m) +:+ r) = false.
Proof.
  intros Hn Hm Hne Hr.
  assert (Hr' : r = "" \/ exists r', r = "/" +:+ r').
  { destruct Hr as [-> | Hr]; [by left | right].
    destruct r as [|c r]; [discriminate|]. unfold Py.startswith in Hr.
    rewrite prefix_slash in Hr. apply bool_decide_eq_true in Hr. subst c.
    by exists r. }
  assert (Hcut : forall a b x y, OS.no_slash a = true -> OS.no_slash b = true ->
                            a +:+ "/" +:+ x = b +:+ "/" +:+ y -> a = b).
  { clear. induction a as [|c a IH]; intros [|c' b] x y Ha Hb E.
    - reflexivity.
    - change ("" +:+ "/" +:+ x) with (String "/" x) in E. rewrite string_cons_app in E.
      injection E as <- _. unfold OS.no_slash in Hb. cbn in Hb.
      by rewrite bool_decide_eq_true_2 in Hb.
    - change ("" +:+ "/" +:+ y) with (String "/" y) in E. rewrite string_cons_app in E.
      injection E as -> _. unfold OS.no_slash in Ha. cbn in Ha.
      by rewrite bool_decide_eq_true_2 in Ha.
    - rewrite !string_cons_app in E. injection E as -> E. f_equal.
      unfold OS.no_slash in Ha, Hb. cbn in Ha, Hb.
      apply andb_true_iff in Ha as [_ Ha]. apply andb_true_iff in Hb as [_ Hb].
      by apply (IH b x y). }
  assert (Hslash : forall a b x, OS.no_slash a = true -> a ≠ b +:+ "/" +:+ x).
  { intros a b x Ha ->. rewrite !no_slash_app in Ha.
    apply andb_true_iff in Ha as [_ Ha]. apply andb_true_iff in Ha as [Ha _].
    discriminate. }
  split.
  - intros E. rewrite !string_app_assoc in E.
    do 2 apply string_app_inv_head in E.
    destruct Hr' as [-> | [r' ->]].
    + rewrite string_app_nil_r in E. congruence.
    + symmetry in E. by apply Hslash in E.
  - destruct (OS.below _ _) eqn:Eb; [exfalso | reflexivity].
    unfold OS.below in Eb. apply prefix_inv in Eb as [t E].
    rewrite !string_app_assoc in E. do 2 apply string_app_inv_head in E.
    destruct Hr' as [-> | [r' ->]].
    + rewrite string_app_nil_r in E. by apply Hslash in E.
    + apply Hne. symmetry. by apply (Hcut m n r' t).
Qed.

Lemma inside_apart root d n r :
  d = root \/ OS.below root d = true ->
  r = "" \/ Py.startswith r "/" = true ->
  root ≠ (d +:+ "/" +:+ n) +:+ r
  /\ OS.below (d +:+ "/" +:+ n) root = false.
Proof.
  intros Hin Hr.
  assert (Hlen : (String.length root <= String.length d)%nat).
  { destruct Hin as [-> | H]; [lia|]. apply below_length in H. lia. }
  split.
  - intros E. apply (f_equal String.length) in E.
    rewrite !string_length_app in E. cbn in E. lia.
  - apply below_shorter. rewrite !string_length_app. cbn. lia.
Qed.

Lemma rename_asset_moves s root p nm d n m nd :
  LocalDisk.abs_root env self s = (Ok root, s) ->
  LocalDisk._path_to_filename_in env root p = Ok (d +:+ "/" +:+ n) ->
  plain_dir d -> entry_name n -> d = root \/ OS.below root d = true ->
  posixpath.basename nm = m -> entry_name m ->
  s !! (d +:+ "/" +:+ n) = Some nd -> OS.isdir s d = true ->
  s !! (d +:+ "/" +:+ m) = None ->
  let s' := OS.move (d +:+ "/" +:+ n) (d +:+ "/" +:+ m) s in
  (exists rel,
     LocalDisk.relative_to root (d +:+ "/" +:+ m) = Ok rel
     /\ LocalDisk.rename_asset L env self p nm s
        = (LocalDisk._get_asset L s' (Py.replace_char Py.backslash Py.slash rel)
             (d +:+ "/" +:+ m), s'))
  /\ LocalDisk.abs_root env self s' = (Ok root, s')
  /\ s' !! (d +:+ "/" +:+ m) = Some nd
  /\ s' !! (d +:+ "/" +:+ n) = None
  /\ (forall r, Py.startswith r "/" = true ->
        s' !! ((d +:+ "/" +:+ m) +:+ r) = s !! ((d +:+ "/" +:+ n) +:+ r)
        /\ s' !! ((d +:+ "/" +:+ n) +:+ r) = None)
  /\ (forall k, k ≠ d +:+ "/" +:+ n -> OS.below (d +:+ "/" +:+ n) k = false ->
                k ≠ d +:+ "/" +:+ m -> OS.below (d +:+ "/" +:+ m) k = false ->
                s' !! k = s !! k).
Proof.
  intros Hroot Hres Hd Hn Hin Hbase Hm Hnd Hdir Hnew s'.
  assert (Hne : n ≠ m) by (intros ->; congruence).
  assert (Hne' : m ≠ n) by congruence.
  assert (Hother : forall k, k ≠ d +:+ "/" +:+ n -> OS.below (d +:+ "/" +:+ n) k = false ->
                             k ≠ d +:+ "/" +:+ m -> OS.below (d +:+ "/" +:+ m) k = false ->
                             s' !! k = s !! k).
  { intros k H1 H2 H3 H4. unfold s'. rewrite move_lookup_other by assumption.
    rewrite bool_decide_eq_false_2; [reflexivity|]. intros [? | ?]; congruence. }
  assert (Hroot' : LocalDisk.abs_root env self s' = (Ok root, s')).
  { apply (abs_root_agree env self s root s' Hroot).
    destruct (inside_apart root d n "" Hin (or_introl eq_refl)) as [H1 H2].
    destruct (inside_apart root d m "" Hin (or_introl eq_refl)) as [H3 H4].
    rewrite string_app_nil_r in H1, H3. by apply Hother. }
  assert (Hgone : forall r, r = "" \/ Py.startswith r "/" = true ->
                            s' !! ((d +:+ "/" +:+ n) +:+ r) = None).
  { intros r Hr. unfold s'.
    destruct (sibling_apart d m n r (proj2 Hm) (proj2 Hn) Hne' Hr) as [H1 H2].
    rewrite move_lookup_other by assumption.
    rewrite bool_decide_eq_true_2; [reflexivity|]. by apply at_or_below_app. }
  split; [|split; [exact Hroot'|split; [|split; [|split; [|exact Hother]]]]].
  - destruct (relative_to_below root (d +:+ "/" +:+ m)) as [rel Hrel];
      [by apply below_entry|].
    exists rel. split; [exact Hrel|]. unfold LocalDisk.rename_asset.
    rewrite (sbind_ok _ _ s (d +:+ "/" +:+ n) s)
      by (by rewrite (path_to_filename_ready env self s root), Hres).
    rewrite (sbind_ok sget _ s s s eq_refl).
    unfold OS.exists_ at 1. unfold OS.lookup at 1. rewrite Hnd. cbn [negb].
    rewrite (dirname_entry d n Hd Hn), Hbase.
    rewrite (join_entry d m Hd (entry_name_not_absolute m Hm)).
    unfold OS.exists_ at 1. unfold OS.lookup at 1. rewrite Hnew.
    rewrite (sbind_ok _ _ s tt s').
    2:{ apply reraise_as_ok, syscall_ok. unfold OS.rename, OS.lookup.
        rewrite Hnd. rewrite bool_decide_eq_false_2.
        2:{ intros E. do 2 apply string_app_inv_head in E. congruence. }
        destruct (sibling_apart d n m "" (proj2 Hn) (proj2 Hm) Hne (or_introl eq_refl))
          as [_ Hb].
        rewrite string_app_nil_r in Hb. rewrite Hb.
        rewrite (dirname_entry d m Hd Hm).
        unfold OS.isdir, OS.lookup in Hdir.
        destruct (s !! d) as [[|]|]; try discriminate. by rewrite Hnew. }
    rewrite (sbind_ok _ _ s' root s' Hroot').
    unfold sbind at 1, slift at 1. rewrite Hrel.
    by rewrite (sbind_ok sget _ s' s' s' eq_refl).
  - pose proof (move_lookup_moved (d +:+ "/" +:+ n) (d +:+ "/" +:+ m) s ""
                  (or_introl eq_refl)) as H.
    rewrite !string_app_nil_r in H. unfold s'. by rewrite H.
  - pose proof (Hgone "" (or_introl eq_refl)) as H.
    by rewrite string_app_nil_r in H.
  - intros r Hr. split; [|apply Hgone; by right].
    unfold s'. apply move_lookup_moved. by right.
Qed.

End Renaming.

(** ** Disk usage *)

Section Walking.

Lemma sum_perm (l k : list Z) : l ≡ₚ k -> foldr Z.add 0 l = foldr Z.add 0 k.
Proof. induction 1; cbn; lia. Qed.

Lemma sum_app (l k : list Z) :
  foldr Z.add 0 (l ++ k) = foldr Z.add 0 l + foldr Z.add 0 k.
Proof. induction l as [|x l IH]; cbn; lia. Qed.

Lemma entry_of_inj d k1 k2 n :
  plain_dir d -> OS.entry_of d k1 = Some n -> OS.entry_of d k2 = Some n -> k1 = k2.
Proof.
  intros Hd H1 H2. apply (entry_of_spec d k1 n Hd) in H1 as [-> _].
  by apply (entry_of_spec d k2 n Hd) in H2 as [-> _].
Qed.

Lemma listdir_NoDup s d : plain_dir d -> NoDup (OS.listdir s d).
Proof.
  intros Hd. unfold OS.listdir. destruct (OS.isdir s d); [|constructor].
  pose proof (NoDup_fst_map_to_list s) as Hnd.
  induction (map_to_list s) as [|[k v] l IH]; [constructor|].
  cbn [fmap list_fmap fst] in Hnd. apply NoDup_cons in Hnd as [Hk Hnd].
  cbn [omap list_omap fst].
  destruct (OS.entry_of d k) as [n|] eqn:E; [|by apply IH].
  apply NoDup_cons. split; [|by apply IH].
  intros Hn. apply list_elem_of_omap in Hn as ([k' v'] & Hin & E').
  cbn [fst] in E'. rewrite (entry_of_inj d k k' n Hd E E') in Hk.
  apply Hk. apply list_elem_of_fmap. by exists (k', v').
Qed.

Context (s : store).

(** The names under [top/d] lie below [top] *)
Lemma below_trans top d k :
  OS.below (top +:+ "/" +:+ d) k = true -> OS.below top k = true.
Proof.
  unfold OS.below. intros H. apply prefix_inv in H as [r ->].
  replace (((top +:+ "/" +:+ d) +:+ "/") +:+ r)
    with ((top +:+ "/") +:+ (d +:+ "/" +:+ r)) by (by rewrite !string_app_assoc).
  apply prefix_app.
Qed.

Lemma visited_cons t l : visited (t :: l) = (posixpath.join t.1.1 <$> t.2) ++ visited l.
Proof. reflexivity. Qed.

Lemma visited_bind {A} (g : A -> list (string * list string * list string)) l :
  visited (l ≫= g) = l ≫= (fun x => visited (g x)).
Proof.
  induction l as [|x l IH]; [reflexivity|]. cbn [mbind list_bind].
  unfold visited at 1. rewrite bind_app. fold (visited (g x)).
  fold (visited (l ≫= g)). by rewrite IH.
Qed.

Lemma walk_S fuel top :
  OS.isdir s top = true ->
  OS.walk (S fuel) s top
  = (top,
     filter (fun n => OS.isdir s (posixpath.join top n) = true) (OS.listdir s top),
     filter (fun n => OS.isdir s (posixpath.join top n) = false) (OS.listdir s top))
    :: (filter (fun n => OS.isdir s (posixpath.join top n) = true) (OS.listdir s top)
        ≫= fun d => OS.walk fuel s (posixpath.join top d)).
Proof. intros H. cbn [OS.walk]. by rewrite H. Qed.

Lemma walk_not_dir fuel top : OS.isdir s top = false -> OS.walk fuel s top = [].
Proof. intros H. destruct fuel; [reflexivity|]. cbn [OS.walk]. by rewrite H. Qed.

Lemma listdir_join top n :
  plain_dir top -> n ∈ OS.listdir s top ->
  posixpath.join top n = top +:+ "/" +:+ n /\ entry_name n
  /\ is_Some (s !! (top +:+ "/" +:+ n)).
Proof.
  intros Hd Hn.
  assert (Hdir : OS.isdir s top = true).
  { unfold OS.listdir in Hn. destruct (OS.isdir s top); [reflexivity|].
    by apply elem_of_nil in Hn. }
  apply (listdir_spec s top n Hd Hdir) in Hn as [Hn Hs].
  split; [|by split]. apply join_entry; [exact Hd|].
  by apply entry_name_not_absolute.
Qed.

Lemma plain_dir_entry d n : plain_dir d -> entry_name n -> plain_dir (d +:+ "/" +:+ n).
Proof.
  intros Hd Hn. split.
  - intros E. apply (f_equal String.length) in E.
    rewrite !string_length_app in E. cbn in E. lia.
  - unfold Py.endswith_char. rewrite <- string_app_assoc.
    rewrite last_chars_app by apply Hn. apply endswith_plain; apply Hn.
Qed.

(** What [usage] visits under [top] are regular files below [top] *)
Lemma visited_sound fuel top y :
  plain_dir top -> y ∈ visited (OS.walk fuel s top) ->
  OS.isfile s y = true /\ OS.below top y = true.
Proof.
  revert top. induction fuel as [|fuel IH]; intros top Hd Hy.
  - by apply elem_of_nil in Hy.
  - destruct (OS.isdir s top) eqn:Hdir.
    2:{ rewrite walk_not_dir in Hy by exact Hdir. by apply elem_of_nil in Hy. }
    rewrite walk_S in Hy by exact Hdir. rewrite visited_cons in Hy. cbn [fst snd] in Hy.
    apply elem_of_app in Hy as [Hy | Hy].
    + apply list_elem_of_fmap in Hy as (n & -> & Hn).
      apply list_elem_of_filter in Hn as [Hnd Hn].
      destruct (listdir_join top n Hd Hn) as (Ej & _ & [nd Hs]).
      rewrite Ej in *. split; [|apply below_app].
      unfold OS.isfile, OS.isdir, OS.lookup in *. rewrite Hs in *.
      by destruct nd.
    + rewrite visited_bind in Hy. apply list_elem_of_bind in Hy as (d & Hy & Hdn).
      apply list_elem_of_filter in Hdn as [_ Hdn].
      destruct (listdir_join top d Hd Hdn) as (Ej & Hen & _).
      rewrite Ej in Hy. apply IH in Hy as [Hf Hb]; [|by apply plain_dir_entry].
      split; [exact Hf | by eapply below_trans].
Qed.

Lemma below_entry_cut top n1 n2 y :
  OS.no_slash n1 = true -> OS.no_slash n2 = true ->
  OS.below (top +:+ "/" +:+ n1) y = true ->
  y = top +:+ "/" +:+ n2 \/ OS.below (top +:+ "/" +:+ n2) y = true ->
  n1 = n2.
Proof.
  intros H1 H2 Hb Hy. destruct (decide (n1 = n2)) as [E | Hne]; [exact E|exfalso].
  destruct (at_or_below_inv _ _ Hy) as (r & -> & Hr).
  destruct (sibling_apart top n1 n2 r H1 H2 Hne Hr) as [_ Hf]. congruence.
Qed.

Lemma visited_NoDup fuel top :
  plain_dir top -> NoDup (visited (OS.walk fuel s top)).
Proof.
  revert top. induction fuel as [|fuel IH]; intros top Hd; [constructor|].
  destruct (OS.isdir s top) eqn:Hdir.
  2:{ rewrite walk_not_dir by exact Hdir. constructor. }
  rewrite walk_S by exact Hdir. rewrite visited_cons, visited_bind. cbn [fst snd].
  pose proof (listdir_NoDup s top Hd) as Hnd.
  apply NoDup_app. split; [|split].
  - apply NoDup_fmap_2_strong; [|by apply NoDup_filter].
    intros n1 n2 Hn1 Hn2 E.
    apply list_elem_of_filter in Hn1 as [_ Hn1]. apply list_elem_of_filter in Hn2 as [_ Hn2].
    destruct (listdir_join top n1 Hd Hn1) as (E1 & _ & _).
    destruct (listdir_join top n2 Hd Hn2) as (E2 & _ & _).
    rewrite E1, E2 in E. by do 2 apply string_app_inv_head in E.
  - intros y Hy1 Hy2.
    apply list_elem_of_fmap in Hy1 as (n & -> & Hn).
    apply list_elem_of_filter in Hn as [_ Hn].
    destruct (listdir_join top n Hd Hn) as (En & Hen & _). rewrite En in Hy2.
    apply list_elem_of_bind in Hy2 as (d & Hy & Hdn).
    apply list_elem_of_filter in Hdn as [Hdd Hdn].
    destruct (listdir_join top d Hd Hdn) as (Ed & Hed & _). rewrite Ed in Hy, Hdd.
    apply visited_sound in Hy as [Hf Hb]; [|by apply plain_dir_entry].
    pose proof (below_entry_cut top d n _ (proj2 Hed) (proj2 Hen) Hb (or_introl eq_refl))
      as ->.
    unfold OS.isfile, OS.isdir, OS.lookup in *.
    destruct (s !! (top +:+ "/" +:+ n)) as [[|]|]; discriminate.
  - apply NoDup_bind; [| |by apply NoDup_filter].
    + intros d1 d2 y H1 H2 Hy1 Hy2.
      apply list_elem_of_filter in H1 as [_ H1]. apply list_elem_of_filter in H2 as [_ H2].
      destruct (listdir_join top d1 Hd H1) as (E1 & He1 & _).
      destruct (listdir_join top d2 Hd H2) as (E2 & He2 & _).
      rewrite E1 in Hy1. rewrite E2 in Hy2.
      apply visited_sound in Hy1 as [_ Hb1]; [|by apply plain_dir_entry].
      apply visited_sound in Hy2 as [_ Hb2]; [|by apply plain_dir_entry].
      eapply (below_entry_cut top d1 d2 y); [apply He1 | apply He2 | exact Hb1 | by right].
    + intros d Hdn. apply list_elem_of_filter in Hdn as [_ Hdn].
      destruct (listdir_join top d Hd Hdn) as (Ed & Hed & _). rewrite Ed.
      apply IH. by apply plain_dir_entry.
Qed.

End Walking.

Section Totals.

Context (s : store).

Lemma name_length_bound k :
  is_Some (s !! k) -> (String.length k <= max_list (OS.name_lengths s))%nat.
Proof.
  intros [nd H]. apply max_list_elem_of_le. unfold OS.name_lengths.
  apply list_elem_of_fmap. exists (k, nd). split; [reflexivity|].
  by apply elem_of_map_to_list.
Qed.

Lemma prefix_total a x b y :
  a +:+ x = b +:+ y -> (String.length a <= String.length b)%nat ->
  exists z, b = a +:+ z.
Proof.
  revert b. induction a as [|c a IH]; intros b E Hl.
  - by exists b.
  - destruct b as [|c' b]; [cbn in Hl; lia|].
    rewrite !string_cons_app in E. injection E as -> E.
    destruct (IH b E) as [z ->]; [cbn in Hl; lia|]. by exists z.
Qed.

Lemma parent_inside top d' n' :
  OS.no_slash n' = true ->
  OS.below top (d' +:+ "/" +:+ n') = true ->
  d' = top \/ OS.below top d' = true.
Proof.
  intros Hn Hb. unfold OS.below in Hb. apply prefix_inv in Hb as [r E].
  symmetry in E.
  destruct (le_lt_dec (String.length (top +:+ "/")) (String.length (d' +:+ "/")))
    as [Hle | Hlt].
  - assert (E' : (top +:+ "/") +:+ r = (d' +:+ "/") +:+ n')
      by (by rewrite E, !string_app_assoc).
    destruct (prefix_total _ _ _ _ E' Hle) as [z Ez].
    destruct z as [|c z].
    + left. rewrite string_app_nil_r in Ez.
      apply chars_inj. apply (f_equal Py.chars) in Ez. rewrite !chars_app in Ez.
      by apply app_inv_tail in Ez.
    + right. unfold OS.below.
      assert (Hz : exists z', d' = (top +:+ "/") +:+ z').
      { apply (f_equal Py.chars) in Ez. rewrite !chars_app in Ez.
        destruct (exists_last (l := Py.chars (String c z))) as (l' & a & El);
          [discriminate|].
        rewrite El, app_assoc in Ez. apply app_inj_tail in Ez as [Ez _].
        exists (Py.str l'). apply chars_inj. rewrite chars_app, chars_str, chars_app.
        exact Ez. }
      destruct Hz as [z' ->]. apply prefix_app.
  - exfalso.
    assert (E' : (d' +:+ "/") +:+ n' = (top +:+ "/") +:+ r)
      by (by rewrite E, string_app_assoc).
    destruct (prefix_total _ _ _ _ E' ltac:(lia)) as [z Ez].
    rewrite Ez, !string_app_assoc in E'. do 2 apply string_app_inv_head in E'.
    destruct z as [|c z].
    { rewrite string_app_nil_r in Ez. rewrite Ez in Hlt. lia. }
    assert (Hc : exists z', String c z = z' +:+ "/").
    { apply (f_equal Py.chars) in Ez. rewrite !chars_app in Ez.
      destruct (exists_last (l := Py.chars (String c z))) as (l' & a & El);
        [discriminate|].
      rewrite El in Ez. rewrite !app_assoc in Ez.
      apply app_inj_tail in Ez as [_ <-].
      exists (Py.str l'). apply chars_inj. by rewrite chars_app, chars_str. }
    destruct Hc as [z' Hz']. rewrite Hz' in E'. subst n'.
    rewrite string_app_assoc in Hn. rewrite !no_slash_app in Hn.
    apply andb_true_iff in Hn as [_ Hn]. apply andb_true_iff in Hn as [Hn _].
    discriminate.
Qed.

End Totals.

Section Usage.

Context (s : store).

Lemma tree_below_entry top n :
  tree_below s top -> tree_below s (top +:+ "/" +:+ n).
Proof.
  intros Ht k nd Hk Hb. apply (Ht k nd Hk). by eapply below_trans.
Qed.

(** Every node below [top] is an entry of [top] or lies below an entry
    that is a directory *)
Lemma first_step top k :
  plain_dir top -> tree_below s top ->
  is_Some (s !! k) -> OS.below top k = true ->
  exists n, n ∈ OS.listdir s top
            /\ (k = top +:+ "/" +:+ n
                \/ (OS.below (top +:+ "/" +:+ n) k = true
                    /\ OS.isdir s (top +:+ "/" +:+ n) = true)).
Proof.
  intros Hd Ht. remember (String.length k) as len eqn:Hlen.
  revert k Hlen. induction len as [len IH] using lt_wf_ind. intros k -> [nd Hk] Hb.
  destruct (Ht k nd Hk Hb) as (d' & n' & -> & Hn' & Hd' & Hdir').
  destruct (parent_inside top d' n' (proj2 Hn') Hb) as [-> | Hb'].
  - exists n'. split; [|by left].
    apply (listdir_spec s top n' Hd Hdir'). split; [exact Hn' | by eauto].
  - assert (Hs' : is_Some (s !! d')).
    { unfold OS.isdir, OS.lookup in Hdir'. destruct (s !! d'); [by eauto | discriminate]. }
    destruct (IH (String.length d')) with (k := d') as (n & Hn & Hcase);
      [rewrite !string_length_app; cbn; lia | reflexivity | exact Hs' | exact Hb' |].
    exists n. split; [exact Hn|]. right. destruct Hcase as [-> | [Hb2 Hdir2]].
    + split; [apply below_app | exact Hdir'].
    + split; [|exact Hdir2]. unfold OS.below in *. by apply prefix_app_r.
Qed.

Lemma visited_complete fuel top y :
  plain_dir top -> tree_below s top ->
  (max_list (OS.name_lengths s) < fuel + String.length top)%nat ->
  OS.isfile s y = true -> OS.below top y = true ->
  y ∈ visited (OS.walk fuel s top).
Proof.
  revert top. induction fuel as [|fuel IH]; intros top Hd Ht Hfuel Hf Hb.
  - exfalso. assert (Hy : is_Some (s !! y)).
    { unfold OS.isfile, OS.lookup in Hf. destruct (s !! y); [by eauto | discriminate]. }
    apply name_length_bound in Hy. apply below_length in Hb. lia.
  - assert (Hy : is_Some (s !! y)).
    { unfold OS.isfile, OS.lookup in Hf. destruct (s !! y); [by eauto | discriminate]. }
    destruct (first_step top y Hd Ht Hy Hb) as (n & Hn & Hcase).
    assert (Hdir : OS.isdir s top = true).
    { unfold OS.listdir in Hn. destruct (OS.isdir s top); [reflexivity|].
      by apply elem_of_nil in Hn. }
    destruct (listdir_join s top n Hd Hn) as (Ej & Hen & _).
    rewrite walk_S by exact Hdir. rewrite visited_cons, visited_bind. cbn [fst snd].
    apply elem_of_app. destruct Hcase as [-> | [Hb2 Hdir2]].
    + left. apply list_elem_of_fmap. exists n. split; [by rewrite Ej|].
      apply list_elem_of_filter. split; [|exact Hn]. rewrite Ej.
      unfold OS.isfile, OS.isdir, OS.lookup in *.
      by destruct (s !! (top +:+ "/" +:+ n)) as [[|]|].
    + right. apply list_elem_of_bind. exists n. split.
      * rewrite Ej. apply IH; [by apply plain_dir_entry | by apply tree_below_entry
                               | | exact Hf | exact Hb2].
        rewrite !string_length_app. cbn. lia.
      * apply list_elem_of_filter. split; [by rewrite Ej | exact Hn].
Qed.

Lemma bind_ext_in {A B} (f g : A -> list B) l :
  (forall x, x ∈ l -> f x = g x) -> l ≫= f = l ≫= g.
Proof.
  induction l as [|x l IH]; intros H; [reflexivity|]. cbn [mbind list_bind].
  change (f x ++ (l ≫= f) = g x ++ (l ≫= g)).
  rewrite H by apply list_elem_of_here.
  rewrite IH; [reflexivity|]. intros y Hy. apply H. by apply list_elem_of_further.
Qed.

Lemma join_longer top n :
  n ∈ OS.listdir s top ->
  (String.length top < String.length (posixpath.join top n))%nat.
Proof.
  intros Hn. unfold OS.listdir in Hn. destruct (OS.isdir s top); [|by apply elem_of_nil in Hn].
  apply list_elem_of_omap in Hn as ([k v] & _ & E). cbn [fst] in E.
  unfold OS.entry_of in E. destruct (String.prefix _ _); [|discriminate].
  destruct (negb _ && _) eqn:En; [|discriminate]. injection E as E.
  apply andb_true_iff in En as [Hne Hns]. rewrite E in Hne, Hns.
  apply negb_true_iff, bool_decide_eq_false in Hne.
  destruct n as [|c n]; [congruence|].
  unfold posixpath.join.
  assert (Hc : Py.startswith (String c n) "/" = false).
  { apply startswith_cons_false. unfold OS.no_slash in Hns. cbn in Hns.
    apply andb_true_iff in Hns as [Hc _]. apply negb_true_iff in Hc.
    by apply bool_decide_eq_false in Hc. }
  rewrite Hc. destruct (_ || _); rewrite !string_length_app; cbn; lia.
Qed.

(** A fuel above the longest name of the store is never used up: more
    fuel gives the same walk *)
Lemma walk_fuel fuel top :
  (max_list (OS.name_lengths s) < fuel + String.length top)%nat ->
  OS.walk fuel s top = OS.walk (S fuel) s top.
Proof.
  revert top. induction fuel as [|fuel IH]; intros top Hfuel.
  - destruct (OS.isdir s top) eqn:Hdir; [|by rewrite !walk_not_dir].
    exfalso. assert (Hs : is_Some (s !! top)).
    { unfold OS.isdir, OS.lookup in Hdir. destruct (s !! top); [by eauto | discriminate]. }
    apply name_length_bound in Hs. lia.
  - destruct (OS.isdir s top) eqn:Hdir; [|by rewrite !walk_not_dir].
    rewrite (walk_S s fuel), (walk_S s (S fuel)) by exact Hdir. f_equal.
    apply bind_ext_in. intros d Hdn. apply list_elem_of_filter in Hdn as [_ Hdn].
    apply IH. pose proof (join_longer top d Hdn). lia.
Qed.

Lemma usage_files_sum dirpath fs acc :
  (forall f, f ∈ fs -> is_Some (s !! posixpath.join dirpath f)) ->
  LocalDisk.usage_files s dirpath fs acc
  = Ok (acc + foldr Z.add 0 (size_at s <$> (posixpath.join dirpath <$> fs))).
Proof.
  revert acc. induction fs as [|f fs IH]; intros acc H.
  - cbn. f_equal. lia.
  - cbn [LocalDisk.usage_files]. unfold OS.getsize, OS.lookup.
    destruct (H f (list_elem_of_here _ _)) as [nd Hnd]. rewrite Hnd. cbn [rbind].
    rewrite IH by (intros g Hg; apply H; by apply list_elem_of_further).
    cbn [fmap list_fmap foldr]. unfold size_at at 2. rewrite Hnd. f_equal. lia.
Qed.

Lemma usage_loop_sum triples acc :
  (forall y, y ∈ visited triples -> is_Some (s !! y)) ->
  LocalDisk.usage_loop s triples acc
  = Ok (acc + foldr Z.add 0 (size_at s <$> visited triples)).
Proof.
  revert acc. induction triples as [|[[dp ds] fs] l IH]; intros acc H.
  - cbn. f_equal. lia.
  - cbn [LocalDisk.usage_loop]. rewrite visited_cons in *. cbn [fst snd] in *.
    rewrite usage_files_sum.
    2:{ intros f Hf. apply H. apply elem_of_app. left.
        apply list_elem_of_fmap. by exists f. }
    cbn [rbind]. rewrite IH by (intros y Hy; apply H; apply elem_of_app; by right).
    rewrite fmap_app, sum_app. f_equal. lia.
Qed.

Lemma sum_filter_zero {A} (f : A -> Z) (Q : A -> Prop) `{!forall x, Decision (Q x)} l :
  (forall x, x ∈ l -> ~ Q x -> f x = 0) ->
  foldr Z.add 0 (f <$> filter Q l) = foldr Z.add 0 (f <$> l).
Proof.
  induction l as [|x l IH]; intros Hz; [reflexivity|].
  assert (IH' : foldr Z.add 0 (f <$> filter Q l) = foldr Z.add 0 (f <$> l))
    by (apply IH; intros y Hy; apply Hz; by apply list_elem_of_further).
  destruct (decide (Q x)) as [Hq | Hq].
  - rewrite filter_cons_True by exact Hq. cbn. by rewrite IH'.
  - rewrite filter_cons_False by exact Hq. cbn.
    rewrite (Hz x (list_elem_of_here _ _) Hq), IH'. lia.
Qed.

(** The walk of a tree visits the regular files below [top], each once,
    and their sizes add up to the bytes held below [top] *)
Lemma usage_total top :
  plain_dir top -> tree_below s top ->
  LocalDisk.usage_loop s (OS.os_walk s top) 0 = Ok (total_size_below s top).
Proof.
  intros Hd Ht. unfold OS.os_walk.
  set (fuel := S (max_list (OS.name_lengths s))).
  rewrite usage_loop_sum.
  2:{ intros y Hy. apply visited_sound in Hy as [Hf _]; [|exact Hd].
      unfold OS.isfile, OS.lookup in Hf. destruct (s !! y); [by eauto | discriminate]. }
  f_equal. rewrite Z.add_0_l. unfold total_size_below.
  set (keys := filter (fun k => OS.below top k = true) (map_to_list s).*1).
  rewrite <- (sum_filter_zero (size_at s) (fun k => OS.isfile s k = true) keys).
  2:{ intros k _ Hk. unfold size_at, OS.isfile, OS.lookup in *.
      by destruct (s !! k) as [[|]|]. }
  subst keys. apply sum_perm. apply fmap_Permutation. apply NoDup_Permutation.
  - by apply visited_NoDup.
  - apply NoDup_filter, NoDup_filter, NoDup_fst_map_to_list.
  - intros y. rewrite !list_elem_of_filter. split.
    + intros Hy. apply visited_sound in Hy as [Hf Hb]; [|exact Hd].
      split; [exact Hf|]. split; [exact Hb|].
      unfold OS.isfile, OS.lookup in Hf. destruct (s !! y) as [nd|] eqn:E; [|discriminate].
      apply list_elem_of_fmap. exists (y, nd). split; [reflexivity|].
      by apply elem_of_map_to_list.
    + intros (Hf & Hb & _). apply visited_complete; try assumption.
      unfold fuel. lia.
Qed.

End Usage.

Section UsageGrowth.

Lemma size_at_insert_ne (s : store) k nd k' :
  k' ≠ k -> size_at (<[k := nd]> s) k' = size_at s k'.
Proof. intros H. unfold size_at. by rewrite lookup_insert_ne. Qed.

Lemma sum_ext_in {A} (f g : A -> Z) l :
  (forall x, x ∈ l -> f x = g x) ->
  foldr Z.add 0 (f <$> l) = foldr Z.add 0 (g <$> l).
Proof.
  induction l as [|x l IH]; intros H; [reflexivity|]. cbn.
  rewrite (H x (list_elem_of_here _ _)).
  rewrite IH; [reflexivity|]. intros y Hy. apply H. by apply list_elem_of_further.
Qed.

(** A new regular file below [d] adds its length to the bytes held there *)
Lemma total_size_insert (s : store) d k data t :
  s !! k = None -> OS.below d k = true ->
  total_size_below (<[k := File data t]> s) d
  = total_size_below s d + Z.of_nat (length data).
Proof.
  intros Hk Hb. unfold total_size_below.
  pose proof (map_to_list_insert s k (File data t) Hk) as Hp.
  rewrite (sum_perm _ _
             (fmap_Permutation _ _ _
                (filter_Permutation _ _ _ (fmap_Permutation fst _ _ Hp)))).
  cbn [fmap list_fmap fst]. rewrite filter_cons_True by exact Hb.
  cbn [fmap list_fmap foldr]. unfold size_at at 1. rewrite lookup_insert_eq.
  cbn [OS.st_size].
  rewrite (sum_ext_in (size_at (<[k := File data t]> s)) (size_at s)); [lia|].
  intros k' Hk'. apply size_at_insert_ne. intros ->.
  apply list_elem_of_filter in Hk' as [_ Hk'].
  apply list_elem_of_fmap in Hk' as ([k0 v] & E & Hin). cbn in E. subst k0.
  apply elem_of_map_to_list in Hin. congruence.
Qed.

Lemma tree_below_insert_file (s : store) root d n data t :
  tree_below s root -> plain_dir d -> entry_name n -> OS.isdir s d = true ->
  s !! (d +:+ "/" +:+ n) = None ->
  tree_below (<[d +:+ "/" +:+ n := File data t]> s) root.
Proof.
  intros Ht Hd Hn Hdir Hnew k nd Hk Hb.
  assert (Hkeep : forall d', OS.isdir s d' = true ->
                             OS.isdir (<[d +:+ "/" +:+ n := File data t]> s) d' = true).
  { intros d' H. unfold OS.isdir, OS.lookup in *.
    destruct (decide (d' = d +:+ "/" +:+ n)) as [-> | Hne]; [by rewrite Hnew in H|].
    by rewrite lookup_insert_ne. }
  destruct (decide (k = d +:+ "/" +:+ n)) as [-> | Hne].
  - exists d, n. split; [reflexivity|]. split; [exact Hn|]. split; [exact Hd|].
    by apply Hkeep.
  - rewrite lookup_insert_ne in Hk by congruence.
    destruct (Ht k nd Hk Hb) as (d' & n' & -> & Hn' & Hd' & Hdir').
    exists d', n'. split; [reflexivity|]. split; [exact Hn'|]. split; [exact Hd'|].
    by apply Hkeep.
Qed.

End UsageGrowth.

(** ** The path of a listed asset *)

Section RelativePaths.

(** [fn.split(root + sep)[1]] on a name under the root: the text up to
    the next occurrence of [root + sep] *)
Lemma split_go_at_sep c u rel :
  Py.split_go (String c u) 0 [] (String c u +:+ rel)
  = "" :: Py.split_go (String c u) 0 [] rel.
Proof.
  pose proof (prefix_app (String c u) rel) as Hp.
  rewrite string_cons_app in Hp |- *. cbn [Py.split_go]. rewrite Hp.
  cbn [rev Py.str string_of_list_ascii String.length Nat.sub]. f_equal.
  rewrite Nat.sub_0_r. apply split_go_skip.
Qed.

Lemma relative_to_first root rel :
  LocalDisk.relative_to root (root +:+ "/" +:+ rel)
  = Ok (hd "" (Py.split rel (root +:+ "/"))).
Proof.
  unfold LocalDisk.relative_to, Py.split.
  rewrite <- string_app_assoc.
  assert (Hsep : exists c u, root +:+ "/" = String c u).
  { destruct root as [|c r]; [by exists "/"%char, "" |].
    exists c, (r +:+ "/"). reflexivity. }
  destruct Hsep as (c & u & ->). rewrite split_go_at_sep. cbn [lookup list_lookup].
  destruct (Py.split_go (String c u) 0 [] rel) as [|x l] eqn:E; [|reflexivity].
  by apply split_go_nonempty in E.
Qed.

Lemma split_go_piece sep c0 u x acc rest :
  sep = String c0 u ->
  forallb (fun c => negb (bool_decide (c = c0))) (Py.chars x) = true ->
  Py.split_go sep 0 acc (x +:+ rest)
  = Py.split_go sep 0 (rev (Py.chars x) ++ acc) rest.
Proof.
  intros Hsep. revert acc. induction x as [|c x IH]; intros acc Hx; [reflexivity|].
  cbn in Hx. apply andb_true_iff in Hx as [Hc Hx].
  apply negb_true_iff, bool_decide_eq_false in Hc.
  rewrite string_cons_app. cbn [Py.split_go].
  replace (String.prefix sep (String c (x +:+ rest))) with false.
  2:{ rewrite Hsep. cbn [String.prefix]. destruct (ascii_dec c0 c); congruence. }
  rewrite IH by exact Hx.
  change (Py.chars (String c x)) with (c :: Py.chars x). cbn [rev].
  by rewrite <- app_assoc.
Qed.

(** A direct child of the root gets its own name *)
Lemma relative_to_child root n :
  Py.startswith root "/" = true -> OS.no_slash n = true ->
  LocalDisk.relative_to root (root +:+ "/" +:+ n) = Ok n.
Proof.
  intros Hr Hn. rewrite relative_to_first. f_equal. unfold Py.split.
  destruct root as [|c r]; [discriminate|].
  unfold Py.startswith in Hr. rewrite prefix_slash in Hr.
  apply bool_decide_eq_true in Hr. subst c.
  change (String Py.slash r +:+ "/") with (String "/" (r +:+ "/")).
  pose proof (split_go_piece (String "/" (r +:+ "/")) "/"%char (r +:+ "/") n [] ""
                eq_refl Hn) as H.
  rewrite string_app_nil_r in H. rewrite H.
  cbn [Py.split_go hd]. by rewrite app_nil_r, rev_involutive, str_chars.
Qed.

(** Where the text of the root comes again further down, the path stops
    before it *)
Lemma relative_to_recurring root x y :
  Py.startswith root "/" = true -> OS.no_slash x = true ->
  LocalDisk.relative_to root (root +:+ "/" +:+ x +:+ root +:+ "/" +:+ y) = Ok x.
Proof.
  intros Hr Hx. rewrite relative_to_first. f_equal. unfold Py.split.
  destruct root as [|c r]; [discriminate|].
  unfold Py.startswith in Hr. rewrite prefix_slash in Hr.
  apply bool_decide_eq_true in Hr. subst c.
  change (String Py.slash r +:+ "/") with (String "/" (r +:+ "/")).
  rewrite (split_go_piece (String "/" (r +:+ "/")) "/"%char (r +:+ "/") x [] _
             eq_refl Hx).
  rewrite app_nil_r.
  replace (String Py.slash r +:+ "/" +:+ y) with (String "/" (r +:+ "/") +:+ y)
    by (by rewrite !string_cons_app, string_app_assoc).
  pose proof (prefix_app (String "/" (r +:+ "/")) y) as Hp.
  rewrite string_cons_app in Hp |- *. cbn [Py.split_go]. rewrite Hp.
  cbn [hd]. by rewrite rev_involutive, str_chars.
Qed.

End RelativePaths.

(** ** The usage of a provider *)

Lemma tree_belowb_sound (s : store) d : tree_belowb s d = true -> tree_below s d.
Proof.
  unfold tree_belowb. rewrite forallb_forall. intros H k nd Hk Hb.
  assert (Hin : In k (map_to_list s).*1).
  { apply list_elem_of_In, list_elem_of_fmap. exists (k, nd).
    split; [reflexivity | by apply elem_of_map_to_list]. }
  specialize (H k Hin). rewrite Hb in H. cbn [negb orb] in H.
  repeat (apply andb_true_iff in H as [H ?]).
  exists (posixpath.dirname k), (posixpath.basename k).
  split; [by apply bool_decide_eq_true in H|].
  split; [split; [|done]|].
  - intros E. rewrite E in *. discriminate.
  - split; [split|done].
    + intros E. rewrite E in *. discriminate.
    + by apply negb_true_iff.
Qed.

Lemma usage_of_tree env self s root s' :
  LocalDisk.abs_root env self s = (Ok root, s') ->
  plain_dir root -> tree_below s' root ->
  LocalDisk.usage env self s = (Ok (total_size_below s' root), s').
Proof.
  intros Hroot Hd Ht. unfold LocalDisk.usage.
  rewrite (sbind_ok _ _ s root s' Hroot).
  rewrite (sbind_ok sget _ s' s' s' eq_refl).
  unfold slift. by rewrite usage_total.
Qed.

(** ** Resolved names and their components *)

Lemma filter_nonempty_repeat k :
  filter (fun c : string => c ≠ "") (repeat "" k) = [].
Proof.
  induction k as [|k IH]; [reflexivity|]. cbn [repeat].
  rewrite filter_cons_False by (intros H; by apply H). exact IH.
Qed.

Lemma filter_nonempty_proper l :
  Forall proper l -> filter (fun c : string => c ≠ "") l = l.
Proof.
  induction 1 as [|c l (Hc & _) _ IH]; [reflexivity|].
  rewrite filter_cons_True by exact Hc. by rewrite IH.
Qed.

Lemma components_absolute k l : Forall proper l -> components (absolute k l) = l.
Proof.
  intros Hl. unfold components, absolute. rewrite split_slashes, filter_app.
  rewrite filter_nonempty_repeat. cbn [app]. destruct l as [|c l].
  - reflexivity.
  - rewrite split_join.
    + by apply filter_nonempty_proper.
    + eapply Forall_impl; [exact Hl|]. by intros x (_ & _ & _ & Hx).
    + discriminate.
Qed.

Lemma kept_proper p :
  ".." ∉ Py.split (Py.strip Py.slash p) "/" -> Forall proper (kept p).
Proof.
  intros Hn. apply Forall_forall. intros c Hc. unfold kept in Hc.
  apply list_elem_of_filter in Hc as [[Hc1 Hc2] Hc].
  split; [exact Hc1|]. split; [exact Hc2|]. split.
  - intros ->. by apply Hn.
  - by eapply split_pieces.
Qed.

Lemma descendant_inside k cs p :
  Forall proper cs -> ".." ∉ Py.split (Py.strip Py.slash p) "/" ->
  descendant (absolute k cs) (absolute k (cs ++ kept p)) = true.
Proof.
  intros Hcs Hn. unfold descendant. apply bool_decide_eq_true.
  rewrite !components_absolute; [by exists (kept p)| |exact Hcs].
  apply Forall_app. split; [exact Hcs | by apply kept_proper].
Qed.

(** ** Guards, growth and the root itself *)

Section Guards.

Context (L : Libs) (env : Env) (self : LocalDisk.provider).

Lemma rename_asset_guards s root p nm filename :
  LocalDisk.abs_root env self s = (Ok root, s) ->
  LocalDisk._path_to_filename_in env root p = Ok filename ->
  (s !! filename = None ->
   LocalDisk.rename_asset L env self p nm s = (Raise AssetNotFoundError, s))
  /\ (is_Some (s !! filename) ->
      is_Some (s !! posixpath.join (posixpath.dirname filename) (posixpath.basename nm)) ->
      LocalDisk.rename_asset L env self p nm s = (Raise AssetAlreadyExistsError, s)).
Proof.
  intros Hroot Hres. unfold LocalDisk.rename_asset.
  rewrite (sbind_ok _ _ s filename s)
    by (by rewrite (path_to_filename_ready env self s root), Hres).
  rewrite (sbind_ok sget _ s s s eq_refl).
  unfold OS.exists_, OS.lookup. split.
  - intros ->. reflexivity.
  - intros [x ->] [y ->]. reflexivity.
Qed.

Lemma create_asset_grows_usage s root p d n data :
  LocalDisk.abs_root env self s = (Ok root, s) ->
  LocalDisk._path_to_filename_in env root p = Ok (d +:+ "/" +:+ n) ->
  plain_dir root -> plain_dir d -> entry_name n ->
  d = root \/ OS.below root d = true ->
  OS.isdir s d = true -> s !! (d +:+ "/" +:+ n) = None ->
  tree_below s root ->
  exists r s',
    LocalDisk.create_asset L env self p (Some data) s = (r, s')
    /\ LocalDisk.usage env self s = (Ok (total_size_below s root), s)
    /\ LocalDisk.usage env self s'
       = (Ok (total_size_below s root + Z.of_nat (length data)), s').
Proof.
  intros Hroot Hres Hr Hd Hn Hin Hdir Hnew Ht.
  pose proof (create_asset_writes L env self s root p d n data s Hroot Hres Hd Hn Hnew
                (or_introl (conj Hdir eq_refl))) as Hc.
  cbv zeta in Hc. eexists _, _. split; [exact Hc|]. split.
  - by apply usage_of_tree.
  - rewrite <- (total_size_insert s root (d +:+ "/" +:+ n) data (now env) Hnew)
      by (by apply below_entry).
    apply usage_of_tree; [|exact Hr|by apply tree_below_insert_file].
    eapply abs_root_extends; [exact Hroot | apply extends_insert].
Qed.

Lemma delete_asset_root s k cs t :
  LocalDisk.abs_root env self s = (Ok (absolute k cs), s) ->
  (k = 1 \/ k = 2)%nat -> Forall proper cs ->
  s !! absolute k cs = Some (Dir t) ->
  LocalDisk.delete_asset env self "" s = (Ok tt, removed (absolute k cs) s).
Proof.
  intros Hroot Hk Hcs Hdir.
  assert (Hres : LocalDisk._path_to_filename_in env (absolute k cs) ""
                 = Ok (absolute k cs)).
  { rewrite (path_to_filename_inside env k cs "" Hk Hcs).
    - change (kept "") with (@nil string). by rewrite app_nil_r.
    - vm_compute. intros H. by repeat (apply elem_of_cons in H as [H|H]; [discriminate|]);
        apply elem_of_nil in H. }
  rewrite (delete_asset_outcome env self s (absolute k cs) "" (absolute k cs) Hroot Hres).
  by rewrite Hdir.
Qed.

End Guards.

Lemma get_asset_data_not_a_file (L : Libs) env self s root p filename :
  LocalDisk.abs_root env self s = (Ok root, s) ->
  LocalDisk._path_to_filename_in env root p = Ok filename ->
  OS.isfile s filename = false ->
  LocalDisk.get_asset_data L env self p s = (Raise AssetNotFoundError, s).
Proof.
  intros Hroot Hres Hf.
  rewrite (get_asset_data_outcome L env self s root p filename Hroot Hres).
  by rewrite Hf.
Qed.


(** ** The walk of the remote [get_asset_data] *)

Section RemoteWalk.

Context (srv : FTP.Server).
Context (gzip_decompress : list byte -> option (list byte)).

(** The walk and the retrieval, for a path written as its components *)
Lemma walk_components ds f cur :
  Forall (fun d => OS.no_slash d = true) ds -> OS.no_slash f = true ->
  fst ((run directory <- FTP.walk srv "" (Py.join "/" (ds ++ [f])) ;
        reraise_as AssetNotFoundError (FTP.retrbinary srv directory)) cur)
  = match changed_into srv cur ds with
    | Ok cur' =>
        match FTP.retr_cmd srv cur' f with
        | Ok buf => Ok buf
        | Raise _ => Raise AssetNotFoundError
        end
    | Raise e => Raise e
    end.
Proof.
  intros Hds Hf. revert cur. induction Hds as [|d ds Hd _ IH]; intros cur.
  - cbn [app Py.join changed_into]. unfold sbind. rewrite walk_plain by exact Hf.
    change ("" +:+ f) with f. unfold reraise_as, FTP.retrbinary. cbn [fst].
    by destruct (FTP.retr_cmd srv cur f).
  - change ((d :: ds) ++ [f]) with (d :: (ds ++ [f])).
    rewrite join_cons by (by destruct ds).
    unfold sbind at 1. rewrite walk_dir by exact Hd. change ("" +:+ d) with d.
    unfold sbind at 1. unfold FTP.cwd at 1. cbn [changed_into].
    destruct (FTP.cwd_cmd srv cur d) as [cur1|e]; [|reflexivity].
    cbn [rbind]. rewrite <- IH. reflexivity.
Qed.

Lemma get_asset_data_components cur0 ds f :
  FTP.login srv = Ok cur0 ->
  Forall (fun d => OS.no_slash d = true) ds -> OS.no_slash f = true ->
  FTP.get_asset_data srv gzip_decompress (Py.join "/" (ds ++ [f]))
  = match changed_into srv cur0 ds with
    | Ok cur => fetched gzip_decompress (FTP.retr_cmd srv cur f)
    | Raise e => Raise e
    end.
Proof.
  intros Hl Hds Hf. unfold FTP.get_asset_data, FTP.with_session. rewrite Hl.
  cbn [rbind]. rewrite (walk_components ds f cur0 Hds Hf).
  destruct (changed_into srv cur0 ds) as [cur|e]; [|reflexivity].
  unfold fetched. by destruct (FTP.retr_cmd srv cur f).
Qed.

(** Every path is the join of components without separator *)
Lemma path_components p :
  exists ds f,
    Forall (fun d => OS.no_slash d = true) ds /\ OS.no_slash f = true
    /\ p = Py.join "/" (ds ++ [f]).
Proof.
  induction p as [|c p (ds & f & Hds & Hf & ->)].
  - by exists [], "".
  - destruct (decide (c = Py.slash)) as [-> | Hc].
    + exists ("" :: ds), f. split; [by constructor|]. split; [exact Hf|].
      change (("" :: ds) ++ [f]) with ("" :: (ds ++ [f])).
      by rewrite join_cons by (by destruct ds).
    + assert (Hn : forall x, OS.no_slash x = true -> OS.no_slash (String c x) = true).
      { intros x Hx. unfold OS.no_slash in *. cbn [Py.chars forallb].
        apply andb_true_iff. split; [|exact Hx].
        by rewrite bool_decide_eq_false_2. }
      destruct ds as [|d ds].
      * exists [], (String c f). split; [constructor|]. split; [by apply Hn|]. reflexivity.
      * exists (String c d :: ds), f. apply Forall_cons in Hds as [Hd Hds].
        split; [constructor; [by apply Hn | exact Hds]|]. split; [exact Hf|].
        change ((String c d :: ds) ++ [f]) with (String c d :: (ds ++ [f])).
        change ((d :: ds) ++ [f]) with (d :: (ds ++ [f])).
        rewrite !join_cons by (by destruct ds). reflexivity.
Qed.

Lemma get_asset_data_path cur0 p :
  FTP.login srv = Ok cur0 ->
  FTP.get_asset_data srv gzip_decompress p
  = match changed_into srv cur0 (removelast (Py.split p "/")) with
    | Ok cur => fetched gzip_decompress (FTP.retr_cmd srv cur (List.last (Py.split p "/") ""))
    | Raise e => Raise e
    end.
Proof.
  intros Hl. destruct (path_components p) as (ds & f & Hds & Hf & ->).
  rewrite split_join.
  - rewrite List.removelast_last, List.last_last. by apply get_asset_data_components.
  - apply Forall_app. split; [exact Hds | by constructor].
  - by destruct ds.
Qed.

Lemma get_asset_data_login_fails e p :
  FTP.login srv = Raise e -> FTP.get_asset_data srv gzip_decompress p = Raise e.
Proof.
  intros Hl. unfold FTP.get_asset_data, FTP.with_session. by rewrite Hl.
Qed.

End RemoteWalk.

(** * The claims *)

(** ** The sandbox of the local provider *)

(** C1.  The check of [_path_to_filename] compares strings, not
    components: under the root [/data/root] the path [../root2/secret]
    resolves to [/data/root2/secret], which begins with the root as a
    string and is returned, although it is no descendant of the root; and
    [get_asset] then serves the file of the neighbouring directory. *)
Theorem path_to_filename_sibling_escape :
  LocalDisk._path_to_filename_in Sample.env "/data/root" "../root2/secret"
    = Ok "/data/root2/secret"
  /\ descendant "/data/root" "/data/root2/secret" = false
  /\ is_Ok (fst (LocalDisk.get_asset Sample.libs Sample.env Sample.provider
                   "../root2/secret" Sample.disk)) = true.
Proof. vm_compute. auto. Qed.

(** ** The order of the probes *)

(** The dispatch that the specification describes is not the one of the
    code, in three places.  A file that only [exifread] can read is not
    classified by it: [_get_asset] raises [UnrecognizedDataFormatError]
    on [tags.bin].  A probe that raises is not always passed over: PIL
    raises on [c.jpg] while it builds the EXIF dictionary, after it has
    assigned the type, and the file is a [JPEG] asset, which without PIL
    it is not.  And the record is not decided by the probe that
    recognized the file alone: what [exifread] reads afterwards in
    [p.png] changes the exposure of its record. *)
Lemma spec_dispatch_fails :
  ~ exif_fallback_dispatch /\ ~ throwing_probe_skipped
  /\ ~ first_probe_decides_record.
Proof.
  split; [| split].
  - intros H.
    specialize (H Sample.libs Sample.disk "tags.bin" "/data/root/tags.bin"
                  ["E"%byte] 7 ltac:(reflexivity)).
    destruct H as [H _].
    assert (E : LocalDisk._get_asset Sample.libs Sample.disk "tags.bin"
                  "/data/root/tags.bin" = Raise UnrecognizedDataFormatError)
      by (vm_compute; reflexivity).
    specialize (H E). vm_compute in H. discriminate.
  - intros H.
    specialize (H Sample.libs Sample.disk "c.jpg" "/data/root/c.jpg" ["J"%byte] 5
                  (mk_pil "JPEG" ["R"; "G"; "B"] (640, 480) None)
                  eq_refl eq_refl eq_refl eq_refl eq_refl).
    assert (E1 : is_Ok (LocalDisk._get_asset Sample.libs Sample.disk "c.jpg"
                          "/data/root/c.jpg") = true) by (by vm_compute).
    assert (E2 : LocalDisk._get_asset (without_PIL Sample.libs) Sample.disk "c.jpg"
                   "/data/root/c.jpg" = Raise UnrecognizedDataFormatError)
      by (by vm_compute).
    rewrite H, E2 in E1. discriminate E1.
  - intros H.
    specialize (H Sample.studio Sample.album "p.png" "/data/root/p.png" ["P"%byte] 3
                  (mk_pil "PNG" ["L"] (8, 8) (Some {[ "ExposureTime" := PInt 10 ]}))
                  (fun _ => Some {[ "ExposureTime" := PInt 30 ]})
                  eq_refl eq_refl eq_refl eq_refl).
    assert (E1 : match LocalDisk._get_asset
                         (with_exifread Sample.studio
                            (fun _ => Some {[ "ExposureTime" := PInt 30 ]}))
                         Sample.album "p.png" "/data/root/p.png" with
                 | Ok a => metadata a !! "exposure"
                 | Raise _ => None
                 end = Some (PInt 30)) by (by vm_compute).
    assert (E2 : match LocalDisk._get_asset Sample.studio Sample.album "p.png"
                         "/data/root/p.png" with
                 | Ok a => metadata a !! "exposure"
                 | Raise _ => None
                 end = Some (PInt 10)) by (by vm_compute).
    rewrite H, E2 in E1. discriminate E1.
Qed.

(** C2 (as amended).  For a regular file, classification tries the FITS
    probe, then PIL, then rawpy.  The first of them that assigns the type
    decides the type, the layers, the dimensions and the filter of the
    record; a probe that raises before it assigns the type counts as not
    recognizing the file, and the next is tried.  The EXIF reader is no
    probe of its own: when the three probes fail the result is
    [UnrecognizedDataFormatError] whatever [exifread] would read; it runs
    after PIL or rawpy has assigned the type and only the exposure and the
    time of the record come from it.  (The statements for PIL and rawpy
    are for files on which classification leaves the time unset or a
    [datetime]; an EXIF time that is kept as it was read is left out.) *)
Theorem classification_order
    (L : Libs) (s : store) (path filename : string) (data : list byte) (t : Z)
    (Hf : s !! filename = Some (File data t)) :
  let r := LocalDisk._get_asset L s path filename in
  let l := snd (LocalDisk.classify L (Some data) LocalDisk.locals0) in
  (fits_type L data = Some "FITS" ->
     exists f h0 w h names,
       pyfits_open L data = Some f /\ f !! 0%nat = Some h0
       /\ h0 !! "NAXIS1" = Some w /\ h0 !! "NAXIS2" = Some h
       /\ LocalDisk.filter_names f = Ok names
       /\ probed r "FITS" (PInt (Z.of_nat (length f))) w h (Py.join "," names))
  /\ (fits_type L data = None ->
      forall im, have_PIL L = true -> PIL_open L data = Some im ->
      time_is_datetime l ->
      probed r (pil_format im) (PInt (Z.of_nat (length (pil_bands im))))
        (PInt (fst (pil_size im))) (PInt (snd (pil_size im)))
        (Py.join "," (pil_bands im)))
  /\ (fits_type L data = None ->
      have_PIL L = false \/ PIL_open L data = None ->
      forall im, have_rawpy L = true -> rawpy_imread L data = Some im ->
      time_is_datetime l ->
      probed r (raw_type im) (PInt (num_colors im)) (PInt (raw_width im))
        (PInt (raw_height im)) (Py.join "," (color_desc im)))
  /\ (fits_type L data = None ->
      have_PIL L = false \/ PIL_open L data = None ->
      have_rawpy L = false \/ rawpy_imread L data = None ->
      r = Raise UnrecognizedDataFormatError).
Proof.
  intros r l.
  split; [| split; [| split]].
  - intros Hfits.
    destruct (fits_asset_metadata L s path filename data t Hf Hfits)
      as (f & h0 & names & a & Ho & H0 & Hn & Ha & Hc & _ & Hty & _ & Hla
          & [w Ew] & Hw & [h Eh] & Hh & Hfl & _).
    exists f, h0, w, h, names.
    split; [exact Ho |]. split; [exact H0 |]. split; [exact Ew |].
    split; [exact Eh |]. split; [exact Hn |].
    exists a. split; [exact Ha |]. split; [exact Hc |]. split; [exact Hty |].
    split; [exact Hla |]. split; [by rewrite Hw |]. split; [by rewrite Hh |].
    exact Hfl.
  - intros Hfits im HP Him Ht.
    apply (get_asset_probed L s path filename data t); [exact Hf | | exact Ht].
    by rewrite (classify_picture L data Hfits), HP, Him.
  - intros Hfits Hpil im HR Him Ht.
    apply (get_asset_probed L s path filename data t); [exact Hf | | exact Ht].
    rewrite (classify_picture L data Hfits), HR, Him.
    destruct Hpil as [-> | Hpil]; [reflexivity |].
    rewrite Hpil. by destruct (have_PIL L).
  - intros Hfits Hpil Hraw.
    apply (get_asset_unclassified L s path filename data t Hf).
    unfold first_type. rewrite Hfits.
    assert ((if have_PIL L then PIL_open L data else None) = None) as ->.
    { destruct Hpil as [-> | ->]; [reflexivity | by destruct (have_PIL L)]. }
    destruct Hraw as [-> | ->]; [reflexivity | by destruct (have_rawpy L)].
Qed.

(** On the sample store: the file [tags.bin], which only [exifread] can
    read, is unrecognized; [c.jpg] is an asset of type [JPEG] with three
    layers, 640 by 480; and [a.fits] is a FITS asset. *)
Lemma classification_order_witness :
  LocalDisk._get_asset Sample.libs Sample.disk "tags.bin" "/data/root/tags.bin"
    = Raise UnrecognizedDataFormatError
  /\ probed
       (LocalDisk._get_asset Sample.libs Sample.disk "c.jpg" "/data/root/c.jpg")
       "JPEG" (PInt 3) (PInt 640) (PInt 480) "R,G,B"
  /\ probed
       (LocalDisk._get_asset Sample.libs Sample.disk "a.fits" "/data/root/a.fits")
       "FITS" (PInt 1) (PInt 1024) (PInt 768) "".
Proof.
  split; [| split].
  - pose proof (classification_order Sample.libs Sample.disk "tags.bin"
                  "/data/root/tags.bin" ["E"%byte] 7 ltac:(reflexivity))
      as (_ & _ & _ & H).
    apply H; [reflexivity | right; reflexivity | right; reflexivity].
  - pose proof (classification_order Sample.libs Sample.disk "c.jpg"
                  "/data/root/c.jpg" ["J"%byte] 5 ltac:(reflexivity))
      as (_ & H & _).
    apply (H ltac:(reflexivity) (mk_pil "JPEG" ["R"; "G"; "B"] (640, 480) None));
      [reflexivity | reflexivity | left; by vm_compute].
  - pose proof (classification_order Sample.libs Sample.disk "a.fits"
                  "/data/root/a.fits" ["F"%byte] 3 ltac:(reflexivity))
      as (H & _).
    destruct (H ltac:(reflexivity)) as (f & h0 & w & h & names & Ho & H0 & Ew & Eh
                                        & Hn & Hp).
    injection Ho as <-. injection H0 as <-. cbn in Hn. injection Hn as <-.
    assert (Hw : w = PInt 1024) by (vm_compute in Ew; congruence).
    assert (Hh : h = PInt 768) by (vm_compute in Eh; congruence).
    by rewrite Hw, Hh in Hp.
Defined.

(** ** The date in a remote name *)

(** C3.  [_get_date] branches on the length of the whole base name, and
    takes the site-code branch at length 12: the month directory [202301]
    gives 2023-01-01, but the site-code name [lm230115], eight characters
    long, falls to the last branch, whose time fields are empty, and gives
    no date. *)
Theorem get_date_site_code_name :
  FTP._get_date "202301" = Some (mk_datetime 2023 1 1 0 0 0 0)
  /\ FTP._get_date "lm230115" = None
  /\ FTP._get_date "abcdlm230115" = Some (mk_datetime 2023 1 15 0 0 0 0).
Proof. vm_compute. auto. Qed.

(** ** Collection or leaf on the remote server *)

(** C4.  When the server refuses [CWD] with a permission error and the
    listing of the path is empty, reading its first entry raises
    [IndexError]; [get_asset] lets it through and does not reach its
    [raise AssetNotFoundError()]. *)
Theorem get_asset_empty_listing :
  FTP.get_asset Sample.server (fun _ => None) (fun _ => None) (fun _ _ => None)
    "pub/missing" = Raise IndexError.
Proof. vm_compute. reflexivity. Qed.

(** ** Searching a directory *)

(** C5.  The search does not survive every failure of one candidate.  The
    directory [camera_roll] holds the FITS image [a.fits], 1024 wide, and
    the photograph [clock.jpg], whose EXIF time no format fits.
    Classifying the photograph raises [AttributeError] ([_get_asset] keeps
    the raw string and calls [isoformat] on it); this is no
    [AfterglowError], so the [except] clause of the loop does not catch
    it, and [find_assets(type="FITS", width=1024)] ends with that
    exception instead of leaving the photograph out and returning
    [a.fits].  Where the failing candidates are of unrecognized format, as
    on the sample disk, they are left out and the search returns. *)
Theorem find_assets_aborts_on_unparsed_time :
  Glob.glob Sample.camera_roll "/data/root/*"
    = ["/data/root/clock.jpg"; "/data/root/a.fits"]
  /\ LocalDisk._get_asset Sample.libs Sample.camera_roll "clock.jpg"
       "/data/root/clock.jpg" = Raise AttributeError
  /\ match LocalDisk._get_asset Sample.libs Sample.camera_roll "a.fits"
             "/data/root/a.fits" with
     | Ok a => metadata a !! "type" = Some (PStr "FITS")
               /\ metadata a !! "width" = Some (PInt 1024)
     | Raise _ => False
     end
  /\ fst (LocalDisk.find_assets Sample.libs Sample.env Sample.provider None None
            (Some "FITS") PNone (PInt 1024) PNone Sample.camera_roll)
     = Raise AttributeError
  /\ match fst (LocalDisk.find_assets Sample.libs Sample.env Sample.provider None
                  None (Some "FITS") PNone (PInt 1024) PNone Sample.disk) with
     | Ok assets => name <$> assets = ["a.fits"]
     | Raise _ => False
     end.
Proof.
  split; [| split; [| split; [| split]]]; vm_compute; try reflexivity.
  - split; reflexivity.
Qed.

(** ** Updating an asset *)

(** C6.  For a path that resolves to [filename]: when [filename] is not in
    the store, [update_asset] raises [AssetNotFoundError]; when it is a
    collection and [force] is false, it raises
    [CannotUpdateCollectionAssetError]; in both cases the store is left as
    it was.  When it is a collection and [force] is true, the collection
    and all below it are removed and the write runs on what is left: with
    data, the store afterwards holds the payload as a regular file at
    [filename], nothing below it and every other node as before, and the
    result is what [_get_asset] makes of that file, a leaf asset of the
    size of the payload when the payload is classified.  When the data is
    absent (and [force] is given for a collection), the result is a
    collection asset and the store holds a directory at [filename] with
    nothing below it. *)
Theorem update_asset_cases
    (L : Libs) (env : Env) (self : LocalDisk.provider) (s : store)
    (root p filename : string)
    (Hroot : LocalDisk.abs_root env self s = (Ok root, s))
    (Hres : LocalDisk._path_to_filename_in env root p = Ok filename) :
  (s !! filename = None ->
   forall data force,
     LocalDisk.update_asset L env self p data force s = (Raise AssetNotFoundError, s))
  /\ (OS.isdir s filename = true ->
      forall data,
        LocalDisk.update_asset L env self p data false s
        = (Raise CannotUpdateCollectionAssetError, s))
  /\ (OS.isdir s filename = true ->
      forall data,
        LocalDisk.update_asset L env self p data true s
        = LocalDisk.update_write L env p filename data (removed filename s)
        /\ forall k, k = filename \/ OS.below filename k = true ->
                     removed filename s !! k = None)
  /\ (OS.isdir s filename = true ->
      OS.isdir s (posixpath.dirname filename) = true ->
      posixpath.dirname filename ≠ filename ->
      forall data,
        exists r s',
          LocalDisk.update_asset L env self p (Some data) true s = (r, s')
          /\ r = LocalDisk._get_asset L s' p filename
          /\ s' !! filename = Some (File data (now env))
          /\ (forall k, OS.below filename k = true -> s' !! k = None)
          /\ (forall k, k ≠ filename -> OS.below filename k = false ->
                        s' !! k = s !! k)
          /\ (classified L data ->
              exists a, r = Ok a /\ collection a = false
                        /\ metadata a !! "size"
                           = Some (PInt (Z.of_nat (length data)))))
  /\ (forall nd force,
        s !! filename = Some nd ->
        (OS.isdir s filename = true -> force = true) ->
        tree_at s filename ->
        exists a s',
          LocalDisk.update_asset L env self p None force s = (Ok a, s')
          /\ collection a = true
          /\ dom (metadata a) = {[ "time" ]}
          /\ s' !! filename = Some (Dir (now env))
          /\ (forall k, OS.below filename k = true -> s' !! k = None)
          /\ (forall k, k ≠ filename -> OS.below filename k = false ->
                        s' !! k = s !! k)).
Proof.
  pose proof (update_asset_start L env self s root p filename Hroot Hres) as Hstart.
  split; [| split; [| split; [| split]]].
  - intros Hs data force. rewrite Hstart.
    unfold OS.exists_, OS.lookup. by rewrite Hs.
  - intros Hdir data. rewrite Hstart, (isdir_exists s filename Hdir), Hdir.
    reflexivity.
  - intros Hdir data. split; [| apply removed_gone].
    rewrite Hstart, (isdir_exists s filename Hdir), Hdir. cbn [negb].
    rewrite (sbind_ok _ _ s tt (removed filename s)); [reflexivity |].
    apply reraise_as_ok, syscall_ok. by apply rmtree_removed.
  - intros Hdir Hpar Hne data.
    destruct (update_asset_replaces_collection L env self s root p filename data
                Hroot Hres Hdir Hpar Hne) as (Hu & Hat & Hbelow & Hother).
    eexists _, _. split; [exact Hu |]. split; [reflexivity |].
    split; [exact Hat |]. split; [exact Hbelow |]. split; [exact Hother |].
    intros Hcl.
    destruct (get_asset_classified L _ p filename data (now env) Hat Hcl)
      as (a & Ha & _ & Hc & Hsz).
    by exists a.
  - intros nd force Hs Hforce Htree.
    destruct (OS.isdir s filename) eqn:Hdir.
    + rewrite (Hforce eq_refl) in *.
      destruct (update_write_directory L env s (removed filename s) p filename Htree)
        as (a & Hw & Hc & Hm).
      { intros k. apply removed_other. }
      { left. apply removed_gone. by left. }
      exists a, (<[filename := Dir (now env)]> (delete filename (removed filename s))).
      split.
      { rewrite Hstart, (isdir_exists s filename Hdir). cbn [negb].
        rewrite (sbind_ok _ _ s tt (removed filename s)); [exact Hw |].
        apply reraise_as_ok, syscall_ok. by apply rmtree_removed. }
      split; [exact Hc |]. split; [exact Hm |].
      split; [apply lookup_insert_eq |].
      split.
      * intros k Hk.
        assert (k ≠ filename) by (intros ->; apply below_length in Hk; lia).
        rewrite lookup_insert_ne, lookup_delete_ne by done.
        apply removed_gone. by right.
      * intros k H1 H2. rewrite lookup_insert_ne, lookup_delete_ne by done.
        by apply removed_other.
    + assert (Hfile : exists d t, s !! filename = Some (File d t)).
      { unfold OS.isdir, OS.lookup in Hdir. rewrite Hs in Hdir.
        destruct nd as [d t |]; [by exists d, t | discriminate]. }
      destruct (update_write_directory L env s s p filename Htree)
        as (a & Hw & Hc & Hm); [done | by right |].
      exists a, (<[filename := Dir (now env)]> (delete filename s)).
      split.
      { rewrite Hstart. unfold OS.exists_, OS.lookup. rewrite Hs. cbn [negb].
        by rewrite (sbind_ok (sret tt) _ s tt s eq_refl). }
      split; [exact Hc |]. split; [exact Hm |].
      split; [apply lookup_insert_eq |].
      split.
      * intros k Hk.
        assert (k ≠ filename) by (intros ->; apply below_length in Hk; lia).
        rewrite lookup_insert_ne, lookup_delete_ne by done.
        destruct Htree as (_ & _ & _ & Hleaf). apply Hleaf; [| exact Hk].
        destruct Hfile as (d & t & Hf). unfold OS.isfile, OS.lookup. by rewrite Hf.
      * intros k H1 H2. by rewrite lookup_insert_ne, lookup_delete_ne.
Qed.

(** On the sample store: a missing path, the collection [sub] without
    [force], [sub] replaced by a FITS image with [force], and [sub]
    recreated empty with [force]. *)
Lemma update_asset_cases_witness :
  LocalDisk.update_asset Sample.libs Sample.env Sample.provider "ghost" None false
    Sample.disk = (Raise AssetNotFoundError, Sample.disk)
  /\ LocalDisk.update_asset Sample.libs Sample.env Sample.provider "sub"
       (Some ["F"%byte]) false Sample.disk
     = (Raise CannotUpdateCollectionAssetError, Sample.disk)
  /\ (exists a s',
        LocalDisk.update_asset Sample.libs Sample.env Sample.provider "sub"
          (Some ["F"%byte; "F"%byte]) true Sample.disk = (Ok a, s')
        /\ collection a = false
        /\ metadata a !! "size" = Some (PInt 2)
        /\ s' !! "/data/root/sub" = Some (File ["F"%byte; "F"%byte] 42)
        /\ s' !! "/data/root/sub/d.fits" = None
        /\ s' !! "/data/root/a.fits" = Sample.disk !! "/data/root/a.fits")
  /\ exists a s',
       LocalDisk.update_asset Sample.libs Sample.env Sample.provider "sub" None true
         Sample.disk = (Ok a, s')
       /\ collection a = true
       /\ s' !! "/data/root/sub" = Some (Dir 42)
       /\ s' !! "/data/root/sub/d.fits" = None.
Proof.
  split; [| split; [| split]].
  - apply (update_asset_cases Sample.libs Sample.env Sample.provider Sample.disk
             "/data/root" "ghost" "/data/root/ghost" eq_refl eq_refl).
    reflexivity.
  - apply (update_asset_cases Sample.libs Sample.env Sample.provider Sample.disk
             "/data/root" "sub" "/data/root/sub" eq_refl eq_refl).
    reflexivity.
  - destruct (update_asset_cases Sample.libs Sample.env Sample.provider Sample.disk
                "/data/root" "sub" "/data/root/sub" eq_refl eq_refl)
      as (_ & _ & _ & H & _).
    destruct (H eq_refl eq_refl ltac:(discriminate) ["F"%byte; "F"%byte])
      as (r & s' & Hu & _ & Hat & Hbelow & Hother & Hcl).
    destruct Hcl as (a & -> & Hc & Hsz).
    { eexists _, _. split; [by vm_compute | split; [reflexivity | by left]]. }
    exists a, s'. split; [exact Hu |]. split; [exact Hc |]. split; [exact Hsz |].
    split; [exact Hat |]. split; [by apply Hbelow | by apply Hother].
  - destruct (update_asset_cases Sample.libs Sample.env Sample.provider Sample.disk
                "/data/root" "sub" "/data/root/sub" eq_refl eq_refl)
      as (_ & _ & _ & _ & H).
    destruct (H (Dir 8) true) as (a & s' & Hu & Hc & _ & Hd & Hbelow & _).
    + reflexivity.
    + reflexivity.
    + split; [| split; [reflexivity | split; [discriminate |]]].
      * change (OS.ancestors "/data/root/sub") with ["/data"; "/data/root"].
        by repeat constructor.
      * intros Hf. vm_compute in Hf. discriminate.
    + exists a, s'. split; [exact Hu |]. split; [exact Hc |].
      split; [exact Hd |]. by apply Hbelow.
Defined.

(** ** Creating an asset and reading it back *)

(** After [create_asset("memo.txt", b"hi")] on the sample store,
    [get_asset("memo.txt")] raises [UnrecognizedDataFormatError]: no
    decoder reads the payload. *)
Lemma create_then_get_fails : ~ create_then_get.
Proof.
  intros H.
  destruct (H Sample.libs Sample.env Sample.provider Sample.disk
              "/data/root" "memo.txt" "/data/root" "memo.txt"
              ["h"%byte; "i"%byte])
    as (a & Ha & _).
  - reflexivity.
  - reflexivity.
  - split; [discriminate | reflexivity].
  - split; [discriminate | reflexivity].
  - reflexivity.
  - reflexivity.
  - reflexivity.
  - vm_compute in Ha. discriminate.
Qed.

(** C7 (as amended).  For a normalized path [p] that resolves, inside
    the root, to a name [d/n] not in the store, and a payload the probes
    classify: [create_asset(p, data)] writes the file, making the parent
    directory [d] and its missing ancestors when [d] is not there, and
    returns an asset; [get_asset(p)] then returns the same asset, whose
    path is [p], which is no collection, and whose [size] is the length
    of the payload.  When the name is in the store already,
    [create_asset] raises [AssetAlreadyExistsError] and leaves the store
    as it is. *)
Theorem create_then_get_asset
    (L : Libs) (env : Env) (self : LocalDisk.provider) (s : store)
    (root p d n : string) (data : list byte) (s1 : store)
    (Hroot : LocalDisk.abs_root env self s = (Ok root, s))
    (Hres : LocalDisk._path_to_filename_in env root p = Ok (d +:+ "/" +:+ n))
    (Hd : plain_dir d) (Hn : entry_name n)
    (Hnorm : normalized p)
    (Hcls : classified L data) :
  (s !! (d +:+ "/" +:+ n) = None -> prepared env s d s1 ->
   let s' := <[d +:+ "/" +:+ n := File data (now env)]> s1 in
   exists a,
     LocalDisk.create_asset L env self p (Some data) s = (Ok a, s')
     /\ LocalDisk.get_asset L env self p s' = (Ok a, s')
     /\ path a = p /\ collection a = false
     /\ metadata a !! "size" = Some (PInt (Z.of_nat (length data)))
     /\ OS.isdir s' d = true)
  /\ (forall nd data',
        s !! (d +:+ "/" +:+ n) = Some nd ->
        LocalDisk.create_asset L env self p data' s
        = (Raise AssetAlreadyExistsError, s)).
Proof.
  split.
  - intros Hnew Hprep s'.
    destruct (prepared_facts env s d n s1 Hprep Hnew) as (Hext & Hdir1 & Hnew1).
    assert (Hs' : s' !! (d +:+ "/" +:+ n) = Some (File data (now env)))
      by apply lookup_insert_eq.
    destruct (get_asset_classified L s' p (d +:+ "/" +:+ n) data (now env) Hs' Hcls)
      as (a & Ha & Hp & Hc & Hsz).
    exists a.
    split.
    { rewrite (create_asset_writes L env self s root p d n data s1) by assumption.
      fold s'. by rewrite Ha. }
    split.
    { rewrite (get_asset_existing L env self s' root p (d +:+ "/" +:+ n)
                 (File data (now env))); [by rewrite Ha | | exact Hres | exact Hs'].
      apply (abs_root_extends env self s root s' Hroot).
      eapply extends_trans; [exact Hext | apply extends_insert]. }
    split; [by rewrite Hp |]. split; [exact Hc |]. split; [exact Hsz |].
    unfold OS.isdir, OS.lookup. subst s'.
    rewrite lookup_insert_ne by apply entry_ne_dir. exact Hdir1.
  - intros nd data' Hs. unfold LocalDisk.create_asset.
    rewrite (sbind_ok _ _ s (d +:+ "/" +:+ n) s)
      by (by rewrite (path_to_filename_ready env self s root), Hres).
    rewrite (sbind_ok sget _ s s s eq_refl).
    unfold OS.exists_, OS.lookup. by rewrite Hs.
Qed.

(** On the sample store: [new/im.fits] is created under a directory that
    is made on demand, and read back with the size of its payload; and
    [a.fits], which is there, cannot be created again. *)
Lemma create_then_get_asset_witness :
  let s1 := <["/data/root/new" := Dir 42]> Sample.disk in
  let s' := <["/data/root/new/im.fits" := File ["F"%byte; "x"%byte] 42]> s1 in
  (exists a,
     LocalDisk.create_asset Sample.libs Sample.env Sample.provider "new/im.fits"
       (Some ["F"%byte; "x"%byte]) Sample.disk = (Ok a, s')
     /\ LocalDisk.get_asset Sample.libs Sample.env Sample.provider "new/im.fits" s'
        = (Ok a, s')
     /\ path a = "new/im.fits" /\ collection a = false
     /\ metadata a !! "size" = Some (PInt 2)
     /\ OS.isdir s' "/data/root/new" = true)
  /\ LocalDisk.create_asset Sample.libs Sample.env Sample.provider "a.fits"
       (Some ["F"%byte]) Sample.disk
     = (Raise AssetAlreadyExistsError, Sample.disk).
Proof.
  intros s1 s'. split.
  - refine (proj1 (create_then_get_asset Sample.libs Sample.env Sample.provider
                     Sample.disk "/data/root" "new/im.fits" "/data/root/new"
                     "im.fits" ["F"%byte; "x"%byte] s1 _ _ _ _ _ _) _ _).
    + reflexivity.
    + reflexivity.
    + split; [discriminate | reflexivity].
    + split; [discriminate | reflexivity].
    + reflexivity.
    + eexists _, _. split; [vm_compute; reflexivity |].
      split; [reflexivity | by left].
    + reflexivity.
    + right. split; [reflexivity | vm_compute; reflexivity].
  - refine (proj2 (create_then_get_asset Sample.libs Sample.env Sample.provider
                     Sample.disk "/data/root" "a.fits" "/data/root"
                     "a.fits" ["F"%byte] Sample.disk _ _ _ _ _ _)
                  (File ["F"%byte] 3) (Some ["F"%byte]) _).
    + reflexivity.
    + reflexivity.
    + split; [discriminate | reflexivity].
    + split; [discriminate | reflexivity].
    + reflexivity.
    + eexists _, _. split; [vm_compute; reflexivity |].
      split; [reflexivity | by left].
    + reflexivity.
Defined.

(** ** The restricted-write provider *)

(** C8.  [readonly] is computed at each access from the user name of the
    call and the writers the object holds at that moment: it is [True]
    exactly when the name is not among them.  A stored [readonly] flag is
    never consulted, and after the writers of the same object are replaced,
    or under another identity, the next access answers for the new ones. *)
Theorem readonly_computed_per_access
    (env : Env) (self : RestrictedRW.provider) (ws : list string)
    (Hw : RestrictedRW.attrs self !! "writers" = Some (RestrictedRW.ATuple ws)) :
  RestrictedRW.getattribute env self "readonly"
    = Ok (RestrictedRW.ABool (bool_decide (username env ∉ ws)))
  /\ (username env ∉ ws ->
      RestrictedRW.getattribute env self "readonly" = Ok (RestrictedRW.ABool true))
  /\ (username env ∈ ws ->
      RestrictedRW.getattribute env self "readonly" = Ok (RestrictedRW.ABool false))
  /\ (forall b,
       RestrictedRW.getattribute env
         (RestrictedRW.setattr self "readonly" (RestrictedRW.ABool b)) "readonly"
       = RestrictedRW.getattribute env self "readonly")
  /\ (forall env' ws',
       RestrictedRW.getattribute env'
         (RestrictedRW.setattr self "writers" (RestrictedRW.ATuple ws')) "readonly"
       = Ok (RestrictedRW.ABool (bool_decide (username env' ∉ ws')))).
Proof.
  assert (Hget : RestrictedRW.getattribute env self "readonly"
                 = Ok (RestrictedRW.ABool (bool_decide (username env ∉ ws)))).
  { unfold RestrictedRW.getattribute, RestrictedRW.object_getattribute.
    rewrite bool_decide_eq_true_2 by reflexivity.
    rewrite Hw. simpl. do 2 f_equal.
    destruct (decide (username env ∈ ws)) as [Hin | Hin].
    - rewrite (bool_decide_eq_true_2 _ Hin). simpl.
      symmetry. apply bool_decide_eq_false_2. tauto.
    - rewrite (bool_decide_eq_false_2 _ Hin). simpl.
      symmetry. apply bool_decide_eq_true_2. exact Hin. }
  split; [exact Hget |].
  split.
  { intros Hout. rewrite Hget. by rewrite (bool_decide_eq_true_2 _ Hout). }
  split.
  { intros Hin. rewrite Hget. rewrite bool_decide_eq_false_2; [done | tauto]. }
  split.
  { intros b. unfold RestrictedRW.getattribute, RestrictedRW.object_getattribute.
    rewrite bool_decide_eq_true_2 by reflexivity. simpl.
    rewrite lookup_insert_ne by discriminate. reflexivity. }
  intros env' ws'.
  unfold RestrictedRW.getattribute, RestrictedRW.object_getattribute.
  rewrite bool_decide_eq_true_2 by reflexivity. simpl.
  rewrite lookup_insert_eq. simpl. do 2 f_equal.
  destruct (decide (username env' ∈ ws')) as [Hin | Hin].
  - rewrite (bool_decide_eq_true_2 _ Hin). simpl.
    symmetry. apply bool_decide_eq_false_2. tauto.
  - rewrite (bool_decide_eq_false_2 _ Hin). simpl.
    symmetry. apply bool_decide_eq_true_2. exact Hin.
Qed.

(** The property at work: [alice] may write, [bob] may not; once the
    writers of the same object are changed to [bob] alone the answers
    swap. *)
Lemma readonly_computed_per_access_witness :
  let self := RestrictedRW.mk_provider
                {[ "writers" := RestrictedRW.ATuple ["alice"; "carol"] ]} in
  RestrictedRW.getattribute Sample.env self "readonly" = Ok (RestrictedRW.ABool false)
  /\ RestrictedRW.getattribute Sample.env
       (RestrictedRW.setattr self "writers" (RestrictedRW.ATuple ["bob"])) "readonly"
     = Ok (RestrictedRW.ABool true).
Proof.
  intros self.
  pose proof (readonly_computed_per_access Sample.env self ["alice"; "carol"]
                ltac:(reflexivity)) as (H1 & _ & _ & _ & H5).
  split.
  - rewrite H1. reflexivity.
  - rewrite (H5 Sample.env ["bob"]). reflexivity.
Defined.

(** ** Creating an asset that is not recognized *)




(** ** The children of a collection *)

(** A child whose name begins with a dot is left out of the listing:
    [.cache] under the sample root is not among its children. *)
Lemma hidden_child_not_listed : ~ listing_complete.
Proof.
  intros H.
  destruct (H Sample.libs Sample.env Sample.provider Sample.disk
              "/data/root" "" "/data/root" ".cache" (File ["F"%byte] 12)
              (match fst (LocalDisk.get_child_assets Sample.libs Sample.env
                            Sample.provider "" Sample.disk) with
               | Ok l => l
               | Raise _ => []
               end))
    as (a & Ha & Hn).
  - reflexivity.
  - reflexivity.
  - vm_compute. reflexivity.
  - reflexivity.
  - split; [discriminate | reflexivity].
  - vm_compute in Ha.
    repeat (apply elem_of_cons in Ha as [-> | Ha]; [vm_compute in Hn; discriminate |]).
    by apply elem_of_nil in Ha.
Qed.

(** C10 (as amended).  For a collection [d] inside the root, whose name
    holds no wildcard character, [get_child_assets] returns, without
    changing the store, one asset for each entry of [d] whose name does not
    begin with a dot, leaf or collection alike; the metadata of every asset
    returned has the single key [time], the modification time of the
    entry; and the decoders are not consulted, so a leaf of unrecognized
    format is listed like any other. *)
Theorem get_child_assets_listing
    (L : Libs) (env : Env) (self : LocalDisk.provider) (s : store)
    (root path d : string)
    (Hroot : LocalDisk.abs_root env self s = (Ok root, s))
    (Hres : LocalDisk._path_to_filename_in env root path = Ok d)
    (Hdir : OS.isdir s d = true)
    (Hplain : plain_dir d)
    (Hmagic : Glob.has_magic d = false)
    (Hin : d = root \/ OS.below root d = true) :
  exists assets,
    LocalDisk.get_child_assets L env self path s = (Ok assets, s)
    /\ (forall a, a ∈ assets -> dom (metadata a) = {[ "time" ]})
    /\ (forall n nd,
          entry_name n -> Glob.ishidden n = false ->
          s !! (d +:+ "/" +:+ n) = Some nd ->
          exists a, a ∈ assets /\ name a = n
                    /\ collection a = match nd with Dir _ => true | File _ _ => false end
                    /\ metadata a = {[ "time" := LocalDisk.mtime_iso L nd ]})
    /\ (forall L', fromtimestamp L' = fromtimestamp L ->
          LocalDisk.get_child_assets L' env self path s = (Ok assets, s)).
Proof.
  exact (listing_of_directory L env self s root path d Hroot Hres Hdir Hplain Hmagic Hin).
Qed.

(** On the sample store: the children of the root include [notes.txt],
    which no decoder recognizes, with the single key [time]. *)
Lemma get_child_assets_listing_witness :
  exists assets,
    LocalDisk.get_child_assets Sample.libs Sample.env Sample.provider "" Sample.disk
      = (Ok assets, Sample.disk)
    /\ exists a, a ∈ assets /\ name a = "notes.txt" /\ collection a = false
                 /\ dom (metadata a) = {[ "time" ]}.
Proof.
  destruct (get_child_assets_listing Sample.libs Sample.env Sample.provider
              Sample.disk "/data/root" "" "/data/root")
    as (assets & Hget & Hdom & Hall & _).
  - reflexivity.
  - reflexivity.
  - reflexivity.
  - split; [discriminate | reflexivity].
  - reflexivity.
  - by left.
  - exists assets. split; [exact Hget |].
    destruct (Hall "notes.txt" (File ["h"%byte; "i"%byte] 6))
      as (a & Ha & Hn & Hc & Hm).
    + split; [discriminate | reflexivity].
    + reflexivity.
    + reflexivity.
    + exists a. repeat split; [exact Ha | exact Hn | exact Hc | by apply Hdom].
Defined.

(** * Further properties of the local disk provider *)

(** ** The root and the names inside it *)

(** X1.  [usage] adds up the sizes of the regular files below the
    effective root: in a store that is a tree below the root, it returns
    the total of the sizes of all the nodes below it (directories count
    for nothing), whatever the depth at which they lie. *)
Theorem usage_counts_files_below_root
    (env : Env) (self : LocalDisk.provider) (s s' : store) (root : string)
    (Hroot : LocalDisk.abs_root env self s = (Ok root, s'))
    (Hplain : plain_dir root) (Htree : tree_below s' root) :
  LocalDisk.usage env self s = (Ok (total_size_below s' root), s').
Proof. by apply usage_of_tree. Qed.

Lemma usage_counts_files_below_root_witness :
  LocalDisk.usage Sample.env Sample.provider Sample.disk
    = (Ok (total_size_below Sample.disk "/data/root"), Sample.disk)
  /\ total_size_below Sample.disk "/data/root" = 8.
Proof.
  split; [|by vm_compute].
  apply (usage_counts_files_below_root Sample.env Sample.provider Sample.disk
           Sample.disk "/data/root").
  - reflexivity.
  - split; [discriminate | reflexivity].
  - apply tree_belowb_sound. by vm_compute.
Defined.

(** X2.  In per-user mode and for a user with an id, the effective root
    is the configured root joined with [str(user_id)], and reading it
    makes that directory when it is missing: the read either returns the
    name, with the directory there afterwards, the store unchanged when
    it was there already and nothing lost otherwise, and a second read
    changes nothing more; or it raises [FilesystemError] and the store is
    as before. *)
Theorem per_user_root_is_made_on_demand
    (env : Env) (self : LocalDisk.provider) (s : store)
    (Hmode : LocalDisk.peruser self = true)
    (Huser : truthy (user_id env) = true) :
  let p := posixpath.join
             (posixpath.abspath (cwd env) (expanduser env (LocalDisk.root self)))
             (py_str (user_id env)) in
  (exists s',
     LocalDisk.abs_root env self s = (Ok p, s')
     /\ OS.exists_ s' p = true
     /\ (s !! p = None -> OS.isdir s' p = true)
     /\ (OS.exists_ s p = true -> s' = s)
     /\ extends s s'
     /\ LocalDisk.abs_root env self s' = (Ok p, s'))
  \/ (LocalDisk.abs_root env self s = (Raise FilesystemError, s)
      /\ s !! p = None).
Proof. by apply abs_root_workspace_facts. Qed.

Lemma per_user_root_is_made_on_demand_witness :
  exists s',
    LocalDisk.abs_root Sample.user_env Sample.workspace Sample.disk
      = (Ok "/data/root/7", s')
    /\ OS.isdir s' "/data/root/7" = true
    /\ OS.exists_ Sample.disk "/data/root/7" = false.
Proof.
  pose proof (per_user_root_is_made_on_demand Sample.user_env Sample.workspace
                Sample.disk eq_refl eq_refl) as H.
  cbv zeta in H.
  change (posixpath.join _ (py_str (user_id Sample.user_env)))
    with "/data/root/7" in H.
  destruct H as [(s' & Hr & _ & Hd & _) | [Hr _]].
  - exists s'. split; [exact Hr|]. split; [by apply Hd | reflexivity].
  - assert (Hok : is_Ok (fst (LocalDisk.abs_root Sample.user_env Sample.workspace
                                Sample.disk)) = true) by (by vm_compute).
    rewrite Hr in Hok. discriminate Hok.
Defined.

(** X3.  A path without a [..] component never leaves the root: for a
    root written canonically, [_path_to_filename] accepts every such
    path, and the file name it gives is the root followed by the
    components of the path that are neither empty nor [.]; its
    components extend those of the root. *)
Theorem paths_without_dotdot_resolve_inside
    (env : Env) (k : nat) (cs : list string) (p : string)
    (Hk : (k = 1 \/ k = 2)%nat) (Hroot : Forall proper cs)
    (Hp : ".." ∉ Py.split (Py.strip Py.slash p) "/") :
  LocalDisk._path_to_filename_in env (absolute k cs) p
    = Ok (absolute k (cs ++ kept p))
  /\ descendant (absolute k cs) (absolute k (cs ++ kept p)) = true.
Proof.
  split; [by apply path_to_filename_inside | by apply descendant_inside].
Qed.

Lemma paths_without_dotdot_resolve_inside_witness :
  LocalDisk._path_to_filename_in Sample.env "/data/root" "/sub/.//d.fits/"
    = Ok "/data/root/sub/d.fits".
Proof.
  refine (proj1 (paths_without_dotdot_resolve_inside Sample.env 1 ["data"; "root"]
                   "/sub/.//d.fits/" (or_introl eq_refl) _ _)).
  - repeat constructor; discriminate.
  - apply (bool_decide_unpack _). by vm_compute.
Defined.

(** ** The metadata of an image and the paths of assets *)

(** X4.  The metadata of a FITS image comes from its primary header: when
    the FITS probe accepts a regular file, the asset is no collection,
    bears the base name of the file, and has [type] [FITS], [size] the
    number of bytes of the file, [layers] the number of header units,
    [width] and [height] the cards [NAXIS1] and [NAXIS2] (both present),
    [filter] the filter names joined by commas, [telescope] and
    [exposure] the cards [TELESCOP] and [EXPOSURE] unless missing or
    [None], and [time] the observation time of the header or, without
    one, the modification time of the file. *)
Theorem fits_metadata_from_primary_header
    (L : Libs) (s : store) (p filename : string) (data : list byte) (t : Z)
    (Hfile : s !! filename = Some (File data t))
    (Hfits : fits_type L data = Some "FITS") :
  exists f h0 names a,
    pyfits_open L data = Some f /\ f !! 0%nat = Some h0
    /\ LocalDisk.filter_names f = Ok names
    /\ LocalDisk._get_asset L s p filename = Ok a
    /\ collection a = false /\ name a = posixpath.basename filename
    /\ metadata a !! "type" = Some (PStr "FITS")
    /\ metadata a !! "size" = Some (PInt (Z.of_nat (length data)))
    /\ metadata a !! "layers" = Some (PInt (Z.of_nat (length f)))
    /\ is_Some (h0 !! "NAXIS1") /\ metadata a !! "width" = h0 !! "NAXIS1"
    /\ is_Some (h0 !! "NAXIS2") /\ metadata a !! "height" = h0 !! "NAXIS2"
    /\ metadata a !! "filter" = Some (PStr (Py.join "," names))
    /\ metadata a !! "telescope" = unless_None (h0 !! "TELESCOP")
    /\ metadata a !! "exposure" = unless_None (h0 !! "EXPOSURE")
    /\ metadata a !! "time"
       = Some (PStr (isoformat (match LocalDisk.fits_exptime L h0 with
                                | Ok (Some d) => d
                                | _ => fromtimestamp L t
                                end))).
Proof. by apply fits_asset_metadata. Qed.

Lemma fits_metadata_from_primary_header_witness :
  exists a,
    LocalDisk._get_asset Sample.libs Sample.disk "a.fits" "/data/root/a.fits" = Ok a
    /\ metadata a !! "width" = Some (PInt 1024)
    /\ metadata a !! "telescope" = Some (PStr "PROMPT")
    /\ metadata a !! "exposure" = None.
Proof.
  destruct (fits_metadata_from_primary_header Sample.libs Sample.disk "a.fits"
              "/data/root/a.fits" ["F"%byte] 3 eq_refl eq_refl)
    as (f & h0 & names & a & Hf & H0 & _ & Ha & _ & _ & _ & _ & _ & _ & Hw & _ & _
        & _ & Ht & He & _).
  injection Hf as <-. injection H0 as <-.
  exists a. split; [exact Ha|]. split; [exact Hw|]. split; [exact Ht | exact He].
Defined.

(** X5.  The path of an asset is what stands between the first and the
    second occurrence of the root followed by a separator in its file
    name ([fn.split(root + sep)[1]]).  For an entry of the root that is
    its name; but when the text of the root comes again further down in
    the file name, the path is cut there, and the asset is given the path
    of the directory above that place. *)
Theorem asset_path_is_cut_where_root_recurs
    (root x y : string)
    (Habs : Py.startswith root "/" = true) (Hx : OS.no_slash x = true) :
  LocalDisk.relative_to root (root +:+ "/" +:+ x) = Ok x
  /\ LocalDisk.relative_to root (root +:+ "/" +:+ x +:+ root +:+ "/" +:+ y) = Ok x.
Proof.
  split; [by apply relative_to_child | by apply relative_to_recurring].
Qed.

Lemma asset_path_is_cut_where_root_recurs_witness :
  LocalDisk.relative_to "/data/root" "/data/root/old" = Ok "old"
  /\ LocalDisk.relative_to "/data/root" "/data/root/old/data/root/a.fits" = Ok "old".
Proof.
  exact (asset_path_is_cut_where_root_recurs "/data/root" "old" "a.fits"
           eq_refl eq_refl).
Defined.

(** ** Searching *)

(** X6.  Whatever the store and the arguments, every asset that
    [find_assets] returns passes every filter that is set: its collection
    flag is the one asked for, its [type] is one of the types of the
    comma-separated list, and its [width] and [height] are the integers
    asked for. *)
Theorem find_assets_results_pass_filters
    (L : Libs) (env : Env) (self : LocalDisk.provider)
    (p nm ty : option string) (c w h : pyval) (s s' : store)
    (assets : list DataProviderAsset) (a : DataProviderAsset)
    (Hfound : LocalDisk.find_assets L env self p nm ty c w h s = (Ok assets, s'))
    (Ha : a ∈ assets) :
  exists flt,
    LocalDisk.setup_filters ty c w h = Ok flt
    /\ (forall b, LocalDisk.f_collection flt = Some b -> collection a = b)
    /\ (forall types, LocalDisk.f_type flt = Some types ->
          exists t, metadata a !! "type" = Some (PStr t) /\ t ∈ types)
    /\ (forall w', LocalDisk.f_width flt = Some w' ->
          metadata a !! "width" = Some (PInt w'))
    /\ (forall h', LocalDisk.f_height flt = Some h' ->
          metadata a !! "height" = Some (PInt h')).
Proof. by eapply find_assets_sound. Qed.

Lemma find_assets_results_pass_filters_witness :
  exists assets s' a,
    LocalDisk.find_assets Sample.libs Sample.env Sample.provider None None
      (Some "FITS") (PStr "0") (PInt 1024) PNone Sample.disk = (Ok assets, s')
    /\ a ∈ assets /\ collection a = false
    /\ metadata a !! "width" = Some (PInt 1024).
Proof.
  assert (Hl : match fst (LocalDisk.find_assets Sample.libs Sample.env
                            Sample.provider None None (Some "FITS") (PStr "0")
                            (PInt 1024) PNone Sample.disk) with
               | Ok l => length l
               | Raise _ => 0%nat
               end = 1%nat) by (by vm_compute).
  remember (LocalDisk.find_assets Sample.libs Sample.env Sample.provider None None
              (Some "FITS") (PStr "0") (PInt 1024) PNone Sample.disk) as r eqn:E.
  destruct r as [[[|a [|b rest]]|e] s']; try discriminate Hl.
  symmetry in E. exists [a], s', a. split; [reflexivity|].
  destruct (find_assets_results_pass_filters _ _ _ _ _ _ _ _ _ _ _ _ a E
              (list_elem_of_here _ _)) as (flt & Hflt & Hc & _ & Hw & _).
  assert (Hf : LocalDisk.setup_filters (Some "FITS") (PStr "0") (PInt 1024) PNone
               = Ok (LocalDisk.mk_filters (Some ["FITS"]) (Some false) (Some 1024) None))
    by (by vm_compute).
  rewrite Hf in Hflt. injection Hflt as <-.
  split; [apply list_elem_of_here|]. split; [by apply Hc | by apply Hw].
Defined.

(** X7.  A [collection], [width] or [height] that is a non-empty string
    but no integer is refused with [ValidationError], whatever the other
    arguments are as long as those checked before it are accepted
    ([collection] first, then [width], then [height]).  The refusal comes
    before the root or the disk is looked at: the store is unchanged, and
    the path need not exist. *)
Theorem find_assets_rejects_non_integers
    (L : Libs) (env : Env) (self : LocalDisk.provider)
    (p nm ty : option string) (c w h : pyval) (s : store)
    (Hbad : not_an_integer c
            \/ (is_Ok (LocalDisk.int_param c) = true
                /\ (not_an_integer w
                    \/ (is_Ok (LocalDisk.int_param w) = true
                        /\ not_an_integer h)))) :
  LocalDisk.find_assets L env self p nm ty c w h s = (Raise ValidationError, s).
Proof. by apply find_assets_invalid. Qed.

Lemma find_assets_rejects_non_integers_witness :
  LocalDisk.find_assets Sample.libs Sample.env Sample.provider (Some "nowhere")
    None None (PStr "1") (PStr "wide") PNone Sample.disk
  = (Raise ValidationError, Sample.disk)
  /\ LocalDisk.find_assets Sample.libs Sample.env Sample.provider None
       None None (PInt 1) (PStr " 1024 ") (PStr "1_0_2_4.") Sample.disk
     = (Raise ValidationError, Sample.disk).
Proof.
  split.
  - apply find_assets_rejects_non_integers. right. split; [reflexivity|].
    left. exists "wide". split; [reflexivity|]. split; [discriminate | reflexivity].
  - apply find_assets_rejects_non_integers. right. split; [reflexivity|].
    right. split; [reflexivity|].
    exists "1_0_2_4.". split; [reflexivity|]. split; [discriminate | reflexivity].
Defined.

(** X8.  A [collection] argument that is falsy ([0], the empty string) is
    no filter at all: the search is the one made with [None], so it
    returns the directories too.  Only a non-empty string such as ["0"]
    restricts the search to files. *)
Theorem find_assets_falsy_collection_is_no_filter
    (L : Libs) (env : Env) (self : LocalDisk.provider)
    (p nm ty : option string) (c w h : pyval) (s : store)
    (Hfalsy : truthy c = false) :
  LocalDisk.find_assets L env self p nm ty c w h s
  = LocalDisk.find_assets L env self p nm ty PNone w h s.
Proof. by apply find_assets_falsy_collection. Qed.

Lemma find_assets_falsy_collection_is_no_filter_witness :
  LocalDisk.find_assets Sample.libs Sample.env Sample.provider None None None
    (PInt 0) PNone PNone Sample.disk
  = LocalDisk.find_assets Sample.libs Sample.env Sample.provider None None None
      PNone PNone PNone Sample.disk
  /\ match fst (LocalDisk.find_assets Sample.libs Sample.env Sample.provider None
                  None None (PInt 0) PNone PNone Sample.disk) with
     | Ok assets => (fun a => (name a, collection a)) <$> assets
     | Raise _ => []
     end = [("sub", true); ("c.jpg", false); ("a.fits", false); ("b.fits", false)].
Proof.
  split.
  - by apply find_assets_falsy_collection_is_no_filter.
  - by vm_compute.
Defined.

(** X9.  A [name] that starts with a separator replaces the directory of
    the search: the candidates are the matches of the name alone, where
    ever they lie, and the [path] argument only has to name a directory
    inside the root. *)
Theorem find_assets_absolute_name_replaces_directory
    (L : Libs) (env : Env) (self : LocalDisk.provider) (s : store)
    (root abs_path : string) (p : option string) (n : string)
    (ty : option string) (c w h : pyval) (flt : LocalDisk.filters)
    (Hflt : LocalDisk.setup_filters ty c w h = Ok flt)
    (Hroot : LocalDisk.abs_root env self s = (Ok root, s))
    (Hpath : match p with
             | None => abs_path = root
             | Some p => LocalDisk._path_to_filename_in env root p = Ok abs_path
             end)
    (Hdir : OS.isdir s abs_path = true)
    (Habs : Py.startswith n "/" = true) :
  LocalDisk.find_assets L env self p (Some n) ty c w h s
  = (LocalDisk.find_loop L s root flt (Glob.glob s n), s).
Proof. by eapply find_assets_absolute_name. Qed.

Lemma find_assets_absolute_name_replaces_directory_witness :
  LocalDisk.find_assets Sample.libs Sample.env Sample.provider (Some "sub")
    (Some "/data/root/*.fits") None PNone PNone PNone Sample.disk
  = (LocalDisk.find_loop Sample.libs Sample.disk "/data/root"
       (LocalDisk.mk_filters None None None None)
       ["/data/root/a.fits"; "/data/root/b.fits"], Sample.disk)
  /\ LocalDisk.find_assets Sample.libs Sample.env Sample.provider None
       (Some "/data/root2/*") None PNone PNone PNone Sample.disk
     = (Raise IndexError, Sample.disk).
Proof.
  split.
  - exact (find_assets_absolute_name_replaces_directory Sample.libs Sample.env
             Sample.provider Sample.disk "/data/root" "/data/root/sub" (Some "sub")
             "/data/root/*.fits" None PNone PNone PNone
             (LocalDisk.mk_filters None None None None)
             eq_refl eq_refl eq_refl eq_refl eq_refl).
  - assert (Hl : LocalDisk.find_loop Sample.libs Sample.disk "/data/root"
                   (LocalDisk.mk_filters None None None None)
                   (Glob.glob Sample.disk "/data/root2/*") = Raise IndexError)
      by (by vm_compute).
    rewrite <- Hl.
    exact (find_assets_absolute_name_replaces_directory Sample.libs Sample.env
             Sample.provider Sample.disk "/data/root" "/data/root" None
             "/data/root2/*" None PNone PNone PNone
             (LocalDisk.mk_filters None None None None)
             eq_refl eq_refl eq_refl eq_refl eq_refl).
Defined.

(** X27.  [find_assets] over a directory inside the root, with a name
    pattern of one component (no separator, and neither [.] nor [..]),
    classifies each candidate of the listing on its own: as long as the
    only failures of classification are unrecognized formats, the search
    returns, and it returns exactly the assets of the candidates that are
    classified and pass the filters; an asset that passes an active
    [type], [width] or [height] filter has that key.  In particular
    [find_assets(type="FITS", width=1024)] returns exactly the classified
    candidates whose type is [FITS] and whose width is 1024. *)
Theorem find_assets_filters
    (L : Libs) (env : Env) (self : LocalDisk.provider) (s : store)
    (root abs_path : string) (p name type : option string)
    (collection_ width height : pyval) (flt : LocalDisk.filters)
    (Hflt : LocalDisk.setup_filters type collection_ width height = Ok flt)
    (Hroot : LocalDisk.abs_root env self s = (Ok root, s))
    (Hpath : match p with
             | None => abs_path = root
             | Some p => LocalDisk._path_to_filename_in env root p = Ok abs_path
             end)
    (Hdir : OS.isdir s abs_path = true)
    (Hname : match name with
             | Some n => OS.no_slash n = true /\ n ≠ "." /\ n ≠ ".."
             | None => True
             end)
    (Hbelow : Forall (fun fn => OS.below root fn = true)
                (Glob.glob s (posixpath.join abs_path (name_pattern name))))
    (Hfail : Forall (fails_unrecognized L s)
               (Glob.glob s (posixpath.join abs_path (name_pattern name)))) :
  let candidates := Glob.glob s (posixpath.join abs_path (name_pattern name)) in
  exists assets,
    LocalDisk.find_assets L env self p name type collection_ width height s
      = (Ok assets, s)
    /\ (forall a,
          a ∈ assets <->
          exists fn rel,
            fn ∈ candidates
            /\ match LocalDisk.f_collection flt with
               | Some c => OS.isdir s fn = c
               | None => True
               end
            /\ LocalDisk.relative_to root fn = Ok rel
            /\ LocalDisk._get_asset L s rel fn = Ok a
            /\ LocalDisk.check_filters flt a = true)
    /\ (forall a, a ∈ assets ->
          (LocalDisk.f_type flt ≠ None -> is_Some (metadata a !! "type"))
          /\ (LocalDisk.f_width flt ≠ None -> is_Some (metadata a !! "width"))
          /\ (LocalDisk.f_height flt ≠ None -> is_Some (metadata a !! "height")))
    /\ (type = Some "FITS" -> collection_ = PNone -> width = PInt 1024 ->
        height = PNone ->
        forall a,
          a ∈ assets <->
          exists fn rel,
            fn ∈ candidates
            /\ LocalDisk.relative_to root fn = Ok rel
            /\ LocalDisk._get_asset L s rel fn = Ok a
            /\ metadata a !! "type" = Some (PStr "FITS")
            /\ metadata a !! "width" = Some (PInt 1024)).
Proof.
  intros candidates.
  set (assets := omap (selected L s root flt) candidates).
  assert (Hmem : forall a,
            a ∈ assets <->
            exists fn rel,
              fn ∈ candidates
              /\ match LocalDisk.f_collection flt with
                 | Some c => OS.isdir s fn = c
                 | None => True
                 end
              /\ LocalDisk.relative_to root fn = Ok rel
              /\ LocalDisk._get_asset L s rel fn = Ok a
              /\ LocalDisk.check_filters flt a = true).
  { intros a. subst assets. rewrite list_elem_of_omap. split.
    - intros (fn & Hfn & Hsel). apply selected_spec in Hsel as [Hc (rel & H1 & H2 & H3)].
      by exists fn, rel.
    - intros (fn & rel & Hfn & Hc & H1 & H2 & H3). exists fn. split; [exact Hfn |].
      apply selected_spec. split; [exact Hc |]. by exists rel. }
  exists assets. split; [| split; [exact Hmem | split]].
  - unfold LocalDisk.find_assets.
    rewrite (sbind_ok _ _ s flt s) by (unfold slift; by rewrite Hflt).
    rewrite (sbind_ok _ _ s root s Hroot).
    assert (Hp : match p with
                 | Some p0 =>
                     run abs_path0 <- LocalDisk._path_to_filename env self p0 ;
                     if negb (Py.startswith abs_path0 root)
                     then sraise AssetOutsideRootError else sret abs_path0
                 | None => sret root
                 end s = (Ok abs_path, s)).
    { destruct p as [p0 |].
      - rewrite (sbind_ok _ _ s abs_path s)
          by (by rewrite (path_to_filename_ready env self s root), Hpath).
        by rewrite (path_to_filename_prefix env root p0 abs_path Hpath).
      - by rewrite Hpath. }
    rewrite (sbind_ok _ _ s abs_path s Hp).
    rewrite (sbind_ok sget _ s s s eq_refl).
    rewrite Hdir. cbn [negb]. unfold slift.
    fold (name_pattern name). fold candidates.
    by rewrite (find_loop_selects L s root flt candidates Hbelow Hfail).
  - intros a Ha. apply Hmem in Ha as (fn & rel & _ & _ & _ & _ & Hcf).
    by apply check_filters_keys.
  - intros -> -> -> ->. vm_compute in Hflt. injection Hflt as <-.
    intros a. rewrite Hmem. split.
    + intros (fn & rel & Hfn & _ & H1 & H2 & H3).
      apply check_filters_fits_1024 in H3 as [Ht Hw]. by exists fn, rel.
    + intros (fn & rel & Hfn & H1 & H2 & Ht & Hw). exists fn, rel.
      split; [exact Hfn |]. split; [exact I |]. split; [exact H1 |].
      split; [exact H2 |]. by apply check_filters_fits_1024.
Qed.

(** On the sample store: the search for FITS images 1024 wide in the
    root returns, leaves out the unrecognized [notes.txt] and [tags.bin],
    the narrower [b.fits], the JPEG and the collection, and holds
    [a.fits]. *)
Lemma find_assets_filters_witness :
  exists assets,
    LocalDisk.find_assets Sample.libs Sample.env Sample.provider None None
      (Some "FITS") PNone (PInt 1024) PNone Sample.disk = (Ok assets, Sample.disk)
    /\ (forall a, a ∈ assets ->
          metadata a !! "type" = Some (PStr "FITS")
          /\ metadata a !! "width" = Some (PInt 1024))
    /\ exists a, a ∈ assets /\ name a = "a.fits".
Proof.
  destruct (find_assets_filters Sample.libs Sample.env Sample.provider Sample.disk
              "/data/root" "/data/root" None None (Some "FITS") PNone (PInt 1024)
              PNone (LocalDisk.mk_filters (Some ["FITS"]) None (Some 1024) None))
    as (assets & Hfind & _ & _ & Hfits).
  - reflexivity.
  - reflexivity.
  - reflexivity.
  - reflexivity.
  - exact I.
  - apply (bool_decide_unpack _). vm_compute. exact I.
  - let l := eval vm_compute in
        (Glob.glob Sample.disk (posixpath.join "/data/root" (name_pattern None))) in
    change (Glob.glob Sample.disk (posixpath.join "/data/root" (name_pattern None)))
      with l.
    repeat (apply Forall_cons; split;
            [apply fails_unrecognized_check; vm_compute; reflexivity |]).
    apply Forall_nil. exact I.
  - specialize (Hfits eq_refl eq_refl eq_refl eq_refl).
    exists assets. split; [exact Hfind |]. split.
    + intros a Ha. apply Hfits in Ha as (fn & rel & _ & _ & _ & Ht & Hw). by split.
    + eexists. split; [| shelve].
      apply Hfits. exists "/data/root/a.fits", "a.fits".
      split; [| split; [reflexivity | split; [vm_compute; reflexivity |]]].
      * apply (bool_decide_unpack _). vm_compute. exact I.
      * split; reflexivity.
      Unshelve. reflexivity.
Defined.

(** ** Reading and creating *)

(** X10.  The data of a file whose extension is [.gz] or [.bz2] are
    served decompressed: [get_asset_data] returns what [gzip] or [bz2]
    reads from the file, not its bytes, and a file that cannot be
    decompressed gives [FilesystemError]. *)
Theorem compressed_data_is_served_unpacked
    (L : Libs) (env : Env) (self : LocalDisk.provider) (s : store)
    (root p d stem e : string) (data : list byte) (t : Z)
    (Hroot : LocalDisk.abs_root env self s = (Ok root, s))
    (Hpath : LocalDisk._path_to_filename_in env root p
             = Ok (d +:+ "/" +:+ stem +:+ "." +:+ e))
    (Hstem : OS.no_slash stem = true)
    (Hdots : forallb (fun c => bool_decide (c = Py.dot)) (Py.chars stem) = false)
    (Hext : e = "gz" \/ e = "bz2")
    (Hfile : s !! (d +:+ "/" +:+ stem +:+ "." +:+ e) = Some (File data t)) :
  LocalDisk.get_asset_data L env self p s
  = (match (if bool_decide (e = "gz") then gzip_read L else bz2_read L) data with
     | Some x => Ok x
     | None => Raise FilesystemError
     end, s).
Proof. by eapply get_asset_data_compressed. Qed.

Lemma compressed_data_is_served_unpacked_witness :
  LocalDisk.get_asset_data Sample.unpacking Sample.env Sample.provider "img.fits.gz"
    Sample.packed = (Ok ["F"%byte], Sample.packed).
Proof.
  exact (compressed_data_is_served_unpacked Sample.unpacking Sample.env
           Sample.provider Sample.packed "/data/root" "img.fits.gz" "/data/root"
           "img.fits" "gz" ["z"%byte; "F"%byte] 3
           eq_refl eq_refl eq_refl eq_refl (or_introl eq_refl) eq_refl).
Defined.

(** X11.  [get_asset_data] of a path that resolves to a directory or to
    nothing raises [AssetNotFoundError] and leaves the store as it is. *)
Theorem data_of_a_collection_is_not_found
    (L : Libs) (env : Env) (self : LocalDisk.provider) (s : store)
    (root p filename : string)
    (Hroot : LocalDisk.abs_root env self s = (Ok root, s))
    (Hpath : LocalDisk._path_to_filename_in env root p = Ok filename)
    (Hnofile : OS.isfile s filename = false) :
  LocalDisk.get_asset_data L env self p s = (Raise AssetNotFoundError, s).
Proof. by eapply get_asset_data_not_a_file. Qed.

Lemma data_of_a_collection_is_not_found_witness :
  LocalDisk.get_asset_data Sample.libs Sample.env Sample.provider "sub" Sample.disk
  = (Raise AssetNotFoundError, Sample.disk).
Proof.
  exact (data_of_a_collection_is_not_found Sample.libs Sample.env Sample.provider
           Sample.disk "/data/root" "sub" "/data/root/sub" eq_refl eq_refl eq_refl).
Defined.



(** X13.  Nothing can be created below a regular file: when the parent of
    the new name is a file, [create_asset] raises [FilesystemError], with
    or without data, and the store is as before. *)
Theorem create_below_a_file_fails
    (L : Libs) (env : Env) (self : LocalDisk.provider) (s : store)
    (root p d n : string) (data : option (list byte))
    (Hroot : LocalDisk.abs_root env self s = (Ok root, s))
    (Hpath : LocalDisk._path_to_filename_in env root p = Ok (d +:+ "/" +:+ n))
    (Hd : plain_dir d) (Hn : entry_name n)
    (Hfile : OS.isfile s d = true)
    (Hfree : s !! (d +:+ "/" +:+ n) = None) :
  LocalDisk.create_asset L env self p data s = (Raise FilesystemError, s).
Proof. by eapply create_below_file. Qed.

Lemma create_below_a_file_fails_witness :
  LocalDisk.create_asset Sample.libs Sample.env Sample.provider "notes.txt/x"
    (Some ["F"%byte]) Sample.disk = (Raise FilesystemError, Sample.disk).
Proof.
  apply (create_below_a_file_fails Sample.libs Sample.env Sample.provider Sample.disk
           "/data/root" "notes.txt/x" "/data/root/notes.txt" "x").
  - reflexivity.
  - reflexivity.
  - split; [discriminate | reflexivity].
  - split; [discriminate | reflexivity].
  - reflexivity.
  - reflexivity.
Defined.

(** X14.  Creating a file adds its size to the usage: in a store that is
    a tree below the root, after [create_asset] with data at a free name
    in a directory inside the root, [usage] is what it was before plus
    the number of bytes written, also when the call itself raised because
    the format was not recognised. *)
Theorem create_asset_adds_to_usage
    (L : Libs) (env : Env) (self : LocalDisk.provider) (s : store)
    (root p d n : string) (data : list byte)
    (Hroot : LocalDisk.abs_root env self s = (Ok root, s))
    (Hpath : LocalDisk._path_to_filename_in env root p = Ok (d +:+ "/" +:+ n))
    (Hr : plain_dir root) (Hd : plain_dir d) (Hn : entry_name n)
    (Hin : d = root \/ OS.below root d = true)
    (Hdir : OS.isdir s d = true)
    (Hfree : s !! (d +:+ "/" +:+ n) = None)
    (Htree : tree_below s root) :
  exists r s',
    LocalDisk.create_asset L env self p (Some data) s = (r, s')
    /\ LocalDisk.usage env self s = (Ok (total_size_below s root), s)
    /\ LocalDisk.usage env self s'
       = (Ok (total_size_below s root + Z.of_nat (length data)), s').
Proof. by eapply create_asset_grows_usage. Qed.

Lemma create_asset_adds_to_usage_witness :
  exists r s',
    LocalDisk.create_asset Sample.libs Sample.env Sample.provider "sub/memo"
      (Some ["h"%byte; "i"%byte]) Sample.disk = (r, s')
    /\ r = Raise UnrecognizedDataFormatError
    /\ LocalDisk.usage Sample.env Sample.provider Sample.disk = (Ok 8, Sample.disk)
    /\ LocalDisk.usage Sample.env Sample.provider s' = (Ok 10, s').
Proof.
  destruct (create_asset_adds_to_usage Sample.libs Sample.env Sample.provider
              Sample.disk "/data/root" "sub/memo" "/data/root/sub" "memo"
              ["h"%byte; "i"%byte] eq_refl eq_refl)
    as (r & s' & Hc & Hu & Hu').
  - split; [discriminate | reflexivity].
  - split; [discriminate | reflexivity].
  - split; [discriminate | reflexivity].
  - right. reflexivity.
  - reflexivity.
  - reflexivity.
  - apply tree_belowb_sound. by vm_compute.
  - assert (E : total_size_below Sample.disk "/data/root" = 8) by (by vm_compute).
    rewrite E in Hu, Hu'. exists r, s'. split; [exact Hc|]. split.
    + assert (Hr : fst (LocalDisk.create_asset Sample.libs Sample.env
                          Sample.provider "sub/memo" (Some ["h"%byte; "i"%byte])
                          Sample.disk) = Raise UnrecognizedDataFormatError)
        by (by vm_compute).
      rewrite Hc in Hr. exact Hr.
    + split; [exact Hu | exact Hu'].
Defined.

(** ** Renaming and deleting *)

(** X15.  [rename_asset] moves an asset within its directory: for an
    existing asset inside the root and a new name whose base name is a
    proper entry name (not empty, and neither [.] nor [..], which name
    directories that are there already) and is free in that directory,
    the node and, for a collection, everything below it are afterwards
    found under the new name, nothing is left under the old one, every
    other node of the store is as before, and the asset returned is that
    of the new file name. *)
Theorem rename_asset_moves_the_subtree
    (L : Libs) (env : Env) (self : LocalDisk.provider) (s : store)
    (root p nm d n m : string) (nd : node)
    (Hroot : LocalDisk.abs_root env self s = (Ok root, s))
    (Hpath : LocalDisk._path_to_filename_in env root p = Ok (d +:+ "/" +:+ n))
    (Hd : plain_dir d) (Hn : entry_name n)
    (Hin : d = root \/ OS.below root d = true)
    (Hbase : posixpath.basename nm = m) (Hm : proper m)
    (Hold : s !! (d +:+ "/" +:+ n) = Some nd)
    (Hdir : OS.isdir s d = true)
    (Hfree : s !! (d +:+ "/" +:+ m) = None) :
  let s' := OS.move (d +:+ "/" +:+ n) (d +:+ "/" +:+ m) s in
  (exists rel,
     LocalDisk.relative_to root (d +:+ "/" +:+ m) = Ok rel
     /\ LocalDisk.rename_asset L env self p nm s
        = (LocalDisk._get_asset L s' (Py.replace_char Py.backslash Py.slash rel)
             (d +:+ "/" +:+ m), s'))
  /\ LocalDisk.abs_root env self s' = (Ok root, s')
  /\ s' !! (d +:+ "/" +:+ m) = Some nd
  /\ s' !! (d +:+ "/" +:+ n) = None
  /\ (forall r, Py.startswith r "/" = true ->
        s' !! ((d +:+ "/" +:+ m) +:+ r) = s !! ((d +:+ "/" +:+ n) +:+ r)
        /\ s' !! ((d +:+ "/" +:+ n) +:+ r) = None)
  /\ (forall k, k ≠ d +:+ "/" +:+ n -> OS.below (d +:+ "/" +:+ n) k = false ->
                k ≠ d +:+ "/" +:+ m -> OS.below (d +:+ "/" +:+ m) k = false ->
                s' !! k = s !! k).
Proof.
  assert (Hm' : entry_name m) by (destruct Hm as (? & _ & _ & ?); by split).
  by eapply rename_asset_moves.
Qed.

Lemma rename_asset_moves_the_subtree_witness :
  exists s',
    LocalDisk.rename_asset Sample.libs Sample.env Sample.provider "sub" "../moved"
      Sample.disk
    = (LocalDisk._get_asset Sample.libs s' "moved" "/data/root/moved", s')
    /\ s' !! "/data/root/moved" = Some (Dir 8)
    /\ s' !! "/data/root/moved/d.fits" = Sample.disk !! "/data/root/sub/d.fits"
    /\ s' !! "/data/root/sub/d.fits" = None
    /\ s' !! "/data/root/sub" = None
    /\ s' !! "/data/root/a.fits" = Sample.disk !! "/data/root/a.fits".
Proof.
  pose proof (rename_asset_moves_the_subtree Sample.libs Sample.env Sample.provider
                Sample.disk "/data/root" "sub" "../moved" "/data/root" "sub" "moved"
                (Dir 8) eq_refl eq_refl) as H.
  cbv zeta in H.
  destruct H as ((rel & Hrel & Hren) & _ & Hnew & Hgone & Hsub & Hother).
  - split; [discriminate | reflexivity].
  - split; [discriminate | reflexivity].
  - by left.
  - reflexivity.
  - split; [discriminate|]. split; [discriminate|].
    split; [discriminate | reflexivity].
  - reflexivity.
  - reflexivity.
  - reflexivity.
  - assert (Hm : LocalDisk.relative_to "/data/root" ("/data/root" +:+ "/" +:+ "moved")
                 = Ok "moved") by (by vm_compute).
    rewrite Hm in Hrel. injection Hrel as <-.
    destruct (Hsub "/d.fits" eq_refl) as [Hin Hleft].
    exists (OS.move ("/data/root" +:+ "/" +:+ "sub") ("/data/root" +:+ "/" +:+ "moved")
              Sample.disk).
    split; [exact Hren|]. split; [exact Hnew|]. split; [exact Hin|].
    split; [exact Hleft|]. split; [exact Hgone|].
    by apply Hother.
Defined.

(** X16.  The guards of [rename_asset]: only the base name of the new
    name counts, so an asset never changes directory; a path that names
    nothing raises [AssetNotFoundError]; and when the new name is taken in
    the directory of the asset, the asset's own name included, the call
    raises [AssetAlreadyExistsError].  In both cases the store is
    unchanged. *)
Theorem rename_asset_guards_hold
    (L : Libs) (env : Env) (self : LocalDisk.provider) (s : store)
    (root p nm filename : string)
    (Hroot : LocalDisk.abs_root env self s = (Ok root, s))
    (Hpath : LocalDisk._path_to_filename_in env root p = Ok filename) :
  LocalDisk.rename_asset L env self p nm s
  = LocalDisk.rename_asset L env self p (posixpath.basename nm) s
  /\ (s !! filename = None ->
      LocalDisk.rename_asset L env self p nm s = (Raise AssetNotFoundError, s))
  /\ (is_Some (s !! filename) ->
      is_Some (s !! posixpath.join (posixpath.dirname filename) (posixpath.basename nm)) ->
      LocalDisk.rename_asset L env self p nm s = (Raise AssetAlreadyExistsError, s)).
Proof.
  split; [by apply rename_asset_base_name | by eapply rename_asset_guards].
Qed.

Lemma rename_asset_guards_hold_witness :
  LocalDisk.rename_asset Sample.libs Sample.env Sample.provider "a.fits"
    "sub/a.fits" Sample.disk = (Raise AssetAlreadyExistsError, Sample.disk)
  /\ LocalDisk.rename_asset Sample.libs Sample.env Sample.provider "gone.fits"
       "a.fits" Sample.disk = (Raise AssetNotFoundError, Sample.disk).
Proof.
  split.
  - destruct (rename_asset_guards_hold Sample.libs Sample.env Sample.provider
                Sample.disk "/data/root" "a.fits" "sub/a.fits" "/data/root/a.fits"
                eq_refl eq_refl) as (_ & _ & H).
    apply H; by eexists.
  - destruct (rename_asset_guards_hold Sample.libs Sample.env Sample.provider
                Sample.disk "/data/root" "gone.fits" "a.fits" "/data/root/gone.fits"
                eq_refl eq_refl) as (_ & H & _).
    by apply H.
Defined.

(** X17.  [delete_asset] of an existing asset succeeds and removes it: the
    name is gone, for a collection everything below it is gone with it,
    every node that is neither the asset nor below it is as before, and
    (unless the asset was the root itself) a later [get_asset] or a second
    [delete_asset] of the path raises [AssetNotFoundError]. *)
Theorem delete_asset_removes_the_subtree
    (L : Libs) (env : Env) (self : LocalDisk.provider) (s : store)
    (root p filename : string) (nd : node)
    (Hroot : LocalDisk.abs_root env self s = (Ok root, s))
    (Hpath : LocalDisk._path_to_filename_in env root p = Ok filename)
    (Hthere : s !! filename = Some nd) :
  exists s',
    LocalDisk.delete_asset env self p s = (Ok tt, s')
    /\ s' !! filename = None
    /\ (OS.isdir s filename = true ->
        forall k, OS.below filename k = true -> s' !! k = None)
    /\ (forall k, k ≠ filename -> OS.below filename k = false -> s' !! k = s !! k)
    /\ (filename ≠ root ->
        LocalDisk.get_asset L env self p s' = (Raise AssetNotFoundError, s')
        /\ LocalDisk.delete_asset env self p s' = (Raise AssetNotFoundError, s')).
Proof. by eapply delete_asset_facts. Qed.

Lemma delete_asset_removes_the_subtree_witness :
  exists s',
    LocalDisk.delete_asset Sample.env Sample.provider "sub" Sample.disk = (Ok tt, s')
    /\ s' !! "/data/root/sub" = None
    /\ s' !! "/data/root/sub/d.fits" = None
    /\ s' !! "/data/root/a.fits" = Sample.disk !! "/data/root/a.fits"
    /\ LocalDisk.delete_asset Sample.env Sample.provider "sub" s'
       = (Raise AssetNotFoundError, s').
Proof.
  destruct (delete_asset_removes_the_subtree Sample.libs Sample.env Sample.provider
              Sample.disk "/data/root" "sub" "/data/root/sub" (Dir 8)
              eq_refl eq_refl eq_refl) as (s' & Hd & Hgone & Hsub & Hother & Hagain).
  exists s'. split; [exact Hd|]. split; [exact Hgone|].
  split; [by apply Hsub|]. split; [by apply Hother|].
  by apply Hagain.
Defined.

(** X18.  The root itself is not protected: the empty path resolves to
    the root, and [delete_asset] of it removes the root directory with
    everything below it and returns normally. *)
Theorem delete_of_empty_path_removes_the_root
    (env : Env) (self : LocalDisk.provider) (s : store)
    (k : nat) (cs : list string) (t : Z)
    (Hroot : LocalDisk.abs_root env self s = (Ok (absolute k cs), s))
    (Hk : (k = 1 \/ k = 2)%nat) (Hcs : Forall proper cs)
    (Hdir : s !! absolute k cs = Some (Dir t)) :
  LocalDisk.delete_asset env self "" s = (Ok tt, removed (absolute k cs) s).
Proof. by eapply delete_asset_root. Qed.

Lemma delete_of_empty_path_removes_the_root_witness :
  LocalDisk.delete_asset Sample.env Sample.provider "" Sample.disk
    = (Ok tt, removed "/data/root" Sample.disk)
  /\ removed "/data/root" Sample.disk !! "/data/root" = None
  /\ removed "/data/root" Sample.disk !! "/data/root/a.fits" = None
  /\ removed "/data/root" Sample.disk !! "/data/root2" = Some (Dir 10).
Proof.
  split; [|by vm_compute].
  apply (delete_of_empty_path_removes_the_root Sample.env Sample.provider Sample.disk
           1 ["data"; "root"] 2).
  - reflexivity.
  - by left.
  - repeat constructor; discriminate.
  - reflexivity.
Defined.

(** * Further properties of the remote archive provider *)

(** ** [_get_date] *)

(** X19.  [_get_date] looks at the text after the last separator only:
    the date of [dir/n] is the date of [n]; and a name in which no digit
    occurs (the empty name of a path that ends in a separator among them)
    has no date. *)
Theorem get_date_reads_base_name (dir n : string)
    (Hn : OS.no_slash n = true) :
  FTP._get_date (dir +:+ "/" +:+ n) = FTP._get_date n
  /\ (forallb (fun c => negb (Py.is_digit c)) (Py.chars n) = true ->
      FTP._get_date (dir +:+ "/" +:+ n) = None).
Proof.
  assert (Hb : forall acc, FTP.basename_loop acc (dir +:+ "/" +:+ n) = n)
    by (intros acc; by apply basename_loop_last).
  assert (Hp : FTP.basename_loop "" n = n) by (by rewrite basename_loop_plain).
  split.
  - unfold FTP._get_date. by rewrite Hb, Hp.
  - intros Hd. unfold FTP._get_date, FTP._get_date_try. rewrite Hb.
    by rewrite skip_nondigits_none.
Qed.

Lemma get_date_reads_base_name_witness :
  FTP._get_date ("oQR/2023" +:+ "/" +:+ "202301") = FTP._get_date "202301"
  /\ FTP._get_date ("oQR" +:+ "/" +:+ "README") = None.
Proof.
  split.
  - apply (get_date_reads_base_name "oQR/2023" "202301" eq_refl).
  - apply (get_date_reads_base_name "oQR" "README" eq_refl). reflexivity.
Defined.

(** X20.  A date that [_get_date] returns is a valid calendar date with
    an hour and nothing finer: minute, second and microsecond are zero.
    For a base name of six characters the day is the first of the month at
    midnight, and for one of twelve characters the hour is zero. *)
Theorem get_date_has_no_minutes (p : string) (dt : datetime)
    (H : FTP._get_date p = Some dt) :
  minute dt = 0 /\ second dt = 0 /\ microsecond dt = 0
  /\ 1 <= year dt <= 9999 /\ 1 <= month dt <= 12
  /\ 1 <= day dt <= days_in_month (year dt) (month dt)
  /\ 0 <= hour dt <= 23
  /\ (Py.len (FTP.basename_loop "" p) = 6 -> day dt = 1 /\ hour dt = 0)
  /\ (Py.len (FTP.basename_loop "" p) = 12 -> hour dt = 0).
Proof. exact (get_date_shape p dt H). Qed.

Lemma get_date_has_no_minutes_witness :
  FTP._get_date "oQR/lebqa230115t1012.fits.gz" = Some (mk_datetime 2023 1 15 12 0 0 0)
  /\ minute (mk_datetime 2023 1 15 12 0 0 0) = 0.
Proof.
  split; [reflexivity|].
  apply (get_date_has_no_minutes "oQR/lebqa230115t1012.fits.gz"
           (mk_datetime 2023 1 15 12 0 0 0) eq_refl).
Defined.

(** X21.  Month directories: a base name of six decimal digits [YYYYMM]
    gives the first day of that month, and no date when the year is 0 or
    the month is not one of 1 to 12. *)
Theorem get_date_month_directory (dir : string) (a b c d e f : ascii)
    (Hd : digits [a; b; c; d; e; f]) :
  FTP._get_date (dir +:+ "/" +:+ Py.str [a; b; c; d; e; f])
  = if (1 <=? decimal [a; b; c; d]) && (1 <=? decimal [e; f])
       && (decimal [e; f] <=? 12)
    then Some (mk_datetime (decimal [a; b; c; d]) (decimal [e; f]) 1 0 0 0 0)
    else None.
Proof.
  rewrite (get_date_six_digits dir a b c d e f Hd).
  pose proof Hd as Hd'. unfold digits in Hd'. cbn [forallb] in Hd'.
  repeat (apply andb_true_iff in Hd' as [? Hd']).
  repeat match goal with
         | H : Py.is_digit ?x = true |- _ =>
             let F := fresh in
             pose proof (digit_parts x H) as (_ & _ & _ & _ & _ & _ & F); clear H
         end.
  rewrite decimal_4, decimal_2 in *.
  set (y := digit_val a * 1000 + digit_val b * 100 + digit_val c * 10 + digit_val d).
  set (m := digit_val e * 10 + digit_val f).
  assert (Hy : 0 <= y <= 9999) by (unfold y; lia).
  assert (Hm : 0 <= m <= 99) by (unfold m; lia).
  unfold datetime_new.
  replace (y <=? 9999) with true by (symmetry; apply Z.leb_le; lia).
  replace (1 <=? days_in_month y m) with true.
  2:{ symmetry. apply Z.leb_le. unfold days_in_month.
      destruct (m =? 2); [destruct (is_leap y); lia|].
      destruct (_ || _); lia. }
  change (1 <=? 1) with true. change (0 <=? 0) with true. change (0 <=? 23) with true.
  rewrite !andb_true_r.
  destruct (1 <=? y), (1 <=? m), (m <=? 12); reflexivity.
Qed.

Lemma get_date_month_directory_witness :
  FTP._get_date ("oQR" +:+ "/" +:+ Py.str ["2"; "0"; "2"; "3"; "0"; "1"]%char)
  = Some (mk_datetime 2023 1 1 0 0 0 0).
Proof.
  exact (get_date_month_directory "oQR" "2" "0" "2" "3" "0" "1" eq_refl).
Defined.

(** X22.  Base names of twelve characters: the six digits that follow the
    leading non-digits are read as [YYMMDD] in the years 2000 to 2099;
    what comes after them is not looked at. *)
Theorem get_date_twelve_characters (dir : string) (ls : list ascii)
    (y1 y2 m1 m2 d1 d2 : ascii) (rest : list ascii)
    (Hl : letters ls) (Hd : digits [y1; y2; m1; m2; d1; d2]) (Hr : plain rest)
    (Hlen : (length ls + length rest = 6)%nat) :
  FTP._get_date (dir +:+ "/" +:+ Py.str (ls ++ [y1; y2; m1; m2; d1; d2] ++ rest))
  = date_or_None (datetime_new (2000 + decimal [y1; y2]) (decimal [m1; m2])
                    (decimal [d1; d2]) 0).
Proof. exact (get_date_twelve dir ls y1 y2 m1 m2 d1 d2 rest Hl Hd Hr Hlen). Qed.

Lemma get_date_twelve_characters_witness :
  FTP._get_date ("oQR" +:+ "/"
                 +:+ Py.str (["l"; "e"; "b"; "q"; "a"; "x"]
                             ++ ["2"; "3"; "0"; "1"; "1"; "5"] ++ [])%char)
  = Some (mk_datetime 2023 1 15 0 0 0 0).
Proof.
  exact (get_date_twelve_characters "oQR" ["l"; "e"; "b"; "q"; "a"; "x"]%char
           "2" "3" "0" "1" "1" "5" [] eq_refl eq_refl eq_refl eq_refl).
Defined.

(** X23.  Base names of other lengths, [..YYMMDD?HHMM..]: the hour of the
    result is not the number [HH] but the digits [HH] read in the base
    that the minutes [MM] give.  When the minutes are 01 or more than 36
    there is no such base and no date; when an hour digit is not below the
    base there is no date either; the minutes themselves never reach the
    result. *)
Theorem get_date_hour_in_base_of_minutes (dir : string) (ls : list ascii)
    (y1 y2 m1 m2 d1 d2 x h1 h2 b1 b2 : ascii) (rest : list ascii)
    (Hl : letters ls) (Hd : digits [y1; y2; m1; m2; d1; d2]) (Hx : plain [x])
    (Hh : digits [h1; h2; b1; b2]) (Hr : plain rest)
    (Hlen : (length ls + length rest ≠ 1)%nat) :
  let name := Py.str (ls ++ [y1; y2; m1; m2; d1; d2] ++ [x] ++ [h1; h2; b1; b2] ++ rest) in
  let base := decimal [b1; b2] in
  let at_hour h :=
    date_or_None (datetime_new (2000 + decimal [y1; y2]) (decimal [m1; m2])
                    (decimal [d1; d2]) h) in
  (2 <= base <= 36 -> digit_val h1 < base -> digit_val h2 < base ->
   FTP._get_date (dir +:+ "/" +:+ name)
   = at_hour (digit_val h1 * base + digit_val h2))
  /\ (2 <= base -> base <= digit_val h1 \/ base <= digit_val h2 ->
      FTP._get_date (dir +:+ "/" +:+ name) = None)
  /\ (base = 1 \/ 36 < base -> FTP._get_date (dir +:+ "/" +:+ name) = None)
  /\ (base = 0 -> h1 ≠ "0"%char ->
      FTP._get_date (dir +:+ "/" +:+ name) = at_hour (decimal [h1; h2])).
Proof.
  intros name base at_hour.
  pose proof (get_date_hour dir ls y1 y2 m1 m2 d1 d2 x h1 h2 b1 b2 rest
                Hl Hd Hx Hh Hr Hlen) as E.
  fold name in E. fold base in E.
  pose proof Hh as Hh'. unfold digits in Hh'. cbn [forallb] in Hh'.
  apply andb_true_iff in Hh' as [H1 Hh']. apply andb_true_iff in Hh' as [H2 Hh'].
  apply andb_true_iff in Hh' as [B1 Hh']. apply andb_true_iff in Hh' as [B2 _].
  assert (Hbase : 0 <= base).
  { unfold base. rewrite decimal_2.
    destruct (digit_parts b1 B1) as (_ & _ & _ & _ & _ & _ & ?).
    destruct (digit_parts b2 B2) as (_ & _ & _ & _ & _ & _ & ?). lia. }
  split; [|split; [|split]].
  - intros Hb Hv1 Hv2. rewrite E, int_base_two_digits by (assumption || lia).
    replace (base =? 1) with false by (symmetry; apply Z.eqb_neq; lia).
    replace (36 <? base) with false by (symmetry; apply Z.ltb_ge; lia).
    replace (digit_val h1 <? base) with true by (symmetry; apply Z.ltb_lt; lia).
    replace (digit_val h2 <? base) with true by (symmetry; apply Z.ltb_lt; lia).
    reflexivity.
  - intros Hb Hv. rewrite E, int_base_two_digits by (assumption || lia).
    destruct ((base =? 1) || (36 <? base)); [reflexivity|].
    replace ((digit_val h1 <? base) && (digit_val h2 <? base)) with false;
      [reflexivity|].
    symmetry. apply andb_false_iff.
    destruct Hv; [left | right]; apply Z.ltb_ge; lia.
  - intros Hb. rewrite E, int_base_two_digits by (assumption || lia).
    replace ((base =? 1) || (36 <? base)) with true; [reflexivity|].
    symmetry. apply orb_true_iff.
    destruct Hb as [-> | Hb]; [by left | right; apply Z.ltb_lt; lia].
  - intros Hb Hne. rewrite E, Hb, int_base_zero_two_digits by assumption.
    by rewrite bool_decide_eq_false_2.
Qed.

Lemma get_date_hour_in_base_of_minutes_witness :
  FTP._get_date ("oQR" +:+ "/"
                 +:+ Py.str (["l"; "e"; "b"; "q"; "a"] ++ ["2"; "3"; "0"; "1"; "1"; "5"]
                             ++ ["t"] ++ ["1"; "0"; "1"; "2"]
                             ++ ["."; "f"; "i"; "t"; "s"; "."; "g"; "z"])%char)
  = Some (mk_datetime 2023 1 15 12 0 0 0).
Proof.
  pose proof (get_date_hour_in_base_of_minutes "oQR" ["l"; "e"; "b"; "q"; "a"]%char
                "2" "3" "0" "1" "1" "5" "t" "1" "0" "1" "2"
                ["."; "f"; "i"; "t"; "s"; "."; "g"; "z"]%char
                eq_refl eq_refl eq_refl eq_refl eq_refl ltac:(discriminate))
    as (H & _).
  apply H; vm_compute; (split; discriminate) || reflexivity.
Defined.

(** ** The operations on the remote archive *)

(** X24.  [get_asset_data] walks the whole path: starting where the
    session begins, it changes into every component before a separator,
    in turn and however many there are (the empty ones of a leading or
    doubled separator too), and retrieves the last component from the
    directory it has reached.  The first change of directory that the
    server refuses ends the call with the error [ftplib] raised; a failure
    of the retrieval becomes [AssetNotFoundError]; what is retrieved is
    returned decompressed. *)
Theorem remote_data_is_fetched_by_walking
    (srv : FTP.Server) (gzip_decompress : list byte -> option (list byte))
    (cur0 : string)
    (Hlogin : FTP.login srv = Ok cur0) :
  (forall ds f,
     Forall (fun d => OS.no_slash d = true) ds -> OS.no_slash f = true ->
     FTP.get_asset_data srv gzip_decompress (Py.join "/" (ds ++ [f]))
     = match changed_into srv cur0 ds with
       | Ok cur => fetched gzip_decompress (FTP.retr_cmd srv cur f)
       | Raise e => Raise e
       end)
  /\ (forall p,
        FTP.get_asset_data srv gzip_decompress p
        = match changed_into srv cur0 (removelast (Py.split p "/")) with
          | Ok cur =>
              fetched gzip_decompress
                (FTP.retr_cmd srv cur (List.last (Py.split p "/") ""))
          | Raise e => Raise e
          end).
Proof.
  split.
  - intros ds f Hds Hf. by apply get_asset_data_components.
  - intros p. by apply get_asset_data_path.
Qed.

Lemma remote_data_is_fetched_by_walking_witness :
  FTP.get_asset_data Sample.archive Some "oQR/202301/lebqa230101t0000.fits.gz"
    = Ok ["h"%byte]
  /\ FTP.get_asset_data Sample.archive Some "oQR/nowhere/202301/x.fits.gz"
     = Raise FTP_error_perm
  /\ FTP.get_asset_data Sample.archive Some "lebqa230115t1012.fits.gz"
     = Raise AssetNotFoundError.
Proof.
  pose proof (remote_data_is_fetched_by_walking Sample.archive Some "/" eq_refl)
    as [_ H].
  split; [exact (H "oQR/202301/lebqa230101t0000.fits.gz")|].
  split; [exact (H "oQR/nowhere/202301/x.fits.gz")|].
  exact (H "lebqa230115t1012.fits.gz").
Defined.

(** X25.  [get_asset] on the remote archive: a path the server lets the
    session change into is a collection, whose metadata is the one entry
    [time], the date read off the name ([None] when there is none).  An
    asset that is no collection is returned only for an image whose
    primary header holds [NAXIS1], [NAXIS2], [DATE-OBS] and [SITENAME]
    (without [SITENAME] the variable [telescope] is never bound and the
    call ends in [UnboundLocalError]; without [DATE-OBS] in [KeyError]);
    its type is [FITS]. *)
Theorem remote_asset_outcomes
    (srv : FTP.Server) (gzip_decompress : list byte -> option (list byte))
    (get_header : list byte -> option (list (gmap string pyval)))
    (strptime : string -> string -> option datetime)
    (p cur0 : string)
    (Hlogin : FTP.login srv = Ok cur0) :
  (forall cur1,
     FTP.cwd_cmd srv cur0 p = Ok cur1 ->
     FTP.get_asset srv gzip_decompress get_header strptime p
     = Ok (mk_asset (FTP.basename_loop "" p) true p
             {[ "time" := FTP.opt_time (FTP._get_date p) ]}))
  /\ (forall a,
        FTP.get_asset srv gzip_decompress get_header strptime p = Ok a ->
        name a = FTP.basename_loop "" p /\ path a = p
        /\ (collection a = true ->
            metadata a = {[ "time" := FTP.opt_time (FTP._get_date p) ]})
        /\ (collection a = false ->
            metadata a !! "type" = Some (PStr "FITS")
            /\ exists data head h0,
                 FTP.get_asset_data srv gzip_decompress p = Ok data
                 /\ get_header data = Some head /\ head !! 0%nat = Some h0
                 /\ is_Some (h0 !! "NAXIS1") /\ is_Some (h0 !! "NAXIS2")
                 /\ is_Some (h0 !! "DATE-OBS") /\ is_Some (h0 !! "SITENAME"))).
Proof.
  split.
  - intros cur1 Hc. by eapply get_asset_collection.
  - intros a Ha. eapply get_asset_inv. exact Ha.
Qed.

Lemma remote_asset_outcomes_witness :
  FTP.get_asset Sample.archive Some (fun _ => Some [Sample.gong_header])
    Sample.gong_strptime "oQR"
  = Ok (mk_asset "oQR" true "oQR" {[ "time" := PNone ]})
  /\ exists a,
       FTP.get_asset Sample.archive Some (fun _ => Some [Sample.gong_header])
         Sample.gong_strptime "oQR/lebqa230115t1012.fits.gz" = Ok a
       /\ collection a = false
       /\ metadata a !! "type" = Some (PStr "FITS").
Proof.
  split.
  - pose proof (remote_asset_outcomes Sample.archive Some
                  (fun _ => Some [Sample.gong_header]) Sample.gong_strptime
                  "oQR" "/" eq_refl) as (H & _).
    exact (H "/oQR" eq_refl).
  - destruct (FTP.get_asset Sample.archive Some (fun _ => Some [Sample.gong_header])
                Sample.gong_strptime "oQR/lebqa230115t1012.fits.gz") as [a|e] eqn:E;
      [|vm_compute in E; discriminate].
    exists a. split; [reflexivity|].
    assert (Hc : collection a = false) by (vm_compute in E; by injection E as <-).
    split; [exact Hc|].
    pose proof (remote_asset_outcomes Sample.archive Some
                  (fun _ => Some [Sample.gong_header]) Sample.gong_strptime
                  "oQR/lebqa230115t1012.fits.gz" "/" eq_refl) as (_ & H).
    destruct (H a E) as (_ & _ & _ & Hleaf). by destruct (Hleaf Hc).
Defined.

(** X26.  [get_child_assets] on the remote archive: any failure to change
    into the path is [AssetNotFoundError]; otherwise there is one asset for
    each name of the server's listing, in its order, with the name as
    listed and the path [/path/name]; every asset has the entry [time],
    read off that path, and those that are no collection have [size]
    besides, and nothing else. *)
Theorem remote_listing_follows_server
    (srv : FTP.Server) (p cur0 : string)
    (Hlogin : FTP.login srv = Ok cur0) :
  (forall e, FTP.cwd_cmd srv cur0 p = Raise e ->
             FTP.get_child_assets srv p = Raise AssetNotFoundError)
  /\ (forall assets,
        FTP.get_child_assets srv p = Ok assets ->
        (exists cur1,
           FTP.cwd_cmd srv cur0 p = Ok cur1
           /\ FTP.nlst_cmd srv cur1 None = Ok (map name assets))
        /\ Forall (fun a =>
                     path a = "/" +:+ p +:+ "/" +:+ name a
                     /\ metadata a !! "time"
                        = Some (FTP.opt_time (FTP._get_date (path a)))
                     /\ dom (metadata a)
                        = (if collection a then {[ "time" ]} else {[ "time"; "size" ]}))
             assets).
Proof.
  split.
  - intros e He. by eapply get_child_assets_cwd_fails.
  - intros assets Ha. destruct (get_child_assets_inv srv p assets Ha) as [Hs HF].
    split; [|exact HF]. destruct Hs as (c0 & c1 & Hl & Hc & Hn).
    rewrite Hlogin in Hl. injection Hl as <-. by exists c1.
Qed.

Lemma remote_listing_follows_server_witness :
  FTP.get_child_assets Sample.archive "nowhere" = Raise AssetNotFoundError
  /\ exists assets,
       FTP.get_child_assets Sample.archive "oQR" = Ok assets
       /\ map name assets = ["202301"; "lebqa230115t1012.fits.gz"].
Proof.
  split.
  - pose proof (remote_listing_follows_server Sample.archive "nowhere" "/" eq_refl)
      as (H & _).
    exact (H FTP_error_perm eq_refl).
  - destruct (FTP.get_child_assets Sample.archive "oQR") as [assets|e] eqn:E;
      [|vm_compute in E; discriminate].
    exists assets. split; [reflexivity|].
    pose proof (remote_listing_follows_server Sample.archive "oQR" "/" eq_refl)
      as (_ & H).
    destruct (H assets E) as ((cur1 & Hc & Hn) & _).
    vm_compute in Hc. injection Hc as <-.
    change (FTP.nlst_cmd Sample.archive "/oQR" None)
      with (Ok ["202301"; "lebqa230115t1012.fits.gz"]) in Hn.
    by injection Hn as <-.
Defined.
